(** * CoreSight: log normalisation and query layer

    A shallow embedding of the parsing, ingestion and query code of the
    CoreSight repository, and the properties its specification states
    about them.

    Conventions of the embedding.
    - A Python [str] is a [string]; a character is an [ascii].  The
      character classes ([\s], [\d], [\w], [str.strip], [str.lower]) are
      the ones Python uses on the ASCII range; a character above 127 is
      in none of them and is its own lower case.
    - [None] is [option]'s [None]; a value that may be a string, an
      integer or [None] is a [value].
    - Library calls the code relies on ([re], [datetime.strptime],
      [isoformat], [json.loads]) are modelled by executable definitions
      that follow CPython's own; [xml.etree.ElementTree.fromstring] and
      the clock are parameters.
    - SQLite's reading of a WHERE clause is modelled from the text of
      the clause, for the part of its language the clauses are written
      in; a clause or a value outside that part has no reading ([None]).
    - The double quote character is written [dq]; a pattern quoted in a
      comment writes it [\x22], and puts a blank before a parenthesis
      that closes a starred dot. *)

From Stdlib Require Import String Ascii List ZArith Lia Bool Arith PeanoNat DecimalString.
From Stdlib Require Import Permutation Sorted.
Import ListNotations.
Open Scope string_scope.
Open Scope nat_scope.

(* ================================================================== *)
(** * Python strings *)
(* ================================================================== *)

Module Py.

Definition code (c : ascii) : nat := nat_of_ascii c.

Definition in_range (lo hi : nat) (c : ascii) : bool :=
  (lo <=? code c) && (code c <=? hi).

(** [str.isspace] on ASCII: TAB..CR, FS..US and the space. *)
Definition isspace (c : ascii) : bool := in_range 9 13 c || in_range 28 32 c.
Definition isdigit (c : ascii) : bool := in_range 48 57 c.
Definition isupper (c : ascii) : bool := in_range 65 90 c.
Definition islower (c : ascii) : bool := in_range 97 122 c.
Definition isalpha (c : ascii) : bool := isupper c || islower c.
Definition isalnum (c : ascii) : bool := isalpha c || isdigit c.

Definition dq : ascii := ascii_of_nat 34.
Definition sq : ascii := ascii_of_nat 39.
Definition nl : ascii := ascii_of_nat 10.
Definition tab : ascii := ascii_of_nat 9.

Definition lower_char (c : ascii) : ascii :=
  if isupper c then ascii_of_nat (code c + 32) else c.

Fixpoint lower (s : string) : string :=
  match s with
  | EmptyString => EmptyString
  | String c s' => String (lower_char c) (lower s')
  end.

Fixpoint lstrip_by (p : ascii -> bool) (s : string) : string :=
  match s with
  | EmptyString => EmptyString
  | String c s' => if p c then lstrip_by p s' else s
  end.

Fixpoint rstrip_by (p : ascii -> bool) (s : string) : string :=
  match s with
  | EmptyString => EmptyString
  | String c s' =>
      match rstrip_by p s' with
      | EmptyString => if p c then EmptyString else String c EmptyString
      | r => String c r
      end
  end.

Definition strip_by (p : ascii -> bool) (s : string) : string :=
  rstrip_by p (lstrip_by p s).

(** [s.strip()] *)
Definition strip (s : string) : string := strip_by isspace s.

Fixpoint mem_char (c : ascii) (cs : string) : bool :=
  match cs with
  | EmptyString => false
  | String d cs' => Ascii.eqb c d || mem_char c cs'
  end.

(** [s.strip(chars)] *)
Definition strip_chars (chars s : string) : string :=
  strip_by (fun c => mem_char c chars) s.

(** [s.startswith(p)] *)
Fixpoint startswith (s p : string) {struct p} : bool :=
  match p, s with
  | EmptyString, _ => true
  | String a p', String b s' => Ascii.eqb a b && startswith s' p'
  | String _ _, EmptyString => false
  end.

Fixpoint drop (n : nat) (s : string) : string :=
  match n, s with
  | O, _ => s
  | S n', String _ s' => drop n' s'
  | S _, EmptyString => EmptyString
  end.

Fixpoint take (n : nat) (s : string) : string :=
  match n, s with
  | O, _ => EmptyString
  | S n', String c s' => String c (take n' s')
  | S _, EmptyString => EmptyString
  end.

(** [s.endswith(p)] *)
Definition endswith (s p : string) : bool :=
  (String.length p <=? String.length s) &&
  String.eqb (drop (String.length s - String.length p) s) p.

(** [sub in s] *)
Fixpoint contains (sub s : string) : bool :=
  startswith s sub ||
  match s with
  | EmptyString => false
  | String _ s' => contains sub s'
  end.

(** [s.find(sub)], as an option *)
Fixpoint find (sub s : string) : option nat :=
  if startswith s sub then Some 0
  else match s with
       | EmptyString => None
       | String _ s' => option_map S (find sub s')
       end.

(** [s.replace(old, new)] for a one-character [old] *)
Fixpoint replace_char (old : ascii) (new s : string) : string :=
  match s with
  | EmptyString => EmptyString
  | String c s' =>
      if Ascii.eqb c old then new ++ replace_char old new s'
      else String c (replace_char old new s')
  end.

(** [sep.join(parts)] *)
Fixpoint join (sep : string) (parts : list string) : string :=
  match parts with
  | [] => EmptyString
  | [p] => p
  | p :: ps => p ++ sep ++ join sep ps
  end.

Definition digit_val (c : ascii) : Z := Z.of_nat (code c) - 48.

(** [int(s)] on a run of decimal digits *)
Definition int_of_digits (s : string) : Z :=
  (fix go (acc : Z) (s : string) : Z :=
     match s with
     | EmptyString => acc
     | String c s' => go (10 * acc + digit_val c)%Z s'
     end) 0%Z s.

(** [sys.int_info.default_max_str_digits]: [int] refuses a text of more
    digits with a [ValueError]. *)
Definition max_str_digits : nat := 4300.

Definition digit_char (d : Z) : ascii := ascii_of_nat (48 + Z.to_nat d).

(** The last [w] decimal digits of [z], most significant first:
    [%0wd] for [0 <= z < 10^w]. *)
Fixpoint pad_digits (w : nat) (z : Z) (acc : string) : string :=
  match w with
  | O => acc
  | S w' => pad_digits w' (z / 10)%Z (String (digit_char (z mod 10)%Z) acc)
  end.

Definition zfill (w : nat) (z : Z) : string := pad_digits w z EmptyString.

(** [s.split(None, maxsplit)]: runs of white space separate the pieces;
    after [maxsplit] splits the rest, without its leading white space,
    is the last piece. *)
Fixpoint split_ws_aux (fuel maxsplit : nat) (s : string) : list string :=
  match fuel with
  | O => []
  | S fuel' =>
      let s1 := lstrip_by isspace s in
      match s1 with
      | EmptyString => []
      | _ =>
          match maxsplit with
          | O => [s1]
          | S m' =>
              let w := (fix word (t : string) : string :=
                          match t with
                          | EmptyString => EmptyString
                          | String c t' => if isspace c then EmptyString else String c (word t')
                          end) s1 in
              w :: split_ws_aux fuel' m' (drop (String.length w) s1)
          end
      end
  end.

Definition split_ws (maxsplit : nat) (s : string) : list string :=
  split_ws_aux (S (String.length s)) maxsplit s.

(** [s.split(sep)[0]] and [s.split(sep, 1)[1]] for a one-character
    separator: the text before the first [sep], and the text after it. *)
Fixpoint before_char (sep : ascii) (s : string) : string :=
  match s with
  | EmptyString => EmptyString
  | String c s' => if Ascii.eqb c sep then EmptyString else String c (before_char sep s')
  end.

Fixpoint after_char (sep : ascii) (s : string) : option string :=
  match s with
  | EmptyString => None
  | String c s' => if Ascii.eqb c sep then Some s' else after_char sep s'
  end.

(** Comparison of strings as Python compares [str]: by code points. *)
Fixpoint ltb (a b : string) : bool :=
  match a, b with
  | _, EmptyString => false
  | EmptyString, String _ _ => true
  | String x a', String y b' =>
      if code x <? code y then true
      else if code y <? code x then false
      else ltb a' b'
  end.

End Py.

(* ================================================================== *)
(** * Regular expressions: the backtracking matcher of [re] *)
(* ================================================================== *)

Module Re.

Inductive regex : Type :=
| Eps
| Chr (c : ascii)                 (* a literal character *)
| ChrI (c : ascii)                (* a literal under re.IGNORECASE *)
| Cls (p : ascii -> bool)         (* a class: \d, \s, [^x], ... *)
| Seq (r1 r2 : regex)
| Alt (r1 r2 : regex)             (* r1|r2, r1 tried first *)
| Star (r : regex)                (* r*, greedy *)
| StarLazy (r : regex)            (* r*?, lazy *)
| Group (n : nat) (r : regex)     (* the n-th capturing group *)
| Bol                             (* ^ *)
| Eol.                            (* $ *)

(** Where a match attempt stands: the offset reached, the text still to
    read, and the groups closed so far (latest first) as spans. *)
Record mstate : Type := MState {
  pos : nat;
  rest : string;
  caps : list (nat * (nat * nat))
}.

Definition step_char (p : ascii -> bool) (st : mstate)
    (k : mstate -> option mstate) : option mstate :=
  match rest st with
  | String a s' => if p a then k (MState (S (pos st)) s' (caps st)) else None
  | EmptyString => None
  end.

Definition or_else (a : option mstate) (b : unit -> option mstate) : option mstate :=
  match a with
  | Some x => Some x
  | None => b tt
  end.

(** [run r st k]: match [r] at [st], then continue with [k]; on failure
    of the continuation the next alternative is tried. *)
Fixpoint run (r : regex) (st : mstate) (k : mstate -> option mstate)
    {struct r} : option mstate :=
  match r with
  | Eps => k st
  | Chr c => step_char (Ascii.eqb c) st k
  | ChrI c => step_char (fun a => Ascii.eqb (Py.lower_char a) (Py.lower_char c)) st k
  | Cls p => step_char p st k
  | Seq r1 r2 => run r1 st (fun st1 => run r2 st1 k)
  | Alt r1 r2 => or_else (run r1 st k) (fun _ => run r2 st k)
  | Star r1 =>
      (fix loop (fuel : nat) (st : mstate) {struct fuel} : option mstate :=
         match fuel with
         | O => k st
         | S fuel' =>
             or_else
               (run r1 st (fun st1 =>
                  if pos st <? pos st1 then loop fuel' st1 else None))
               (fun _ => k st)
         end) (S (String.length (rest st))) st
  | StarLazy r1 =>
      (fix loop (fuel : nat) (st : mstate) {struct fuel} : option mstate :=
         match fuel with
         | O => k st
         | S fuel' =>
             or_else (k st)
               (fun _ => run r1 st (fun st1 =>
                  if pos st <? pos st1 then loop fuel' st1 else None))
         end) (S (String.length (rest st))) st
  | Group n r1 =>
      run r1 st (fun st1 =>
        k (MState (pos st1) (rest st1) ((n, (pos st, pos st1)) :: caps st1)))
  | Bol => if pos st =? 0 then k st else None
  | Eol =>
      match rest st with
      | EmptyString => k st
      | String c EmptyString => if Ascii.eqb c Py.nl then k st else None
      | _ => None
      end
  end.

(** A match object: the subject, where the match starts and ends, and
    the groups. *)
Record match_obj : Type := MatchObj {
  m_string : string;
  m_start : nat;
  m_end : nat;
  m_caps : list (nat * (nat * nat))
}.

Fixpoint lookup_span (n : nat) (cs : list (nat * (nat * nat))) : option (nat * nat) :=
  match cs with
  | [] => None
  | (i, sp) :: cs' => if i =? n then Some sp else lookup_span n cs'
  end.

(** [m.group(n)]; [None] when the group took no part in the match. *)
Definition group (m : match_obj) (n : nat) : option string :=
  match lookup_span n (m_caps m) with
  | Some (a, b) => Some (String.substring a (b - a) (m_string m))
  | None => None
  end.

(** [m.group(n)] of a group that always takes part. *)
Definition group_str (m : match_obj) (n : nat) : string :=
  match group m n with
  | Some s => s
  | None => EmptyString
  end.

(** [re.match(r, s)] *)
Definition re_match (r : regex) (s : string) : option match_obj :=
  match run r (MState 0 s []) Some with
  | Some st => Some (MatchObj s 0 (pos st) (caps st))
  | None => None
  end.

Fixpoint search_from (r : regex) (whole : string) (p : nat) (s : string) : option match_obj :=
  match run r (MState p s []) Some with
  | Some st => Some (MatchObj whole p (pos st) (caps st))
  | None =>
      match s with
      | EmptyString => None
      | String _ s' => search_from r whole (S p) s'
      end
  end.

(** [re.search(r, s)] *)
Definition re_search (r : regex) (s : string) : option match_obj :=
  search_from r s 0 s.

(** ** Pattern syntax *)

Fixpoint seq (rs : list regex) : regex :=
  match rs with
  | [] => Eps
  | [r] => r
  | r :: rs' => Seq r (seq rs')
  end.

Fixpoint lit (s : string) : regex :=
  match s with
  | EmptyString => Eps
  | String c EmptyString => Chr c
  | String c s' => Seq (Chr c) (lit s')
  end.

Fixpoint liti (s : string) : regex :=
  match s with
  | EmptyString => Eps
  | String c EmptyString => ChrI c
  | String c s' => Seq (ChrI c) (liti s')
  end.

Fixpoint alts (rs : list regex) : regex :=
  match rs with
  | [] => Cls (fun _ => false)
  | [r] => r
  | r :: rs' => Alt r (alts rs')
  end.

Definition plus (r : regex) : regex := Seq r (Star r).          (* r+ *)
Definition plus_lazy (r : regex) : regex := Seq r (StarLazy r). (* r+? *)
Definition opt (r : regex) : regex := Alt r Eps.                (* r? *)

Fixpoint rep (n : nat) (r : regex) : regex :=                   (* r{n} *)
  match n with
  | O => Eps
  | S O => r
  | S n' => Seq r (rep n' r)
  end.

Fixpoint upto (n : nat) (r : regex) : regex :=                  (* r{0,n} *)
  match n with
  | O => Eps
  | S n' => opt (Seq r (upto n' r))
  end.

Definition rep_range (m n : nat) (r : regex) : regex :=         (* r{m,n} *)
  Seq (rep m r) (upto (n - m) r).

Definition d : regex := Cls Py.isdigit.                                   (* \d *)
Definition s : regex := Cls Py.isspace.                                   (* \s *)
Definition S' : regex := Cls (fun c => negb (Py.isspace c)).             (* \S *)
Definition w : regex := Cls (fun c => Py.isalnum c || Ascii.eqb c "_").  (* \w *)
Definition dot : regex := Cls (fun c => negb (Ascii.eqb c Py.nl)).       (* . *)
Definition range (lo hi : ascii) : regex :=                               (* [lo-hi] *)
  Cls (Py.in_range (Py.code lo) (Py.code hi)).
Definition one_of (cs : string) : regex := Cls (fun c => Py.mem_char c cs).       (* [cs] *)
Definition none_of (cs : string) : regex := Cls (fun c => negb (Py.mem_char c cs)). (* [^cs] *)

End Re.

(* ================================================================== *)
(** * [datetime]: construction, [strptime], [isoformat], [strftime] *)
(* ================================================================== *)

Module Datetime.
Import Re.
Local Open Scope Z_scope.

(** A [datetime]; [tzinfo] is the UTC offset in microseconds of an aware
    value and [None] for a naive one. *)
Record datetime : Type := mkDatetime {
  year : Z; month : Z; day : Z;
  hour : Z; minute : Z; second : Z; microsecond : Z;
  tzinfo : option Z
}.

Definition is_leap (y : Z) : bool :=
  (y mod 4 =? 0) && (negb (y mod 100 =? 0) || (y mod 400 =? 0)).

Definition days_in_month (y m : Z) : Z :=
  if m =? 2 then (if is_leap y then 29 else 28)
  else if (m =? 4) || (m =? 6) || (m =? 9) || (m =? 11) then 30
  else 31.

Definition between (lo x hi : Z) : bool := (lo <=? x) && (x <=? hi).

Definition day_us : Z := 86400 * 1000000.

(** The checks of the [datetime] and [timezone] constructors; a value
    that fails them raises [ValueError]. *)
Definition valid (t : datetime) : bool :=
  between 1 (year t) 9999 && between 1 (month t) 12 &&
  between 1 (day t) (days_in_month (year t) (month t)) &&
  between 0 (hour t) 23 && between 0 (minute t) 59 &&
  between 0 (second t) 59 && between 0 (microsecond t) 999999 &&
  match tzinfo t with
  | None => true
  | Some off => (- day_us <? off) && (off <? day_us)
  end.

Definition make (t : datetime) : option datetime :=
  if valid t then Some t else None.

(** ** Ordinals, for arithmetic with [timedelta] *)

Definition days_before_year (y : Z) : Z :=
  let y1 := y - 1 in y1 * 365 + y1 / 4 - y1 / 100 + y1 / 400.

Definition days_before_month_tbl (m : Z) : Z :=
  nth (Z.to_nat m) [0; 0; 31; 59; 90; 120; 151; 181; 212; 243; 273; 304; 334] 0.

Definition days_before_month (y m : Z) : Z :=
  days_before_month_tbl m + (if (2 <? m) && is_leap y then 1 else 0).

Definition ymd2ord (y m dd : Z) : Z :=
  days_before_year y + days_before_month y m + dd.

Definition DI400Y : Z := 146097.
Definition DI100Y : Z := 36524.
Definition DI4Y : Z := 1461.

Definition ord2ymd (n : Z) : Z * Z * Z :=
  let n := n - 1 in
  let n400 := n / DI400Y in let n := n mod DI400Y in
  let n100 := n / DI100Y in let n := n mod DI100Y in
  let n4 := n / DI4Y in let n := n mod DI4Y in
  let n1 := n / 365 in let n := n mod 365 in
  let y := n400 * 400 + 1 + n100 * 100 + n4 * 4 + n1 in
  if (n1 =? 4) || (n100 =? 4) then (y - 1, 12, 31)
  else
    let leapyear := (n1 =? 3) && (negb (n4 =? 24) || (n100 =? 3)) in
    let m := Z.shiftr (n + 50) 5 in
    let preceding := days_before_month_tbl m + (if (2 <? m) && leapyear then 1 else 0) in
    if n <? preceding then
      let m' := m - 1 in
      let dim := nth (Z.to_nat m') [0; 31; 28; 31; 30; 31; 30; 31; 31; 30; 31; 30; 31] 0
                 + (if (m' =? 2) && leapyear then 1 else 0) in
      (y, m', n - (preceding - dim) + 1)
    else (y, m, n - preceding + 1).

(** Microseconds of a naive [datetime] since 0001-01-01T00:00:00. *)
Definition to_us (t : datetime) : Z :=
  ((ymd2ord (year t) (month t) (day t) - 1) * 86400
   + hour t * 3600 + minute t * 60 + second t) * 1000000 + microsecond t.

Definition of_us (u : Z) : datetime :=
  let days := u / day_us in
  let r := u mod day_us in
  let '(y, m, dd) := ord2ymd (days + 1) in
  let secs := r / 1000000 in
  mkDatetime y m dd (secs / 3600) (secs mod 3600 / 60) (secs mod 60)
             (r mod 1000000) None.

(** The largest [timedelta]: 999999999 days. *)
Definition max_delta_days : Z := 999999999.

(** [t - timedelta(seconds=n)] for a naive [t]; [None] is
    [OverflowError] (the delta or the date out of range). *)
Definition sub_seconds (t : datetime) (n : Z) : option datetime :=
  if max_delta_days <? n / 86400 then None
  else
    let u := to_us t - n * 1000000 in
    if u <? 0 then None else Some (of_us u).

(** ** [isoformat] *)

Definition format_offset (off : Z) : string :=
  let sign := if off <? 0 then "-"%string else "+"%string in
  let a := Z.abs off in
  let hh := a / 3600000000 in
  let r := a mod 3600000000 in
  let mm := r / 60000000 in
  let ss := r mod 60000000 in
  (sign ++ Py.zfill 2 hh ++ ":" ++ Py.zfill 2 mm
   ++ (if (ss =? 0)%Z then ""
       else ":" ++ Py.zfill 2 (ss / 1000000)%Z
            ++ (if (ss mod 1000000 =? 0)%Z then "" else "." ++ Py.zfill 6 (ss mod 1000000)%Z)))%string.

Definition isoformat (t : datetime) : string :=
  (Py.zfill 4 (year t) ++ "-" ++ Py.zfill 2 (month t) ++ "-" ++ Py.zfill 2 (day t)
   ++ "T" ++ Py.zfill 2 (hour t) ++ ":" ++ Py.zfill 2 (minute t) ++ ":" ++ Py.zfill 2 (second t)
   ++ (if (microsecond t =? 0)%Z then "" else "." ++ Py.zfill 6 (microsecond t))
   ++ match tzinfo t with
      | None => ""
      | Some off => format_offset off
      end)%string.

(** ** [strftime], for the directives the buckets use

    [%Y] is written with four digits (below the year 1000 the C library
    decides the padding). *)
Fixpoint strftime (t : datetime) (fmt : string) : string :=
  match fmt with
  | EmptyString => EmptyString
  | String "%" (String x fmt') =>
      ((if Ascii.eqb x "Y" then Py.zfill 4 (year t)
        else if Ascii.eqb x "m" then Py.zfill 2 (month t)
        else if Ascii.eqb x "d" then Py.zfill 2 (day t)
        else if Ascii.eqb x "H" then Py.zfill 2 (hour t)
        else if Ascii.eqb x "M" then Py.zfill 2 (minute t)
        else if Ascii.eqb x "S" then Py.zfill 2 (second t)
        else String "%" (String x EmptyString))
       ++ strftime t fmt')%string
  | String c fmt' => String c (strftime t fmt')
  end.

(** ** [strptime]

    CPython turns the format into a regular expression, compiled with
    [re.IGNORECASE]: a run of white space becomes [\s+], a directive
    becomes its own pattern in a group named after it, any other
    character stands for itself.  The group of directive [x] is numbered
    by the code of [x]. *)

Definition grp (x : ascii) (r : regex) : regex := Group (Py.code x) r.

(** The month names of the C locale. *)
Definition a_month : list string :=
  ["jan"; "feb"; "mar"; "apr"; "may"; "jun"; "jul"; "aug"; "sep"; "oct"; "nov"; "dec"]%string.

Definition directive (x : ascii) : option regex :=
  if Ascii.eqb x "d" then
    (* 3[0-1]|[1-2]\d|0[1-9]|[1-9]| [1-9] *)
    Some (grp x (alts [Seq (Chr "3") (range "0" "1"); Seq (range "1" "2") d;
                       Seq (Chr "0") (range "1" "9"); range "1" "9";
                       Seq (Chr " ") (range "1" "9")]))
  else if Ascii.eqb x "f" then
    (* [0-9]{1,6} *)
    Some (grp x (rep_range 1 6 (range "0" "9")))
  else if Ascii.eqb x "H" then
    (* 2[0-3]|[0-1]\d|\d *)
    Some (grp x (alts [Seq (Chr "2") (range "0" "3"); Seq (range "0" "1") d; d]))
  else if Ascii.eqb x "M" then
    (* [0-5]\d|\d *)
    Some (grp x (alts [Seq (range "0" "5") d; d]))
  else if Ascii.eqb x "S" then
    (* 6[0-1]|[0-5]\d|\d *)
    Some (grp x (alts [Seq (Chr "6") (range "0" "1"); Seq (range "0" "5") d; d]))
  else if Ascii.eqb x "m" then
    (* 1[0-2]|0[1-9]|[1-9] *)
    Some (grp x (alts [Seq (Chr "1") (range "0" "2"); Seq (Chr "0") (range "1" "9");
                       range "1" "9"]))
  else if Ascii.eqb x "Y" then
    (* \d\d\d\d *)
    Some (grp x (rep 4 d))
  else if Ascii.eqb x "z" then
    (* [+-]\d\d:?[0-5]\d(:?[0-5]\d(\.\d{1,6})?)?|(?-i:Z) *)
    Some (grp x (Alt (seq [one_of "+-"; d; d; opt (Chr ":"); range "0" "5"; d;
                           opt (seq [opt (Chr ":"); range "0" "5"; d;
                                     opt (Seq (Chr ".") (rep_range 1 6 d))])])
                     (Chr "Z")))
  else if Ascii.eqb x "b" then
    Some (grp x (alts (map liti a_month)))
  else if Ascii.eqb x "%" then Some (Chr "%")
  else None.

(** [TimeRE.pattern]; [None] is the [ValueError] of a bad directive. *)
Fixpoint pattern (in_ws : bool) (fmt : string) : option (list regex) :=
  match fmt with
  | EmptyString => Some []
  | String c fmt' =>
      if Py.isspace c then
        option_map (fun rs => if in_ws then rs else plus s :: rs) (pattern true fmt')
      else if Ascii.eqb c "%" then
        match fmt' with
        | EmptyString => None
        | String x fmt'' =>
            match directive x, pattern false fmt'' with
            | Some r, Some rs => Some (r :: rs)
            | _, _ => None
            end
        end
      else option_map (cons (ChrI c)) (pattern false fmt')
  end.

Definition all_digits (t : string) : bool :=
  negb (String.eqb t "") && String.eqb (Py.lstrip_by Py.isdigit t) "".

(** [int(t)] where [t] is cut out of matched text; [None] is
    [ValueError]. *)
Definition int_opt (t : string) : option Z :=
  if all_digits t then Some (Py.int_of_digits t) else None.

Definition slice (a b : nat) (t : string) : string := Py.take (b - a) (Py.drop a t).

Definition char_at (i : nat) (t : string) : option ascii := String.get i t.

Definition is_colon (c : option ascii) : bool :=
  match c with
  | Some c => Ascii.eqb c ":"
  | None => false
  end.

Fixpoint index_of (x : string) (l : list string) : option nat :=
  match l with
  | [] => None
  | y :: l' => if String.eqb x y then Some O else option_map S (index_of x l')
  end.

Definition pad_right6 (t : string) : string :=
  (t ++ Py.take (6 - String.length t) "000000")%string.

(** The offset of a [%z] field, in microseconds. *)
Definition parse_z (z : string) : option Z :=
  if String.eqb z "Z" then Some 0
  else
    let strip1 : option string :=
      if is_colon (char_at 3 z) then
        let z1 := (slice 0 3 z ++ Py.drop 4 z)%string in
        if (5 <? String.length z1)%nat then
          if is_colon (char_at 5 z1) then Some (slice 0 5 z1 ++ Py.drop 6 z1)%string
          else None
        else Some z1
      else Some z in
    match strip1 with
    | None => None
    | Some z2 =>
        match int_opt (slice 1 3 z2), int_opt (slice 3 5 z2),
              (if String.eqb (slice 5 7 z2) "" then Some 0 else int_opt (slice 5 7 z2)),
              int_opt (pad_right6 (Py.drop 8 z2)) with
        | Some hh, Some mm, Some ss, Some frac =>
            let off := (hh * 3600 + mm * 60 + ss) * 1000000 + frac in
            Some (if Py.startswith z2 "-" then - off else off)
        | _, _, _, _ => None
        end
    end.

(** [datetime.strptime(data, fmt)]; [None] is [ValueError]. *)
Definition strptime (data fmt : string) : option datetime :=
  match pattern false fmt with
  | None => None
  | Some rs =>
      match re_match (seq rs) data with
      | None => None
      | Some m =>
          if negb (m_end m =? String.length data)%nat then None
          else
            let g (x : ascii) := group m (Py.code x) in
            let num (x : ascii) (dflt : Z) : Z :=
              match g x with
              | Some t => Py.int_of_digits (Py.strip t)
              | None => dflt
              end in
            let mon : Z :=
              match g "b"%char with
              | Some t =>
                  match index_of (Py.lower t) a_month with
                  | Some i => Z.of_nat (Datatypes.S i)
                  | None => 0
                  end
              | None => num "m"%char 1
              end in
            let frac : Z :=
              match g "f"%char with
              | Some t => Py.int_of_digits (pad_right6 t)
              | None => 0
              end in
            let tz : option (option Z) :=
              match g "z"%char with
              | Some z => option_map Some (parse_z z)
              | None => Some None
              end in
            match tz with
            | None => None
            | Some off =>
                make (mkDatetime (num "Y"%char 1900) mon (num "d"%char 1)
                                 (num "H"%char 0) (num "M"%char 0) (num "S"%char 0) frac off)
            end
      end
  end.

(** ** [fromisoformat]

    The grammar documented for Python 3.7 to 3.10,
    [YYYY-MM-DD[*HH[:MM[:SS[.fff[fff]]]][+HH:MM[:SS[.ffffff]]]]];
    [None] is [ValueError].  (Python 3.11 accepts further ISO 8601
    forms.) *)

Definition parse_hh_mm_ss_ff (t : string) : option (Z * Z * Z * Z) :=
  let n := String.length t in
  let two (i : nat) := int_opt (slice i (i + 2) t) in
  let sep (i : nat) (c : ascii) : bool :=
    match char_at i t with
    | Some x => Ascii.eqb x c
    | None => false
    end in
  if (n =? 2)%nat then
    match two 0%nat with Some h => Some (h, 0, 0, 0) | None => None end
  else if (n =? 5)%nat && sep 2%nat ":"%char then
    match two 0%nat, two 3%nat with
    | Some h, Some mi => Some (h, mi, 0, 0)
    | _, _ => None
    end
  else if ((n =? 8) || (n =? 12) || (n =? 15))%nat && sep 2%nat ":"%char && sep 5%nat ":"%char
          && ((n =? 8)%nat || sep 8%nat "."%char) then
    match two 0%nat, two 3%nat, two 6%nat,
          (if (n =? 8)%nat then Some 0 else int_opt (Py.drop 9 t)) with
    | Some h, Some mi, Some se, Some f =>
        Some (h, mi, se, if (n =? 12)%nat then f * 1000 else f)
    | _, _, _, _ => None
    end
  else None.

Fixpoint find_sign (t : string) : option nat :=
  match t with
  | EmptyString => None
  | String c t' =>
      if Ascii.eqb c "+" || Ascii.eqb c "-" then Some O
      else option_map Datatypes.S (find_sign t')
  end.

Definition fromisoformat (str : string) : option datetime :=
  let n := String.length str in
  if (n <? 10)%nat then None
  else
    match int_opt (slice 0 4 str), int_opt (slice 5 7 str), int_opt (slice 8 10 str) with
    | Some y, Some mo, Some dd =>
        if negb (String.eqb (slice 4 5 str) "-" && String.eqb (slice 7 8 str) "-") then None
        else if (n =? 10)%nat then make (mkDatetime y mo dd 0 0 0 0 None)
        else
          let tstr := Py.drop 11 str in
          match find_sign tstr with
          | None =>
              match parse_hh_mm_ss_ff tstr with
              | Some (h, mi, se, f) => make (mkDatetime y mo dd h mi se f None)
              | None => None
              end
          | Some i =>
              let tzstr := Py.drop (Datatypes.S i) tstr in
              let neg := Py.startswith (Py.drop i tstr) "-" in
              let zn := String.length tzstr in
              if negb ((zn =? 5) || (zn =? 8) || (zn =? 15))%nat then None
              else
              match parse_hh_mm_ss_ff (Py.take i tstr), parse_hh_mm_ss_ff tzstr with
              | Some (h, mi, se, f), Some (zh, zm, zs, zf) =>
                  let off := (zh * 3600 + zm * 60 + zs) * 1000000 + zf in
                  make (mkDatetime y mo dd h mi se f (Some (if neg then - off else off)))
              | _, _ => None
              end
          end
    | _, _, _ => None
    end.

End Datetime.

(* ================================================================== *)
(** * Values and dictionaries *)
(* ================================================================== *)

(** What a parsed field, a bound SQL parameter or a column of a result
    row holds: [None], a [str] or an [int]. *)
Inductive value : Type :=
| VNone
| VStr (s : string)
| VInt (z : Z).

Definition value_eqb (a b : value) : bool :=
  match a, b with
  | VNone, VNone => true
  | VStr x, VStr y => String.eqb x y
  | VInt x, VInt y => Z.eqb x y
  | _, _ => false
  end.

(** Python's truth value. *)
Definition truthy (v : value) : bool :=
  match v with
  | VNone => false
  | VStr s => negb (String.eqb s "")
  | VInt z => negb (Z.eqb z 0)
  end.

Definition of_opt (o : option string) : value :=
  match o with
  | Some s => VStr s
  | None => VNone
  end.

(** A [dict] with string keys, in insertion order. *)
Definition dict : Type := list (string * value).

(** [d.get(k)] *)
Fixpoint dict_get (d : dict) (k : string) : value :=
  match d with
  | [] => VNone
  | (k', v) :: d' => if String.eqb k k' then v else dict_get d' k
  end.

(** [d.get(k, dflt)] *)
Fixpoint dict_get_default (d : dict) (k : string) (dflt : value) : value :=
  match d with
  | [] => dflt
  | (k', v) :: d' => if String.eqb k k' then v else dict_get_default d' k dflt
  end.

(** [d[k] = v] *)
Fixpoint dict_set (d : dict) (k : string) (v : value) : dict :=
  match d with
  | [] => [(k, v)]
  | (k', v') :: d' => if String.eqb k k' then (k', v) :: d' else (k', v') :: dict_set d' k v
  end.

(** What a call does: it returns a value or raises. *)
Inductive outcome (A : Type) : Type :=
| Ret (a : A)
| Raise (exn : string).
Arguments Ret {A} a.
Arguments Raise {A} exn.

(** [str(z)] *)
Definition str_of_Z (z : Z) : string := DecimalString.NilZero.string_of_int (Z.to_int z).

(* ================================================================== *)
(** * parsers/access_parser.py *)
(* ================================================================== *)

Module AccessParser.
Import Re.

(** A request between quotes: [\x22(\w+)\s+([^\s\x22]+)(?:\s+[^\x22]+)?\x22],
    method in group [gm], endpoint in group [ge]. *)
Definition request (gm ge : nat) : regex :=
  seq [Chr Py.dq; Group gm (plus w); plus s;
       Group ge (plus (Cls (fun c => negb (Py.isspace c) && negb (Ascii.eqb c Py.dq))));
       opt (Seq (plus s) (plus (Cls (fun c => negb (Ascii.eqb c Py.dq)))));
       Chr Py.dq].

(** [\[([^\]]+)\]], the time in group [g]. *)
Definition bracketed (g : nat) : regex :=
  seq [Chr "["; Group g (plus (none_of "]")); Chr "]"].

(** [^(\S+)\s+(\S+)\s+(\S+)\s+\[([^\]]+)\]\s+\x22(\w+)\s+([^\s\x22]+)(?:\s+[^\x22]+)?\x22\s+(\d{3})\s+(\d+|-)$] *)
Definition PATTERN : regex :=
  seq [Bol; Group 1 (plus S'); plus s; Group 2 (plus S'); plus s; Group 3 (plus S'); plus s;
       bracketed 4; plus s; request 5 6; plus s;
       Group 7 (rep 3 d); plus s; Group 8 (Alt (plus d) (Chr "-")); Eol].

(** [^(\S+)\s+-\s+-\s+\[([^\]]+)\]\s+\x22(\w+)\s+([^\s\x22]+)(?:\s+[^\x22]+)?\x22\s+(\d{3})\s+(\d+|-)$] *)
Definition SIMPLE_PATTERN : regex :=
  seq [Bol; Group 1 (plus S'); plus s; Chr "-"; plus s; Chr "-"; plus s;
       bracketed 2; plus s; request 3 4; plus s;
       Group 5 (rep 3 d); plus s; Group 6 (Alt (plus d) (Chr "-")); Eol].

(** [^(\S+).*?\[([^\]]+)\].*?\x22(\w+)\s+([^\s\x22]+).*?\x22\s+(\d{3})] *)
Definition LENIENT_PATTERN : regex :=
  seq [Bol; Group 1 (plus S'); StarLazy dot; bracketed 2; StarLazy dot;
       Chr Py.dq; Group 3 (plus w); plus s;
       Group 4 (plus (Cls (fun c => negb (Py.isspace c) && negb (Ascii.eqb c Py.dq))));
       StarLazy dot; Chr Py.dq; plus s; Group 5 (rep 3 d)].

Definition formats : list string :=
  ["%d/%b/%Y:%H:%M:%S %z"; "%d/%b/%Y:%H:%M:%S"; "%Y-%m-%d %H:%M:%S"].

(** The loop of [_parse_timestamp]: the first format that parses wins;
    when none does the text comes back as it is. *)
Fixpoint try_formats (raw_ts : string) (fmts : list string) : string :=
  match fmts with
  | [] => raw_ts
  | fmt :: fmts' =>
      match Datetime.strptime raw_ts fmt with
      | Some dt => Datetime.isoformat dt
      | None => try_formats raw_ts fmts'
      end
  end.

Definition _parse_timestamp (raw_ts : string) : string := try_formats raw_ts formats.

(** [int(size) if size != '-' else 0] under [try], with [size_int = 0]
    in the [except ValueError] branch: the size is a run of digits, so
    the one [ValueError] is that of a run beyond the digit limit. *)
Definition size_int (size : string) : Z :=
  if String.eqb size "-" then 0%Z
  else if (Py.max_str_digits <? String.length size)%nat then 0%Z
  else Py.int_of_digits size.

Definition access_dict (timestamp ip method endpoint status : string) (size : Z) : dict :=
  [("timestamp", VStr timestamp); ("ip", VStr ip); ("method", VStr method);
   ("endpoint", VStr endpoint); ("status", VStr status); ("size", VInt size)].

Definition parse (line : string) : option dict :=
  let line := Py.strip line in
  if String.eqb line "" then None
  else
    match re_match PATTERN line with
    | Some m =>
        Some (access_dict (_parse_timestamp (group_str m 4)) (group_str m 1)
                (group_str m 5) (group_str m 6) (group_str m 7) (size_int (group_str m 8)))
    | None =>
        match re_match SIMPLE_PATTERN line with
        | Some m =>
            Some (access_dict (_parse_timestamp (group_str m 2)) (group_str m 1)
                    (group_str m 3) (group_str m 4) (group_str m 5) (size_int (group_str m 6)))
        | None =>
            match re_match LENIENT_PATTERN line with
            | Some m =>
                Some (access_dict (_parse_timestamp (group_str m 2)) (group_str m 1)
                        (group_str m 3) (group_str m 4) (group_str m 5) 0%Z)
            | None => None
            end
        end
    end.

End AccessParser.

(* ================================================================== *)
(** * parsers/syslog_parser.py *)
(* ================================================================== *)

Module SyslogParser.
Import Re.

(** [[A-Z][a-z]{2}\s+\d{1,2}\s+\d{2}:\d{2}:\d{2}] *)
Definition classic_stamp : regex :=
  seq [range "A" "Z"; rep 2 (range "a" "z"); plus s; rep_range 1 2 d; plus s;
       rep 2 d; Chr ":"; rep 2 d; Chr ":"; rep 2 d].

(** [\d{4}-\d{2}-\d{2}[T ]\d{2}:\d{2}:\d{2}] *)
Definition iso_stamp : regex :=
  seq [rep 4 d; Chr "-"; rep 2 d; Chr "-"; rep 2 d; one_of "T ";
       rep 2 d; Chr ":"; rep 2 d; Chr ":"; rep 2 d].

(** [\s+(\S+)\s+(\S+)(?:\[(\d+)\])?:\s*(.* )$], groups 2 to 5 *)
Definition tail : regex :=
  seq [plus s; Group 2 (plus S'); plus s; Group 3 (plus S');
       opt (seq [Chr "["; Group 4 (plus d); Chr "]"]); Chr ":"; Star s;
       Group 5 (Star dot); Eol].

(** [^([A-Z][a-z]{2}\s+\d{1,2}\s+\d{2}:\d{2}:\d{2})\s+(\S+)\s+(\S+)(?:\[(\d+)\])?:\s*(.* )$] *)
Definition CLASSIC_PATTERN : regex := seq [Bol; Group 1 classic_stamp; tail].

(** [^(\d{4}-\d{2}-\d{2}[T ]\d{2}:\d{2}:\d{2}(?:\.\d+)?(?:[+-]\d{2}:\d{2}|Z)?)\s+(\S+)\s+(\S+)(?:\[(\d+)\])?:\s*(.* )$] *)
Definition ISO_PATTERN : regex :=
  seq [Bol;
       Group 1 (seq [iso_stamp; opt (Seq (Chr ".") (plus d));
                     opt (Alt (seq [one_of "+-"; rep 2 d; Chr ":"; rep 2 d]) (Chr "Z"))]);
       tail].

(** [^(\d{4}-\d{2}-\d{2}[T ]\d{2}:\d{2}:\d{2})] *)
Definition ISO_PREFIX : regex := seq [Bol; Group 1 iso_stamp].

(** [^([A-Z][a-z]{2}\s+\d{1,2}\s+\d{2}:\d{2}:\d{2})] *)
Definition CLASSIC_PREFIX : regex := seq [Bol; Group 1 classic_stamp].

Definition iso_formats : list string :=
  ["%Y-%m-%dT%H:%M:%S"; "%Y-%m-%d %H:%M:%S"; "%Y-%m-%dT%H:%M:%S.%f"; "%Y-%m-%dT%H:%M:%S%z"].

Fixpoint try_formats (text fallback : string) (fmts : list string) : string :=
  match fmts with
  | [] => fallback
  | fmt :: fmts' =>
      match Datetime.strptime text fmt with
      | Some dt => Datetime.isoformat dt
      | None => try_formats text fallback fmts'
      end
  end.

(** Each format is tried on [ts_str[:19]]; when none parses, [ts_str]
    itself comes back. *)
Definition _parse_iso_timestamp (ts_str : string) : string :=
  try_formats (Py.take 19 ts_str) ts_str iso_formats.

(** [current_year] is [datetime.now().year]. *)
Definition _parse_classic_timestamp (current_year : Z) (ts_str : string) : string :=
  match Datetime.strptime (ts_str ++ " " ++ str_of_Z current_year)%string "%b %d %H:%M:%S %Y" with
  | Some dt => Datetime.isoformat dt
  | None => ts_str
  end.

Definition syslog_dict (timestamp host service message : string) : dict :=
  [("timestamp", VStr timestamp); ("host", VStr host);
   ("service", VStr service); ("message", VStr message)].

(** [f'{service}[{pid}]' if pid else service] *)
Definition service_full (m : match_obj) : string :=
  match group m 4 with
  | Some pid =>
      if String.eqb pid "" then group_str m 3
      else (group_str m 3 ++ "[" ++ pid ++ "]")%string
  | None => group_str m 3
  end.

(** The fallback of [parse]: host, service and message from
    [line.split(None, 2)]. *)
Definition loose_dict (timestamp line : string) : dict :=
  let parts := Py.split_ws 2 line in
  let host := nth 1 parts "unknown"%string in
  let service :=
    match nth_error parts 2 with
    | Some p2 => Py.before_char ":" p2
    | None => "unknown"%string
    end in
  let message :=
    match nth_error parts 2 with
    | Some p2 =>
        match Py.after_char ":" p2 with
        | Some after => after
        | None => line
        end
    | None => line
    end in
  syslog_dict timestamp host service message.

Definition parse (current_year : Z) (line : string) : option dict :=
  let line := Py.strip line in
  if String.eqb line "" then None
  else
    match re_match ISO_PATTERN line with
    | Some m =>
        Some (syslog_dict (_parse_iso_timestamp (group_str m 1)) (group_str m 2)
                (service_full m) (group_str m 5))
    | None =>
        match re_match CLASSIC_PATTERN line with
        | Some m =>
            Some (syslog_dict (_parse_classic_timestamp current_year (group_str m 1))
                    (group_str m 2) (service_full m) (group_str m 5))
        | None =>
            match re_match ISO_PREFIX line with
            | Some m => Some (loose_dict (_parse_iso_timestamp (group_str m 1)) line)
            | None =>
                match re_match CLASSIC_PREFIX line with
                | Some m =>
                    Some (loose_dict (_parse_classic_timestamp current_year (group_str m 1)) line)
                | None => None
                end
            end
        end
    end.

End SyslogParser.

(* ================================================================== *)
(** * parsers/auth_parser.py *)
(* ================================================================== *)

Module AuthParser.
Import Re.

Definition TIMESTAMP_PATTERN : regex := SyslogParser.CLASSIC_PREFIX.
Definition ISO_TIMESTAMP_PATTERN : regex := SyslogParser.ISO_PREFIX.

(** [\d{1,3}(?:\.\d{1,3}){3}] *)
Definition ipv4 : regex :=
  Seq (rep_range 1 3 d) (rep 3 (Seq (Chr ".") (rep_range 1 3 d))).

Definition for_user : regex := seq [lit "for"; plus s; Group 1 (plus S')].    (* for\s+(\S+) *)
Definition user_user : regex := seq [lit "user"; plus s; Group 1 (plus S')].  (* user\s+(\S+) *)
Definition from_ip : regex := seq [lit "from"; plus s; Group 1 ipv4].         (* from\s+(ipv4) *)
Definition sudo_user : regex := seq [lit "sudo:"; plus s; Group 1 (plus S')]. (* sudo:\s+(\S+) *)
Definition any_ip : regex := Group 1 ipv4.                                    (* (ipv4) *)

Definition search1 (r : regex) (text : string) : option string :=
  match re_search r text with
  | Some m => group m 1
  | None => None
  end.

Definition first_some (a b : option string) : option string :=
  match a with
  | Some x => Some x
  | None => b
  end.

Definition _parse_iso_timestamp (ts_str : string) : string :=
  SyslogParser.try_formats (Py.take 19 ts_str) ts_str
    ["%Y-%m-%dT%H:%M:%S"; "%Y-%m-%d %H:%M:%S"]%string.

Definition _parse_classic_timestamp (current_year : Z) (ts_str : string) : string :=
  SyslogParser._parse_classic_timestamp current_year ts_str.

(** The branches on the text after the time: (user, action, ip). *)
Definition classify (rest : string) : option string * string * option string :=
  if Py.contains "Accepted password" rest || Py.contains "Accepted publickey" rest then
    (search1 for_user rest, "login_success"%string, search1 from_ip rest)
  else if Py.contains "Failed password" rest
          || Py.contains "authentication failure" (Py.lower rest) then
    (first_some (search1 for_user rest) (search1 user_user rest),
     "login_failure"%string, search1 from_ip rest)
  else if Py.contains "sudo:" rest then
    (search1 sudo_user rest, "sudo"%string, None)
  else if Py.contains "authentication" (Py.lower rest) then
    (search1 user_user rest, "auth_event"%string, None)
  else (None, "auth_event"%string, None).

Definition nonempty (o : option string) : bool :=
  match o with
  | Some x => negb (String.eqb x "")
  | None => false
  end.

Definition parse (current_year : Z) (line : string) : option dict :=
  let line := Py.strip line in
  if String.eqb line "" then None
  else
    let stamp : option (string * string) :=
      match re_match ISO_TIMESTAMP_PATTERN line with
      | Some m => Some (_parse_iso_timestamp (group_str m 1), Py.strip (Py.drop (m_end m) line))
      | None =>
          match re_match TIMESTAMP_PATTERN line with
          | Some m =>
              Some (_parse_classic_timestamp current_year (group_str m 1),
                    Py.strip (Py.drop (m_end m) line))
          | None => None
          end
      end in
    match stamp with
    | None => None
    | Some (timestamp, rest) =>
        if String.eqb timestamp "" then None
        else
          let '(user, action, ip) := classify rest in
          let ip := if nonempty ip then ip else first_some (search1 any_ip rest) ip in
          Some [("timestamp", VStr timestamp);
                ("user", VStr (if nonempty user then match user with Some u => u | None => "" end
                               else "unknown"));
                ("action", VStr action);
                ("ip", of_opt ip)]
    end.

End AuthParser.

(* ================================================================== *)
(** * index/indexer.py: the store *)
(* ================================================================== *)

Module Indexer.
Import Re.

(** A row of the table [logs], without the columns the database fills
    in ([id], [created_at]). *)
Record Row : Type := mkRow {
  log_type : string;
  timestamp : value;
  host : value;
  service : value;
  message : value;
  ip : value;
  method : value;
  endpoint : value;
  status : value;
  size : value;
  user : value;
  action : value;
  raw : string
}.

(** The connection: rows inserted and not yet committed, and the rows
    committed, both oldest first. *)
Record store : Type := mkStore {
  committed : list Row;
  pending : list Row
}.

Definition empty : store := mkStore [] [].

Definition rows (st : store) : list Row := (committed st ++ pending st)%list.

(** SQLite stores an integer in 64 bits; binding a larger [int] raises
    [OverflowError]. *)
Definition bindable (v : value) : bool :=
  match v with
  | VInt z => ((- 2 ^ 63 <=? z) && (z <? 2 ^ 63))%Z
  | _ => true
  end.

(** The tuple [add_log] binds to the INSERT statement. *)
Definition row_of (log_type : string) (parsed_data : dict) (raw_line : string) : Row :=
  mkRow log_type
        (dict_get parsed_data "timestamp") (dict_get parsed_data "host")
        (dict_get parsed_data "service") (dict_get parsed_data "message")
        (dict_get parsed_data "ip") (dict_get parsed_data "method")
        (dict_get parsed_data "endpoint") (dict_get parsed_data "status")
        (dict_get_default parsed_data "size" (VInt 0))
        (dict_get parsed_data "user") (dict_get parsed_data "action")
        raw_line.

(** [add_log]: the row is inserted, or the exception of [execute] is
    swallowed and [False] returned. *)
Definition add_log (st : store) (log_type : string) (parsed_data : dict) (raw_line : string)
  : store * bool :=
  let r := row_of log_type parsed_data raw_line in
  if bindable (size r) then (mkStore (committed st) (pending st ++ [r])%list, true)
  else (st, false).

Definition commit (st : store) : store := mkStore (committed st ++ pending st)%list [].

(** The characters [query] lets through in a WHERE clause:
    [^[a-zA-Z0-9_<>=()\s'\x22,\.:\-+%LIKEISNOTANDOR]+$] *)
Definition where_char (c : ascii) : bool :=
  Py.isalnum c || Py.isspace c
  || Py.mem_char c (String Py.dq (String Py.sq "_<>=(),.:-+%")).

Definition where_ok (where_clause : string) : bool :=
  match re_match (seq [Bol; plus (Cls where_char); Eol]) where_clause with
  | Some _ => true
  | None => false
  end.

Section Database.

(** [cur.execute(sql, (limit,))] on the connection, its rows as dicts;
    a [Raise] carries the text of the exception. *)
Variable execute : string -> nat -> outcome (list dict).

(** [query]: a clause with a character outside the allowed ones is not
    run; an exception of the database becomes an error row. *)
Definition query (where_clause : string) (limit : nat) : list dict :=
  if where_ok where_clause then
    match execute ("SELECT * FROM logs WHERE " ++ where_clause ++ " ORDER BY id DESC LIMIT ?")
                  limit with
    | Ret found => found
    | Raise e => [[("error", VStr e)]]
    end
  else [[("error", VStr "Invalid WHERE clause")]].

Definition get_all (limit : nat) : list dict := query "1=1" limit.

End Database.

End Indexer.

(* ================================================================== *)
(** * utils/log_ingester.py *)
(* ================================================================== *)

Module LogIngester.

(** [os.path.basename] *)
Fixpoint basename (path : string) : string :=
  match path with
  | EmptyString => EmptyString
  | String c path' =>
      if Py.contains "/" path' then basename path'
      else if Ascii.eqb c "/" then path' else path
  end.

Definition any_parser_accepts (current_year : Z) (line : string) : option string :=
  match AccessParser.parse line with
  | Some _ => Some "access"%string
  | None =>
      match AuthParser.parse current_year line with
      | Some _ => Some "auth"%string
      | None =>
          match SyslogParser.parse current_year line with
          | Some _ => Some "syslog"%string
          | None => None
          end
      end
  end.

(** [_detect_log_type]: the first of the first five lines that is not
    blank and that some parser accepts decides; [syslog] otherwise. *)
Fixpoint detect_lines (current_year : Z) (lines : list string) : string :=
  match lines with
  | [] => "syslog"
  | line :: lines' =>
      let line := Py.strip line in
      if String.eqb line "" then detect_lines current_year lines'
      else
        match any_parser_accepts current_year line with
        | Some t => t
        | None => detect_lines current_year lines'
        end
  end.

Definition _detect_log_type (current_year : Z) (lines : list string) : string :=
  detect_lines current_year (firstn 5 lines).

(** The branch of [ingest_file] under [if not log_type]: the file name
    decides, else the content. *)
Definition auto_detect (current_year : Z) (filepath : string) (lines : list string) : string :=
  let filename := Py.lower (basename filepath) in
  if Py.contains "access" filename || Py.contains "nginx" filename
     || Py.contains "apache" filename then "access"
  else if Py.contains "auth" filename || Py.contains "secure" filename then "auth"
  else if Py.contains "syslog" filename || Py.contains "messages" filename then "syslog"
  else _detect_log_type current_year lines.

(** The log type the loop starts with: the caller's when it gave one. *)
Definition resolve_log_type (current_year : Z) (filepath : string) (lines : list string)
    (log_type : option string) : string :=
  match log_type with
  | Some t =>
      if String.eqb t "" then auto_detect current_year filepath lines else t
  | None => auto_detect current_year filepath lines
  end.

Definition batch_size : nat := 100.

(** What the loop of [ingest_file] carries from line to line. *)
Record state : Type := mkState {
  cur_type : string;                           (* log_type *)
  batch : list (string * dict * string);
  count : nat;
  errors : nat;
  db : Indexer.store
}.

(** [for lt, pd, rl in batch: add_log(lt, pd, rl)] and [commit()] *)
Definition flush (st : Indexer.store) (b : list (string * dict * string)) : Indexer.store :=
  Indexer.commit
    (fold_left (fun st e => let '(lt, pd, rl) := e in fst (Indexer.add_log st lt pd rl)) b st).

(** The parser chosen for a line, and the log type after it. *)
Definition parse_line (current_year : Z) (log_type line : string) : option dict * string :=
  if String.eqb log_type "syslog" then (SyslogParser.parse current_year line, log_type)
  else if String.eqb log_type "access" then (AccessParser.parse line, log_type)
  else if String.eqb log_type "auth" then (AuthParser.parse current_year line, log_type)
  else
    match SyslogParser.parse current_year line with
    | Some pd => (Some pd, "syslog"%string)
    | None =>
        match AccessParser.parse line with
        | Some pd => (Some pd, "access"%string)
        | None =>
            match AuthParser.parse current_year line with
            | Some pd => (Some pd, "auth"%string)
            | None => (None, log_type)
            end
        end
    end.

(** One turn of the loop. *)
Definition step (current_year : Z) (s : state) (line : string) : state :=
  let line := Py.strip line in
  if String.eqb line "" then s
  else
    match parse_line current_year (cur_type s) line with
    | (Some pd, lt) =>
        let b := (batch s ++ [(lt, pd, line)])%list in
        if batch_size <=? List.length b then
          mkState lt [] (S (count s)) (errors s) (flush (db s) b)
        else mkState lt b (S (count s)) (errors s) (db s)
    | (None, lt) => mkState lt (batch s) (count s) (S (errors s)) (db s)
    end.

Definition str_of_nat (n : nat) : string := str_of_Z (Z.of_nat n).

(** [ingest_file]: [content] is [None] when [filepath] is no file, and
    the lines the open file yields otherwise.  The result is the store
    and the status message.  The parsers raise nothing and [add_log]
    swallows its own exceptions, so the [except] branch around the loop
    is reached only by a failure of the file system or the database,
    which is outside the model. *)
Definition ingest_file (current_year : Z) (st : Indexer.store) (filepath : string)
    (content : option (list string)) (log_type : option string) : Indexer.store * string :=
  match content with
  | None => (st, "Error: File '" ++ filepath ++ "' not found.")%string
  | Some lines =>
      let lt0 := resolve_log_type current_year filepath lines log_type in
      let s := fold_left (step current_year) lines (mkState lt0 [] 0 0 st) in
      let st' := match batch s with
                 | [] => db s
                 | _ => flush (db s) (batch s)
                 end in
      (st', "Ingested " ++ str_of_nat (count s) ++ " events from " ++ filepath
            ++ " (" ++ cur_type s ++ " format)"
            ++ (if (0 <? errors s)%nat then " (" ++ str_of_nat (errors s) ++ " errors)" else ""))%string
  end.

End LogIngester.

(* ================================================================== *)
(** * [json.loads] *)
(* ================================================================== *)

Module Json.
Local Open Scope Z_scope.

(** A decoded JSON value.  A float is kept as its decimal literal
    [mant * 10^exp10]; [JConst] is one of NaN, Infinity, -Infinity.  An
    object is a [dict]: for a repeated key the last value stands. *)
#[local] Unset Elimination Schemes.
Inductive json : Type :=
| JNull
| JBool (b : bool)
| JInt (z : Z)
| JFloat (mant exp10 : Z)
| JConst (name : string)
| JStr (s : string)
| JArr (items : list json)
| JObj (members : list (string * json)).
#[local] Set Elimination Schemes.

(** A double rounds to zero from [2^-1075] downwards. *)
Definition float_is_zero (mant exp10 : Z) : bool :=
  (mant =? 0) || ((exp10 <? 0) && (Z.abs mant * 2 ^ 1075 <=? 10 ^ (- exp10))).

(** Python's truth value of a decoded value. *)
Definition truthy (v : json) : bool :=
  match v with
  | JNull => false
  | JBool b => b
  | JInt z => negb (z =? 0)
  | JFloat m e => negb (float_is_zero m e)
  | JConst _ => true
  | JStr s => negb (String.eqb s "")
  | JArr l => match l with [] => false | _ => true end
  | JObj l => match l with [] => false | _ => true end
  end.

(** [a or b] *)
Definition or_ (a b : json) : json := if truthy a then a else b.

Fixpoint has_key (k : string) (d : list (string * json)) : bool :=
  match d with
  | [] => false
  | (k', _) :: d' => String.eqb k k' || has_key k d'
  end.

(** [d[k] = v] *)
Fixpoint set_item (d : list (string * json)) (k : string) (v : json) : list (string * json) :=
  match d with
  | [] => [(k, v)]
  | (k', v') :: d' => if String.eqb k k' then (k', v) :: d' else (k', v') :: set_item d' k v
  end.

(** [dict(pairs)] *)
Definition dict_of_pairs (pairs : list (string * json)) : list (string * json) :=
  fold_left (fun d kv => set_item d (fst kv) (snd kv)) pairs [].

(** [d.get(k, dflt)] *)
Fixpoint get_default (d : list (string * json)) (k : string) (dflt : json) : json :=
  match d with
  | [] => dflt
  | (k', v) :: d' => if String.eqb k k' then v else get_default d' k dflt
  end.

(** [d.get(k)] *)
Definition get (d : list (string * json)) (k : string) : json := get_default d k JNull.

(** ** The decoder *)

Definition is_ws (c : ascii) : bool := Py.mem_char c (String " " (String Py.tab (String Py.nl (String (ascii_of_nat 13) "")))).

Definition skip_ws (s : string) : string := Py.lstrip_by is_ws s.

Definition hex_val (c : ascii) : option Z :=
  if Py.isdigit c then Some (Z.of_nat (Py.code c) - 48)
  else if Py.in_range 97 102 c then Some (Z.of_nat (Py.code c) - 87)
  else if Py.in_range 65 70 c then Some (Z.of_nat (Py.code c) - 55)
  else None.

(** Four hexadecimal digits at the head of [s]. *)
Definition hex4 (s : string) : option (Z * string) :=
  match s with
  | String a (String b (String c (String d s'))) =>
      match hex_val a, hex_val b, hex_val c, hex_val d with
      | Some x, Some y, Some z, Some w => Some (((x * 16 + y) * 16 + z) * 16 + w, s')
      | _, _, _, _ => None
      end
  | _ => None
  end.

(** The character of a code point; one above U+00FF, which the 8-bit
    alphabet cannot hold, is kept as the character 255. *)
Definition chr (u : Z) : ascii :=
  if u <? 256 then ascii_of_nat (Z.to_nat u) else ascii_of_nat 255.

(** The escape after a backslash, other than [u]. *)
Definition simple_escape (e : ascii) : option ascii :=
  if Ascii.eqb e Py.dq then Some Py.dq
  else if Ascii.eqb e "\" then Some "\"%char
  else if Ascii.eqb e "/" then Some "/"%char
  else if Ascii.eqb e "b" then Some (ascii_of_nat 8)
  else if Ascii.eqb e "f" then Some (ascii_of_nat 12)
  else if Ascii.eqb e "n" then Some Py.nl
  else if Ascii.eqb e "r" then Some (ascii_of_nat 13)
  else if Ascii.eqb e "t" then Some Py.tab
  else None.

(** After the four digits of a high surrogate [u]: an escaped low
    surrogate makes a pair with it; the text after the pair. *)
Definition low_surrogate (u : Z) (r0 : string) : option string :=
  match r0 with
  | String b1 (String b2 r) =>
      if (55296 <=? u) && (u <=? 56319) && Ascii.eqb b1 "\" && Ascii.eqb b2 "u" then
        match hex4 r with
        | Some (u2, r1) => if (56320 <=? u2) && (u2 <=? 57343) then Some r1 else None
        | None => None
        end
      else None
  | _ => None
  end.

(** [scanstring], strict: the text after the opening quote up to the
    closing one, escapes decoded; a control character, a bad escape or
    a missing closing quote is an error.  Each turn reads at least one
    character, so the length of the text is fuel enough. *)
Fixpoint scanstring_aux (fuel : nat) (s : string) : option (string * string) :=
  match fuel with
  | O => None
  | S fuel' =>
      let cons_rest (x : ascii) (r : string) :=
        match scanstring_aux fuel' r with
        | Some (t, r') => Some (String x t, r')
        | None => None
        end in
      match s with
      | EmptyString => None
      | String c s' =>
          if Ascii.eqb c Py.dq then Some (EmptyString, s')
          else if (Py.code c <? 32)%nat then None
          else if Ascii.eqb c "\" then
            match s' with
            | EmptyString => None
            | String e s'' =>
                if Ascii.eqb e "u" then
                  match hex4 s'' with
                  | None => None
                  | Some (u, r0) =>
                      match low_surrogate u r0 with
                      | Some r1 => cons_rest (chr 65536) r1
                      | None => cons_rest (chr u) r0
                      end
                  end
                else
                  match simple_escape e with
                  | Some x => cons_rest x s''
                  | None => None
                  end
            end
          else cons_rest c s'
      end
  end.

Definition scanstring (s : string) : option (string * string) :=
  scanstring_aux (S (String.length s)) s.

(** The longest run of digits at the head of [s], and the rest. *)
Fixpoint span_digits (s : string) : string * string :=
  match s with
  | String c s' =>
      if Py.isdigit c then let '(ds, r) := span_digits s' in (String c ds, r)
      else (EmptyString, s)
  | EmptyString => (EmptyString, EmptyString)
  end.

(** [NUMBER_RE]: [(-?(?:0|[1-9]\d* ))(\.\d+)?([eE][-+]?\d+)?] *)
Definition match_number (s : string) : option (json * string) :=
  let '(neg, s1) := match s with
                    | String "-" t => (true, t)
                    | _ => (false, s)
                    end in
  let int_part : option (string * string) :=
    match s1 with
    | String "0" t => Some ("0"%string, t)
    | String c _ => if Py.isdigit c then Some (span_digits s1) else None
    | EmptyString => None
    end in
  match int_part with
  | None => None
  | Some (ip, s2) =>
      let '(frac, s3) :=
        match s2 with
        | String "." t =>
            let '(ds, r) := span_digits t in
            if String.eqb ds "" then (None, s2) else (Some ds, r)
        | _ => (None, s2)
        end in
      let '(ex, s4) :=
        match s3 with
        | String e t =>
            if Ascii.eqb e "e" || Ascii.eqb e "E" then
              let '(sgn, t1) := match t with
                                | String "-" u => (-1, u)
                                | String "+" u => (1, u)
                                | _ => (1, t)
                                end in
              let '(ds, r) := span_digits t1 in
              if String.eqb ds "" then (None, s3) else (Some (sgn * Py.int_of_digits ds), r)
            else (None, s3)
        | EmptyString => (None, s3)
        end in
      let sign := if neg then -1 else 1 in
      match frac, ex with
      | None, None => Some (JInt (sign * Py.int_of_digits ip), s4)
      | _, _ =>
          let fd := match frac with Some ds => ds | None => EmptyString end in
          let e := match ex with Some e => e | None => 0 end in
          Some (JFloat (sign * Py.int_of_digits (ip ++ fd)%string)
                       (e - Z.of_nat (String.length fd)), s4)
      end
  end.

Definition literal (word : string) (v : json) (s : string) : option (json * string) :=
  if Py.startswith s word then Some (v, Py.drop (String.length word) s) else None.

(** [scan_once], with the loops of [JSONObject] and [JSONArray]; every
    call takes one unit of [fuel], and reads at least one character. *)
Fixpoint scan_once (fuel : nat) (s : string) : option (json * string) :=
  match fuel with
  | O => None
  | S fuel' =>
      match s with
      | EmptyString => None
      | String c s' =>
          if Ascii.eqb c Py.dq then
            match scanstring s' with
            | Some (t, r) => Some (JStr t, r)
            | None => None
            end
          else if Ascii.eqb c "{" then
            match skip_ws s' with
            | String "}" r => Some (JObj [], r)
            | s1 => object_loop fuel' [] s1
            end
          else if Ascii.eqb c "[" then
            match skip_ws s' with
            | String "]" r => Some (JArr [], r)
            | s1 => array_loop fuel' [] s1
            end
          else if Ascii.eqb c "n" then literal "null" JNull s
          else if Ascii.eqb c "t" then literal "true" (JBool true) s
          else if Ascii.eqb c "f" then literal "false" (JBool false) s
          else
            match match_number s with
            | Some r => Some r
            | None =>
                if Ascii.eqb c "N" then literal "NaN" (JConst "NaN") s
                else if Ascii.eqb c "I" then literal "Infinity" (JConst "Infinity") s
                else if Ascii.eqb c "-" then literal "-Infinity" (JConst "-Infinity") s
                else None
            end
      end
  end

with object_loop (fuel : nat) (acc : list (string * json)) (s : string)
    : option (json * string) :=
  match fuel with
  | O => None
  | S fuel' =>
      match s with
      | String q s1 =>
          if negb (Ascii.eqb q Py.dq) then None
          else
            match scanstring s1 with
            | None => None
            | Some (key, s2) =>
                match skip_ws s2 with
                | String ":" s3 =>
                    match scan_once fuel' (skip_ws s3) with
                    | None => None
                    | Some (v, s4) =>
                        let acc' := (acc ++ [(key, v)])%list in
                        match skip_ws s4 with
                        | String "}" r => Some (JObj (dict_of_pairs acc'), r)
                        | String "," r => object_loop fuel' acc' (skip_ws r)
                        | _ => None
                        end
                    end
                | _ => None
                end
            end
      | EmptyString => None
      end
  end

with array_loop (fuel : nat) (acc : list json) (s : string) : option (json * string) :=
  match fuel with
  | O => None
  | S fuel' =>
      match scan_once fuel' s with
      | None => None
      | Some (v, s1) =>
          let acc' := (acc ++ [v])%list in
          match skip_ws s1 with
          | String "]" r => Some (JArr acc', r)
          | String "," r => array_loop fuel' acc' (skip_ws r)
          | _ => None
          end
      end
  end.

(** [json.loads(s)]; [None] stands for the exception ([JSONDecodeError]).
    Nesting beyond the interpreter's recursion limit is outside the
    model. *)
Definition loads (s : string) : option json :=
  match scan_once (2 + 2 * String.length s) (skip_ws s) with
  | Some (v, r) => if String.eqb (skip_ws r) "" then Some v else None
  | None => None
  end.

End Json.

(* ================================================================== *)
(** * coresight_engine.py: the universal parser *)
(* ================================================================== *)

Module Engine.
Import Re Json.

(** An [xml.etree.ElementTree.Element]. *)
#[local] Unset Elimination Schemes.
Inductive Element : Type :=
| mkElement (tag : string) (attrib : list (string * string)) (text : option string)
            (children : list Element).
#[local] Set Elimination Schemes.

Definition tag (e : Element) : string := let 'mkElement t _ _ _ := e in t.
Definition attrib (e : Element) : list (string * string) := let 'mkElement _ a _ _ := e in a.
Definition text (e : Element) : option string := let 'mkElement _ _ t _ := e in t.
Definition children (e : Element) : list Element := let 'mkElement _ _ _ c := e in c.

(** [e.find(name)]: the first child with that tag. *)
Definition find (e : Element) (name : string) : option Element :=
  List.find (fun c => String.eqb (tag c) name) (children e).

Fixpoint attrib_get (a : list (string * string)) (k : string) : option string :=
  match a with
  | [] => None
  | (k', v) :: a' => if String.eqb k k' then Some v else attrib_get a' k
  end.

(** The tuple the parsers return: (ts, ip, user, status, event). *)
Definition event : Type := (json * json * json * json * json)%type.

Definition jopt (o : option string) : json :=
  match o with
  | Some x => JStr x
  | None => JNull
  end.

(** ** Log type detection *)

Definition is_json (line : string) : bool :=
  Py.startswith line "{" && Py.endswith line "}".

Definition is_windows_xml (line : string) : bool := Py.startswith line "<Event".

Definition matches (r : regex) (line : string) : bool :=
  match re_match r line with
  | Some _ => true
  | None => false
  end.

(** [^\d{1,3}(\.\d{1,3}){3}.*?\[.*?\].*?\x22\w+ .*?\x22 \d+] *)
Definition NGINX_PROBE : regex :=
  seq [Bol; rep_range 1 3 d; rep 3 (Group 1 (Seq (Chr ".") (rep_range 1 3 d)));
       StarLazy dot; Chr "["; StarLazy dot; Chr "]"; StarLazy dot;
       Chr Py.dq; plus w; Chr " "; StarLazy dot; Chr Py.dq; Chr " "; plus d].

Definition is_nginx (line : string) : bool := matches NGINX_PROBE line.

(** [^\d{4}-\d{2}-\d{2}[T ]\d{2}:] *)
Definition is_iso (line : string) : bool :=
  matches (seq [Bol; rep 4 d; Chr "-"; rep 2 d; Chr "-"; rep 2 d; one_of "T "; rep 2 d; Chr ":"])
          line.

(** [^[A-Z][a-z]{2}\s+\d+\s+\d{2}:\d{2}:\d{2}] *)
Definition is_classic_syslog (line : string) : bool :=
  matches (seq [Bol; range "A" "Z"; rep 2 (range "a" "z"); plus s; plus d; plus s;
                rep 2 d; Chr ":"; rep 2 d; Chr ":"; rep 2 d])
          line.

(** ** Extractors *)

(** [(\d{1,3}(\.\d{1,3}){3})] *)
Definition extract_ip (line : string) : option string :=
  match re_search (Group 1 (Seq (rep_range 1 3 d)
                                (rep 3 (Group 2 (Seq (Chr ".") (rep_range 1 3 d)))))) line with
  | Some m => group m 1
  | None => None
  end.

Definition extract_user (line : string) : option string :=
  match re_search (seq [lit "user"; plus s; Group 1 (plus S')]) line with
  | Some m => group m 1
  | None =>
      match re_search (seq [lit "for"; plus s; Group 1 (plus S')]) line with
      | Some m2 => group m2 1
      | None => None
      end
  end.

Definition extract_sudo_user (line : string) : option string :=
  match re_search (seq [lit "sudo:"; plus s; Group 1 (plus S')]) line with
  | Some m => group m 1
  | None => None
  end.

(** ** Parsers *)

(** [parse_json]: a line [json.loads] rejects gives [None]; [.get] on a
    value that is no [dict] raises [AttributeError]. *)
Definition parse_json (line : string) : outcome (option event) :=
  match loads line with
  | None => Ret None
  | Some (JObj obj) =>
      let ts := or_ (get obj "timestamp")
                    (or_ (get obj "time") (or_ (get obj "@timestamp") (JStr "unknown"))) in
      let ip := or_ (get obj "ip") (or_ (get obj "src_ip") (get obj "source_ip")) in
      let user := get obj "user" in
      let status := get obj "status" in
      let rest := or_ (get obj "msg") (JStr "json_event") in
      if truthy (get obj "event") then Ret (Some (ts, ip, user, status, get obj "event"))
      else
        match get_default obj "alert" (JObj []) with
        | JObj alert => Ret (Some (ts, ip, user, status, or_ (get alert "signature") rest))
        | _ => Raise "AttributeError"
        end
  | Some _ => Raise "AttributeError"
  end.

Section WithXml.

(** [ET.fromstring]: the tree of a well-formed document, [None] for the
    [ParseError] of any other text. *)
Variable ET_fromstring : string -> option Element.

Definition parse_windows_xml (line : string) : outcome (option event) :=
  match ET_fromstring line with
  | None => Ret None
  | Some root =>
      let system := find root "System" in
      let data := find root "EventData" in
      let ts : outcome json :=
        match system with
        | Some sys =>
            match find sys "TimeCreated" with
            | Some tc =>
                Ret (JStr (match attrib_get (attrib tc) "SystemTime" with
                           | Some v => v
                           | None => "unknown"%string
                           end))
            | None => Raise "AttributeError"
            end
        | None => Ret (JStr "unknown")
        end in
      let event_id : outcome (option string) :=
        match system with
        | Some sys =>
            match find sys "EventID" with
            | Some e => Ret (text e)
            | None => Raise "AttributeError"
            end
        | None => Ret None
        end in
      let named (name : string) (acc : option string) (child : Element) : option string :=
        match attrib_get (attrib child) "Name" with
        | Some n => if String.eqb n name then text child else acc
        | None => acc
        end in
      let kids := match data with
                  | Some dd => children dd
                  | None => []
                  end in
      let ip := fold_left (named "IpAddress") kids None in
      let user := fold_left (named "SubjectUserName") kids None in
      match ts, event_id with
      | Raise e, _ => Raise e
      | Ret _, Raise e => Raise e
      | Ret t, Ret eid =>
          let ev := match eid with
                    | Some i => if String.eqb i "" then "windows_event"%string
                                else ("windows_event_" ++ i)%string
                    | None => "windows_event"%string
                    end in
          Ret (Some (t, jopt ip, jopt user, JNull, JStr ev))
      end
  end.

(** [([\d\.]+).*?\[(.*?)\].*?\x22.*?\x22 (\d{3})] *)
Definition NGINX_PATTERN : regex :=
  seq [Group 1 (plus (Cls (fun c => Py.isdigit c || Ascii.eqb c ".")));
       StarLazy dot; Chr "["; Group 2 (StarLazy dot); Chr "]"; StarLazy dot;
       Chr Py.dq; StarLazy dot; Chr Py.dq; Chr " "; Group 3 (rep 3 d)].

Definition parse_nginx (line : string) : option event :=
  match re_match NGINX_PATTERN line with
  | None => None
  | Some m =>
      let ts := match Datetime.strptime (group_str m 2) "%d/%b/%Y:%H:%M:%S %z" with
                | Some dt => Datetime.isoformat dt
                | None => "unknown"%string
                end in
      Some (JStr ts, JStr (group_str m 1), JNull, JStr (group_str m 3), JStr "nginx_access")
  end.

(** [^(\S+)\s+(\S+)\s+(.* )] *)
Definition parse_iso_syslog (line : string) : option event :=
  match re_match (seq [Bol; Group 1 (plus S'); plus s; Group 2 (plus S'); plus s;
                       Group 3 (Star dot)]) line with
  | None => None
  | Some m =>
      Some (JStr (group_str m 1), jopt (extract_ip line), jopt (extract_user line), JNull,
            JStr "syslog_iso")
  end.

Definition parse_classic_syslog (current_year : Z) (line : string) : option event :=
  let raw_ts := Py.take 15 line in
  let ts := match Datetime.strptime (raw_ts ++ " " ++ str_of_Z current_year)%string
                                    "%b %d %H:%M:%S %Y" with
            | Some dt => Datetime.isoformat dt
            | None => "unknown"%string
            end in
  if Py.contains "Failed password" line then
    Some (JStr ts, jopt (extract_ip line), JNull, JNull, JStr "failed_ssh")
  else if Py.contains "Accepted password" line then
    Some (JStr ts, jopt (extract_ip line), jopt (extract_user line), JNull, JStr "login_success")
  else if Py.contains "sudo:" line then
    Some (JStr ts, JNull, jopt (extract_sudo_user line), JNull, JStr "sudo_event")
  else Some (JStr ts, JNull, JNull, JNull, JStr "syslog_event").

Definition parse_generic (line : string) : option event :=
  Some (JStr "unknown", jopt (extract_ip line), JNull, JNull, JStr "generic_event").

(** ** [parse_universal] *)

Definition parse_universal (current_year : Z) (line : string) : outcome (option event) :=
  if is_json line then parse_json line
  else if is_windows_xml line then parse_windows_xml line
  else if is_nginx line then Ret (parse_nginx line)
  else if is_iso line then Ret (parse_iso_syslog line)
  else if is_classic_syslog line then Ret (parse_classic_syslog current_year line)
  else Ret (parse_generic line).

(** ** [ingest_file] *)

(** A row of the engine's table [logs]. *)
Record LogRow : Type := mkLogRow {
  r_timestamp : json; r_source : string; r_ip : json; r_user : json;
  r_status : json; r_event : json; r_raw : string
}.

(** What [_insert_event] can bind to the INSERT statement: no list, no
    dict, no integer beyond 64 bits. *)
Definition bindable (v : json) : bool :=
  match v with
  | JArr _ | JObj _ => false
  | JInt z => ((- 2 ^ 63 <=? z) && (z <? 2 ^ 63))%Z
  | _ => true
  end.

(** A tuple is truthy, so [if parsed] asks whether it is not [None].
    The loop over the lines: each line stripped, a blank one skipped,
    a line with no tuple skipped, the others inserted; [source] is
    [source_name or os.path.basename(filepath)]. *)
Fixpoint ingest_lines (current_year : Z) (source : string) (lines : list string)
    (acc : list LogRow) : outcome (list LogRow) :=
  match lines with
  | [] => Ret acc
  | line :: lines' =>
      let line := Py.strip line in
      if String.eqb line "" then ingest_lines current_year source lines' acc
      else
        match parse_universal current_year line with
        | Raise e => Raise e
        | Ret None => ingest_lines current_year source lines' acc
        | Ret (Some (ts, ip, user, status, ev)) =>
            if bindable ts && bindable ip && bindable user && bindable status && bindable ev
            then ingest_lines current_year source lines'
                   (acc ++ [mkLogRow ts source ip user status ev line])%list
            else Raise "sqlite3.Error"
        end
  end.

End WithXml.

End Engine.

(* ================================================================== *)
(** * search/query_parser.py *)
(* ================================================================== *)

Module QueryParser.
Import Re.

(** One entry of the list [clauses]; [to_sql] is the text the code
    appends for it. *)
Inductive clause : Type :=
| FieldLike (db_field value : string)   (* LOWER(f) LIKE LOWER('%v%') *)
| FieldEq (db_field value : string)     (* f='v' *)
| TsCmp (op iso : string)               (* timestamp op 'iso' *)
| FreeText (keyword_lower : string).    (* the seven-column OR *)

Definition free_text_columns : list string :=
  ["raw"; "message"; "service"; "user"; "action"; "endpoint"; "host"]%string.

Definition column_like (kw col : string) : string :=
  ("(" ++ col ++ " IS NOT NULL AND LOWER(" ++ col ++ ") LIKE '%" ++ kw ++ "%')")%string.

Definition to_sql (c : clause) : string :=
  match c with
  | FieldLike f v => "LOWER(" ++ f ++ ") LIKE LOWER('%" ++ v ++ "%')"
  | FieldEq f v => f ++ "='" ++ v ++ "'"
  | TsCmp op iso => "timestamp " ++ op ++ " '" ++ iso ++ "'"
  | FreeText kw => "(" ++ Py.join " OR " (map (column_like kw) free_text_columns) ++ ")"
  end%string.

Definition field_mappings : list (string * string) :=
  [("host", "host"); ("service", "service"); ("ip", "ip"); ("user", "user");
   ("status", "status"); ("method", "method"); ("endpoint", "endpoint");
   ("action", "action"); ("log_type", "log_type"); ("type", "log_type")]%string.

Fixpoint lookup (k : string) (m : list (string * string)) : option string :=
  match m with
  | [] => None
  | (k', v) :: m' => if String.eqb k k' then Some v else lookup k m'
  end.

Definition text_fields : list string :=
  ["service"; "message"; "user"; "host"; "endpoint"; "action"]%string.

Definition mem (x : string) (l : list string) : bool := existsb (String.eqb x) l.

(** The scanner state of [_tokenize]: the tokens so far, [current], and
    the quote that is open ([None] when [in_quotes] is false). *)
Fixpoint tokenize_aux (text : string) (tokens : list string) (current : string)
    (quote_char : option ascii) : list string :=
  match text with
  | EmptyString =>
      if String.eqb current "" then tokens else (tokens ++ [current])%list
  | String c text' =>
      match quote_char with
      | None =>
          if Ascii.eqb c Py.dq || Ascii.eqb c Py.sq then
            tokenize_aux text' tokens (current ++ String c "") (Some c)
          else if Ascii.eqb c " " then
            if String.eqb current "" then tokenize_aux text' tokens "" None
            else tokenize_aux text' (tokens ++ [current])%list "" None
          else tokenize_aux text' tokens (current ++ String c "") None
      | Some q =>
          if Ascii.eqb c q then
            tokenize_aux text' (tokens ++ [(current ++ String c "")%string])%list "" None
          else tokenize_aux text' tokens (current ++ String c "") (Some q)
      end
  end.

Definition _tokenize (text : string) : list string := tokenize_aux text [] "" None.

(** The chain of comparisons on [unit]. *)
Definition unit_seconds (unit : string) (num : Z) : option Z :=
  if String.eqb unit "m" then Some (num * 60)%Z
  else if String.eqb unit "h" then Some (num * 3600)%Z
  else if String.eqb unit "d" then Some (num * 86400)%Z
  else if String.eqb unit "w" then Some (num * 604800)%Z
  else if String.eqb unit "M" then Some (num * 2592000)%Z
  else None.

(** [(\d+)([mhdwM])] after a prefix *)
Definition amount_unit (prefix : string) : regex :=
  seq [lit prefix; Group 1 (plus d); Group 2 (one_of "mhdwM")].

Section Clock.

(** [datetime.utcnow()] *)
Variable now : Datetime.datetime.

(** The epoch branch of [_parse_earliest_latest], from the digits after
    [@] to the local [datetime]: [float], the division by 1000 above
    [1e10], [datetime.fromtimestamp].  [Ret None] is a [ValueError] or
    [OSError], which the code catches; [Raise] any other exception. *)
Variable fromtimestamp : string -> outcome (option Datetime.datetime).

(** [now - timedelta(seconds=seconds)], rendered; [OverflowError] when
    the delta or the date is out of range. *)
Definition cutoff_iso (seconds : Z) : outcome string :=
  match Datetime.sub_seconds now seconds with
  | Some t => Ret (Datetime.isoformat t)
  | None => Raise "OverflowError"
  end.

Definition _parse_time_filter (token : string) : outcome (option clause) :=
  match re_match (amount_unit "last=") (Py.lower token) with
  | None => Ret None
  | Some m =>
      let num := Py.int_of_digits (group_str m 1) in
      let unit := Py.lower (group_str m 2) in
      match unit_seconds unit num with
      | None => Ret None
      | Some seconds =>
          match cutoff_iso seconds with
          | Ret iso => Ret (Some (TsCmp ">" iso))
          | Raise e => Raise e
          end
      end
  end.

Definition cmp_of (mode : string) : string :=
  if String.eqb mode "earliest" then ">=" else "<=".

(** The absolute forms, in the order tried. *)
Definition absolute (time_value : string) : option Datetime.datetime :=
  let first :=
    if Py.contains "T" time_value
    then Datetime.fromisoformat (Py.replace_char "Z" "+00:00" time_value)
    else None in
  match first with
  | Some dt => Some dt
  | None =>
      match Datetime.strptime time_value "%Y-%m-%d %H:%M:%S" with
      | Some dt => Some dt
      | None =>
          match Datetime.strptime time_value "%Y-%m-%d" with
          | Some dt => Some dt
          | None => Datetime.strptime time_value "%b %d %Y %H:%M:%S"
          end
      end
  end.

Definition _parse_earliest_latest (token mode : string) : outcome (option clause) :=
  let pat := seq [liti (if String.eqb mode "earliest" then "earliest=" else "latest=");
                  Group 1 (plus dot)] in
  match re_match pat token with
  | None => Ret None
  | Some m0 =>
      let time_value := Py.strip (group_str m0 1) in
      match re_match (amount_unit "-") (Py.lower time_value) with
      | Some m =>
          let num := Py.int_of_digits (group_str m 1) in
          let unit := Py.lower (group_str m 2) in
          match unit_seconds unit num with
          | None => Ret None
          | Some seconds =>
              match cutoff_iso seconds with
              | Ret iso => Ret (Some (TsCmp (cmp_of mode) iso))
              | Raise e => Raise e
              end
          end
      | None =>
          if String.eqb (Py.lower time_value) "now" then
            Ret (Some (TsCmp (cmp_of mode) (Datetime.isoformat now)))
          else
            let absolute_clause :=
              match absolute time_value with
              | Some dt => Ret (Some (TsCmp (cmp_of mode) (Datetime.isoformat dt)))
              | None => Ret None
              end in
            (* @(\d+(?:\.\d+)?) *)
            match re_match (seq [Chr "@"; Group 1 (Seq (plus d) (opt (Seq (Chr ".") (plus d))))])
                           time_value with
            | Some me =>
                match fromtimestamp (group_str me 1) with
                | Ret (Some dt) => Ret (Some (TsCmp (cmp_of mode) (Datetime.isoformat dt)))
                | Ret None => absolute_clause
                | Raise e => Raise e
                end
            | None => absolute_clause
            end
      end
  end.

Definition starts_time_filter (token : string) : bool :=
  Py.startswith token "last=" || Py.startswith token "earliest="
  || Py.startswith token "latest=".

Definition opt_list (o : outcome (option clause)) : outcome (list clause) :=
  match o with
  | Ret (Some c) => Ret [c]
  | Ret None => Ret []
  | Raise e => Raise e
  end.

(** The body of the loop of [_parse_search]: what one token appends to
    [clauses]. *)
Definition parse_token (token : string) : outcome (list clause) :=
  if Py.contains "=" token && negb (Py.startswith token (String Py.dq ""))
     && negb (starts_time_filter token) then
    let key := Py.strip (Py.before_char "=" token) in
    let value :=
      Py.strip_chars (String Py.dq (String Py.sq ""))
        (match Py.after_char "=" token with Some v => v | None => EmptyString end) in
    match lookup key field_mappings with
    | Some db_field =>
        if mem db_field text_fields then Ret [FieldLike db_field value]
        else Ret [FieldEq db_field value]
    | None => Ret []
    end
  else if Py.startswith token "last=" then opt_list (_parse_time_filter token)
  else if Py.startswith token "earliest=" then opt_list (_parse_earliest_latest token "earliest")
  else if Py.startswith token "latest=" then opt_list (_parse_earliest_latest token "latest")
  else if String.eqb token "*" then Ret []
  else if Py.startswith token (String Py.dq "") && Py.endswith token (String Py.dq "") then
    Ret [FreeText (Py.lower (Py.strip_chars (String Py.dq "") token))]
  else if negb (starts_time_filter token) && negb (Py.contains "=" token) then
    Ret [FreeText (Py.lower token)]
  else Ret [].

Fixpoint parse_tokens (tokens : list string) : outcome (list clause) :=
  match tokens with
  | [] => Ret []
  | t :: ts =>
      match parse_token t with
      | Raise e => Raise e
      | Ret cs =>
          match parse_tokens ts with
          | Raise e => Raise e
          | Ret cs' => Ret (cs ++ cs')%list
          end
      end
  end.

(** The list [clauses] of [_parse_search]. *)
Definition search_clauses (search : string) : outcome (list clause) :=
  if String.eqb search "" then Ret [] else parse_tokens (_tokenize search).

Definition where_of (cs : list clause) : string :=
  match cs with
  | [] => "1=1"
  | _ => Py.join " AND " (map to_sql cs)
  end.

Definition _parse_search (search : string) : outcome string :=
  match search_clauses search with
  | Ret cs => Ret (where_of cs)
  | Raise e => Raise e
  end.

(** [parse]: the WHERE clause and the stats command. *)
Definition parse (query : string) : outcome (string * option string) :=
  let query := Py.strip query in
  if String.eqb query "" then Ret ("1=1"%string, None)
  else
    match Py.after_char "|" query with
    | Some stats_part =>
        match _parse_search (Py.strip (Py.before_char "|" query)) with
        | Ret w => Ret (w, Some (Py.strip stats_part))
        | Raise e => Raise e
        end
    | None =>
        match _parse_search query with
        | Ret w => Ret (w, None)
        | Raise e => Raise e
        end
    end.

End Clock.

End QueryParser.

(* ================================================================== *)
(** * How the store evaluates a clause

    The WHERE clause is run by SQLite, which knows nothing of how the
    clause was put together: [compile] reads the text of the clause,
    character by character, into the expression SQLite makes of it, and
    [eval] gives that expression its value on a row. *)
(* ================================================================== *)

Module Sql.
(** [text LIKE pattern]: [%] stands for any run of characters, [_] for
    any one character, and ASCII letters match without regard to case. *)
Fixpoint like (pattern text : string) {struct pattern} : bool :=
  match pattern with
  | EmptyString => String.eqb text ""
  | String p pattern' =>
      if Ascii.eqb p "%" then
        (fix any_run (t : string) : bool :=
           like pattern' t
           || match t with
              | EmptyString => false
              | String _ t' => any_run t'
              end) text
      else
        match text with
        | EmptyString => false
        | String t text' =>
            (Ascii.eqb p "_" || Ascii.eqb (Py.lower_char p) (Py.lower_char t))
            && like pattern' text'
        end
  end.

(** A value of SQLite: NULL, an integer, a text. *)
Inductive sqlvalue : Type :=
| SNull
| SInt (z : Z)
| SText (t : string).

(** ** The words of a WHERE clause

    The part of SQLite's tokenizer and grammar that the clauses of
    [QueryParser] are written in: names, integer and string literals,
    parentheses, comparisons, [AND], [OR], [NOT], [IS NULL],
    [IS NOT NULL], [LIKE] and the function [LOWER].  A text with anything
    else in it has no reading here: [None] stands for what SQLite
    refuses and for what this reading leaves out alike. *)

Inductive token : Type :=
| TWord (w : string)       (* a name or a keyword, as written *)
| TStr (t : string)        (* 'text', a doubled quote inside standing for one *)
| TInt (digits : string)
| TLp | TRp
| TEq | TNe | TLt | TLe | TGt | TGe.

(** Where the scanner stands: between tokens, in white space, in a
    word, in a number, in a string, after a quote inside a string (the
    end of the string unless a second quote follows), after [=], [<],
    [>] or [!]. *)
Inductive lstate : Type :=
| LStart | LSpace
| LWord (cur : string) | LNum (cur : string)
| LStr (cur : string) | LQuote (cur : string)
| LEq | LLt | LGt | LBang.

Definition nul : ascii := ascii_of_nat 0.

(** White space opens with a blank, tab, line feed, form feed or return
    and goes on over these and the vertical tab. *)
Definition space_start (c : ascii) : bool :=
  Py.mem_char c (String " " (String Py.tab (String Py.nl
                   (String (ascii_of_nat 12) (String (ascii_of_nat 13) ""))))).

Definition space_more (c : ascii) : bool :=
  space_start c || Ascii.eqb c (ascii_of_nat 11).

Definition word_start (c : ascii) : bool := Py.isalpha c || Ascii.eqb c "_".
Definition word_more (c : ascii) : bool := Py.isalnum c || Ascii.eqb c "_".

(** A character that would go on a word or a number in SQLite but not
    here: the dollar sign and the bytes above 127. *)
Definition word_other (c : ascii) : bool :=
  Ascii.eqb c "$" || (128 <=? Py.code c)%nat.

(** The scanner at the first character of a token. *)
Definition start (c : ascii) (acc : list token) : option (lstate * list token) :=
  if space_start c then Some (LSpace, acc)
  else if word_start c then Some (LWord (String c ""), acc)
  else if Py.isdigit c then Some (LNum (String c ""), acc)
  else if Ascii.eqb c Py.sq then Some (LStr "", acc)
  else if Ascii.eqb c "(" then Some (LStart, acc ++ [TLp])%list
  else if Ascii.eqb c ")" then Some (LStart, acc ++ [TRp])%list
  else if Ascii.eqb c "=" then Some (LEq, acc)
  else if Ascii.eqb c "<" then Some (LLt, acc)
  else if Ascii.eqb c ">" then Some (LGt, acc)
  else if Ascii.eqb c "!" then Some (LBang, acc)
  else None.

Definition step (st : lstate) (c : ascii) (acc : list token)
    : option (lstate * list token) :=
  if Ascii.eqb c nul then None
  else
    match st with
    | LStart => start c acc
    | LSpace => if space_more c then Some (LSpace, acc) else start c acc
    | LWord cur =>
        if word_more c then Some (LWord (cur ++ String c ""), acc)
        else if word_other c then None
        else if Ascii.eqb c Py.sq && String.eqb (Py.lower cur) "x" then None
        else start c (acc ++ [TWord cur])%list
    | LNum cur =>
        if Py.isdigit c then Some (LNum (cur ++ String c ""), acc)
        else if word_more c || word_other c || Ascii.eqb c "." then None
        else start c (acc ++ [TInt cur])%list
    | LStr cur =>
        if Ascii.eqb c Py.sq then Some (LQuote cur, acc)
        else Some (LStr (cur ++ String c ""), acc)
    | LQuote cur =>
        if Ascii.eqb c Py.sq then Some (LStr (cur ++ String Py.sq ""), acc)
        else start c (acc ++ [TStr cur])%list
    | LEq =>
        if Ascii.eqb c "=" then Some (LStart, acc ++ [TEq])%list
        else start c (acc ++ [TEq])%list
    | LLt =>
        if Ascii.eqb c "=" then Some (LStart, acc ++ [TLe])%list
        else if Ascii.eqb c ">" then Some (LStart, acc ++ [TNe])%list
        else if Ascii.eqb c "<" then None
        else start c (acc ++ [TLt])%list
    | LGt =>
        if Ascii.eqb c "=" then Some (LStart, acc ++ [TGe])%list
        else if Ascii.eqb c ">" then None
        else start c (acc ++ [TGt])%list
    | LBang =>
        if Ascii.eqb c "=" then Some (LStart, acc ++ [TNe])%list else None
    end.

Definition finish (st : lstate) (acc : list token) : option (list token) :=
  match st with
  | LStart | LSpace => Some acc
  | LWord cur => Some (acc ++ [TWord cur])%list
  | LNum cur => Some (acc ++ [TInt cur])%list
  | LStr _ => None
  | LQuote cur => Some (acc ++ [TStr cur])%list
  | LEq => Some (acc ++ [TEq])%list
  | LLt => Some (acc ++ [TLt])%list
  | LGt => Some (acc ++ [TGt])%list
  | LBang => None
  end.

Fixpoint scan (text : string) (st : lstate) (acc : list token) : option (list token) :=
  match text with
  | EmptyString => finish st acc
  | String c text' =>
      match step st c acc with
      | Some (st', acc') => scan text' st' acc'
      | None => None
      end
  end.

Definition tokens (text : string) : option (list token) := scan text LStart [].

Inductive cmp : Type := CEq | CNe | CLt | CLe | CGt | CGe.

Inductive expr : Type :=
| ENull
| EInt (z : Z)
| EText (t : string)
| ECol (name : string)
| ELower (e : expr)
| ENot (e : expr)
| EAnd (a b : expr)
| EOr (a b : expr)
| ECmp (op : cmp) (a b : expr)
| EIsNull (negated : bool) (e : expr)
| ELike (negated : bool) (text pattern : expr).

Definition is_word (k : string) (t : token) : bool :=
  match t with
  | TWord w => String.eqb (Py.lower w) k
  | _ => false
  end.

(** The columns of the table [logs] that a [Row] holds, all but [size]
    declared TEXT. *)
Definition text_columns : list string :=
  ["log_type"; "timestamp"; "host"; "service"; "message"; "ip"; "method"; "endpoint";
   "status"; "user"; "action"; "raw"].

Definition known_column (k : string) : bool :=
  String.eqb k "size" || existsb (String.eqb k) text_columns.

(** An integer literal of more than 18 digits may not fit 64 bits,
    where SQLite reads it as a real number. *)
Definition int_literal (digits : string) : option Z :=
  if (String.length digits <=? 18)%nat then Some (Py.int_of_digits digits) else None.

(** The grammar, the loosest operator first: [OR], [AND], [NOT], then
    [=], [<>], [IS], [LIKE], then [<], [<=], [>], [>=], then the
    operands; operators of one level group to the left. *)
Fixpoint p_or (n : nat) (ts : list token) {struct n} : option (expr * list token) :=
  match n with
  | O => None
  | S n' =>
      match p_and n' ts with
      | Some (a, r) => p_or_more n' a r
      | None => None
      end
  end
with p_or_more (n : nat) (a : expr) (ts : list token) {struct n}
    : option (expr * list token) :=
  match n with
  | O => None
  | S n' =>
      match ts with
      | t :: r =>
          if is_word "or" t then
            match p_and n' r with
            | Some (b, r') => p_or_more n' (EOr a b) r'
            | None => None
            end
          else Some (a, ts)
      | [] => Some (a, ts)
      end
  end
with p_and (n : nat) (ts : list token) {struct n} : option (expr * list token) :=
  match n with
  | O => None
  | S n' =>
      match p_not n' ts with
      | Some (a, r) => p_and_more n' a r
      | None => None
      end
  end
with p_and_more (n : nat) (a : expr) (ts : list token) {struct n}
    : option (expr * list token) :=
  match n with
  | O => None
  | S n' =>
      match ts with
      | t :: r =>
          if is_word "and" t then
            match p_not n' r with
            | Some (b, r') => p_and_more n' (EAnd a b) r'
            | None => None
            end
          else Some (a, ts)
      | [] => Some (a, ts)
      end
  end
with p_not (n : nat) (ts : list token) {struct n} : option (expr * list token) :=
  match n with
  | O => None
  | S n' =>
      match ts with
      | t :: r =>
          if is_word "not" t then
            match p_not n' r with
            | Some (e, r') => Some (ENot e, r')
            | None => None
            end
          else p_eq n' ts
      | [] => None
      end
  end
with p_eq (n : nat) (ts : list token) {struct n} : option (expr * list token) :=
  match n with
  | O => None
  | S n' =>
      match p_cmp n' ts with
      | Some (a, r) => p_eq_more n' a r
      | None => None
      end
  end
with p_eq_more (n : nat) (a : expr) (ts : list token) {struct n}
    : option (expr * list token) :=
  match n with
  | O => None
  | S n' =>
      let like_tail (negated : bool) (r : list token) :=
        match p_cmp n' r with
        | Some (b, r') =>
            match r' with
            | t :: _ => if is_word "escape" t then None
                        else p_eq_more n' (ELike negated a b) r'
            | [] => p_eq_more n' (ELike negated a b) r'
            end
        | None => None
        end in
      match ts with
      | TEq :: r =>
          match p_cmp n' r with
          | Some (b, r') => p_eq_more n' (ECmp CEq a b) r'
          | None => None
          end
      | TNe :: r =>
          match p_cmp n' r with
          | Some (b, r') => p_eq_more n' (ECmp CNe a b) r'
          | None => None
          end
      | TWord w :: r =>
          if String.eqb (Py.lower w) "is" then
            match r with
            | t1 :: r1 =>
                if is_word "null" t1 then p_eq_more n' (EIsNull false a) r1
                else if is_word "not" t1 then
                  match r1 with
                  | t2 :: r2 =>
                      if is_word "null" t2 then p_eq_more n' (EIsNull true a) r2 else None
                  | [] => None
                  end
                else None
            | [] => None
            end
          else if String.eqb (Py.lower w) "like" then like_tail false r
          else if String.eqb (Py.lower w) "not" then
            match r with
            | t1 :: r1 => if is_word "like" t1 then like_tail true r1 else None
            | [] => None
            end
          else Some (a, ts)
      | _ => Some (a, ts)
      end
  end
with p_cmp (n : nat) (ts : list token) {struct n} : option (expr * list token) :=
  match n with
  | O => None
  | S n' =>
      match p_primary n' ts with
      | Some (a, r) => p_cmp_more n' a r
      | None => None
      end
  end
with p_cmp_more (n : nat) (a : expr) (ts : list token) {struct n}
    : option (expr * list token) :=
  match n with
  | O => None
  | S n' =>
      let tail (op : cmp) (r : list token) :=
        match p_primary n' r with
        | Some (b, r') => p_cmp_more n' (ECmp op a b) r'
        | None => None
        end in
      match ts with
      | TLt :: r => tail CLt r
      | TLe :: r => tail CLe r
      | TGt :: r => tail CGt r
      | TGe :: r => tail CGe r
      | _ => Some (a, ts)
      end
  end
with p_primary (n : nat) (ts : list token) {struct n} : option (expr * list token) :=
  match n with
  | O => None
  | S n' =>
      match ts with
      | TStr t :: r => Some (EText t, r)
      | TInt digits :: r =>
          match int_literal digits with
          | Some z => Some (EInt z, r)
          | None => None
          end
      | TLp :: r =>
          match p_or n' r with
          | Some (e, TRp :: r') => Some (e, r')
          | _ => None
          end
      | TWord w :: r =>
          if String.eqb (Py.lower w) "null" then Some (ENull, r)
          else
            match r with
            | TLp :: r1 =>
                if String.eqb (Py.lower w) "lower" then
                  match p_or n' r1 with
                  | Some (e, TRp :: r') => Some (ELower e, r')
                  | _ => None
                  end
                else None
            | _ => if known_column (Py.lower w) then Some (ECol (Py.lower w), r) else None
            end
      | _ => None
      end
  end.

Fixpoint height (e : expr) : nat :=
  match e with
  | ENull | EInt _ | EText _ | ECol _ => 1
  | ELower a | ENot a | EIsNull _ a => S (height a)
  | EAnd a b | EOr a b | ECmp _ a b | ELike _ a b => S (Nat.max (height a) (height b))
  end.

(** SQLite refuses an expression deeper than this. *)
Definition max_expr_depth : nat := 1000.

(** The expression a WHERE clause is read as. *)
Definition compile (where_clause : string) : option expr :=
  match tokens where_clause with
  | Some ts =>
      match p_or (8 * S (List.length ts)) ts with
      | Some (e, []) => if (height e <=? max_expr_depth)%nat then Some e else None
      | _ => None
      end
  | None => None
  end.

(** ** The value of an expression on a row *)

Definition field (r : Indexer.Row) (name : string) : value :=
  if String.eqb name "log_type" then VStr (Indexer.log_type r)
  else if String.eqb name "timestamp" then Indexer.timestamp r
  else if String.eqb name "host" then Indexer.host r
  else if String.eqb name "service" then Indexer.service r
  else if String.eqb name "message" then Indexer.message r
  else if String.eqb name "ip" then Indexer.ip r
  else if String.eqb name "method" then Indexer.method r
  else if String.eqb name "endpoint" then Indexer.endpoint r
  else if String.eqb name "status" then Indexer.status r
  else if String.eqb name "user" then Indexer.user r
  else if String.eqb name "action" then Indexer.action r
  else VStr (Indexer.raw r).

(** What a column holds: a TEXT column keeps a number as its decimal
    text; [size] keeps an integer of 64 bits, and a text in it has no
    reading here. *)
Definition column_value (r : Indexer.Row) (name : string) : option sqlvalue :=
  if String.eqb name "size" then
    match Indexer.size r with
    | VNone => Some SNull
    | VInt z => if Indexer.bindable (VInt z) then Some (SInt z) else None
    | VStr _ => None
    end
  else if existsb (String.eqb name) text_columns then
    match field r name with
    | VNone => Some SNull
    | VStr t => Some (SText t)
    | VInt z => Some (SText (str_of_Z z))
    end
  else None.

(** Whether a value counts as true: NULL is neither ([None]); a text
    counts as the number it opens with, which is 0 for a text that
    opens with no digit, sign, point or white space; the other texts
    have no reading here. *)
Definition truth (v : sqlvalue) : option (option bool) :=
  match v with
  | SNull => Some None
  | SInt z => Some (Some (negb (Z.eqb z 0)))
  | SText EmptyString => Some (Some false)
  | SText (String c _) =>
      if Py.isdigit c || space_more c || Py.mem_char c "+-." then None
      else Some (Some false)
  end.

Definition of_truth (b : option bool) : sqlvalue :=
  match b with
  | Some true => SInt 1
  | Some false => SInt 0
  | None => SNull
  end.

Definition and3 (a b : option bool) : option bool :=
  match a, b with
  | Some false, _ | _, Some false => Some false
  | Some true, Some true => Some true
  | _, _ => None
  end.

Definition or3 (a b : option bool) : option bool :=
  match a, b with
  | Some true, _ | _, Some true => Some true
  | Some false, Some false => Some false
  | _, _ => None
  end.

(** The text of a value that is not NULL. *)
Definition text_of (v : sqlvalue) : option string :=
  match v with
  | SNull => None
  | SInt z => Some (str_of_Z z)
  | SText t => Some t
  end.

(** The affinity an operand brings to a comparison. *)
Inductive affinity : Type := ANone | AText | ANumeric.

Definition affinity_of (e : expr) : affinity :=
  match e with
  | ECol name => if String.eqb name "size" then ANumeric else AText
  | _ => ANone
  end.

(** The affinity applied to the two operands of a comparison. *)
Definition comparison_affinity (a b : affinity) : affinity :=
  match a, b with
  | ANumeric, _ | _, ANumeric => ANumeric
  | AText, ANone | ANone, AText => AText
  | _, _ => ANone
  end.

(** A value under an affinity; the reading of a text as a number is
    left out. *)
Definition apply_affinity (a : affinity) (v : sqlvalue) : option sqlvalue :=
  match a, v with
  | ANumeric, SText _ => None
  | AText, SInt z => Some (SText (str_of_Z z))
  | _, _ => Some v
  end.

(** The order of two values that are not NULL: an integer comes before
    a text, integers by size, texts byte by byte. *)
Definition less (a b : sqlvalue) : bool :=
  match a, b with
  | SInt x, SInt y => (x <? y)%Z
  | SInt _, SText _ => true
  | SText x, SText y => Py.ltb x y
  | _, _ => false
  end.

Definition same (a b : sqlvalue) : bool :=
  match a, b with
  | SInt x, SInt y => (x =? y)%Z
  | SText x, SText y => String.eqb x y
  | _, _ => false
  end.

Definition compare (op : cmp) (a b : sqlvalue) : sqlvalue :=
  match a, b with
  | SNull, _ | _, SNull => SNull
  | _, _ =>
      of_truth (Some (match op with
                      | CEq => same a b
                      | CNe => negb (same a b)
                      | CLt => less a b
                      | CLe => negb (less b a)
                      | CGt => less b a
                      | CGe => negb (less a b)
                      end))
  end.

(** SQLite refuses a LIKE pattern longer than this. *)
Definition max_like_pattern : Z := 50000.

Definition has_nul (t : string) : bool := Py.mem_char nul t.

(** [text LIKE pattern]; a text or pattern that holds a NUL has no
    reading here. *)
Definition like_value (negated : bool) (text pattern : sqlvalue) : option sqlvalue :=
  match text_of text, text_of pattern with
  | Some t, Some p =>
      if has_nul t || has_nul p || (max_like_pattern <? Z.of_nat (String.length p))%Z then None
      else Some (of_truth (Some (xorb negated (like p t))))
  | _, _ => Some SNull
  end.

Fixpoint eval (e : expr) (r : Indexer.Row) : option sqlvalue :=
  match e with
  | ENull => Some SNull
  | EInt z => Some (SInt z)
  | EText t => Some (SText t)
  | ECol name => column_value r name
  | ELower a =>
      match eval a r with
      | Some v =>
          Some (match text_of v with
                | Some t => SText (Py.lower t)
                | None => SNull
                end)
      | None => None
      end
  | ENot a =>
      match eval a r with
      | Some v =>
          match truth v with
          | Some b => Some (of_truth (option_map negb b))
          | None => None
          end
      | None => None
      end
  | EAnd a b =>
      match eval a r, eval b r with
      | Some va, Some vb =>
          match truth va, truth vb with
          | Some ta, Some tb => Some (of_truth (and3 ta tb))
          | _, _ => None
          end
      | _, _ => None
      end
  | EOr a b =>
      match eval a r, eval b r with
      | Some va, Some vb =>
          match truth va, truth vb with
          | Some ta, Some tb => Some (of_truth (or3 ta tb))
          | _, _ => None
          end
      | _, _ => None
      end
  | ECmp op a b =>
      let aff := comparison_affinity (affinity_of a) (affinity_of b) in
      match eval a r, eval b r with
      | Some va, Some vb =>
          match apply_affinity aff va, apply_affinity aff vb with
          | Some va', Some vb' => Some (compare op va' vb')
          | _, _ => None
          end
      | _, _ => None
      end
  | EIsNull negated a =>
      match eval a r with
      | Some SNull => Some (of_truth (Some (negb negated)))
      | Some _ => Some (of_truth (Some negated))
      | None => None
      end
  | ELike negated a p =>
      match eval a r, eval p r with
      | Some va, Some vp => like_value negated va vp
      | _, _ => None
      end
  end.

(** Whether the WHERE clause selects the row: a row is selected when
    the clause is true of it, not when it is false or NULL. *)
Definition selects (where_clause : string) (r : Indexer.Row) : option bool :=
  match compile where_clause with
  | Some e =>
      match eval e r with
      | Some v =>
          match truth v with
          | Some (Some true) => Some true
          | Some _ => Some false
          | None => None
          end
      | None => None
      end
  | None => None
  end.

End Sql.

(* ================================================================== *)
(** * search/query_engine.py: the stats functions *)
(* ================================================================== *)

Module QueryEngine.
Import Re.

(** [r.get(field) or 'null'] *)
Definition group_key (r : dict) (field : string) : value :=
  let v := dict_get r field in
  if truthy v then v else VStr "null".

(** [counts[key] = counts.get(key, 0) + 1] on a dict kept in insertion
    order. *)
Fixpoint bump {K : Type} (eqb : K -> K -> bool) (counts : list (K * Z)) (key : K)
    : list (K * Z) :=
  match counts with
  | [] => [(key, 1%Z)]
  | (k, n) :: counts' =>
      if eqb k key then (k, (n + 1)%Z) :: counts'
      else (k, n) :: bump eqb counts' key
  end.

(** The loop that fills [counts]. *)
Definition tally (results : list dict) (field : string) : list (value * Z) :=
  fold_left (fun counts r => bump value_eqb counts (group_key r field)) results [].

(** [sorted(items, key=lambda x: x[1], reverse=True)]: a stable sort,
    larger counts first, equal counts in their first order. *)
Fixpoint insert_desc {K : Type} (x : K * Z) (l : list (K * Z)) : list (K * Z) :=
  match l with
  | [] => [x]
  | y :: l' => if (snd x <? snd y)%Z then y :: insert_desc x l' else x :: l
  end.

Fixpoint sort_desc {K : Type} (l : list (K * Z)) : list (K * Z) :=
  match l with
  | [] => []
  | x :: l' => insert_desc x (sort_desc l')
  end.

Definition value_row (kv : value * Z) : dict :=
  [("value", fst kv); ("count", VInt (snd kv))]%string.

Definition _count_by (results : list dict) (field : string) : list dict :=
  map value_row (sort_desc (tally results field)).

Definition _top (results : list dict) (n : nat) (field : string) : list dict :=
  map value_row (firstn n (sort_desc (tally results field))).

(** The [datetime] read from the text of a timestamp; [None] when the
    reading raises. *)
Definition read_timestamp (ts_str : string) : option Datetime.datetime :=
  if Py.contains "T" ts_str
  then Datetime.fromisoformat (Py.replace_char "Z" "+00:00" ts_str)
  else Datetime.strptime ts_str "%Y-%m-%d %H:%M:%S".

(** The key of the bucket [dt] falls in. *)
Definition bucket_of (interval : string) (dt : Datetime.datetime) : string :=
  if String.eqb interval "1m" || String.eqb interval "minute" then
    Datetime.strftime dt "%Y-%m-%d %H:%M:00"
  else if String.eqb interval "5m" then
    let dt5 := Datetime.mkDatetime
                 (Datetime.year dt) (Datetime.month dt) (Datetime.day dt)
                 (Datetime.hour dt) ((Datetime.minute dt / 5) * 5)%Z 0
                 (Datetime.microsecond dt) (Datetime.tzinfo dt) in
    Datetime.strftime dt5 "%Y-%m-%d %H:%M:00"
  else if String.eqb interval "1h" || String.eqb interval "hour" then
    Datetime.strftime dt "%Y-%m-%d %H:00:00"
  else if String.eqb interval "1d" || String.eqb interval "day" then
    Datetime.strftime dt "%Y-%m-%d"
  else Datetime.strftime dt "%Y-%m-%d %H:00:00".

(** The bucket of one record's timestamp; [None] when the record is
    skipped: no timestamp, or an exception while reading it (an integer
    is no text to search for T). *)
Definition bucket_key (interval : string) (ts : value) : option string :=
  match ts with
  | VStr ts_str =>
      if String.eqb ts_str "" then None
      else option_map (bucket_of interval) (read_timestamp ts_str)
  | VNone => None
  | VInt _ => None
  end.

(** The loop that fills [buckets]. *)
Definition fill_buckets (results : list dict) (interval : string) : list (string * Z) :=
  fold_left (fun buckets r =>
               match bucket_key interval (dict_get r "timestamp") with
               | Some k => bump String.eqb buckets k
               | None => buckets
               end) results [].

(** [sorted(buckets.items())]: ascending by key (keys differ, so the
    counts never decide). *)
Fixpoint insert_asc (x : string * Z) (l : list (string * Z)) : list (string * Z) :=
  match l with
  | [] => [x]
  | y :: l' => if Py.ltb (fst y) (fst x) then y :: insert_asc x l' else x :: l
  end.

Fixpoint sort_asc (l : list (string * Z)) : list (string * Z) :=
  match l with
  | [] => []
  | x :: l' => insert_asc x (sort_asc l')
  end.

Definition time_row (kv : string * Z) : dict :=
  [("time", VStr (fst kv)); ("count", VInt (snd kv))]%string.

Definition _time_bucket (results : list dict) (interval : string) : list dict :=
  map time_row (sort_asc (fill_buckets results interval)).

(** [row[field] = r.get(field, '')] for each field. *)
Definition _table (results : list dict) (fields : list string) : list dict :=
  map (fun r => fold_left (fun row f => dict_set row f (dict_get_default r f (VStr "")))
                          fields []) results.

(** [s.split(',')] *)
Fixpoint split_comma_aux (s cur : string) : list string :=
  match s with
  | EmptyString => [cur]
  | String c s' =>
      if Ascii.eqb c "," then cur :: split_comma_aux s' EmptyString
      else split_comma_aux s' (cur ++ String c EmptyString)
  end.

Definition split_comma (s : string) : list string := split_comma_aux s EmptyString.

(** [_run_stats]: the command is stripped and lowered, then matched
    against each form in turn. *)
Definition _run_stats (results : list dict) (stats_cmd : string) : list dict :=
  let stats_cmd := Py.lower (Py.strip stats_cmd) in
  (* count_by\((\w+)\) *)
  match re_match (seq [lit "count_by("; Group 1 (plus w); Chr ")"]) stats_cmd with
  | Some m => _count_by results (group_str m 1)
  | None =>
  (* top\((\d+),\s*(\w+)\) *)
  match re_match (seq [lit "top("; Group 1 (plus d); Chr ","; Star s; Group 2 (plus w); Chr ")"])
                 stats_cmd with
  | Some m => _top results (Z.to_nat (Py.int_of_digits (group_str m 1))) (group_str m 2)
  | None =>
  (* time_bucket\((\w+)\) *)
  match re_match (seq [lit "time_bucket("; Group 1 (plus w); Chr ")"]) stats_cmd with
  | Some m => _time_bucket results (group_str m 1)
  | None =>
  (* table\(([^)]+)\) *)
  match re_match (seq [lit "table("; Group 1 (plus (none_of ")")); Chr ")"]) stats_cmd with
  | Some m => _table results (map Py.strip (split_comma (group_str m 1)))
  | None =>
      if String.eqb stats_cmd "stats count" || String.eqb stats_cmd "count" then
        [[("count", VInt (Z.of_nat (List.length results)))]]%string
      else [[("error", VStr ("Unknown stats command: " ++ stats_cmd))]]%string
  end end end end.

Section Search.

Variable now : Datetime.datetime.
Variable fromtimestamp : string -> outcome (option Datetime.datetime).
Variable execute : string -> nat -> outcome (list dict).

(** [search]: parse, query the index with the default limit, run the
    stats command when there is one ([if stats_cmd] is false for the
    empty text too); an exception becomes an error row, the string a
    [Raise] carries standing for its text. *)
Definition search (query : string) : list dict :=
  match QueryParser.parse now fromtimestamp query with
  | Raise e => [[("error", VStr e)]]
  | Ret (where_clause, stats_cmd) =>
      let results := Indexer.query execute where_clause 1000 in
      match stats_cmd with
      | Some cmd => if String.eqb cmd "" then results else _run_stats results cmd
      | None => results
      end
  end.

End Search.

End QueryEngine.

(* ================================================================== *)
(** * Properties *)
(* ================================================================== *)

(** ** Vocabulary of the properties *)

(** A text between double quotes. *)
Definition quoted (t : string) : string := String Py.dq (t ++ String Py.dq "").

Definition newline : string := String Py.nl "".

(** The web-access line of the specification's example. *)
Definition access_line : string :=
  "192.168.1.1 - - [13/Feb/2025:11:22:33 +0000] " ++ quoted "GET /api/users HTTP/1.1"
  ++ " 200 1234".

(** The text between the brackets of a web-access line that no format
    parses, and a line of the engine's nginx form that carries it. *)
Definition bad_stamp : string := "yesterday".

Definition bad_stamp_line : string :=
  "10.0.0.7 - - [" ++ bad_stamp ++ "] " ++ quoted "GET /index.html HTTP/1.1" ++ " 200 512".

Definition total (counts : list Z) : Z := fold_right Z.add 0%Z counts.

(** How often [k] occurs in [keys]. *)
Definition occurrences {K : Type} (eqb : K -> K -> bool) (k : K) (keys : list K) : Z :=
  Z.of_nat (List.length (filter (fun x => eqb x k) keys)).

(** The count a dict holds for [k], 0 when [k] is no key. *)
Fixpoint held {K : Type} (eqb : K -> K -> bool) (k : K) (counts : list (K * Z)) : Z :=
  match counts with
  | [] => 0%Z
  | (k', n) :: counts' => if eqb k' k then n else held eqb k counts'
  end.

(** What the counting loop leaves: starting from [counts], after the
    keys [keys]. *)
Definition counted {K : Type} (eqb : K -> K -> bool) (keys : list K)
    (counts : list (K * Z)) : list (K * Z) :=
  fold_left (QueryEngine.bump eqb) keys counts.

(** The order of the rows of [count_by]: the count does not rise. *)
Definition falls {K : Type} (a b : K * Z) : Prop := (snd b <= snd a)%Z.

(** The keys the records are grouped under, record by record. *)
Definition keys_of (results : list dict) (field : string) : list value :=
  map (fun r => QueryEngine.group_key r field) results.

Definition two_sizes : list dict := [[("size", VInt 0)]; [("size", VNone)]]%string.

(** Two records take the same place in a count by [field]: they hold
    the same value, or both hold a falsy one. *)
Definition same_group (field : string) (r r' : dict) : Prop :=
  dict_get r field = dict_get r' field
  \/ (truthy (dict_get r field) = false /\ truthy (dict_get r' field) = false).

(** The order of the rows of [time_bucket]: the key rises. *)
Definition key_rises (a b : string * Z) : Prop := Py.ltb (fst a) (fst b) = true.

(** The keys of the records that are not skipped, in order. *)
Definition bucket_keys (results : list dict) (interval : string) : list string :=
  flat_map (fun r => match QueryEngine.bucket_key interval (dict_get r "timestamp") with
                     | Some k => [k]
                     | None => []
                     end) results.

Definition stamped (ts : string) : dict := [("timestamp", VStr ts)]%string.

(** The rows one entry of a batch leaves in the store: none when
    [add_log] fails. *)
Definition stored (e : string * dict * string) : list Indexer.Row :=
  let '(lt, pd, rl) := e in
  if Indexer.bindable (Indexer.size (Indexer.row_of lt pd rl))
  then [Indexer.row_of lt pd rl] else [].

Definition batch_rows (b : list (string * dict * string)) : list Indexer.Row :=
  flat_map stored b.

(** The rows the lines of a file leave in the store, the loop starting
    with the log type [lt]. *)
Fixpoint lines_rows (current_year : Z) (lt : string) (lines : list string)
    : list Indexer.Row :=
  match lines with
  | [] => []
  | line :: lines' =>
      let l := Py.strip line in
      if String.eqb l "" then lines_rows current_year lt lines'
      else
        match LogIngester.parse_line current_year lt l with
        | (Some pd, lt') => (stored (lt', pd, l) ++ lines_rows current_year lt' lines')%list
        | (None, lt') => lines_rows current_year lt' lines'
        end
  end.

Definition known_types : list string := ["syslog"; "access"; "auth"]%string.

(** The parser of a known log type. *)
Definition parser_of (current_year : Z) (log_type line : string) : option dict :=
  if String.eqb log_type "syslog" then SyslogParser.parse current_year line
  else if String.eqb log_type "access" then AccessParser.parse line
  else AuthParser.parse current_year line.

(** The rows one line leaves when the whole file is of type [log_type]. *)
Definition line_rows (current_year : Z) (log_type line : string) : list Indexer.Row :=
  let l := Py.strip line in
  if String.eqb l "" then []
  else
    match parser_of current_year log_type l with
    | Some pd => stored (log_type, pd, l)
    | None => []
    end.

Definition syslog_line : string := "Jan 12 11:33:22 host cron[77]: job done".

Definition mixed_lines : list string := [syslog_line ++ newline; access_line ++ newline].

(** Of a stored row, its type and its raw text. *)
Definition type_and_raw (r : Indexer.Row) : string * string :=
  (Indexer.log_type r, Indexer.raw r).


(** [pattern] matches some tail of [text]: what a leading [%] asks. *)
Fixpoint any_run (pattern text : string) : bool :=
  Sql.like pattern text
  || match text with
     | EmptyString => false
     | String _ text' => any_run pattern text'
     end.

(** A keyword with no LIKE wildcard in it. *)
Definition wild_free (kw : string) : Prop :=
  Py.mem_char "%" kw = false /\ Py.mem_char "_" kw = false.

Definition failed_login_row : Indexer.Row :=
  Indexer.mkRow "syslog" (VStr "2025-01-12T11:33:22") (VStr "host") (VStr "sshd[1234]")
    (VStr "FAILED PASSWORD for bob from 1.2.3.4") VNone VNone VNone VNone (VInt 0) VNone VNone
    "Jan 12 11:33:22 host sshd[1234]: FAILED PASSWORD for bob from 1.2.3.4".

Inductive probe : Type := PJson | PXml | PNginx | PIso | PClassic | PGeneric.

(** The first probe, in the order of [parse_universal], that a line
    passes; [PGeneric] when it passes none. *)
Definition first_probe (line : string) : probe :=
  if Engine.is_json line then PJson
  else if Engine.is_windows_xml line then PXml
  else if Engine.is_nginx line then PNginx
  else if Engine.is_iso line then PIso
  else if Engine.is_classic_syslog line then PClassic
  else PGeneric.

Definition broken_json_line : string := "{not json}".

(** The state of the loop of [ingest_file] after the lines of a file. *)
Definition loop_end (current_year : Z) (log_type : string) (st : Indexer.store)
    (lines : list string) : LogIngester.state :=
  fold_left (LogIngester.step current_year) lines (LogIngester.mkState log_type [] 0 0 st).

(** The lines that are not blank. *)
Definition nonblank (lines : list string) : list string :=
  filter (fun line => negb (String.eqb (Py.strip line) "")) lines.

(** The row [_table] makes of one record. *)
Definition table_row (fields : list string) (r : dict) : dict :=
  fold_left (fun row f => dict_set row f (dict_get_default r f (VStr ""))) fields [].

(** What the loop of [ingest_file] keeps true of its state: nothing is
    counted, batched or written yet, or something is counted and is in
    the batch or committed. *)
Definition settled (st : Indexer.store) (s : LogIngester.state) : Prop :=
  (LogIngester.count s = 0 /\ LogIngester.batch s = [] /\ LogIngester.db s = st)
  \/ (0 < LogIngester.count s
      /\ (LogIngester.batch s <> [] \/ Indexer.pending (LogIngester.db s) = [])).

(** Every character of [s] passes [p]. *)
Fixpoint all_chars (p : ascii -> bool) (s : string) : bool :=
  match s with
  | EmptyString => true
  | String c s' => p c && all_chars p s'
  end.

(** What the greedy star of a class does: the longest run first, then
    one character less at a time. *)
Fixpoint star_cls (p : ascii -> bool) (k : Re.mstate -> option Re.mstate)
    (pos : nat) (caps : list (nat * (nat * nat))) (text : string) : option Re.mstate :=
  match text with
  | String a text' =>
      if p a then
        Re.or_else (star_cls p k (S pos) caps text') (fun _ => k (Re.MState pos text caps))
      else k (Re.MState pos text caps)
  | EmptyString => k (Re.MState pos text caps)
  end.

Definition error_row (text : string) : dict := [("error", VStr text)].

(** The text of a clause that comes from the query, the rest of
    [to_sql] being fixed. *)
Definition user_text (c : QueryParser.clause) : string :=
  match c with
  | QueryParser.FieldLike f v => f ++ v
  | QueryParser.FieldEq f v => f ++ v
  | QueryParser.TsCmp op iso => op ++ iso
  | QueryParser.FreeText kw => kw
  end.

Definition allowed (text : string) : bool := all_chars Indexer.where_char text.

(** A character of a plain keyword: no white space, no quote, no [=]
    and no [|]. *)
Definition plain_char (c : ascii) : bool :=
  negb (Py.isspace c || Py.mem_char c (String Py.dq (String Py.sq "=|"))).

(** A keyword the tokenizer leaves whole and the parser reads as free
    text. *)
Definition plain (kw : string) : bool :=
  negb (String.eqb kw "") && negb (String.eqb kw "*") && all_chars plain_char kw.

Definition free_texts (kws : list string) : list QueryParser.clause :=
  map (fun kw => QueryParser.FreeText (Py.lower kw)) kws.

(** The class [p] does not go on into [tail]. *)
Definition stops (p : ascii -> bool) (tail : string) : bool :=
  match tail with
  | EmptyString => true
  | String c _ => negb (p c)
  end.


Definition no_char (x : ascii) (text : string) : bool :=
  all_chars (fun c => negb (Ascii.eqb c x)) text.

(** No sign in a text. *)
Definition unsigned (t : string) : bool :=
  all_chars (fun c => negb (Ascii.eqb c "+" || Ascii.eqb c "-")) t.

(** The characters [isoformat] writes. *)
Definition iso_char (c : ascii) : bool := Py.isdigit c || Py.mem_char c "-T:.+".

(** [ts] is [raw] as it came, or the ISO text of a valid [datetime],
    which [time_bucket] puts in the bucket of that [datetime]. *)
Definition raw_or_bucketed (interval raw ts : string) : Prop :=
  ts = raw
  \/ exists t, Datetime.valid t = true /\ ts = Datetime.isoformat t
               /\ QueryEngine.bucket_key interval (VStr ts)
                  = Some (QueryEngine.bucket_of interval t).

(** A pattern that can match the empty text. *)
Fixpoint nullable (r : Re.regex) : bool :=
  match r with
  | Re.Eps | Re.Star _ | Re.StarLazy _ | Re.Bol | Re.Eol => true
  | Re.Chr _ | Re.ChrI _ | Re.Cls _ => false
  | Re.Seq r1 r2 => nullable r1 && nullable r2
  | Re.Alt r1 r2 => nullable r1 || nullable r2
  | Re.Group _ r1 => nullable r1
  end.

(** One continuation succeeds wherever the other does. *)
Definition yields (k k' : Re.mstate -> option Re.mstate) : Prop :=
  forall st x, k st = Some x -> exists y, k' st = Some y.

(** The loops of [Star] and [StarLazy] in [run], on their own. *)
Definition greedy (step : Re.mstate -> (Re.mstate -> option Re.mstate) -> option Re.mstate)
    (k : Re.mstate -> option Re.mstate) : nat -> Re.mstate -> option Re.mstate :=
  fix loop (fuel : nat) (st : Re.mstate) {struct fuel} : option Re.mstate :=
    match fuel with
    | O => k st
    | S fuel' =>
        Re.or_else
          (step st (fun st1 => if Re.pos st <? Re.pos st1 then loop fuel' st1 else None))
          (fun _ => k st)
    end.

Definition reluctant (step : Re.mstate -> (Re.mstate -> option Re.mstate) -> option Re.mstate)
    (k : Re.mstate -> option Re.mstate) : nat -> Re.mstate -> option Re.mstate :=
  fix loop (fuel : nat) (st : Re.mstate) {struct fuel} : option Re.mstate :=
    match fuel with
    | O => k st
    | S fuel' =>
        Re.or_else (k st)
          (fun _ => step st (fun st1 =>
             if Re.pos st <? Re.pos st1 then loop fuel' st1 else None))
    end.

Definition text_types : list string := ["syslog"; "auth"].

Definition auth_actions : list string :=
  ["login_success"; "login_failure"; "sudo"; "auth_event"].

(** The class [\w]. *)
Definition word_char (c : ascii) : bool := Py.isalnum c || Ascii.eqb c "_".



(** A text without its blanks. *)
Fixpoint remove_blanks (text : string) : string :=
  match text with
  | EmptyString => EmptyString
  | String c text' =>
      if Ascii.eqb c " " then remove_blanks text' else String c (remove_blanks text')
  end.

(** No quote of either kind in a text. *)
Definition quote_free (text : string) : bool :=
  all_chars (fun c => negb (Ascii.eqb c Py.dq || Ascii.eqb c Py.sq)) text.

(** The state of a match that has read [pre] and has [text] before it. *)
Definition read (pre text : string) (caps : list (nat * (nat * nat))) : Re.mstate :=
  Re.MState (String.length pre) text caps.

(** The span of a group that took [taken] after [pre]. *)
Definition span (g : nat) (pre taken : string) : nat * (nat * nat) :=
  (g, (String.length pre, String.length (pre ++ taken))).

(** A field without white space, not empty. *)
Definition solid (t : string) : bool :=
  negb (String.eqb t "") && all_chars (fun c => negb (Py.isspace c)) t.

(** A line of the common web-access form. *)
Definition common_line (ip ident user ts method endpoint proto status size : string)
    : string :=
  ip ++ " " ++ ident ++ " " ++ user ++ " " ++ "[" ++ ts ++ "]" ++ " "
  ++ String Py.dq "" ++ method ++ " " ++ endpoint ++ " " ++ proto ++ String Py.dq ""
  ++ " " ++ status ++ " " ++ size.

(** What the fields of such a line may be: three fields without white
    space, a time without a closing bracket, a method of word
    characters, a path without white space or quote, a protocol without
    quote, three digits of status, a size in digits. *)
Definition common_fields (ip ident user ts method endpoint proto status size : string)
    : bool :=
  solid ip && solid ident && solid user
  && negb (String.eqb ts "") && all_chars (fun c => negb (Py.mem_char c "]")) ts
  && negb (String.eqb method "") && all_chars word_char method
  && negb (String.eqb endpoint "")
  && all_chars (fun c => negb (Py.isspace c) && negb (Ascii.eqb c Py.dq)) endpoint
  && negb (String.eqb proto "") && stops Py.isspace proto
  && all_chars (fun c => negb (Ascii.eqb c Py.dq)) proto
  && (String.length status =? 3) && all_chars Py.isdigit status
  && negb (String.eqb size "") && all_chars Py.isdigit size.

(** The name of a month as the classic stamp has it: a capital and two
    small letters. *)
Definition month_text (t : string) : bool :=
  match t with
  | String a (String b (String c EmptyString)) =>
      Py.isupper a && Py.islower b && Py.islower c
  | _ => false
  end.

Definition two_digits (t : string) : bool :=
  match t with
  | String a (String b EmptyString) => Py.isdigit a && Py.isdigit b
  | _ => false
  end.

(** [Mon DD HH:MM:SS] *)
Definition classic_time (mon day hh mm ss : string) : string :=
  mon ++ " " ++ day ++ " " ++ hh ++ ":" ++ mm ++ ":" ++ ss.

(** A line of the classic syslog form. *)
Definition classic_line (stamp host service message : string) : string :=
  stamp ++ " " ++ host ++ " " ++ service ++ ":" ++ " " ++ message.

(** A message as it stands in such a line: not empty, on one line, no
    white space at its two ends. *)
Definition plain_message (message : string) : bool :=
  negb (String.eqb message "") && stops Py.isspace message
  && String.eqb (Py.rstrip_by Py.isspace message) message
  && all_chars (fun c => negb (Ascii.eqb c Py.nl)) message.

Definition classic_fields (mon day hh mm ss host service message : string) : bool :=
  month_text mon && two_digits day && two_digits hh && two_digits mm && two_digits ss
  && solid host && solid service && plain_message message.



(** A run of white space, not empty. *)
Definition blank (t : string) : bool :=
  negb (String.eqb t "") && all_chars Py.isspace t.

(** A line of two words and a rest, with white space between them. *)
Definition worded_line (first gap1 second gap2 rest : string) : string :=
  first ++ gap1 ++ second ++ gap2 ++ rest.

Definition worded_fields (first gap1 second gap2 rest : string) : bool :=
  solid first && blank gap1 && solid second && blank gap2
  && stops Py.isspace rest && all_chars (fun c => negb (Ascii.eqb c Py.nl)) rest.

(** A line that, stripped, is taken neither for JSON nor for XML. *)
Definition plain_text (line : string) : bool :=
  negb (Engine.is_json (Py.strip line)) && negb (Engine.is_windows_xml (Py.strip line)).

(** The stripped line is not blank and [parse_universal] makes a tuple
    of it. *)
Definition gives_event (ET_fromstring : string -> option Engine.Element) (current_year : Z)
    (line : string) : bool :=
  negb (String.eqb line "")
  && match Engine.parse_universal ET_fromstring current_year line with
     | Ret (Some _) => true
     | _ => false
     end.

(** [covers r r']: [r'] is [r] with other group numbers, and with a
    literal character widened here and there to a group that takes one
    or more characters of a class the literal belongs to. *)
Inductive covers : Re.regex -> Re.regex -> Prop :=
| covers_eps : covers Re.Eps Re.Eps
| covers_chr (c : ascii) : covers (Re.Chr c) (Re.Chr c)
| covers_chri (c : ascii) : covers (Re.ChrI c) (Re.ChrI c)
| covers_cls (p : ascii -> bool) : covers (Re.Cls p) (Re.Cls p)
| covers_seq (r1 r1' r2 r2' : Re.regex) :
    covers r1 r1' -> covers r2 r2' -> covers (Re.Seq r1 r2) (Re.Seq r1' r2')
| covers_alt (r1 r1' r2 r2' : Re.regex) :
    covers r1 r1' -> covers r2 r2' -> covers (Re.Alt r1 r2) (Re.Alt r1' r2')
| covers_star (r r' : Re.regex) : covers r r' -> covers (Re.Star r) (Re.Star r')
| covers_lazy (r r' : Re.regex) : covers r r' -> covers (Re.StarLazy r) (Re.StarLazy r')
| covers_group (g g' : nat) (r r' : Re.regex) :
    covers r r' -> covers (Re.Group g r) (Re.Group g' r')
| covers_bol : covers Re.Bol Re.Bol
| covers_eol : covers Re.Eol Re.Eol
| covers_widen (c : ascii) (g : nat) (p : ascii -> bool) :
    p c = true -> covers (Re.Chr c) (Re.Group g (Re.Seq (Re.Cls p) (Re.Star (Re.Cls p)))).

(** One continuation succeeds at every place where the other does,
    whatever the groups closed so far. *)
Definition follows (k k' : Re.mstate -> option Re.mstate) : Prop :=
  forall p t c c' x, k (Re.MState p t c) = Some x -> exists y, k' (Re.MState p t c') = Some y.

(** [parse] without its second attempt, the one with [SIMPLE_PATTERN]. *)
Definition parse_skipping_simple (line : string) : option dict :=
  let line := Py.strip line in
  if String.eqb line "" then None
  else
    match Re.re_match AccessParser.PATTERN line with
    | Some m =>
        Some (AccessParser.access_dict (AccessParser._parse_timestamp (Re.group_str m 4))
                (Re.group_str m 1) (Re.group_str m 5) (Re.group_str m 6) (Re.group_str m 7)
                (AccessParser.size_int (Re.group_str m 8)))
    | None =>
        match Re.re_match AccessParser.LENIENT_PATTERN line with
        | Some m =>
            Some (AccessParser.access_dict (AccessParser._parse_timestamp (Re.group_str m 2))
                    (Re.group_str m 1) (Re.group_str m 3) (Re.group_str m 4)
                    (Re.group_str m 5) 0%Z)
        | None => None
        end
    end.

(** Some word of [words] occurs in [name]. *)
Definition names_one_of (words : list string) (name : string) : bool :=
  existsb (fun w => Py.contains w name) words.

(** The parser of [log_type] accepts the text. *)
Definition parses (current_year : Z) (log_type text : string) : bool :=
  match parser_of current_year log_type text with
  | Some _ => true
  | None => false
  end.

(** The type a line is taken for when the parsers are asked in the
    order [order]: that of the first parser that accepts the stripped
    line; none for a blank line and for a line no parser accepts. *)
Definition taken_as (current_year : Z) (order : list string) (line : string)
    : option string :=
  if String.eqb (Py.strip line) "" then None
  else find (fun t => parses current_year t (Py.strip line)) order.

(** The order of [_detect_log_type] and the order of the last branch of
    the loop of [ingest_file]. *)
Definition detect_order : list string := ["access"; "auth"; "syslog"].
Definition try_order : list string := ["syslog"; "access"; "auth"].

(** A line that is not blank and that the parser of [log_type] accepts,
    or rejects. *)
Definition accepted_by (current_year : Z) (log_type line : string) : bool :=
  negb (String.eqb (Py.strip line) "") && parses current_year log_type (Py.strip line).

Definition rejected_by (current_year : Z) (log_type line : string) : bool :=
  negb (String.eqb (Py.strip line) "") && negb (parses current_year log_type (Py.strip line)).

(** The message [ingest_file] returns. *)
Definition status_message (filepath log_type : string) (events errors : nat) : string :=
  "Ingested " ++ LogIngester.str_of_nat events ++ " events from " ++ filepath
  ++ " (" ++ log_type ++ " format)"
  ++ (if (0 <? errors)%nat then " (" ++ LogIngester.str_of_nat errors ++ " errors)" else "").

(** A text that can stand between the quotes of a string literal as it
    is: no quote and no NUL in it. *)
Definition literal_safe (t : string) : bool :=
  all_chars (fun c => negb (Ascii.eqb c Py.sq) && negb (Ascii.eqb c Sql.nul)) t.

(** The scanner over a text that is not the end of the clause. *)
Fixpoint scan_on (text : string) (st : Sql.lstate) (acc : list Sql.token)
    : option (Sql.lstate * list Sql.token) :=
  match text with
  | EmptyString => Some (st, acc)
  | String c text' =>
      match Sql.step st c acc with
      | Some (st', acc') => scan_on text' st' acc'
      | None => None
      end
  end.

(** The tokens of [(col IS NOT NULL AND LOWER(col) LIKE '%kw%')]. *)
Definition column_tokens (kw col : string) : list Sql.token :=
  [Sql.TLp; Sql.TWord col; Sql.TWord "IS"; Sql.TWord "NOT"; Sql.TWord "NULL";
   Sql.TWord "AND"; Sql.TWord "LOWER"; Sql.TLp; Sql.TWord col; Sql.TRp; Sql.TWord "LIKE";
   Sql.TStr ("%" ++ kw ++ "%"); Sql.TRp].

(** The expression of [col IS NOT NULL AND LOWER(col) LIKE 'pattern']. *)
Definition column_expr (pattern col : string) : Sql.expr :=
  Sql.EAnd (Sql.EIsNull true (Sql.ECol col))
           (Sql.ELike false (Sql.ELower (Sql.ECol col)) (Sql.EText pattern)).

(** The seven conditions on [%kw%] joined by OR, grouped to the left. *)
Definition free_text_expr (kw : string) : Sql.expr :=
  match map (column_expr ("%" ++ kw ++ "%")) QueryParser.free_text_columns with
  | e :: es => fold_left Sql.EOr es e
  | [] => Sql.ENull
  end.

(** The column is not NULL and its text, in lower case, is LIKE the
    pattern. *)
Definition column_hit (pattern : string) (r : Indexer.Row) (col : string) : bool :=
  match Sql.column_value r col with
  | Some (Sql.SText t) => Sql.like pattern (Py.lower t)
  | _ => false
  end.

(** The column is not NULL and its text holds the keyword, case
    apart. *)
Definition column_holds (kw : string) (r : Indexer.Row) (col : string) : bool :=
  match Sql.column_value r col with
  | Some (Sql.SText t) => Py.contains (Py.lower kw) (Py.lower t)
  | _ => false
  end.

(** No text of the seven columns holds a NUL. *)
Definition clean_row (r : Indexer.Row) : bool :=
  forallb (fun col => match Sql.column_value r col with
                      | Some (Sql.SText t) => negb (Sql.has_nul t)
                      | _ => true
                      end) QueryParser.free_text_columns.

(** A keyword that closes the string literal it is put in. *)
Definition injected_query : string := "')OR(1)OR('".

Definition injected_where : string :=
  "((raw IS NOT NULL AND LOWER(raw) LIKE '%')or(1)or('%') OR "
  ++ "(message IS NOT NULL AND LOWER(message) LIKE '%')or(1)or('%') OR "
  ++ "(service IS NOT NULL AND LOWER(service) LIKE '%')or(1)or('%') OR "
  ++ "(user IS NOT NULL AND LOWER(user) LIKE '%')or(1)or('%') OR "
  ++ "(action IS NOT NULL AND LOWER(action) LIKE '%')or(1)or('%') OR "
  ++ "(endpoint IS NOT NULL AND LOWER(endpoint) LIKE '%')or(1)or('%') OR "
  ++ "(host IS NOT NULL AND LOWER(host) LIKE '%')or(1)or('%'))".

(** What the clause of that keyword is read as: after each of the
    seven conditions comes [or (1) or ('%')]. *)
Definition injected_expr : Sql.expr :=
  let more (e : Sql.expr) := Sql.EOr (Sql.EOr e (Sql.EInt 1)) (Sql.EText "%") in
  match map (column_expr "%") QueryParser.free_text_columns with
  | e :: es => more (fold_left (fun acc c => Sql.EOr (more acc) c) es e)
  | [] => Sql.ENull
  end.

(** A record that holds nothing of the keyword. *)
Definition quiet_row : Indexer.Row :=
  Indexer.mkRow "syslog" (VStr "2025-01-12T11:33:22") (VStr "host") (VStr "cron[77]")
    (VStr "job done") VNone VNone VNone VNone (VInt 0) VNone VNone
    "Jan 12 11:33:22 host cron[77]: job done".

(** ** Proofs *)

(** ** Web-access lines *)

(** C7. Parsing the web-access line of the example gives ip 192.168.1.1,
    method GET, endpoint /api/users, status 200, size 1234 and the time
    in ISO 8601 with the offset +00:00; ingesting a file that holds the
    line stores one access record with these fields and the line as
    [raw]. *)
Theorem access_line_round_trip :
  AccessParser.parse access_line
  = Some [("timestamp", VStr "2025-02-13T11:22:33+00:00"); ("ip", VStr "192.168.1.1");
          ("method", VStr "GET"); ("endpoint", VStr "/api/users");
          ("status", VStr "200"); ("size", VInt 1234)]
  /\ forall current_year,
       Indexer.rows (fst (LogIngester.ingest_file current_year Indexer.empty
                            "/var/log/access.log" (Some [access_line ++ newline]) None))
       = [Indexer.mkRow "access" (VStr "2025-02-13T11:22:33+00:00") VNone VNone VNone
            (VStr "192.168.1.1") (VStr "GET") (VStr "/api/users") (VStr "200") (VInt 1234)
            VNone VNone access_line].
Proof.
  split.
  - vm_compute. reflexivity.
  - intro current_year. vm_compute. reflexivity.
Qed.

(** ** Timestamp normalisation *)

Lemma try_formats_all_fail (raw_ts : string) (fmts : list string) :
  (forall fmt, In fmt fmts -> Datetime.strptime raw_ts fmt = None) ->
  AccessParser.try_formats raw_ts fmts = raw_ts.
Proof.
  induction fmts as [|fmt fmts IH]; intros Hfail; simpl.
  - reflexivity.
  - rewrite (Hfail fmt (or_introl eq_refl)).
    apply IH. intros f Hf. apply Hfail. right. exact Hf.
Qed.

Lemma syslog_try_formats_all_fail (text fallback : string) (fmts : list string) :
  (forall fmt, In fmt fmts -> Datetime.strptime text fmt = None) ->
  SyslogParser.try_formats text fallback fmts = fallback.
Proof.
  induction fmts as [|fmt fmts IH]; intros Hfail; simpl.
  - reflexivity.
  - rewrite (Hfail fmt (or_introl eq_refl)).
    apply IH. intros f Hf. apply Hfail. right. exact Hf.
Qed.

(** C4, as the specification states it, fails on the engine's own
    normaliser: [parse_nginx] answers "unknown" for a time no format
    parses, where the parsers package keeps the text. *)
Lemma parse_nginx_replaces_unparsed_time :
  Datetime.strptime bad_stamp "%d/%b/%Y:%H:%M:%S %z" = None
  /\ Engine.parse_nginx bad_stamp_line
     = Some (Json.JStr "unknown", Json.JStr "10.0.0.7", Json.JNull, Json.JStr "200",
             Json.JStr "nginx_access")
  /\ AccessParser._parse_timestamp bad_stamp = bad_stamp.
Proof.
  split; [|split]; vm_compute; reflexivity.
Qed.

(** C4, amended. In the parsers package a time that none of the
    normaliser's formats parses comes back unchanged: from
    [AccessParser._parse_timestamp], and from the ISO normalisers of the
    syslog and auth parsers (whose formats are tried on the first 19
    characters).  The functions are total, so nothing is raised. *)
Theorem parse_timestamp_soft_fail (raw_ts : string)
    (Haccess : forall fmt, In fmt AccessParser.formats ->
                 Datetime.strptime raw_ts fmt = None)
    (Hiso : forall fmt, In fmt SyslogParser.iso_formats ->
              Datetime.strptime (Py.take 19 raw_ts) fmt = None) :
  AccessParser._parse_timestamp raw_ts = raw_ts
  /\ SyslogParser._parse_iso_timestamp raw_ts = raw_ts
  /\ AuthParser._parse_iso_timestamp raw_ts = raw_ts.
Proof.
  split; [|split].
  - apply try_formats_all_fail. exact Haccess.
  - apply syslog_try_formats_all_fail. exact Hiso.
  - apply syslog_try_formats_all_fail.
    intros fmt Hin. apply Hiso.
    unfold SyslogParser.iso_formats. simpl in Hin |- *. tauto.
Qed.

Lemma parse_timestamp_soft_fail_witness :
  AccessParser._parse_timestamp bad_stamp = bad_stamp
  /\ SyslogParser._parse_iso_timestamp bad_stamp = bad_stamp
  /\ AuthParser._parse_iso_timestamp bad_stamp = bad_stamp.
Proof.
  apply (parse_timestamp_soft_fail bad_stamp).
  - intros fmt Hin. simpl in Hin.
    destruct Hin as [<-|[<-|[<-|[]]]]; vm_compute; reflexivity.
  - intros fmt Hin. simpl in Hin.
    destruct Hin as [<-|[<-|[<-|[<-|[]]]]]; vm_compute; reflexivity.
Defined.

(** ** The unit of a relative time *)

Lemma lower_app (a b : string) : Py.lower (a ++ b) = (Py.lower a ++ Py.lower b)%string.
Proof.
  induction a as [|c a IH]; simpl.
  - reflexivity.
  - rewrite IH. reflexivity.
Qed.

(** C2: the code reads [M] as [m].  The token is lowered before the
    unit is matched, so N months are never told from N minutes: for
    every run of digits the two tokens give the same clause, in [last=]
    and in a relative [earliest=]/[latest=]; and at noon of 1 March 2025
    [last=1M] bounds the time from 11:59:00 of that day, one minute
    back, not thirty days. *)
Theorem month_unit_read_as_minutes (now : Datetime.datetime)
    (fromtimestamp : string -> outcome (option Datetime.datetime)) (n : string) :
  QueryParser._parse_time_filter now ("last=" ++ n ++ "M")
  = QueryParser._parse_time_filter now ("last=" ++ n ++ "m")
  /\ QueryParser._parse_earliest_latest now fromtimestamp "earliest=-1M" "earliest"
     = QueryParser._parse_earliest_latest now fromtimestamp "earliest=-1m" "earliest"
  /\ QueryParser._parse_earliest_latest now fromtimestamp "latest=-1M" "latest"
     = QueryParser._parse_earliest_latest now fromtimestamp "latest=-1m" "latest"
  /\ QueryParser._parse_time_filter (Datetime.mkDatetime 2025 3 1 12 0 0 0 None) "last=1M"
     = Ret (Some (QueryParser.TsCmp ">" "2025-03-01T11:59:00")).
Proof.
  split; [|split; [|split]].
  - unfold QueryParser._parse_time_filter.
    replace (Py.lower ("last=" ++ n ++ "M")) with (Py.lower ("last=" ++ n ++ "m")).
    + reflexivity.
    + rewrite !lower_app. reflexivity.
  - lazy -[QueryParser.cutoff_iso]. reflexivity.
  - lazy -[QueryParser.cutoff_iso]. reflexivity.
  - vm_compute. reflexivity.
Qed.

(** ** Counting dictionaries *)

Lemma value_eqb_eq (a b : value) : value_eqb a b = true <-> a = b.
Proof.
  destruct a as [|x|x], b as [|y|y]; simpl; split; intro H;
    try reflexivity; try discriminate.
  - apply String.eqb_eq in H. now subst.
  - injection H as ->. apply String.eqb_refl.
  - apply Z.eqb_eq in H. now subst.
  - injection H as ->. apply Z.eqb_refl.
Qed.

Section Counts.

Variable K : Type.
Variable eqb : K -> K -> bool.
Hypothesis eqb_eq : forall a b, eqb a b = true <-> a = b.

Lemma eqb_refl' (k : K) : eqb k k = true.
Proof. apply eqb_eq. reflexivity. Qed.

Lemma eqb_neq (a b : K) : a <> b -> eqb a b = false.
Proof.
  intro Hne. destruct (eqb a b) eqn:E; [|reflexivity].
  apply eqb_eq in E. contradiction.
Qed.

Lemma bump_held (counts : list (K * Z)) (key k : K) :
  held eqb k (QueryEngine.bump eqb counts key)
  = (held eqb k counts + (if eqb key k then 1 else 0))%Z.
Proof.
  induction counts as [|[k' n] counts IH]; simpl.
  - destruct (eqb key k); lia.
  - destruct (eqb k' key) eqn:E1; simpl.
    + apply eqb_eq in E1. subst k'.
      destruct (eqb key k); lia.
    + destruct (eqb k' k) eqn:E2.
      * apply eqb_eq in E2. subst k'.
        destruct (eqb key k) eqn:E3; [|lia].
        apply eqb_eq in E3. subst key. rewrite eqb_refl' in E1. discriminate.
      * exact IH.
Qed.

Lemma bump_keys (counts : list (K * Z)) (key k : K) :
  In k (map fst (QueryEngine.bump eqb counts key)) <-> k = key \/ In k (map fst counts).
Proof.
  induction counts as [|[k' n] counts IH]; simpl.
  - intuition.
  - destruct (eqb k' key) eqn:E; simpl.
    + apply eqb_eq in E. subst k'. intuition.
    + rewrite IH. intuition.
Qed.

Lemma bump_NoDup (counts : list (K * Z)) (key : K) :
  NoDup (map fst counts) -> NoDup (map fst (QueryEngine.bump eqb counts key)).
Proof.
  induction counts as [|[k' n] counts IH]; simpl; intro Hnd.
  - constructor; [intros []|constructor].
  - destruct (eqb k' key) eqn:E; simpl.
    + exact Hnd.
    + inversion Hnd as [|? ? Hnotin Hnd']; subst.
      constructor.
      * rewrite bump_keys. intros [->|Hin]; [|contradiction].
        rewrite eqb_refl' in E. discriminate.
      * apply IH. exact Hnd'.
Qed.

Lemma bump_total (counts : list (K * Z)) (key : K) :
  total (map snd (QueryEngine.bump eqb counts key)) = (total (map snd counts) + 1)%Z.
Proof.
  induction counts as [|[k' n] counts IH]; simpl.
  - reflexivity.
  - destruct (eqb k' key); simpl; [|rewrite IH]; lia.
Qed.

Lemma bump_positive (counts : list (K * Z)) (key : K) :
  Forall (fun kn => (0 < snd kn)%Z) counts ->
  Forall (fun kn => (0 < snd kn)%Z) (QueryEngine.bump eqb counts key).
Proof.
  induction counts as [|[k' n] counts IH]; simpl; intro Hpos.
  - constructor; [simpl; lia|constructor].
  - inversion Hpos as [|? ? Hn Hrest]; subst. simpl in Hn.
    destruct (eqb k' key); constructor; simpl; auto; lia.
Qed.

Lemma counted_held (keys : list K) (counts : list (K * Z)) (k : K) :
  held eqb k (counted eqb keys counts) = (held eqb k counts + occurrences eqb k keys)%Z.
Proof.
  revert counts. unfold occurrences.
  induction keys as [|key keys IH]; intro counts; simpl.
  - lia.
  - unfold counted in *. simpl. rewrite IH, bump_held.
    destruct (eqb key k); simpl; lia.
Qed.

Lemma counted_keys (keys : list K) (counts : list (K * Z)) (k : K) :
  In k (map fst (counted eqb keys counts)) <-> In k keys \/ In k (map fst counts).
Proof.
  revert counts. induction keys as [|key keys IH]; intro counts; simpl.
  - intuition.
  - unfold counted in *. simpl. rewrite IH, bump_keys. intuition.
Qed.

Lemma counted_NoDup (keys : list K) (counts : list (K * Z)) :
  NoDup (map fst counts) -> NoDup (map fst (counted eqb keys counts)).
Proof.
  revert counts. induction keys as [|key keys IH]; intros counts Hnd; simpl.
  - exact Hnd.
  - apply IH, bump_NoDup, Hnd.
Qed.

Lemma counted_total (keys : list K) (counts : list (K * Z)) :
  total (map snd (counted eqb keys counts))
  = (total (map snd counts) + Z.of_nat (List.length keys))%Z.
Proof.
  revert counts. induction keys as [|key keys IH]; intro counts.
  - simpl. lia.
  - unfold counted in *. cbn [fold_left List.length]. rewrite IH, bump_total. lia.
Qed.

Lemma counted_positive (keys : list K) (counts : list (K * Z)) :
  Forall (fun kn => (0 < snd kn)%Z) counts ->
  Forall (fun kn => (0 < snd kn)%Z) (counted eqb keys counts).
Proof.
  revert counts. induction keys as [|key keys IH]; intros counts Hpos; simpl.
  - exact Hpos.
  - apply IH, bump_positive, Hpos.
Qed.

Lemma held_in (counts : list (K * Z)) (k : K) (n : Z) :
  NoDup (map fst counts) -> In (k, n) counts -> held eqb k counts = n.
Proof.
  induction counts as [|[k' n'] counts IH]; simpl; intros Hnd Hin.
  - contradiction.
  - inversion Hnd as [|? ? Hnotin Hnd']; subst.
    destruct Hin as [Heq|Hin].
    + injection Heq as -> ->. rewrite eqb_refl'. reflexivity.
    + destruct (eqb k' k) eqn:E.
      * apply eqb_eq in E. subst k'. exfalso. apply Hnotin.
        apply (in_map fst) in Hin. exact Hin.
      * apply IH; assumption.
Qed.

(** ** The stable sort by falling count *)

Lemma insert_desc_perm (x : K * Z) (l : list (K * Z)) :
  Permutation (QueryEngine.insert_desc x l) (x :: l).
Proof.
  induction l as [|y l IH]; simpl.
  - apply Permutation_refl.
  - destruct (snd x <? snd y)%Z.
    + eapply perm_trans; [apply perm_skip, IH|].
      apply perm_swap.
    + apply Permutation_refl.
Qed.

Lemma sort_desc_perm (l : list (K * Z)) :
  Permutation (QueryEngine.sort_desc l) l.
Proof.
  induction l as [|x l IH]; simpl.
  - constructor.
  - eapply perm_trans; [apply insert_desc_perm|].
    apply perm_skip, IH.
Qed.

Lemma insert_desc_sorted (x : K * Z) (l : list (K * Z)) :
  StronglySorted (@falls K) l -> StronglySorted (@falls K) (QueryEngine.insert_desc x l).
Proof.
  induction l as [|y l IH]; simpl; intro Hs.
  - constructor; constructor.
  - inversion Hs as [|? ? Hs' Hall]; subst.
    destruct (snd x <? snd y)%Z eqn:E.
    + constructor; [apply IH, Hs'|].
      apply (Permutation_Forall
               (Permutation_sym (insert_desc_perm x l))).
      constructor; [|exact Hall].
      unfold falls. apply Z.ltb_lt in E. lia.
    + apply Z.ltb_ge in E.
      constructor; [exact Hs|].
      constructor; [exact E|].
      eapply Forall_impl; [|exact Hall].
      intros z Hz. unfold falls in *. lia.
Qed.

Lemma sort_desc_sorted (l : list (K * Z)) :
  StronglySorted (@falls K) (QueryEngine.sort_desc l).
Proof.
  induction l as [|x l IH]; simpl.
  - constructor.
  - apply insert_desc_sorted, IH.
Qed.

Lemma total_perm (l l' : list (K * Z)) :
  Permutation l l' -> total (map snd l) = total (map snd l').
Proof.
  induction 1; simpl; try lia.
Qed.

End Counts.

(** ** [count_by] and [top] *)

Lemma tally_counted (results : list dict) (field : string) (counts : list (value * Z)) :
  fold_left (fun counts r => QueryEngine.bump value_eqb counts (QueryEngine.group_key r field))
            results counts
  = counted value_eqb (keys_of results field) counts.
Proof.
  revert counts. induction results as [|r results IH]; intro counts; simpl.
  - reflexivity.
  - apply IH.
Qed.

Lemma tally_keys_of (results : list dict) (field : string) :
  QueryEngine.tally results field = counted value_eqb (keys_of results field) [].
Proof. apply tally_counted. Qed.

(** C5, as the specification states it, fails where a value is falsy
    without being null: of a record with size 0 and a record with no
    size, [count_by(size)] makes the single row (null, 2), and the value
    0 has no row. *)
Lemma count_by_merges_zero_with_null :
  QueryEngine._count_by two_sizes "size" = [[("value", VStr "null"); ("count", VInt 2)]]%string
  /\ ~ In (VInt 0) (map (fun row => dict_get row "value") (QueryEngine._count_by two_sizes "size")).
Proof.
  split.
  - vm_compute. reflexivity.
  - vm_compute. intros [H|[]]. discriminate H.
Qed.

(** C5, amended. [count_by(field)] groups each record under its key, the
    value of the field when it is truthy and "null" when it is falsy
    (null, the empty string, the integer 0).  The rows are
    [{value: k, count: n}] for a list of pairs (k, n) in which the counts
    sum to the number of records, no key occurs twice, the keys are
    exactly the keys of the records, each count is the number of records
    with that key, and the counts never rise from one row to the next. *)
Theorem count_by_rows (results : list dict) (field : string) :
  exists rows : list (value * Z),
    QueryEngine._count_by results field = map QueryEngine.value_row rows
    /\ total (map snd rows) = Z.of_nat (List.length results)
    /\ NoDup (map fst rows)
    /\ (forall k, In k (map fst rows) <-> In k (keys_of results field))
    /\ (forall k n, In (k, n) rows ->
          n = occurrences value_eqb k (keys_of results field))
    /\ StronglySorted (@falls value) rows.
Proof.
  exists (QueryEngine.sort_desc (QueryEngine.tally results field)).
  pose proof (sort_desc_perm value (QueryEngine.tally results field)) as Hperm.
  assert (Hnd : NoDup (map fst (QueryEngine.tally results field))).
  { rewrite tally_keys_of. apply (counted_NoDup value value_eqb value_eqb_eq). constructor. }
  split; [reflexivity|].
  split.
  { rewrite (total_perm value _ _ Hperm), tally_keys_of.
    rewrite (counted_total value value_eqb). simpl.
    unfold keys_of. rewrite length_map. reflexivity. }
  split.
  { eapply Permutation_NoDup; [|exact Hnd].
    apply Permutation_sym, Permutation_map, Hperm. }
  split.
  { intro k. split; intro Hin.
    - apply (Permutation_in _ (Permutation_map fst Hperm)) in Hin.
      rewrite tally_keys_of in Hin.
      apply (counted_keys value value_eqb value_eqb_eq) in Hin.
      destruct Hin as [Hin|[]]. exact Hin.
    - apply (Permutation_in _ (Permutation_sym (Permutation_map fst Hperm))).
      rewrite tally_keys_of.
      apply (counted_keys value value_eqb value_eqb_eq). left. exact Hin. }
  split.
  { intros k n Hin.
    apply (Permutation_in _ Hperm) in Hin.
    rewrite <- (held_in value value_eqb value_eqb_eq _ k n Hnd Hin).
    rewrite tally_keys_of, (counted_held value value_eqb value_eqb_eq). simpl. lia. }
  apply sort_desc_sorted.
Qed.

Lemma same_group_keys (field : string) (rs rs' : list dict) :
  Forall2 (same_group field) rs rs' -> keys_of rs field = keys_of rs' field.
Proof.
  induction 1 as [|r r' rs rs' Hrr' _ IH]; simpl.
  - reflexivity.
  - f_equal; [|exact IH].
    unfold QueryEngine.group_key.
    destruct Hrr' as [->|[-> ->]]; reflexivity.
Qed.

(** C10. In [count_by] and [top] a record whose field is falsy (null,
    the empty string or the integer 0) is grouped under "null"; so two
    result sets that differ only in which falsy value a record holds
    give the same rows, and records with size 0, with no size and with
    an empty size are counted together in one row under "null". *)
Theorem falsy_values_grouped_as_null (field : string) :
  (forall r, truthy (dict_get r field) = false ->
     QueryEngine.group_key r field = VStr "null")
  /\ (forall r, dict_get r field = VNone \/ dict_get r field = VStr ""
                \/ dict_get r field = VInt 0 ->
        QueryEngine.group_key r field = VStr "null")
  /\ (forall rs rs' n, Forall2 (same_group field) rs rs' ->
        QueryEngine._count_by rs field = QueryEngine._count_by rs' field
        /\ QueryEngine._top rs n field = QueryEngine._top rs' n field)
  /\ QueryEngine._run_stats
       [[("size", VInt 0)]; [("size", VNone)]; [("size", VStr "")]; [("size", VInt 7)]]%string
       "count_by(size)"
     = [[("value", VStr "null"); ("count", VInt 3)];
        [("value", VInt 7); ("count", VInt 1)]]%string
  /\ QueryEngine._run_stats
       [[("size", VInt 0)]; [("size", VNone)]; [("size", VStr "")]; [("size", VInt 7)]]%string
       "top(1, size)"
     = [[("value", VStr "null"); ("count", VInt 3)]]%string.
Proof.
  split; [|split; [|split; [|split]]].
  - intros r Hf. unfold QueryEngine.group_key. rewrite Hf. reflexivity.
  - intros r [H|[H|H]]; unfold QueryEngine.group_key; rewrite H; reflexivity.
  - intros rs rs' n Hsame.
    unfold QueryEngine._count_by, QueryEngine._top.
    rewrite !tally_keys_of, (same_group_keys field rs rs' Hsame). split; reflexivity.
  - vm_compute. reflexivity.
  - vm_compute. reflexivity.
Qed.

(** ** [time_bucket] *)

Lemma code_inj (x y : ascii) : Py.code x = Py.code y -> x = y.
Proof.
  unfold Py.code. intro H.
  rewrite <- (ascii_nat_embedding x), <- (ascii_nat_embedding y), H. reflexivity.
Qed.

Lemma ltb_irrefl (a : string) : Py.ltb a a = false.
Proof.
  induction a as [|x a IH]; simpl.
  - reflexivity.
  - rewrite Nat.ltb_irrefl. exact IH.
Qed.

Lemma ltb_trans (a b c : string) :
  Py.ltb a b = true -> Py.ltb b c = true -> Py.ltb a c = true.
Proof.
  revert b c. induction a as [|x a IH]; intros [|y b] [|z c]; simpl;
    try discriminate; try reflexivity.
  destruct (Py.code x <? Py.code y) eqn:Exy.
  - intros _. apply Nat.ltb_lt in Exy.
    destruct (Py.code y <? Py.code z) eqn:Eyz.
    + intros _. apply Nat.ltb_lt in Eyz.
      assert (Hxz : (Py.code x <? Py.code z) = true) by (apply Nat.ltb_lt; lia).
      rewrite Hxz. reflexivity.
    + destruct (Py.code z <? Py.code y) eqn:Ezy; [discriminate|].
      intros _. apply Nat.ltb_ge in Eyz, Ezy.
      assert (Hxz : (Py.code x <? Py.code z) = true) by (apply Nat.ltb_lt; lia).
      rewrite Hxz. reflexivity.
  - destruct (Py.code y <? Py.code x) eqn:Eyx; [discriminate|].
    apply Nat.ltb_ge in Exy, Eyx.
    assert (Heq : Py.code x = Py.code y) by lia. rewrite Heq.
    intro Hab.
    destruct (Py.code y <? Py.code z); [reflexivity|].
    destruct (Py.code z <? Py.code y); [discriminate|].
    apply IH. exact Hab.
Qed.

Lemma ltb_total (a b : string) : a <> b -> Py.ltb a b = false -> Py.ltb b a = true.
Proof.
  revert b. induction a as [|x a IH]; intros [|y b] Hne; simpl;
    try discriminate; try reflexivity.
  - contradiction.
  - destruct (Py.code x <? Py.code y) eqn:Exy; [discriminate|].
    destruct (Py.code y <? Py.code x) eqn:Eyx; [reflexivity|].
    apply Nat.ltb_ge in Exy, Eyx.
    assert (Heq : x = y) by (apply code_inj; lia). subst y.
    apply IH. intros ->. apply Hne. reflexivity.
Qed.

Lemma insert_asc_perm (x : string * Z) (l : list (string * Z)) :
  Permutation (QueryEngine.insert_asc x l) (x :: l).
Proof.
  induction l as [|y l IH]; simpl.
  - apply Permutation_refl.
  - destruct (Py.ltb (fst y) (fst x)).
    + eapply perm_trans; [apply perm_skip, IH|]. apply perm_swap.
    + apply Permutation_refl.
Qed.

Lemma sort_asc_perm (l : list (string * Z)) : Permutation (QueryEngine.sort_asc l) l.
Proof.
  induction l as [|x l IH]; simpl.
  - constructor.
  - eapply perm_trans; [apply insert_asc_perm|]. apply perm_skip, IH.
Qed.

Lemma insert_asc_sorted (x : string * Z) (l : list (string * Z)) :
  ~ In (fst x) (map fst l) ->
  StronglySorted key_rises l -> StronglySorted key_rises (QueryEngine.insert_asc x l).
Proof.
  induction l as [|y l IH]; simpl; intros Hnew Hs.
  - constructor; constructor.
  - inversion Hs as [|? ? Hs' Hall]; subst.
    destruct (Py.ltb (fst y) (fst x)) eqn:E.
    + constructor.
      * apply IH; [|exact Hs']. intro Hin. apply Hnew. right. exact Hin.
      * apply (Permutation_Forall (Permutation_sym (insert_asc_perm x l))).
        constructor; [exact E|exact Hall].
    + assert (Hxy : key_rises x y).
      { unfold key_rises. apply ltb_total; [|exact E].
        intro Heq. apply Hnew. left. exact Heq. }
      constructor; [exact Hs|].
      constructor; [exact Hxy|].
      eapply Forall_impl; [|exact Hall].
      intros z Hz. unfold key_rises in *. eapply ltb_trans; eassumption.
Qed.

Lemma sort_asc_sorted (l : list (string * Z)) :
  NoDup (map fst l) -> StronglySorted key_rises (QueryEngine.sort_asc l).
Proof.
  induction l as [|x l IH]; simpl; intro Hnd.
  - constructor.
  - inversion Hnd as [|? ? Hnotin Hnd']; subst.
    apply insert_asc_sorted; [|apply IH, Hnd'].
    intro Hin. apply Hnotin.
    apply (Permutation_in _ (Permutation_map fst (sort_asc_perm l))). exact Hin.
Qed.

Lemma fill_buckets_counted (results : list dict) (interval : string)
    (buckets : list (string * Z)) :
  fold_left (fun buckets r =>
               match QueryEngine.bucket_key interval (dict_get r "timestamp") with
               | Some k => QueryEngine.bump String.eqb buckets k
               | None => buckets
               end) results buckets
  = counted String.eqb (bucket_keys results interval) buckets.
Proof.
  revert buckets. induction results as [|r results IH]; intro buckets; simpl.
  - reflexivity.
  - rewrite IH. unfold counted. rewrite fold_left_app.
    destruct (QueryEngine.bucket_key interval (dict_get r "timestamp")); reflexivity.
Qed.

Lemma bucket_keys_app (rs1 rs2 : list dict) (interval : string) :
  bucket_keys (rs1 ++ rs2) interval
  = (bucket_keys rs1 interval ++ bucket_keys rs2 interval)%list.
Proof. unfold bucket_keys. apply flat_map_app. Qed.

Lemma run_stats_time_bucket_1h (results : list dict) :
  QueryEngine._run_stats results "time_bucket(1h)" = QueryEngine._time_bucket results "1h".
Proof.
  lazy -[QueryEngine._time_bucket QueryEngine._count_by QueryEngine._top QueryEngine._table].
  reflexivity.
Qed.

(** C6, as the specification states it, fails on the key of the
    bucket: the rows of [time_bucket(1h)] are keyed with a blank between
    date and time, so the two records of 10:05:00 and 10:55:00 share the
    bucket 2025-01-01 10:00:00, and no row is keyed 2025-01-01T10:00:00. *)
Lemma hour_bucket_key_has_a_blank :
  QueryEngine._run_stats
    [stamped "2025-01-01T10:05:00"; stamped "2025-01-01T10:55:00";
     stamped "2025-01-01T11:00:01"] "time_bucket(1h)"
  = [[("time", VStr "2025-01-01 10:00:00"); ("count", VInt 2)];
     [("time", VStr "2025-01-01 11:00:00"); ("count", VInt 1)]]%string
  /\ ~ In (VStr "2025-01-01T10:00:00")
          (map (fun row => dict_get row "time")
               (QueryEngine._run_stats
                  [stamped "2025-01-01T10:05:00"; stamped "2025-01-01T10:55:00";
                   stamped "2025-01-01T11:00:01"] "time_bucket(1h)")).
Proof.
  split.
  - vm_compute. reflexivity.
  - vm_compute. intros [H|[H|[]]]; discriminate H.
Qed.

(** C6, amended. [time_bucket(1h)] puts records stamped
    2025-01-01T10:05:00 and 2025-01-01T10:55:00 in one bucket, keyed
    2025-01-01 10:00:00 (a blank, not a T, between date and time), and
    a record stamped 2025-01-01T11:00:01 in another, keyed
    2025-01-01 11:00:00.  For every result set and interval the rows
    are [{time: k, count: n}] with the keys rising strictly from row to
    row and the counts summing to the number of records that have a
    bucket; a record with no timestamp, or one that cannot be read, has
    no bucket and changes no row. *)
Theorem time_bucket_rows :
  (forall r1 r2 r3 : dict,
     dict_get r1 "timestamp" = VStr "2025-01-01T10:05:00" ->
     dict_get r2 "timestamp" = VStr "2025-01-01T10:55:00" ->
     dict_get r3 "timestamp" = VStr "2025-01-01T11:00:01" ->
     QueryEngine._run_stats [r1; r2; r3] "time_bucket(1h)"
     = [[("time", VStr "2025-01-01 10:00:00"); ("count", VInt 2)];
        [("time", VStr "2025-01-01 11:00:00"); ("count", VInt 1)]]%string)
  /\ (forall results interval,
        exists buckets : list (string * Z),
          QueryEngine._time_bucket results interval = map QueryEngine.time_row buckets
          /\ StronglySorted key_rises buckets
          /\ total (map snd buckets)
             = Z.of_nat (List.length (bucket_keys results interval)))
  /\ (forall rs1 r rs2 interval,
        QueryEngine.bucket_key interval (dict_get r "timestamp") = None ->
        QueryEngine._time_bucket (rs1 ++ r :: rs2) interval
        = QueryEngine._time_bucket (rs1 ++ rs2) interval)
  /\ (forall interval,
        QueryEngine.bucket_key interval VNone = None
        /\ QueryEngine.bucket_key interval (VStr "") = None
        /\ forall ts_str, QueryEngine.read_timestamp ts_str = None ->
             QueryEngine.bucket_key interval (VStr ts_str) = None).
Proof.
  split; [|split; [|split]].
  - intros r1 r2 r3 H1 H2 H3.
    rewrite run_stats_time_bucket_1h.
    unfold QueryEngine._time_bucket, QueryEngine.fill_buckets.
    cbn [fold_left]. rewrite H1, H2, H3. vm_compute. reflexivity.
  - intros results interval.
    exists (QueryEngine.sort_asc (QueryEngine.fill_buckets results interval)).
    assert (Hfill : QueryEngine.fill_buckets results interval
                    = counted String.eqb (bucket_keys results interval) []).
    { apply fill_buckets_counted. }
    split; [reflexivity|]. split.
    + apply sort_asc_sorted. rewrite Hfill.
      apply (counted_NoDup string String.eqb String.eqb_eq). constructor.
    + rewrite (total_perm string _ _ (sort_asc_perm _)), Hfill.
      rewrite (counted_total string String.eqb). simpl. reflexivity.
  - intros rs1 r rs2 interval Hnone.
    unfold QueryEngine._time_bucket, QueryEngine.fill_buckets.
    rewrite !fill_buckets_counted, !bucket_keys_app.
    replace (bucket_keys (r :: rs2) interval) with (bucket_keys rs2 interval).
    + reflexivity.
    + unfold bucket_keys at 2. simpl. rewrite Hnone. reflexivity.
  - intro interval. split; [reflexivity|]. split; [reflexivity|].
    intros ts_str Hread. unfold QueryEngine.bucket_key.
    rewrite Hread. destruct (String.eqb ts_str ""); reflexivity.
Qed.

(** ** Ingestion of a file *)

Lemma add_log_rows (st : Indexer.store) (lt : string) (pd : dict) (rl : string) :
  Indexer.rows (fst (Indexer.add_log st lt pd rl))
  = (Indexer.rows st ++ stored (lt, pd, rl))%list.
Proof.
  unfold Indexer.add_log, stored, Indexer.rows.
  destruct (Indexer.bindable _); simpl.
  - rewrite app_assoc. reflexivity.
  - rewrite app_nil_r. reflexivity.
Qed.

Lemma add_all_rows (b : list (string * dict * string)) (st : Indexer.store) :
  Indexer.rows
    (fold_left (fun st e => let '(lt, pd, rl) := e in fst (Indexer.add_log st lt pd rl)) b st)
  = (Indexer.rows st ++ batch_rows b)%list.
Proof.
  revert st. induction b as [|[[lt pd] rl] b IH]; intro st; simpl.
  - rewrite app_nil_r. reflexivity.
  - rewrite IH, add_log_rows, <- app_assoc. reflexivity.
Qed.

Lemma commit_rows (st : Indexer.store) : Indexer.rows (Indexer.commit st) = Indexer.rows st.
Proof. unfold Indexer.rows, Indexer.commit. simpl. apply app_nil_r. Qed.

Lemma flush_rows (st : Indexer.store) (b : list (string * dict * string)) :
  Indexer.rows (LogIngester.flush st b) = (Indexer.rows st ++ batch_rows b)%list.
Proof. unfold LogIngester.flush. rewrite commit_rows. apply add_all_rows. Qed.

Lemma fold_step_rows (current_year : Z) (lines : list string) (s : LogIngester.state) :
  let s' := fold_left (LogIngester.step current_year) lines s in
  (Indexer.rows (LogIngester.db s') ++ batch_rows (LogIngester.batch s'))%list
  = (Indexer.rows (LogIngester.db s) ++ batch_rows (LogIngester.batch s)
     ++ lines_rows current_year (LogIngester.cur_type s) lines)%list.
Proof.
  revert s. induction lines as [|line lines IH]; intro s; simpl.
  - rewrite app_nil_r. reflexivity.
  - rewrite IH. unfold LogIngester.step.
    destruct (String.eqb (Py.strip line) ""); [reflexivity|].
    destruct (LogIngester.parse_line current_year (LogIngester.cur_type s) (Py.strip line))
      as [[pd|] lt'].
    + destruct (LogIngester.batch_size <=? _); simpl.
      * rewrite flush_rows. unfold batch_rows. rewrite flat_map_app. simpl.
        rewrite !app_nil_r, <- !app_assoc. reflexivity.
      * unfold batch_rows. rewrite flat_map_app. simpl.
        rewrite !app_nil_r, <- !app_assoc. reflexivity.
    + simpl. reflexivity.
Qed.

(** The store after [ingest_file]: the rows it held, then the rows of
    the lines. *)
Lemma ingest_file_rows (current_year : Z) (st : Indexer.store) (filepath : string)
    (lines : list string) (log_type : option string) :
  Indexer.rows (fst (LogIngester.ingest_file current_year st filepath (Some lines) log_type))
  = (Indexer.rows st
     ++ lines_rows current_year
          (LogIngester.resolve_log_type current_year filepath lines log_type) lines)%list.
Proof.
  unfold LogIngester.ingest_file. cbn [fst].
  pose proof (fold_step_rows current_year lines
                (LogIngester.mkState
                   (LogIngester.resolve_log_type current_year filepath lines log_type)
                   [] 0 0 st)) as H.
  cbn zeta in H. simpl in H.
  destruct (LogIngester.batch _) eqn:Eb.
  - simpl in H. rewrite app_nil_r in H. exact H.
  - rewrite flush_rows. exact H.
Qed.

Lemma parse_line_known (current_year : Z) (log_type l : string) :
  In log_type known_types ->
  LogIngester.parse_line current_year log_type l = (parser_of current_year log_type l, log_type).
Proof.
  intros [<-|[<-|[<-|[]]]]; reflexivity.
Qed.

Lemma lines_rows_known (current_year : Z) (log_type : string) (lines : list string) :
  In log_type known_types ->
  lines_rows current_year log_type lines = flat_map (line_rows current_year log_type) lines.
Proof.
  intro Hk. induction lines as [|line lines IH]; simpl.
  - reflexivity.
  - unfold line_rows at 1. cbn zeta.
    destruct (String.eqb (Py.strip line) ""); [exact IH|].
    rewrite (parse_line_known _ _ _ Hk).
    destruct (parser_of current_year log_type (Py.strip line)); rewrite IH; reflexivity.
Qed.

Lemma detect_lines_known (current_year : Z) (lines : list string) :
  In (LogIngester.detect_lines current_year lines) known_types.
Proof.
  induction lines as [|line lines IH]; simpl.
  - left. reflexivity.
  - destruct (String.eqb (Py.strip line) ""); [exact IH|].
    unfold LogIngester.any_parser_accepts.
    destruct (AccessParser.parse _); [right; left; reflexivity|].
    destruct (AuthParser.parse _ _); [right; right; left; reflexivity|].
    destruct (SyslogParser.parse _ _); [left; reflexivity|exact IH].
Qed.

Lemma auto_detect_known (current_year : Z) (filepath : string) (lines : list string) :
  In (LogIngester.auto_detect current_year filepath lines) known_types.
Proof.
  unfold LogIngester.auto_detect. cbn zeta.
  destruct (_ || _ || _); [right; left; reflexivity|].
  destruct (_ || _); [right; right; left; reflexivity|].
  destruct (_ || _); [left; reflexivity|].
  apply detect_lines_known.
Qed.

(** C3, as the specification states it, fails: the lines of a file are
    not classified one by one.  Alone in mixed.log the web-access line
    is stored as an access record; after a syslog line the file is taken
    for an auth log by its first line, the syslog line is extracted by
    the auth parser, and the web-access line is rejected and counted as
    an error. *)
Lemma mixed_file_takes_one_type :
  map type_and_raw
      (Indexer.rows (fst (LogIngester.ingest_file 2025 Indexer.empty "/var/log/mixed.log"
                            (Some [access_line ++ newline]) None)))
  = [("access"%string, access_line)]
  /\ map type_and_raw
         (Indexer.rows (fst (LogIngester.ingest_file 2025 Indexer.empty "/var/log/mixed.log"
                               (Some mixed_lines) None)))
     = [("auth"%string, syslog_line)]
  /\ snd (LogIngester.ingest_file 2025 Indexer.empty "/var/log/mixed.log"
            (Some mixed_lines) None)
     = "Ingested 1 events from /var/log/mixed.log (auth format) (1 errors)".
Proof.
  split; [|split]; vm_compute; reflexivity.
Qed.

Lemma taken_as_detect (current_year : Z) (line : string) :
  String.eqb (Py.strip line) "" = false ->
  LogIngester.any_parser_accepts current_year (Py.strip line)
  = taken_as current_year detect_order line.
Proof.
  intro Hb. unfold taken_as, LogIngester.any_parser_accepts, detect_order, parses.
  rewrite Hb. cbn [find].
  change (parser_of current_year "access" (Py.strip line))
    with (AccessParser.parse (Py.strip line)).
  change (parser_of current_year "auth" (Py.strip line))
    with (AuthParser.parse current_year (Py.strip line)).
  change (parser_of current_year "syslog" (Py.strip line))
    with (SyslogParser.parse current_year (Py.strip line)).
  destruct (AccessParser.parse _); [reflexivity|].
  destruct (AuthParser.parse _ _); [reflexivity|].
  destruct (SyslogParser.parse _ _); reflexivity.
Qed.

Lemma taken_as_blank (current_year : Z) (order : list string) (line : string) :
  String.eqb (Py.strip line) "" = true -> taken_as current_year order line = None.
Proof. intro H. unfold taken_as. rewrite H. reflexivity. Qed.

(** [_detect_log_type] answers by the first line that is taken for some
    type, and by [syslog] when there is none. *)
Lemma detect_lines_first (current_year : Z) (before : list string) (line : string)
    (after : list string) (p : string) :
  Forall (fun l => taken_as current_year detect_order l = None) before ->
  taken_as current_year detect_order line = Some p ->
  LogIngester.detect_lines current_year (before ++ line :: after) = p.
Proof.
  intros Hb Hl. induction Hb as [|l before Hnone _ IH]; cbn [app LogIngester.detect_lines];
    cbv zeta.
  - destruct (String.eqb (Py.strip line) "") eqn:E.
    + rewrite (taken_as_blank _ _ _ E) in Hl. discriminate Hl.
    + rewrite (taken_as_detect _ _ E), Hl. reflexivity.
  - destruct (String.eqb (Py.strip l) "") eqn:E; [exact IH|].
    rewrite (taken_as_detect _ _ E), Hnone. exact IH.
Qed.

Lemma detect_lines_none (current_year : Z) (lines : list string) :
  Forall (fun l => taken_as current_year detect_order l = None) lines ->
  LogIngester.detect_lines current_year lines = "syslog".
Proof.
  intro H. induction H as [|l lines Hnone _ IH]; cbn [LogIngester.detect_lines]; cbv zeta.
  - reflexivity.
  - destruct (String.eqb (Py.strip l) "") eqn:E; [exact IH|].
    rewrite (taken_as_detect _ _ E), Hnone. exact IH.
Qed.

Lemma names_one_of_app (a b : list string) (name : string) :
  names_one_of (a ++ b) name = names_one_of a name || names_one_of b name.
Proof. unfold names_one_of. apply existsb_app. Qed.

(** The message is made of the state the loop ends in. *)
Lemma ingest_file_message (current_year : Z) (st : Indexer.store) (filepath : string)
    (lines : list string) (log_type : option string) :
  let s := loop_end current_year
             (LogIngester.resolve_log_type current_year filepath lines log_type) st lines in
  snd (LogIngester.ingest_file current_year st filepath (Some lines) log_type)
  = status_message filepath (LogIngester.cur_type s) (LogIngester.count s)
      (LogIngester.errors s).
Proof. reflexivity. Qed.

(** Under one of the three types the loop keeps the type, counts the
    lines its parser accepts as events and the lines it rejects as
    errors. *)
Lemma known_loop (current_year : Z) (t : string) (lines : list string) :
  In t known_types ->
  forall s, LogIngester.cur_type s = t ->
    let s' := fold_left (LogIngester.step current_year) lines s in
    LogIngester.cur_type s' = t
    /\ LogIngester.count s'
       = LogIngester.count s + List.length (filter (accepted_by current_year t) lines)
    /\ LogIngester.errors s'
       = LogIngester.errors s + List.length (filter (rejected_by current_year t) lines).
Proof.
  intro Hk. induction lines as [|line lines IH]; intros s Ht; cbn zeta.
  - cbn. repeat split; [exact Ht|lia|lia].
  - cbn [fold_left filter]. unfold accepted_by at 1, rejected_by at 1, parses.
    assert (Hstep : let s1 := LogIngester.step current_year s line in
                    LogIngester.cur_type s1 = t
                    /\ LogIngester.count s1
                       = LogIngester.count s
                         + (if negb (String.eqb (Py.strip line) "")
                               && match parser_of current_year t (Py.strip line) with
                                  | Some _ => true
                                  | None => false
                                  end then 1 else 0)
                    /\ LogIngester.errors s1
                       = LogIngester.errors s
                         + (if negb (String.eqb (Py.strip line) "")
                               && negb match parser_of current_year t (Py.strip line) with
                                       | Some _ => true
                                       | None => false
                                       end then 1 else 0)).
    { cbv zeta. unfold LogIngester.step. cbv zeta.
      destruct (String.eqb (Py.strip line) ""); cbn [negb andb].
      - repeat split; [exact Ht|lia|lia].
      - rewrite Ht, (parse_line_known current_year t _ Hk).
        destruct (parser_of current_year t (Py.strip line)) as [pd|]; cbn [negb].
        + destruct (LogIngester.batch_size <=? _);
            cbn [LogIngester.cur_type LogIngester.count LogIngester.errors];
            repeat split; lia.
        + cbn [LogIngester.cur_type LogIngester.count LogIngester.errors].
          repeat split; lia. }
    cbv zeta in Hstep. destruct Hstep as [H1 [H2 H3]].
    destruct (IH (LogIngester.step current_year s line) H1) as [I1 [I2 I3]].
    cbv zeta in I1, I2, I3. rewrite I2, I3, H2, H3.
    split; [exact I1|].
    destruct (negb (String.eqb (Py.strip line) "")
              && match parser_of current_year t (Py.strip line) with
                 | Some _ => true
                 | None => false
                 end);
      destruct (negb (String.eqb (Py.strip line) "")
                && negb match parser_of current_year t (Py.strip line) with
                        | Some _ => true
                        | None => false
                        end);
      cbn [List.length]; split; lia.
Qed.

Lemma parse_line_other (current_year : Z) (t l : string) :
  ~ In t known_types ->
  LogIngester.parse_line current_year t l
  = match find (fun p => parses current_year p l) try_order with
    | Some p => (parser_of current_year p l, p)
    | None => (None, t)
    end.
Proof.
  intro Hn. unfold LogIngester.parse_line.
  assert (H1 : String.eqb t "syslog" = false).
  { apply String.eqb_neq. intro E. apply Hn. rewrite E. cbn. tauto. }
  assert (H2 : String.eqb t "access" = false).
  { apply String.eqb_neq. intro E. apply Hn. rewrite E. cbn. tauto. }
  assert (H3 : String.eqb t "auth" = false).
  { apply String.eqb_neq. intro E. apply Hn. rewrite E. cbn. tauto. }
  rewrite H1, H2, H3. unfold try_order, parses. cbn [find].
  change (parser_of current_year "syslog" l) with (SyslogParser.parse current_year l).
  change (parser_of current_year "access" l) with (AccessParser.parse l).
  change (parser_of current_year "auth" l) with (AuthParser.parse current_year l).
  destruct (SyslogParser.parse current_year l) eqn:E1.
  { cbv beta iota.
    change (parser_of current_year "syslog" l) with (SyslogParser.parse current_year l).
    rewrite E1. reflexivity. }
  destruct (AccessParser.parse l) eqn:E2.
  { cbv beta iota.
    change (parser_of current_year "access" l) with (AccessParser.parse l).
    rewrite E2. reflexivity. }
  destruct (AuthParser.parse current_year l) eqn:E3; [|reflexivity].
  cbv beta iota.
  change (parser_of current_year "auth" l) with (AuthParser.parse current_year l).
  rewrite E3. reflexivity.
Qed.

Lemma try_order_known (current_year : Z) (l p : string) :
  find (fun p => parses current_year p l) try_order = Some p ->
  In p known_types /\ parses current_year p l = true.
Proof.
  intro H. apply find_some in H. destruct H as [Hin Hp]. split; [|exact Hp].
  unfold try_order in Hin. cbn in *. tauto.
Qed.

(** Under another type the loop goes over the lines no parser accepts
    without a change but to the errors. *)
Lemma idle_loop (current_year : Z) (t : string) (before : list string) :
  ~ In t known_types ->
  Forall (fun l => taken_as current_year try_order l = None) before ->
  forall s, LogIngester.cur_type s = t ->
    fold_left (LogIngester.step current_year) before s
    = LogIngester.mkState t (LogIngester.batch s) (LogIngester.count s)
        (LogIngester.errors s + List.length (nonblank before)) (LogIngester.db s).
Proof.
  intros Hn Hb. induction Hb as [|l before Hnone _ IH]; intros s Ht.
  - cbn. rewrite Nat.add_0_r, <- Ht. destruct s; reflexivity.
  - cbn [fold_left nonblank filter]. fold (nonblank before).
    unfold taken_as in Hnone. unfold LogIngester.step at 2. cbv zeta.
    destruct (String.eqb (Py.strip l) "") eqn:E; cbn [negb].
    + exact (IH s Ht).
    + rewrite Ht, (parse_line_other current_year t _ Hn), Hnone.
      rewrite IH by reflexivity.
      cbn [LogIngester.batch LogIngester.count LogIngester.errors LogIngester.db List.length].
      f_equal. lia.
Qed.

(** The first line a parser accepts gives the loop its type. *)
Lemma switch_step (current_year : Z) (t : string) (line p : string) (s : LogIngester.state) :
  ~ In t known_types -> LogIngester.cur_type s = t ->
  taken_as current_year try_order line = Some p ->
  let s1 := LogIngester.step current_year s line in
  In p known_types /\ accepted_by current_year p line = true
  /\ LogIngester.cur_type s1 = p
  /\ LogIngester.count s1 = S (LogIngester.count s)
  /\ LogIngester.errors s1 = LogIngester.errors s
  /\ LogIngester.parse_line current_year t (Py.strip line)
     = LogIngester.parse_line current_year p (Py.strip line).
Proof.
  intros Hn Ht Hl. cbv zeta. unfold taken_as in Hl.
  destruct (String.eqb (Py.strip line) "") eqn:E; [discriminate Hl|].
  destruct (try_order_known _ _ _ Hl) as [Hk Hp].
  split; [exact Hk|]. split; [unfold accepted_by; rewrite E, Hp; reflexivity|].
  unfold LogIngester.step. cbv zeta.
  rewrite E, Ht, (parse_line_other current_year t _ Hn), Hl,
    (parse_line_known current_year p _ Hk).
  unfold parses in Hp.
  destruct (parser_of current_year p (Py.strip line)) as [pd|]; [|discriminate Hp].
  destruct (LogIngester.batch_size <=? _);
    cbn [LogIngester.cur_type LogIngester.count LogIngester.errors]; repeat split.
Qed.

Lemma lines_rows_idle (current_year : Z) (t : string) (before rest : list string) :
  ~ In t known_types ->
  Forall (fun l => taken_as current_year try_order l = None) before ->
  lines_rows current_year t (before ++ rest) = lines_rows current_year t rest.
Proof.
  intros Hn Hb. induction Hb as [|l before Hnone _ IH]; [reflexivity|].
  cbn [app lines_rows]. cbv zeta. unfold taken_as in Hnone.
  destruct (String.eqb (Py.strip l) ""); [exact IH|].
  rewrite (parse_line_other current_year t _ Hn), Hnone. exact IH.
Qed.

Lemma lines_rows_switch (current_year : Z) (t p line : string) (after : list string) :
  ~ In t known_types ->
  taken_as current_year try_order line = Some p ->
  lines_rows current_year t (line :: after) = lines_rows current_year p (line :: after).
Proof.
  intros Hn Hl. cbn [lines_rows]. cbv zeta.
  pose proof Hl as Hl'. unfold taken_as in Hl'.
  destruct (String.eqb (Py.strip line) "") eqn:E; [discriminate Hl'|].
  destruct (try_order_known _ _ _ Hl') as [Hk Hp].
  rewrite (parse_line_other current_year t _ Hn), Hl',
    (parse_line_known current_year p _ Hk).
  reflexivity.
Qed.

(** C3, amended. A file is read under one log type.  When the caller
    names a type it is the caller's; when the caller names none it is
    the type the lowered base name of the file gives (access for a name
    that holds access, nginx or apache; else auth for auth or secure;
    else syslog for syslog or messages), or else the type the first of
    its first five lines is taken for when the parsers are asked in the
    order access, auth, syslog, or else syslog; such a type is one of the
    three.  Under one of the three types every line that is not blank is
    read by that type's parser alone: the store gains the rows of the
    lines this parser accepts, the message counts them as events and the
    lines it rejects as errors, and a rejected line leaves no row.  Under
    another type of the caller's the lines are offered to the syslog,
    access and auth parsers in turn; the lines before the first one
    accepted are counted as errors, and from that line on the file is
    read under its type as above. *)
Theorem one_log_type_per_file (current_year : Z) (st : Indexer.store) (filepath : string)
    (lines : list string) (log_type : option string) :
  let chosen := LogIngester.resolve_log_type current_year filepath lines log_type in
  let name := Py.lower (LogIngester.basename filepath) in
  let done := LogIngester.ingest_file current_year st filepath (Some lines) log_type in
  (forall t, log_type = Some t -> t <> "" -> chosen = t)
  /\ (log_type = None \/ log_type = Some "" ->
      In chosen known_types
      /\ (names_one_of ["access"; "nginx"; "apache"] name = true -> chosen = "access")
      /\ (names_one_of ["access"; "nginx"; "apache"] name = false ->
          names_one_of ["auth"; "secure"] name = true -> chosen = "auth")
      /\ (names_one_of ["access"; "nginx"; "apache"; "auth"; "secure"] name = false ->
          names_one_of ["syslog"; "messages"] name = true -> chosen = "syslog")
      /\ (names_one_of ["access"; "nginx"; "apache"; "auth"; "secure"; "syslog"; "messages"]
            name = false ->
          (forall before line after p,
              firstn 5 lines = (before ++ line :: after)%list ->
              Forall (fun l => taken_as current_year detect_order l = None) before ->
              taken_as current_year detect_order line = Some p ->
              chosen = p)
          /\ (Forall (fun l => taken_as current_year detect_order l = None) (firstn 5 lines) ->
              chosen = "syslog")))
  /\ (In chosen known_types ->
      Indexer.rows (fst done)
      = (Indexer.rows st ++ flat_map (line_rows current_year chosen) lines)%list
      /\ snd done
         = status_message filepath chosen
             (List.length (filter (accepted_by current_year chosen) lines))
             (List.length (filter (rejected_by current_year chosen) lines))
      /\ (forall line, rejected_by current_year chosen line = true ->
                       line_rows current_year chosen line = []))
  /\ (~ In chosen known_types ->
      (forall before line after p,
          lines = (before ++ line :: after)%list ->
          Forall (fun l => taken_as current_year try_order l = None) before ->
          taken_as current_year try_order line = Some p ->
          In p known_types
          /\ Indexer.rows (fst done)
             = (Indexer.rows st ++ flat_map (line_rows current_year p) (line :: after))%list
          /\ snd done
             = status_message filepath p
                 (List.length (filter (accepted_by current_year p) (line :: after)))
                 (List.length (nonblank before)
                  + List.length (filter (rejected_by current_year p) (line :: after))))
      /\ (Forall (fun l => taken_as current_year try_order l = None) lines ->
          Indexer.rows (fst done) = Indexer.rows st
          /\ snd done = status_message filepath chosen 0 (List.length (nonblank lines)))).
Proof.
  cbv zeta.
  split; [|split; [|split]].
  - intros t -> Hne. cbn [LogIngester.resolve_log_type].
    apply String.eqb_neq in Hne. rewrite Hne. reflexivity.
  - intro Hnone.
    assert (E : LogIngester.resolve_log_type current_year filepath lines log_type
                = LogIngester.auto_detect current_year filepath lines).
    { destruct Hnone as [->| ->]; reflexivity. }
    rewrite E. clear E Hnone.
    split; [apply auto_detect_known|].
    unfold LogIngester.auto_detect, names_one_of. cbv zeta. cbn [existsb].
    set (name := Py.lower (LogIngester.basename filepath)).
    destruct (Py.contains "access" name); destruct (Py.contains "nginx" name);
      destruct (Py.contains "apache" name); destruct (Py.contains "auth" name);
      destruct (Py.contains "secure" name); destruct (Py.contains "syslog" name);
      destruct (Py.contains "messages" name); cbn [orb];
      try (repeat split; intros; solve [reflexivity | discriminate]).
    split; [intro H; discriminate H|]. split; [intros _ H; discriminate H|].
    split; [intros _ H; discriminate H|]. intros _.
    unfold LogIngester._detect_log_type. split.
    + intros before line after p Hsplit Hb Hl. rewrite Hsplit.
      apply detect_lines_first; assumption.
    + apply detect_lines_none.
  - intro Hk. split; [|split].
    + rewrite ingest_file_rows, (lines_rows_known _ _ _ Hk). reflexivity.
    + rewrite ingest_file_message. cbv zeta. unfold loop_end.
      destruct (known_loop current_year _ lines Hk
                  (LogIngester.mkState
                     (LogIngester.resolve_log_type current_year filepath lines log_type)
                     [] 0 0 st) eq_refl) as [H1 [H2 H3]].
      cbv zeta in H1, H2, H3. rewrite H1, H2, H3. reflexivity.
    + intros line Hr. unfold rejected_by, parses in Hr. unfold line_rows. cbv zeta.
      destruct (String.eqb (Py.strip line) ""); [reflexivity|].
      destruct (parser_of current_year _ (Py.strip line)); [discriminate Hr|reflexivity].
  - intro Hn. split.
    + intros before line after p -> Hb Hl.
      set (t := LogIngester.resolve_log_type current_year filepath (before ++ line :: after)
                  log_type) in *.
      set (s0 := LogIngester.mkState t [] 0 0 st).
      pose proof (idle_loop current_year t before Hn Hb s0 eq_refl) as Hidle.
      destruct (switch_step current_year t line p
                  (fold_left (LogIngester.step current_year) before s0) Hn
                  ltac:(rewrite Hidle; reflexivity) Hl)
        as [Hk [Hacc [S1 [S2 [S3 _]]]]].
      cbv zeta in S1, S2, S3.
      split; [exact Hk|]. split.
      * rewrite ingest_file_rows. fold t.
        rewrite (lines_rows_idle current_year t before _ Hn Hb),
          (lines_rows_switch current_year t p line after Hn Hl),
          (lines_rows_known _ _ _ Hk).
        reflexivity.
      * rewrite ingest_file_message. cbv zeta. unfold loop_end. fold t. fold s0.
        rewrite fold_left_app. cbn [fold_left].
        destruct (known_loop current_year p after Hk _ S1) as [H1 [H2 H3]].
        cbv zeta in H1, H2, H3. rewrite H1, H2, H3, S2, S3, Hidle.
        cbn [LogIngester.count LogIngester.errors filter]. rewrite Hacc.
        assert (Hrej : rejected_by current_year p line = false).
        { unfold accepted_by in Hacc. unfold rejected_by.
          apply andb_true_iff in Hacc. destruct Hacc as [Ha Hb']. rewrite Ha, Hb'.
          reflexivity. }
        rewrite Hrej. cbn [List.length Nat.add]. reflexivity.
    + intro Hall.
      set (t := LogIngester.resolve_log_type current_year filepath lines log_type) in *.
      split.
      * rewrite ingest_file_rows. fold t.
        replace (lines_rows current_year t lines)
          with (lines_rows current_year t (lines ++ []))
          by (rewrite app_nil_r; reflexivity).
        rewrite (lines_rows_idle current_year t lines [] Hn Hall). cbn [lines_rows].
        apply app_nil_r.
      * rewrite ingest_file_message. cbv zeta. unfold loop_end. fold t.
        rewrite (idle_loop current_year t lines Hn Hall (LogIngester.mkState t [] 0 0 st)
                   eq_refl).
        reflexivity.
Qed.

Lemma one_log_type_per_file_witness :
  (Indexer.rows
     (fst (LogIngester.ingest_file 2025 Indexer.empty "/var/log/mixed.log"
             (Some mixed_lines) None))
   = (Indexer.rows Indexer.empty ++ flat_map (line_rows 2025 "auth") mixed_lines)%list
   /\ snd (LogIngester.ingest_file 2025 Indexer.empty "/var/log/mixed.log"
             (Some mixed_lines) None)
      = status_message "/var/log/mixed.log" "auth" 1 1)
  /\ (Indexer.rows
        (fst (LogIngester.ingest_file 2025 Indexer.empty "/var/log/mixed.log"
                (Some ("no log line" :: access_line :: [syslog_line])) (Some "web")))
      = (Indexer.rows Indexer.empty
         ++ flat_map (line_rows 2025 "access") (access_line :: [syslog_line]))%list
      /\ snd (LogIngester.ingest_file 2025 Indexer.empty "/var/log/mixed.log"
                (Some ("no log line" :: access_line :: [syslog_line])) (Some "web"))
         = status_message "/var/log/mixed.log" "access" 1 2).
Proof.
  split.
  - destruct (proj1 (proj2 (proj2 (one_log_type_per_file 2025 Indexer.empty
                                     "/var/log/mixed.log" mixed_lines None))))
      as [Hrows [Hmsg _]].
    + vm_compute. right. right. left. reflexivity.
    + split; [exact Hrows|exact Hmsg].
  - destruct (proj1 (proj2 (proj2 (proj2 (one_log_type_per_file 2025 Indexer.empty
                                            "/var/log/mixed.log"
                                            ("no log line" :: access_line :: [syslog_line])
                                            (Some "web"))))
                       ltac:(vm_compute; intros [H|[H|[H|[]]]]; discriminate H))
                ["no log line"] access_line [syslog_line] "access" eq_refl
                ltac:(constructor; [vm_compute; reflexivity|constructor])
                ltac:(vm_compute; reflexivity))
      as [_ [Hrows Hmsg]].
    split; [exact Hrows|exact Hmsg].
Defined.

(** ** The raw text of a stored record *)





(** ** Free-text search *)

Lemma like_percent (pattern text : string) :
  Sql.like (String "%" pattern) text = any_run pattern text.
Proof.
  induction text as [|c text IH].
  - reflexivity.
  - cbn [any_run]. rewrite <- IH. reflexivity.
Qed.

Lemma any_run_empty (text : string) : any_run "" text = true.
Proof.
  induction text as [|c text IH]; simpl.
  - reflexivity.
  - exact IH.
Qed.

Lemma any_run_here (pattern text : string) :
  Sql.like pattern text = true -> any_run pattern text = true.
Proof. intro H. destruct text; simpl; rewrite H; reflexivity. Qed.

Lemma any_run_skip (pattern text : string) (c : ascii) :
  any_run pattern text = true -> any_run pattern (String c text) = true.
Proof. intro H. cbn [any_run]. rewrite H. apply orb_true_r. Qed.

Lemma like_cons (p : ascii) (pattern text : string) :
  Ascii.eqb p "%" = false ->
  Sql.like (String p pattern) text
  = match text with
    | EmptyString => false
    | String t text' =>
        (Ascii.eqb p "_" || Ascii.eqb (Py.lower_char p) (Py.lower_char t))
        && Sql.like pattern text'
    end.
Proof. intro Hp. cbn [Sql.like]. rewrite Hp. reflexivity. Qed.

(** A text that starts with [kw] matches the pattern [kw%]. *)
Lemma like_prefix (kw text : string) :
  Py.startswith text kw = true -> Sql.like (kw ++ "%") text = true.
Proof.
  revert text. induction kw as [|c kw IH]; intros text Hstart.
  - simpl append. rewrite like_percent. apply any_run_empty.
  - destruct text as [|x text]; [discriminate|].
    simpl in Hstart. apply andb_true_iff in Hstart. destruct Hstart as [Hc Hrest].
    apply Ascii.eqb_eq in Hc. subst x.
    simpl append.
    destruct (Ascii.eqb c "%") eqn:Ewild.
    + apply Ascii.eqb_eq in Ewild. subst c.
      rewrite like_percent. apply any_run_skip, any_run_here, IH, Hrest.
    + rewrite (like_cons _ _ _ Ewild), Ascii.eqb_refl, orb_true_r. simpl.
      apply IH, Hrest.
Qed.

(** A text that contains [kw] matches the pattern [%kw%]. *)
Lemma like_contains (kw text : string) :
  Py.contains kw text = true -> Sql.like ("%" ++ kw ++ "%") text = true.
Proof.
  intro Hc. simpl append. rewrite like_percent.
  induction text as [|c text IH].
  - simpl in Hc. rewrite orb_false_r in Hc.
    apply any_run_here, like_prefix, Hc.
  - simpl in Hc. apply orb_true_iff in Hc. destruct Hc as [Hhere|Hlater].
    + apply any_run_here, like_prefix. exact Hhere.
    + apply any_run_skip, IH, Hlater.
Qed.

Lemma lower_char_idem (c : ascii) : Py.lower_char (Py.lower_char c) = Py.lower_char c.
Proof.
  unfold Py.lower_char.
  destruct (Py.isupper c) eqn:Eup; [|rewrite Eup; reflexivity].
  unfold Py.isupper, Py.in_range, Py.code in *.
  apply andb_true_iff in Eup. destruct Eup as [Hlo Hhi].
  apply Nat.leb_le in Hlo, Hhi.
  rewrite nat_ascii_embedding by lia.
  replace (nat_of_ascii c + 32 <=? 90) with false; [rewrite andb_false_r; reflexivity|].
  symmetry. apply Nat.leb_gt. lia.
Qed.

Lemma lower_char_wild (c : ascii) :
  Ascii.eqb (Py.lower_char c) "%" = Ascii.eqb c "%"
  /\ Ascii.eqb (Py.lower_char c) "_" = Ascii.eqb c "_".
Proof.
  unfold Py.lower_char.
  destruct (Py.isupper c) eqn:Eup; [|split; reflexivity].
  unfold Py.isupper, Py.in_range, Py.code in Eup.
  apply andb_true_iff in Eup. destruct Eup as [Hlo Hhi].
  apply Nat.leb_le in Hlo, Hhi.
  split.
  - replace (Ascii.eqb c "%") with false.
    + apply Ascii.eqb_neq. intro H. apply (f_equal nat_of_ascii) in H.
      unfold Py.code in H. rewrite nat_ascii_embedding in H by lia.
      change (nat_of_ascii "%") with 37 in H. lia.
    + symmetry. apply Ascii.eqb_neq. intros ->.
      change (nat_of_ascii "%") with 37 in Hlo. lia.
  - replace (Ascii.eqb c "_") with false.
    + apply Ascii.eqb_neq. intro H. apply (f_equal nat_of_ascii) in H.
      unfold Py.code in H. rewrite nat_ascii_embedding in H by lia.
      change (nat_of_ascii "_") with 95 in H. lia.
    + symmetry. apply Ascii.eqb_neq. intros ->.
      change (nat_of_ascii "_") with 95 in Hhi. lia.
Qed.

(** For a lowered keyword with no wildcard and a lowered text, [kw%]
    asks for the prefix [kw]. *)
Lemma like_prefix_exact (kw text : string) :
  wild_free kw ->
  Sql.like (Py.lower kw ++ "%") (Py.lower text) = Py.startswith (Py.lower text) (Py.lower kw).
Proof.
  revert text. induction kw as [|c kw IH]; intros text [Hp Hu].
  - cbn [Py.lower append]. rewrite like_percent, any_run_empty.
    destruct (Py.lower text); reflexivity.
  - simpl in Hp, Hu. apply orb_false_iff in Hp, Hu.
    destruct Hp as [Hp1 Hp2], Hu as [Hu1 Hu2].
    cbn [Py.lower append].
    destruct (lower_char_wild c) as [Hw1 Hw2].
    assert (Ep : Ascii.eqb (Py.lower_char c) "%" = false).
    { rewrite Hw1, Ascii.eqb_sym. exact Hp1. }
    assert (Eu : Ascii.eqb (Py.lower_char c) "_" = false).
    { rewrite Hw2, Ascii.eqb_sym. exact Hu1. }
    rewrite (like_cons _ _ _ Ep), Eu.
    destruct text as [|x text]; [reflexivity|].
    cbn [Py.lower Py.startswith]. rewrite !lower_char_idem. simpl orb.
    rewrite (IH text (conj Hp2 Hu2)). reflexivity.
Qed.

Lemma like_contains_exact (kw text : string) :
  wild_free kw ->
  Sql.like ("%" ++ Py.lower kw ++ "%") (Py.lower text)
  = Py.contains (Py.lower kw) (Py.lower text).
Proof.
  intro Hw. simpl append. rewrite like_percent.
  induction text as [|x text IH].
  - pose proof (like_prefix_exact kw "" Hw) as H0. cbn [Py.lower] in H0.
    cbn [Py.lower any_run Py.contains]. rewrite H0. reflexivity.
  - pose proof (like_prefix_exact kw (String x text) Hw) as Hx. cbn [Py.lower] in Hx.
    cbn [Py.lower any_run Py.contains]. rewrite Hx, IH. reflexivity.
Qed.

Lemma prefix_keeps_equals (p t : string) :
  Py.startswith t p = true -> Py.contains "=" p = true -> Py.contains "=" t = true.
Proof.
  revert t. induction p as [|c p IH]; intros t Hstart Hc.
  - discriminate Hc.
  - destruct t as [|x t]; [discriminate|].
    simpl in Hstart. apply andb_true_iff in Hstart. destruct Hstart as [Hx Hrest].
    apply Ascii.eqb_eq in Hx. subst x.
    cbn [Py.contains Py.startswith] in Hc |- *.
    apply orb_true_iff in Hc. apply orb_true_iff.
    destruct Hc as [Hhere|Hlater].
    + left. destruct p, t; exact Hhere.
    + right. apply IH; assumption.
Qed.

Lemma no_equals_no_prefix (p t : string) :
  Py.contains "=" t = false -> Py.contains "=" p = true -> Py.startswith t p = false.
Proof.
  intros Ht Hp. destruct (Py.startswith t p) eqn:E; [|reflexivity].
  rewrite (prefix_keeps_equals p t E Hp) in Ht. discriminate.
Qed.

Lemma quote_first_no_prefix (token : string) (c : ascii) (p : string) :
  Py.startswith token (String Py.dq "") = true ->
  Ascii.eqb c Py.dq = false ->
  Py.startswith token (String c p) = false.
Proof.
  intros Hq Hc. destruct token as [|x token]; [discriminate|].
  cbn [Py.startswith] in Hq |- *. rewrite andb_true_r in Hq.
  apply Ascii.eqb_eq in Hq. subst x.
  rewrite Hc. reflexivity.
Qed.

(** A token between double quotes compiles to the free-text clause of
    its content, lowered. *)
Lemma quoted_token_clause (now : Datetime.datetime)
    (fromtimestamp : string -> outcome (option Datetime.datetime)) (token : string) :
  Py.startswith token (String Py.dq "") = true ->
  Py.endswith token (String Py.dq "") = true ->
  QueryParser.parse_token now fromtimestamp token
  = Ret [QueryParser.FreeText (Py.lower (Py.strip_chars (String Py.dq "") token))].
Proof.
  intros Hs He. unfold QueryParser.parse_token, QueryParser.starts_time_filter.
  rewrite Hs, He. cbn [negb]. rewrite andb_false_r. cbn [andb].
  rewrite (quote_first_no_prefix token "l" "ast=" Hs eq_refl).
  rewrite (quote_first_no_prefix token "e" "arliest=" Hs eq_refl).
  rewrite (quote_first_no_prefix token "l" "atest=" Hs eq_refl).
  assert (Hstar : String.eqb token "*" = false).
  { destruct token as [|x token]; [discriminate|].
    cbn [Py.startswith] in Hs. rewrite andb_true_r in Hs.
    apply Ascii.eqb_eq in Hs. subst x. reflexivity. }
  rewrite Hstar. reflexivity.
Qed.

(** A bare keyword compiles to the free-text clause of the keyword,
    lowered. *)
Lemma bare_token_clause (now : Datetime.datetime)
    (fromtimestamp : string -> outcome (option Datetime.datetime)) (token : string) :
  Py.contains "=" token = false ->
  token <> "*"%string ->
  Py.startswith token (String Py.dq "") && Py.endswith token (String Py.dq "") = false ->
  QueryParser.parse_token now fromtimestamp token
  = Ret [QueryParser.FreeText (Py.lower token)].
Proof.
  intros Hc Hstar Hq. unfold QueryParser.parse_token, QueryParser.starts_time_filter.
  rewrite Hc, Hq. cbn [andb negb].
  rewrite (no_equals_no_prefix "last=" token Hc eq_refl).
  rewrite (no_equals_no_prefix "earliest=" token Hc eq_refl).
  rewrite (no_equals_no_prefix "latest=" token Hc eq_refl).
  apply String.eqb_neq in Hstar. rewrite Hstar. reflexivity.
Qed.

(** ** The priority chain of the universal parser *)

Lemma parse_json_none (line : string) :
  Engine.parse_json line = Ret None <-> Json.loads line = None.
Proof.
  unfold Engine.parse_json.
  destruct (Json.loads line) as [v|]; [|split; reflexivity].
  split; [|discriminate].
  destruct v as [| | | | | | |obj]; try discriminate.
  destruct (Json.truthy (Json.get obj "event")); [discriminate|].
  destruct (Json.get_default obj "alert" (Json.JObj [])); discriminate.
Qed.

Lemma parse_windows_xml_none (ET_fromstring : string -> option Engine.Element)
    (line : string) :
  Engine.parse_windows_xml ET_fromstring line = Ret None <-> ET_fromstring line = None.
Proof.
  unfold Engine.parse_windows_xml.
  destruct (ET_fromstring line) as [root|]; [|split; reflexivity].
  split; [|discriminate].
  destruct (Engine.find root "System") as [sys|].
  - destruct (Engine.find sys "TimeCreated"); [|discriminate].
    destruct (Engine.find sys "EventID"); discriminate.
  - discriminate.
Qed.

Lemma parse_nginx_none (line : string) :
  Engine.parse_nginx line = None <-> Re.re_match Engine.NGINX_PATTERN line = None.
Proof.
  unfold Engine.parse_nginx.
  destruct (Re.re_match Engine.NGINX_PATTERN line); split; try reflexivity; discriminate.
Qed.

Lemma parse_classic_syslog_some (current_year : Z) (line : string) :
  exists t, Engine.parse_classic_syslog current_year line = Some t.
Proof.
  unfold Engine.parse_classic_syslog. cbn zeta.
  destruct (Py.contains "Failed password" line); [eexists; reflexivity|].
  destruct (Py.contains "Accepted password" line); [eexists; reflexivity|].
  destruct (Py.contains "sudo:" line); eexists; reflexivity.
Qed.

(** C1, as the specification states it, fails: there is no fall-through
    when an extractor fails.  The line [{not json}] passes the JSON
    probe, [json.loads] rejects it, and [parse_universal] returns None
    for it, whatever the XML parser and the year; ingesting a file that
    holds the line inserts no record. *)
Lemma broken_json_gives_no_record :
  broken_json_line <> ""%string
  /\ Engine.is_json broken_json_line = true
  /\ Json.loads broken_json_line = None
  /\ (forall ET_fromstring current_year,
        Engine.parse_universal ET_fromstring current_year broken_json_line = Ret None)
  /\ (forall ET_fromstring current_year,
        Engine.ingest_lines ET_fromstring current_year "app.log"
          [(broken_json_line ++ newline)%string] [] = Ret []).
Proof.
  split; [discriminate|].
  split; [vm_compute; reflexivity|].
  split; [vm_compute; reflexivity|].
  split; intros ET_fromstring current_year; vm_compute; reflexivity.
Qed.

(** C1, amended. The first probe a line passes, in the fixed order
    JSON, XML event, web access, ISO time, classic syslog, decides
    alone, and there is no fall-through: [parse_universal] returns None,
    so that no record is made, exactly when that probe's extractor
    fails, which is when the line passes the JSON probe and
    [json.loads] rejects it, or the XML probe and the XML parser rejects
    it, or the web-access probe or the ISO probe without matching the
    pattern of its extractor.  A
    line that passes the classic syslog probe first always yields a
    record, and a line that passes no probe yields the generic record:
    time unknown, the first IPv4-like run as ip, event generic_event. *)
Theorem first_probe_decides (ET_fromstring : string -> option Engine.Element)
    (current_year : Z) (line : string) :
  (Engine.parse_universal ET_fromstring current_year line = Ret None
   <-> (first_probe line = PJson /\ Json.loads line = None)
       \/ (first_probe line = PXml /\ ET_fromstring line = None)
       \/ (first_probe line = PNginx /\ Re.re_match Engine.NGINX_PATTERN line = None)
       \/ (first_probe line = PIso /\ Engine.parse_iso_syslog line = None))
  /\ (first_probe line = PClassic ->
      exists t, Engine.parse_universal ET_fromstring current_year line = Ret (Some t))
  /\ (first_probe line = PGeneric ->
      Engine.parse_universal ET_fromstring current_year line
      = Ret (Some (Json.JStr "unknown", Engine.jopt (Engine.extract_ip line),
                   Json.JNull, Json.JNull, Json.JStr "generic_event"))).
Proof.
  unfold Engine.parse_universal, first_probe.
  destruct (Engine.is_json line).
  { split; [|split; discriminate].
    rewrite parse_json_none. split.
    - intro H. left. split; [reflexivity|exact H].
    - intros [[_ H]|[[H _]|[[H _]|[H _]]]]; [exact H|discriminate..]. }
  destruct (Engine.is_windows_xml line).
  { split; [|split; discriminate].
    rewrite parse_windows_xml_none. split.
    - intro H. right. left. split; [reflexivity|exact H].
    - intros [[H _]|[[_ H]|[[H _]|[H _]]]]; [discriminate|exact H|discriminate..]. }
  destruct (Engine.is_nginx line).
  { split; [|split; discriminate].
    rewrite <- parse_nginx_none. split.
    - intro H. right. right. left. split; [reflexivity|]. injection H as H. exact H.
    - intros [[H _]|[[H _]|[[_ H]|[H _]]]]; [discriminate..|rewrite H; reflexivity|discriminate]. }
  destruct (Engine.is_iso line).
  { split; [|split; discriminate].
    split.
    - intro H. right. right. right. split; [reflexivity|]. injection H as H. exact H.
    - intros [[H _]|[[H _]|[[H _]|[_ H]]]]; [discriminate..|rewrite H; reflexivity]. }
  destruct (Engine.is_classic_syslog line).
  { split; [|split; [|discriminate]].
    - destruct (parse_classic_syslog_some current_year line) as [t Ht]. rewrite Ht.
      split; [discriminate|].
      intros [[H _]|[[H _]|[[H _]|[H _]]]]; discriminate.
    - intros _. destruct (parse_classic_syslog_some current_year line) as [t Ht].
      exists t. rewrite Ht. reflexivity. }
  split; [|split; [discriminate|reflexivity]].
  split; [discriminate|].
  intros [[H _]|[[H _]|[[H _]|[H _]]]]; discriminate.
Qed.

(** ** [top] and [table] *)

Lemma sorted_app_order (A : Type) (R : A -> A -> Prop) (l1 l2 : list A) :
  StronglySorted R (l1 ++ l2) -> forall a b, In a l1 -> In b l2 -> R a b.
Proof.
  induction l1 as [|x l1 IH]; simpl; intros Hs a b Ha Hb.
  - contradiction.
  - inversion Hs as [|? ? Hs' Hall]; subst.
    destruct Ha as [<-|Ha].
    + rewrite Forall_forall in Hall. apply Hall, in_or_app. right. exact Hb.
    + apply IH; assumption.
Qed.

(** X1. [top(N, field)] returns the first N rows of [count_by(field)],
    all of them when there are fewer: never more than N rows, and no
    row that is left out has a larger count than a row that is kept. *)
Theorem top_rows (results : list dict) (n : nat) (field : string) :
  exists kept dropped : list (value * Z),
    QueryEngine._top results n field = map QueryEngine.value_row kept
    /\ QueryEngine._count_by results field = map QueryEngine.value_row (kept ++ dropped)
    /\ List.length kept = Nat.min n (List.length (kept ++ dropped))
    /\ (forall a b, In a kept -> In b dropped -> (snd b <= snd a)%Z).
Proof.
  set (sorted := QueryEngine.sort_desc (QueryEngine.tally results field)).
  exists (firstn n sorted), (skipn n sorted).
  rewrite firstn_skipn.
  split; [reflexivity|]. split; [reflexivity|]. split.
  - apply length_firstn.
  - intros a b Ha Hb.
    apply (sorted_app_order _ (@falls value) (firstn n sorted) (skipn n sorted)); try assumption.
    rewrite firstn_skipn. apply sort_desc_sorted.
Qed.

Lemma dict_get_set (d : dict) (k k' : string) (v : value) :
  dict_get (dict_set d k v) k' = if String.eqb k' k then v else dict_get d k'.
Proof.
  induction d as [|[k0 v0] d IH]; simpl.
  - reflexivity.
  - destruct (String.eqb k k0) eqn:E; simpl.
    + apply String.eqb_eq in E. subst k0.
      destruct (String.eqb k' k); reflexivity.
    + destruct (String.eqb k' k0) eqn:E0.
      * apply String.eqb_eq in E0. subst k0.
        rewrite String.eqb_sym, E. reflexivity.
      * exact IH.
Qed.

Lemma dict_set_keys (d : dict) (k k' : string) (v : value) :
  In k' (map fst (dict_set d k v)) <-> k' = k \/ In k' (map fst d).
Proof.
  induction d as [|[k0 v0] d IH]; simpl.
  - intuition.
  - destruct (String.eqb k k0) eqn:E; simpl.
    + apply String.eqb_eq in E. subst k0. intuition.
    + rewrite IH. intuition.
Qed.

Lemma dict_set_NoDup (d : dict) (k : string) (v : value) :
  NoDup (map fst d) -> NoDup (map fst (dict_set d k v)).
Proof.
  induction d as [|[k0 v0] d IH]; simpl; intro Hnd.
  - constructor; [intros []|constructor].
  - inversion Hnd as [|? ? Hnotin Hnd']; subst.
    destruct (String.eqb k k0) eqn:E; simpl.
    + constructor; assumption.
    + constructor; [|apply IH, Hnd'].
      rewrite dict_set_keys. intros [->|Hin]; [|contradiction].
      rewrite String.eqb_refl in E. discriminate.
Qed.

Lemma table_fold (r : dict) (fields : list string) (row : dict) :
  let row' := fold_left (fun row f => dict_set row f (dict_get_default r f (VStr "")))
                        fields row in
  (forall f, In f fields -> dict_get row' f = dict_get_default r f (VStr ""))
  /\ (forall f, ~ In f fields -> dict_get row' f = dict_get row f)
  /\ (NoDup (map fst row) -> NoDup (map fst row'))
  /\ (forall k, In k (map fst row') <-> In k fields \/ In k (map fst row)).
Proof.
  revert row. induction fields as [|f0 fields IH]; intro row; cbn zeta; simpl.
  - split; [|split; [|split]]; tauto.
  - destruct (IH (dict_set row f0 (dict_get_default r f0 (VStr "")))) as [H1 [H2 [H3 H4]]].
    cbn zeta in H1, H2, H3, H4.
    split; [|split; [|split]].
    + intros f [<-|Hin].
      * destruct (in_dec string_dec f0 fields) as [Hin|Hnot]; [apply H1, Hin|].
        rewrite (H2 _ Hnot), dict_get_set, String.eqb_refl. reflexivity.
      * apply H1, Hin.
    + intros f Hnot.
      rewrite H2 by tauto. rewrite dict_get_set.
      destruct (String.eqb f f0) eqn:E; [|reflexivity].
      apply String.eqb_eq in E. subst f0. tauto.
    + intro Hnd. apply H3, dict_set_NoDup, Hnd.
    + intro k. rewrite H4, dict_set_keys. intuition.
Qed.

(** X2. [table(f1, f2, ...)] makes one row per record, in the order of
    the records.  A row holds the named fields and nothing else, each
    once; a field is given the record's value for it, also when that
    value is null, and the empty string only when the record has no
    such key. *)
Theorem table_rows (results : list dict) (fields : list string) :
  Forall2 (fun r row =>
             (forall f, In f fields -> dict_get row f = dict_get_default r f (VStr ""))
             /\ (forall f, ~ In f fields -> dict_get row f = VNone)
             /\ NoDup (map fst row)
             /\ (forall k, In k (map fst row) <-> In k fields))
          results (QueryEngine._table results fields).
Proof.
  unfold QueryEngine._table.
  induction results as [|r results IH]; simpl; constructor; [|exact IH].
  destruct (table_fold r fields []) as [H1 [H2 [H3 H4]]]. cbn zeta in H1, H2, H3, H4.
  split; [|split; [|split]].
  - exact H1.
  - intros f Hnot. rewrite (H2 f Hnot). reflexivity.
  - apply H3. constructor.
  - intro k. rewrite H4. simpl. tauto.
Qed.

(** ** The accounts of [ingest_file] *)

Lemma stored_length (e : string * dict * string) : List.length (stored e) <= 1.
Proof.
  destruct e as [[lt pd] rl]. unfold stored.
  destruct (Indexer.bindable _); simpl; lia.
Qed.

Lemma fold_step_counts (current_year : Z) (lines : list string) (s : LogIngester.state) :
  let s' := fold_left (LogIngester.step current_year) lines s in
  LogIngester.count s' + LogIngester.errors s'
  = LogIngester.count s + LogIngester.errors s + List.length (nonblank lines)
  /\ LogIngester.count s
     + List.length (lines_rows current_year (LogIngester.cur_type s) lines)
     <= LogIngester.count s'.
Proof.
  revert s. induction lines as [|line lines IH]; intro s; cbn zeta.
  - simpl. lia.
  - cbn [fold_left nonblank filter lines_rows].
    destruct (IH (LogIngester.step current_year s line)) as [IH1 IH2].
    cbn zeta in IH1, IH2. fold (nonblank lines).
    revert IH1 IH2. unfold LogIngester.step. cbn zeta.
    destruct (String.eqb (Py.strip line) "") eqn:Eblank; cbn [negb].
    + intros IH1 IH2. split; [exact IH1|exact IH2].
    + destruct (LogIngester.parse_line current_year (LogIngester.cur_type s) (Py.strip line))
        as [[pd|] lt'].
      * pose proof (stored_length (lt', pd, Py.strip line)) as Hone.
        destruct (LogIngester.batch_size <=? _); cbn [LogIngester.count LogIngester.errors
          LogIngester.cur_type List.length]; intros IH1 IH2;
          rewrite length_app; split; lia.
      * cbn [LogIngester.count LogIngester.errors LogIngester.cur_type List.length].
        intros IH1 IH2. split; lia.
Qed.

Lemma fold_step_batch (current_year : Z) (lines : list string) (s : LogIngester.state) :
  List.length (LogIngester.batch s) < LogIngester.batch_size ->
  List.length (LogIngester.batch (fold_left (LogIngester.step current_year) lines s))
  < LogIngester.batch_size.
Proof.
  revert s. induction lines as [|line lines IH]; intros s Hb; simpl.
  - exact Hb.
  - apply IH. unfold LogIngester.step. cbn zeta.
    destruct (String.eqb (Py.strip line) ""); [exact Hb|].
    destruct (LogIngester.parse_line current_year (LogIngester.cur_type s) (Py.strip line))
      as [[pd|] lt']; [|exact Hb].
    destruct (LogIngester.batch_size <=? _) eqn:E; simpl.
    + unfold LogIngester.batch_size. lia.
    + apply Nat.leb_gt in E. exact E.
Qed.

Lemma flush_pending (st : Indexer.store) (b : list (string * dict * string)) :
  Indexer.pending (LogIngester.flush st b) = [].
Proof. reflexivity. Qed.

Lemma fold_step_settled (current_year : Z) (st : Indexer.store) (lines : list string)
    (s : LogIngester.state) :
  settled st s -> settled st (fold_left (LogIngester.step current_year) lines s).
Proof.
  revert s. induction lines as [|line lines IH]; intros s Hs; simpl.
  - exact Hs.
  - apply IH. unfold LogIngester.step. cbn zeta.
    destruct (String.eqb (Py.strip line) ""); [exact Hs|].
    destruct (LogIngester.parse_line current_year (LogIngester.cur_type s) (Py.strip line))
      as [[pd|] lt'].
    + right. destruct (LogIngester.batch_size <=? _); simpl.
      * split; [lia|]. right. reflexivity.
      * split; [lia|]. left. intro H. apply app_eq_nil in H. destruct H as [_ H].
        discriminate H.
    + destruct Hs as [[Hc [Hb Hd]]|[Hc Hb]]; [left|right]; simpl; auto.
Qed.

(** X3. [ingest_file] accounts for every line that is not blank: it is
    counted as an event or as an error, and the message reports the two
    numbers.  The batch in hand never reaches [batch_size] entries.  The
    store gains at most one row per event counted (none for an event
    whose insert failed), and when the call ends everything it inserted
    is committed; a file with no event leaves the store as it was. *)
Theorem ingest_accounting (current_year : Z) (st : Indexer.store) (filepath : string)
    (lines : list string) (log_type : option string) :
  let s := loop_end current_year
             (LogIngester.resolve_log_type current_year filepath lines log_type) st lines in
  let done := LogIngester.ingest_file current_year st filepath (Some lines) log_type in
  LogIngester.count s + LogIngester.errors s = List.length (nonblank lines)
  /\ snd done
     = ("Ingested " ++ LogIngester.str_of_nat (LogIngester.count s) ++ " events from "
        ++ filepath ++ " (" ++ LogIngester.cur_type s ++ " format)"
        ++ (if (0 <? LogIngester.errors s)%nat
            then " (" ++ LogIngester.str_of_nat (LogIngester.errors s) ++ " errors)"
            else ""))%string
  /\ List.length (LogIngester.batch s) < LogIngester.batch_size
  /\ List.length (Indexer.rows (fst done))
     <= List.length (Indexer.rows st) + LogIngester.count s
  /\ (0 < LogIngester.count s -> Indexer.pending (fst done) = [])
  /\ (LogIngester.count s = 0 -> fst done = st).
Proof.
  cbn zeta. unfold loop_end.
  set (T := LogIngester.resolve_log_type current_year filepath lines log_type).
  set (s0 := LogIngester.mkState T [] 0 0 st).
  destruct (fold_step_counts current_year lines s0) as [Hc Hr]. cbn zeta in Hc, Hr.
  pose proof (fold_step_batch current_year lines s0) as Hb.
  pose proof (fold_step_settled current_year st lines s0) as Hs.
  split; [exact Hc|]. split; [reflexivity|]. split.
  { apply Hb. unfold LogIngester.batch_size. simpl. lia. }
  split.
  { rewrite ingest_file_rows, length_app. fold T. simpl in Hr. lia. }
  assert (Hsettled : settled st (fold_left (LogIngester.step current_year) lines s0)).
  { apply Hs. left. simpl. auto. }
  unfold LogIngester.ingest_file. cbn [fst]. fold T. fold s0.
  split.
  - intro Hpos.
    destruct (LogIngester.batch (fold_left (LogIngester.step current_year) lines s0)) eqn:Eb.
    + destruct Hsettled as [[Hz _]|[_ [Hne|Hp]]]; [lia| |exact Hp].
      rewrite Eb in Hne. contradiction.
    + apply flush_pending.
  - intro Hzero.
    destruct Hsettled as [[_ [Hb0 Hd]]|[Hpos _]]; [|lia].
    rewrite Hb0. exact Hd.
Qed.

(** ** The characters [query] lets through *)

Lemma star_loop_cls (p : ascii -> bool) (k : Re.mstate -> option Re.mstate) (fuel : nat)
    (st : Re.mstate) :
  String.length (Re.rest st) < fuel ->
  (fix loop (fuel : nat) (st : Re.mstate) {struct fuel} : option Re.mstate :=
     match fuel with
     | O => k st
     | S fuel' =>
         Re.or_else
           (Re.run (Re.Cls p) st (fun st1 =>
              if Re.pos st <? Re.pos st1 then loop fuel' st1 else None))
           (fun _ => k st)
     end) fuel st
  = star_cls p k (Re.pos st) (Re.caps st) (Re.rest st).
Proof.
  revert st. induction fuel as [|fuel IH]; intros st Hlen.
  - lia.
  - destruct st as [pos rest caps]. cbn [Re.rest Re.pos Re.caps] in *.
    cbn [Re.run]. unfold Re.step_char. cbn [Re.rest Re.pos Re.caps].
    destruct rest as [|a rest]; cbn [star_cls].
    + reflexivity.
    + destruct (p a); [|reflexivity].
      replace (pos <? S pos) with true by (symmetry; apply Nat.ltb_lt; lia).
      rewrite IH by (cbn [Re.rest String.length] in *; lia).
      reflexivity.
Qed.

Lemma run_star_cls (p : ascii -> bool) (k : Re.mstate -> option Re.mstate) (st : Re.mstate) :
  Re.run (Re.Star (Re.Cls p)) st k = star_cls p k (Re.pos st) (Re.caps st) (Re.rest st).
Proof.
  rewrite <- (star_loop_cls p k (S (String.length (Re.rest st))) st) by lia.
  reflexivity.
Qed.

Lemma all_chars_app (p : ascii -> bool) (a b : string) :
  all_chars p (a ++ b) = all_chars p a && all_chars p b.
Proof.
  induction a as [|c a IH]; simpl; [reflexivity|].
  rewrite IH. apply andb_assoc.
Qed.

(** With the end of the text after it, the star of a class takes a text
    exactly when all of it is in the class. *)
Lemma star_cls_to_end (p : ascii -> bool) (pos : nat) (caps : list (nat * (nat * nat)))
    (text : string) :
  p Py.nl = true ->
  (exists st, star_cls p (fun st => Re.run Re.Eol st Some) pos caps text = Some st)
  <-> all_chars p text = true.
Proof.
  intro Hnl. revert pos. induction text as [|a text IH]; intro pos; cbn [star_cls all_chars].
  - cbn. split; [reflexivity|]. intros _. eexists. reflexivity.
  - destruct (p a) eqn:Ea; cbn [andb].
    + rewrite <- (IH (S pos)).
      destruct (star_cls p _ (S pos) caps text) as [st|] eqn:Es; cbn [Re.or_else].
      * split; intros _; eexists; reflexivity.
      * cbn [Re.run Re.rest].
        split.
        -- destruct text as [|b text].
           ++ cbn [star_cls] in Es. cbn in Es. discriminate Es.
           ++ intros [st H]. discriminate H.
        -- intros [st H]. discriminate H.
    + cbn [Re.run Re.rest]. split; [|discriminate].
      destruct text as [|b text].
      * destruct (Ascii.eqb a Py.nl) eqn:E.
        -- apply Ascii.eqb_eq in E. subst a. congruence.
        -- intros [st H]. discriminate H.
      * intros [st H]. discriminate H.
Qed.

Lemma where_ok_chars (where_clause : string) :
  Indexer.where_ok where_clause
  = negb (String.eqb where_clause "") && all_chars Indexer.where_char where_clause.
Proof.
  destruct where_clause as [|a text]; [reflexivity|].
  cbn [String.eqb negb andb all_chars].
  unfold Indexer.where_ok, Re.re_match.
  change (Re.run (Re.seq [Re.Bol; Re.plus (Re.Cls Indexer.where_char); Re.Eol])
            (Re.MState 0 (String a text) []) Some)
    with (if Indexer.where_char a
          then Re.run (Re.Star (Re.Cls Indexer.where_char)) (Re.MState 1 text [])
                 (fun st => Re.run Re.Eol st Some)
          else None).
  destruct (Indexer.where_char a); [|reflexivity]. cbn [andb].
  rewrite run_star_cls. cbn [Re.pos Re.caps Re.rest].
  pose proof (star_cls_to_end Indexer.where_char 1 [] text eq_refl) as H.
  destruct (star_cls Indexer.where_char _ 1 [] text) as [st|].
  - symmetry. apply H. eexists. reflexivity.
  - destruct (all_chars Indexer.where_char text); [|reflexivity].
    destruct (proj2 H eq_refl) as [st Hst]. discriminate Hst.
Qed.

(** X4. [query] runs a WHERE clause exactly when the clause is not
    empty and each of its characters is a letter, a digit, white space
    or one of [_<>=()'\x22,.:-+%]; any other clause is answered, without
    reaching the database, by the one row [error: Invalid WHERE clause].
    An exception of the database becomes an error row with its text. *)
Theorem query_checks_characters (execute : string -> nat -> outcome (list dict))
    (where_clause : string) (limit : nat) :
  Indexer.query execute where_clause limit
  = if negb (String.eqb where_clause "") && allowed where_clause
    then match execute ("SELECT * FROM logs WHERE " ++ where_clause
                        ++ " ORDER BY id DESC LIMIT ?") limit with
         | Ret found => found
         | Raise e => [error_row e]
         end
    else [error_row "Invalid WHERE clause"].
Proof.
  unfold Indexer.query. rewrite where_ok_chars. reflexivity.
Qed.

Lemma allowed_app (a b : string) : allowed (a ++ b) = allowed a && allowed b.
Proof. apply all_chars_app. Qed.

Lemma allowed_to_sql (c : QueryParser.clause) :
  allowed (QueryParser.to_sql c) = allowed (user_text c).
Proof.
  destruct c as [f v|f v|op iso|kw]; cbn [QueryParser.to_sql user_text].
  - rewrite !allowed_app.
    change (allowed "LOWER(") with true. change (allowed ") LIKE LOWER('%") with true.
    change (allowed "%')") with true. cbn [andb]. rewrite andb_true_r. reflexivity.
  - rewrite !allowed_app.
    change (allowed "='") with true. change (allowed "'") with true.
    rewrite andb_true_r. reflexivity.
  - rewrite !allowed_app.
    change (allowed "timestamp ") with true. change (allowed " '") with true.
    change (allowed "'") with true. cbn [andb]. rewrite andb_true_r. reflexivity.
  - unfold QueryParser.free_text_columns, QueryParser.column_like.
    cbn [map Py.join]. rewrite !allowed_app.
    destruct (allowed kw); reflexivity.
Qed.

Lemma to_sql_nonempty (c : QueryParser.clause) : QueryParser.to_sql c <> "".
Proof.
  destruct c as [f v|f v|op iso|kw]; cbn [QueryParser.to_sql]; try discriminate.
  destruct f; discriminate.
Qed.

Lemma allowed_join (cs : list QueryParser.clause) :
  allowed (Py.join " AND " (map QueryParser.to_sql cs))
  = forallb (fun c => allowed (user_text c)) cs.
Proof.
  induction cs as [|c cs IH]; [reflexivity|].
  cbn [map forallb]. rewrite <- IH, <- allowed_to_sql.
  destruct cs as [|c' cs].
  - cbn. rewrite andb_true_r. reflexivity.
  - cbn [map Py.join]. rewrite !allowed_app. reflexivity.
Qed.

Lemma join_nonempty (cs : list QueryParser.clause) :
  cs <> [] -> Py.join " AND " (map QueryParser.to_sql cs) <> "".
Proof.
  destruct cs as [|c cs]; [congruence|]. intros _.
  cbn [map Py.join]. destruct (map QueryParser.to_sql cs).
  - apply to_sql_nonempty.
  - pose proof (to_sql_nonempty c) as H.
    destruct (QueryParser.to_sql c); [congruence|discriminate].
Qed.

(** X5. The WHERE clause that [_parse_search] joins from its clauses
    passes the check of [query] exactly when the text taken from the
    query (the keyword, the field and its value, the comparison and its
    time) has allowed characters only: what the parser itself writes
    around that text always passes, and so does [1=1]. *)
Theorem where_ok_clauses (cs : list QueryParser.clause) :
  Indexer.where_ok (QueryParser.where_of cs)
  = forallb (fun c => allowed (user_text c)) cs.
Proof.
  rewrite where_ok_chars.
  destruct cs as [|c cs]; [reflexivity|].
  unfold QueryParser.where_of.
  fold (allowed (Py.join " AND " (map QueryParser.to_sql (c :: cs)))).
  rewrite allowed_join.
  pose proof (join_nonempty (c :: cs)) as H.
  destruct (Py.join " AND " (map QueryParser.to_sql (c :: cs))) eqn:E.
  - exfalso. apply H; [discriminate|reflexivity].
  - reflexivity.
Qed.

Lemma all_chars_impl (p q : ascii -> bool) (s : string) :
  (forall c, p c = true -> q c = true) -> all_chars p s = true -> all_chars q s = true.
Proof.
  intro Hpq. induction s as [|c s IH]; simpl; [reflexivity|].
  intro H. apply andb_true_iff in H. destruct H as [Hc Hs].
  rewrite (Hpq c Hc), (IH Hs). reflexivity.
Qed.

Lemma rstrip_by_app (p : ascii -> bool) (a b : string) :
  Py.rstrip_by p (a ++ b)
  = match Py.rstrip_by p b with
    | EmptyString => Py.rstrip_by p a
    | r => a ++ r
    end.
Proof.
  induction a as [|c a IH]; cbn [append Py.rstrip_by].
  - destruct (Py.rstrip_by p b); reflexivity.
  - rewrite IH. destruct (Py.rstrip_by p b) as [|x r]; [reflexivity|].
    destruct a; reflexivity.
Qed.

Lemma rstrip_by_none (p : ascii -> bool) (s : string) :
  all_chars (fun c => negb (p c)) s = true -> Py.rstrip_by p s = s.
Proof.
  induction s as [|c s IH]; cbn [all_chars Py.rstrip_by]; [reflexivity|].
  intro H. apply andb_true_iff in H. destruct H as [Hc Hs].
  rewrite (IH Hs). apply negb_true_iff in Hc. rewrite Hc.
  destruct s; reflexivity.
Qed.

Lemma lstrip_by_first (p : ascii -> bool) (c : ascii) (s : string) :
  p c = false -> Py.lstrip_by p (String c s) = String c s.
Proof. intro H. cbn. rewrite H. reflexivity. Qed.

Lemma plain_nonspace (kw : string) :
  all_chars plain_char kw = true -> all_chars (fun c => negb (Py.isspace c)) kw = true.
Proof.
  apply all_chars_impl. intros c H. unfold plain_char in H.
  apply negb_true_iff in H. apply orb_false_iff in H. destruct H as [H _].
  rewrite H. reflexivity.
Qed.

Lemma append_empty (a : string) : a ++ "" = a.
Proof. induction a as [|c a IH]; simpl; [reflexivity|rewrite IH; reflexivity]. Qed.

Lemma append_assoc (a b c : string) : (a ++ b) ++ c = a ++ b ++ c.
Proof. induction a as [|x a IH]; simpl; [reflexivity|rewrite IH; reflexivity]. Qed.

Lemma plain_parts (kw : string) :
  plain kw = true -> kw <> "" /\ kw <> "*" /\ all_chars plain_char kw = true.
Proof.
  unfold plain. intro H.
  apply andb_true_iff in H. destruct H as [H H3].
  apply andb_true_iff in H. destruct H as [H1 H2].
  apply negb_true_iff in H1, H2.
  apply String.eqb_neq in H1, H2. auto.
Qed.

Lemma join_cons (sep a b : string) (l : list string) :
  Py.join sep (a :: b :: l) = a ++ sep ++ Py.join sep (b :: l).
Proof. reflexivity. Qed.

Lemma all_plain_join (kws : list string) :
  forallb plain kws = true -> all_chars (fun c => plain_char c || Ascii.eqb c " ") (Py.join " " kws) = true.
Proof.
  induction kws as [|kw kws IH]; [reflexivity|].
  cbn [forallb]. intro H. apply andb_true_iff in H. destruct H as [Hk Hs].
  destruct (plain_parts kw Hk) as [_ [_ Hc]].
  assert (Hkw : all_chars (fun c => plain_char c || Ascii.eqb c " ") kw = true).
  { revert Hc. apply all_chars_impl. intros c ->. reflexivity. }
  destruct kws as [|k kws]; [exact Hkw|].
  rewrite join_cons, !all_chars_app, Hkw, (IH Hs). reflexivity.
Qed.

(** The tokenizer on plain keywords with one blank between them. *)
Lemma tokenize_plain_run (kw text : string) (tokens : list string) (current : string) :
  all_chars plain_char kw = true ->
  QueryParser.tokenize_aux (kw ++ text) tokens current None
  = QueryParser.tokenize_aux text tokens (current ++ kw) None.
Proof.
  revert current. induction kw as [|c kw IH]; intros current H.
  - rewrite append_empty. reflexivity.
  - cbn [all_chars] in H. apply andb_true_iff in H. destruct H as [Hc Hs].
    cbn [append QueryParser.tokenize_aux].
    unfold plain_char in Hc. apply negb_true_iff in Hc.
    apply orb_false_iff in Hc. destruct Hc as [Hsp Hq].
    cbn [Py.mem_char] in Hq.
    apply orb_false_iff in Hq. destruct Hq as [Hdq Hq].
    apply orb_false_iff in Hq. destruct Hq as [Hsq _].
    rewrite Hdq, Hsq. cbn [orb].
    assert (Hblank : Ascii.eqb c " " = false).
    { destruct (Ascii.eqb c " ") eqn:E; [|reflexivity].
      apply Ascii.eqb_eq in E. subst c. discriminate Hsp. }
    rewrite Hblank, (IH _ Hs), append_assoc. reflexivity.
Qed.

Lemma tokenize_keywords (kws : list string) (tokens : list string) :
  forallb plain kws = true ->
  QueryParser.tokenize_aux (Py.join " " kws) tokens "" None = (tokens ++ kws)%list.
Proof.
  revert tokens. induction kws as [|kw kws IH]; intros tokens H.
  - cbn. rewrite app_nil_r. reflexivity.
  - cbn [forallb] in H. apply andb_true_iff in H. destruct H as [Hk Hs].
    destruct (plain_parts kw Hk) as [Hne [_ Hc]].
    destruct kws as [|k kws].
    + cbn [Py.join]. rewrite <- (append_empty kw) at 1.
      rewrite tokenize_plain_run by exact Hc.
      cbn [QueryParser.tokenize_aux append].
      destruct kw; [congruence|reflexivity].
    + rewrite join_cons, tokenize_plain_run by exact Hc.
      cbn [append QueryParser.tokenize_aux].
      change (Ascii.eqb " " Py.dq || Ascii.eqb " " Py.sq) with false.
      change (Ascii.eqb " " " ") with true. cbn iota.
      destruct kw as [|c kw]; [congruence|].
      cbn [String.eqb]. rewrite (IH _ Hs), <- app_assoc. reflexivity.
Qed.

Lemma after_char_none (sep : ascii) (s : string) :
  all_chars (fun c => negb (Ascii.eqb c sep)) s = true -> Py.after_char sep s = None.
Proof.
  induction s as [|c s IH]; cbn [all_chars Py.after_char]; [reflexivity|].
  intro H. apply andb_true_iff in H. destruct H as [Hc Hs].
  apply negb_true_iff in Hc. rewrite Hc. exact (IH Hs).
Qed.

Lemma contains_char_none (sep : ascii) (s : string) :
  all_chars (fun c => negb (Ascii.eqb c sep)) s = true ->
  Py.contains (String sep "") s = false.
Proof.
  induction s as [|c s IH]; cbn [all_chars Py.contains Py.startswith]; [reflexivity|].
  intro H. apply andb_true_iff in H. destruct H as [Hc Hs].
  apply negb_true_iff in Hc. rewrite Ascii.eqb_sym, Hc, (IH Hs). reflexivity.
Qed.

Lemma plain_char_not (c x : ascii) :
  Py.mem_char x (String Py.dq (String Py.sq "=|")) = true ->
  plain_char c = true -> negb (Ascii.eqb c x) = true.
Proof.
  intros Hx Hc. unfold plain_char in Hc. apply negb_true_iff in Hc.
  apply orb_false_iff in Hc. destruct Hc as [_ Hq].
  destruct (Ascii.eqb c x) eqn:E; [|reflexivity].
  apply Ascii.eqb_eq in E. subst x. congruence.
Qed.

Lemma join_keywords_head (kw : string) (kws : list string) :
  exists tail, Py.join " " (kw :: kws) = kw ++ tail.
Proof.
  destruct kws as [|k kws].
  - exists "". cbn [Py.join]. symmetry. apply append_empty.
  - eexists. rewrite join_cons. reflexivity.
Qed.

Lemma strip_keywords (kws : list string) :
  forallb plain kws = true -> Py.strip (Py.join " " kws) = Py.join " " kws.
Proof.
  intro H. unfold Py.strip, Py.strip_by.
  assert (Hl : Py.lstrip_by Py.isspace (Py.join " " kws) = Py.join " " kws).
  { destruct kws as [|kw kws]; [reflexivity|].
    cbn [forallb] in H. apply andb_true_iff in H. destruct H as [Hk _].
    destruct (plain_parts kw Hk) as [Hne [_ Hc]].
    destruct (join_keywords_head kw kws) as [tail ->].
    destruct kw as [|c kw]; [congruence|].
    cbn [all_chars] in Hc. apply andb_true_iff in Hc. destruct Hc as [Hc _].
    unfold plain_char in Hc. apply negb_true_iff in Hc.
    apply orb_false_iff in Hc. destruct Hc as [Hsp _].
    cbn [append]. apply lstrip_by_first. exact Hsp. }
  rewrite Hl. clear Hl.
  induction kws as [|kw kws IH]; [reflexivity|].
  cbn [forallb] in H. apply andb_true_iff in H. destruct H as [Hk Hs].
  destruct (plain_parts kw Hk) as [Hne [_ Hc]].
  pose proof (rstrip_by_none Py.isspace kw (plain_nonspace kw Hc)) as Hkw.
  destruct kws as [|k kws]; [exact Hkw|].
  rewrite join_cons, rstrip_by_app, rstrip_by_app, (IH Hs).
  destruct (join_keywords_head k kws) as [tail E]. rewrite E.
  cbn [forallb] in Hs. apply andb_true_iff in Hs. destruct Hs as [Hk' _].
  destruct (plain_parts k Hk') as [Hne' _].
  destruct k as [|c k]; [congruence|]. reflexivity.
Qed.

Lemma parse_tokens_keywords (now : Datetime.datetime)
    (fromtimestamp : string -> outcome (option Datetime.datetime)) (kws : list string) :
  forallb plain kws = true ->
  QueryParser.parse_tokens now fromtimestamp kws = Ret (free_texts kws).
Proof.
  induction kws as [|kw kws IH]; [reflexivity|].
  cbn [forallb]. intro H. apply andb_true_iff in H. destruct H as [Hk Hs].
  destruct (plain_parts kw Hk) as [Hne [Hstar Hc]].
  cbn [QueryParser.parse_tokens].
  rewrite bare_token_clause, (IH Hs); [reflexivity| |exact Hstar|].
  - apply (contains_char_none "="). revert Hc. apply all_chars_impl.
    intro c. apply plain_char_not. reflexivity.
  - destruct kw as [|c kw]; [congruence|].
    cbn [all_chars] in Hc. apply andb_true_iff in Hc. destruct Hc as [Hc _].
    apply (plain_char_not c Py.dq eq_refl) in Hc. apply negb_true_iff in Hc.
    cbn [Py.startswith]. rewrite Ascii.eqb_sym, Hc. reflexivity.
Qed.

Lemma parse_keywords (now : Datetime.datetime)
    (fromtimestamp : string -> outcome (option Datetime.datetime)) (kws : list string) :
  kws <> [] -> forallb plain kws = true ->
  QueryParser.parse now fromtimestamp (Py.join " " kws)
  = Ret (QueryParser.where_of (free_texts kws), None).
Proof.
  intros Hkws H. unfold QueryParser.parse. rewrite (strip_keywords kws H).
  assert (Hne : Py.join " " kws <> "").
  { destruct kws as [|kw kws]; [congruence|].
    cbn [forallb] in H. apply andb_true_iff in H. destruct H as [Hk _].
    destruct (plain_parts kw Hk) as [Hne _].
    destruct (join_keywords_head kw kws) as [tail ->].
    destruct kw; [congruence|discriminate]. }
  apply String.eqb_neq in Hne. rewrite Hne.
  rewrite after_char_none.
  - unfold QueryParser._parse_search, QueryParser.search_clauses.
    rewrite Hne. unfold QueryParser._tokenize.
    rewrite (tokenize_keywords kws [] H). cbn [app].
    rewrite (parse_tokens_keywords now fromtimestamp kws H). reflexivity.
  - generalize (all_plain_join kws H). apply all_chars_impl.
    intros c Hc. apply orb_true_iff in Hc. destruct Hc as [Hc|Hc].
    + revert Hc. apply plain_char_not. reflexivity.
    + apply Ascii.eqb_eq in Hc. subst c. reflexivity.
Qed.

(** X6. Plain keywords with one blank between them are searched as the
    AND of the seven-column condition on each keyword in lower case, in
    the order given; when a keyword has a character outside the ones
    [query] allows (a slash, say) nothing is run and the only row is the
    error. *)
Theorem keywords_search (now : Datetime.datetime)
    (fromtimestamp : string -> outcome (option Datetime.datetime))
    (execute : string -> nat -> outcome (list dict)) (kws : list string)
    (Hsome : kws <> []) (Hplain : forallb plain kws = true) :
  QueryEngine.search now fromtimestamp execute (Py.join " " kws)
  = if forallb (fun kw => allowed (Py.lower kw)) kws
    then match execute ("SELECT * FROM logs WHERE "
                        ++ Py.join " AND " (map QueryParser.to_sql (free_texts kws))
                        ++ " ORDER BY id DESC LIMIT ?") 1000 with
         | Ret found => found
         | Raise e => [error_row e]
         end
    else [error_row "Invalid WHERE clause"].
Proof.
  unfold QueryEngine.search. rewrite (parse_keywords now fromtimestamp kws Hsome Hplain).
  unfold Indexer.query. rewrite where_ok_clauses.
  replace (forallb (fun c => allowed (user_text c)) (free_texts kws))
    with (forallb (fun kw => allowed (Py.lower kw)) kws).
  - destruct kws as [|kw kws]; [congruence|]. reflexivity.
  - clear. induction kws as [|kw kws IH]; [reflexivity|].
    cbn [free_texts map forallb user_text]. fold (free_texts kws).
    rewrite IH. reflexivity.
Qed.

Lemma keywords_search_witness :
  QueryEngine.search (Datetime.mkDatetime 2025 3 1 12 0 0 0 None) (fun _ => Ret None)
    (fun _ _ => Ret []) "error /api/users"
  = [error_row "Invalid WHERE clause"].
Proof.
  exact (keywords_search (Datetime.mkDatetime 2025 3 1 12 0 0 0 None) (fun _ => Ret None)
           (fun _ _ => Ret []) ["error"; "/api/users"] ltac:(discriminate) eq_refl).
Defined.

(** ** Time and field filters *)



Lemma substring_here (n : nat) (a b : string) :
  String.length a = n -> String.substring 0 n (a ++ b) = a.
Proof.
  revert n. induction a as [|c a IH]; intros n H; cbn in H; subst n.
  - destruct b; reflexivity.
  - cbn [append String.length String.substring]. rewrite IH; reflexivity.
Qed.

Lemma substring_skip (a b : string) (n : nat) :
  String.substring (String.length a) n (a ++ b) = String.substring 0 n b.
Proof.
  induction a as [|c a IH]; [reflexivity|].
  cbn [String.length append String.substring]. exact IH.
Qed.












(** ** Times written and read back *)

Section TimeRoundTrip.

Local Open Scope Z_scope.

Lemma digit_char_facts (x : Z) :
  0 <= x <= 9 ->
  Py.isdigit (Py.digit_char x) = true /\ Py.digit_val (Py.digit_char x) = x.
Proof.
  intro H.
  assert (E : x = 0 \/ x = 1 \/ x = 2 \/ x = 3 \/ x = 4 \/ x = 5 \/ x = 6 \/ x = 7
              \/ x = 8 \/ x = 9) by lia.
  destruct E as [E|[E|[E|[E|[E|[E|[E|[E|[E|E]]]]]]]]]; subst x; split; reflexivity.
Qed.

Lemma pad_digits_app (w : nat) (z : Z) (acc : string) :
  Py.pad_digits w z acc = (Py.pad_digits w z "" ++ acc)%string.
Proof.
  revert z acc. induction w as [|w IH]; intros z acc; [reflexivity|].
  cbn [Py.pad_digits]. rewrite (IH _ (String _ acc)), (IH _ (String _ "")).
  rewrite append_assoc. reflexivity.
Qed.

Lemma zfill_succ (w : nat) (z : Z) :
  Py.zfill (S w) z = (Py.zfill w (z / 10) ++ String (Py.digit_char (z mod 10)) "")%string.
Proof. unfold Py.zfill. cbn [Py.pad_digits]. apply pad_digits_app. Qed.

Lemma zfill_length (w : nat) (z : Z) : String.length (Py.zfill w z) = w.
Proof.
  revert z. induction w as [|w IH]; intro z; [reflexivity|].
  rewrite zfill_succ. 
  assert (L : forall a b, String.length (a ++ b) = (String.length a + String.length b)%nat).
  { intros a b. induction a as [|c a IHa]; cbn; [reflexivity|rewrite IHa; reflexivity]. }
  rewrite L, IH. cbn. lia.
Qed.

Lemma zfill_digits (w : nat) (z : Z) : all_chars Py.isdigit (Py.zfill w z) = true.
Proof.
  revert z. induction w as [|w IH]; intro z; [reflexivity|].
  rewrite zfill_succ, all_chars_app, IH. cbn [all_chars andb].
  rewrite andb_true_r. apply digit_char_facts.
  pose proof (Z.mod_pos_bound z 10). lia.
Qed.

Lemma int_of_digits_snoc (t : string) (c : ascii) :
  Py.int_of_digits (t ++ String c "") = 10 * Py.int_of_digits t + Py.digit_val c.
Proof.
  unfold Py.int_of_digits. generalize 0 as acc.
  induction t as [|x t IH]; intro acc; cbn [append]; [reflexivity|].
  apply IH.
Qed.

Lemma int_of_digits_zfill (w : nat) (z : Z) :
  0 <= z -> Py.int_of_digits (Py.zfill w z) = z mod 10 ^ Z.of_nat w.
Proof.
  revert z. induction w as [|w IH]; intros z Hz.
  - cbn. rewrite Z.mod_1_r. reflexivity.
  - rewrite zfill_succ, int_of_digits_snoc, IH by (apply Z.div_pos; lia).
    destruct (digit_char_facts (z mod 10)) as [_ ->];
      [pose proof (Z.mod_pos_bound z 10); lia|].
    rewrite Nat2Z.inj_succ, Z.pow_succ_r by lia.
    rewrite Z.rem_mul_r by (try lia; apply Z.pow_pos_nonneg; lia).
    lia.
Qed.

Lemma lstrip_all (p : ascii -> bool) (t : string) :
  all_chars p t = true -> Py.lstrip_by p t = ""%string.
Proof.
  induction t as [|c t IH]; [reflexivity|].
  cbn [all_chars Py.lstrip_by]. intro H. apply andb_true_iff in H. destruct H as [Hc Hs].
  rewrite Hc. exact (IH Hs).
Qed.

Lemma int_opt_zfill (w : nat) (z : Z) :
  (0 < w)%nat -> 0 <= z < 10 ^ Z.of_nat w ->
  Datetime.int_opt (Py.zfill w z) = Some z.
Proof.
  intros Hw Hz. unfold Datetime.int_opt, Datetime.all_digits.
  rewrite (lstrip_all _ _ (zfill_digits w z)).
  pose proof (zfill_length w z) as L.
  destruct (Py.zfill w z) eqn:E; [cbn in L; lia|].
  cbn [String.eqb negb andb]. rewrite <- E, int_of_digits_zfill by lia.
  rewrite Z.mod_small by lia. reflexivity.
Qed.

Lemma length_2 (t : string) :
  String.length t = 2%nat -> exists a b, t = String a (String b "").
Proof.
  destruct t as [|a [|b [|c t]]]; cbn; intro H; try discriminate H.
  exists a, b. reflexivity.
Qed.

Lemma length_4 (t : string) :
  String.length t = 4%nat -> exists a b c d, t = String a (String b (String c (String d ""))).
Proof.
  destruct t as [|a [|b [|c [|d [|e t]]]]]; cbn; intro H; try discriminate H.
  exists a, b, c, d. reflexivity.
Qed.

Lemma length_6 (t : string) :
  String.length t = 6%nat ->
  exists a b c d e f,
    t = String a (String b (String c (String d (String e (String f ""))))).
Proof.
  destruct t as [|a [|b [|c [|d [|e [|f [|g t]]]]]]]; cbn; intro H; try discriminate H.
  exists a, b, c, d, e, f. reflexivity.
Qed.

Lemma fromisoformat_date (Y M D : string) (sep : ascii) (tstr : string) (y mo dd : Z) :
  String.length Y = 4%nat -> String.length M = 2%nat -> String.length D = 2%nat ->
  Datetime.int_opt Y = Some y -> Datetime.int_opt M = Some mo ->
  Datetime.int_opt D = Some dd ->
  Datetime.fromisoformat (Y ++ "-" ++ M ++ "-" ++ D ++ String sep tstr)
  = match Datetime.find_sign tstr with
    | None =>
        match Datetime.parse_hh_mm_ss_ff tstr with
        | Some (h, mi, se, f) => Datetime.make (Datetime.mkDatetime y mo dd h mi se f None)
        | None => None
        end
    | Some i =>
        let tzstr := Py.drop (S i) tstr in
        let neg := Py.startswith (Py.drop i tstr) "-" in
        let zn := String.length tzstr in
        if negb ((zn =? 5) || (zn =? 8) || (zn =? 15))%nat then None
        else
          match Datetime.parse_hh_mm_ss_ff (Py.take i tstr),
                Datetime.parse_hh_mm_ss_ff tzstr with
          | Some (h, mi, se, f), Some (zh, zm, zs, zf) =>
              let off := (zh * 3600 + zm * 60 + zs) * 1000000 + zf in
              Datetime.make (Datetime.mkDatetime y mo dd h mi se f
                               (Some (if neg then - off else off)))
          | _, _ => None
          end
    end.
Proof.
  intros LY LM LD HY HM HD.
  destruct (length_4 Y LY) as [y1 [y2 [y3 [y4 ->]]]].
  destruct (length_2 M LM) as [m1 [m2 ->]].
  destruct (length_2 D LD) as [d1 [d2 ->]].
  unfold Datetime.fromisoformat.
  change (Datetime.slice 0 4 _) with (String y1 (String y2 (String y3 (String y4 "")))).
  change (Datetime.slice 5 7 _) with (String m1 (String m2 "")).
  change (Datetime.slice 8 10 _) with (String d1 (String d2 "")).
  rewrite HY, HM, HD.
  change (Datetime.slice 4 5 _) with "-"%string.
  change (Datetime.slice 7 8 _) with "-"%string.
  change (Py.drop 11 _) with tstr.
  cbn [append String.length].
  reflexivity.
Qed.

Lemma parse_hh_mm (H M : string) (h mi : Z) :
  String.length H = 2%nat -> String.length M = 2%nat ->
  Datetime.int_opt H = Some h -> Datetime.int_opt M = Some mi ->
  Datetime.parse_hh_mm_ss_ff (H ++ ":" ++ M) = Some (h, mi, 0, 0).
Proof.
  intros LH LM HH HM.
  destruct (length_2 H LH) as [h1 [h2 ->]]. destruct (length_2 M LM) as [m1 [m2 ->]].
  unfold Datetime.parse_hh_mm_ss_ff.
  change (Datetime.slice 0 (0 + 2) _) with (String h1 (String h2 "")).
  change (Datetime.slice 3 (3 + 2) _) with (String m1 (String m2 "")).
  rewrite HH, HM. reflexivity.
Qed.

Lemma parse_hh_mm_ss (H M S : string) (h mi se : Z) :
  String.length H = 2%nat -> String.length M = 2%nat -> String.length S = 2%nat ->
  Datetime.int_opt H = Some h -> Datetime.int_opt M = Some mi ->
  Datetime.int_opt S = Some se ->
  Datetime.parse_hh_mm_ss_ff (H ++ ":" ++ M ++ ":" ++ S) = Some (h, mi, se, 0).
Proof.
  intros LH LM LS HH HM HS.
  destruct (length_2 H LH) as [h1 [h2 ->]]. destruct (length_2 M LM) as [m1 [m2 ->]].
  destruct (length_2 S LS) as [s1 [s2 ->]].
  unfold Datetime.parse_hh_mm_ss_ff.
  change (Datetime.slice 0 (0 + 2) _) with (String h1 (String h2 "")).
  change (Datetime.slice 3 (3 + 2) _) with (String m1 (String m2 "")).
  change (Datetime.slice 6 (6 + 2) _) with (String s1 (String s2 "")).
  rewrite HH, HM, HS. reflexivity.
Qed.

Lemma parse_hh_mm_ss_ffffff (H M S F : string) (h mi se f : Z) :
  String.length H = 2%nat -> String.length M = 2%nat -> String.length S = 2%nat ->
  String.length F = 6%nat ->
  Datetime.int_opt H = Some h -> Datetime.int_opt M = Some mi ->
  Datetime.int_opt S = Some se -> Datetime.int_opt F = Some f ->
  Datetime.parse_hh_mm_ss_ff (H ++ ":" ++ M ++ ":" ++ S ++ "." ++ F) = Some (h, mi, se, f).
Proof.
  intros LH LM LS LF HH HM HS HF.
  destruct (length_2 H LH) as [h1 [h2 ->]]. destruct (length_2 M LM) as [m1 [m2 ->]].
  destruct (length_2 S LS) as [s1 [s2 ->]].
  destruct (length_6 F LF) as [f1 [f2 [f3 [f4 [f5 [f6 ->]]]]]].
  unfold Datetime.parse_hh_mm_ss_ff.
  change (Datetime.slice 0 (0 + 2) _) with (String h1 (String h2 "")).
  change (Datetime.slice 3 (3 + 2) _) with (String m1 (String m2 "")).
  change (Datetime.slice 6 (6 + 2) _) with (String s1 (String s2 "")).
  change (Py.drop 9 _)
    with (String f1 (String f2 (String f3 (String f4 (String f5 (String f6 "")))))).
  rewrite HH, HM, HS, HF. reflexivity.
Qed.

Lemma find_sign_at (a : string) (c : ascii) (b : string) :
  unsigned a = true -> (Ascii.eqb c "+" || Ascii.eqb c "-") = true ->
  Datetime.find_sign (a ++ String c b) = Some (String.length a).
Proof.
  intros Ha Hc. induction a as [|x a IH]; cbn [append Datetime.find_sign String.length].
  - rewrite Hc. reflexivity.
  - cbn [unsigned all_chars] in Ha. apply andb_true_iff in Ha. destruct Ha as [Hx Ha].
    apply negb_true_iff in Hx. rewrite Hx, (IH Ha). reflexivity.
Qed.

Lemma find_sign_none (a : string) : unsigned a = true -> Datetime.find_sign a = None.
Proof.
  induction a as [|x a IH]; [reflexivity|].
  cbn [unsigned all_chars Datetime.find_sign]. intro Ha.
  apply andb_true_iff in Ha. destruct Ha as [Hx Ha].
  apply negb_true_iff in Hx. rewrite Hx, (IH Ha). reflexivity.
Qed.

Lemma digits_unsigned (t : string) : all_chars Py.isdigit t = true -> unsigned t = true.
Proof.
  apply all_chars_impl. intros c Hc.
  destruct (Ascii.eqb c "+") eqn:E1; [apply Ascii.eqb_eq in E1; subst c; discriminate Hc|].
  destruct (Ascii.eqb c "-") eqn:E2; [apply Ascii.eqb_eq in E2; subst c; discriminate Hc|].
  reflexivity.
Qed.

Lemma take_here (a b : string) : Py.take (String.length a) (a ++ b) = a.
Proof. induction a as [|c a IH]; cbn; [destruct b; reflexivity|rewrite IH; reflexivity]. Qed.

Lemma drop_here (a b : string) : Py.drop (String.length a) (a ++ b) = b.
Proof. induction a as [|c a IH]; cbn; [reflexivity|exact IH]. Qed.

Lemma length_append (a b : string) :
  String.length (a ++ b) = (String.length a + String.length b)%nat.
Proof. induction a as [|c a IH]; cbn; [reflexivity|rewrite IH; reflexivity]. Qed.

Lemma valid_bounds (t : Datetime.datetime) :
  Datetime.valid t = true ->
  1 <= Datetime.year t <= 9999 /\ 1 <= Datetime.month t <= 12
  /\ 1 <= Datetime.day t <= 31 /\ 0 <= Datetime.hour t <= 23
  /\ 0 <= Datetime.minute t <= 59 /\ 0 <= Datetime.second t <= 59
  /\ 0 <= Datetime.microsecond t <= 999999
  /\ match Datetime.tzinfo t with
     | None => True
     | Some off => - Datetime.day_us < off < Datetime.day_us
     end.
Proof.
  unfold Datetime.valid, Datetime.between. intro H.
  apply andb_true_iff in H. destruct H as [H Htz].
  apply andb_true_iff in H. destruct H as [H Hus].
  apply andb_true_iff in H. destruct H as [H Hse].
  apply andb_true_iff in H. destruct H as [H Hmi].
  apply andb_true_iff in H. destruct H as [H Hh].
  apply andb_true_iff in H. destruct H as [H Hd].
  apply andb_true_iff in H. destruct H as [Hy Hm].
  repeat match goal with
         | H : (_ && _)%bool = true |- _ => apply andb_true_iff in H; destruct H
         | H : (_ <=? _) = true |- _ => apply Z.leb_le in H
         end.
  assert (Hdim : Datetime.days_in_month (Datetime.year t) (Datetime.month t) <= 31).
  { unfold Datetime.days_in_month.
    repeat match goal with |- context [if ?b then _ else _] => destruct b end; lia. }
  repeat split; try lia.
  destruct (Datetime.tzinfo t) as [off|]; [|exact I].
  apply andb_true_iff in Htz. destruct Htz as [Hlo Hhi].
  apply Z.ltb_lt in Hlo, Hhi. lia.
Qed.

Lemma unsigned_app (a b : string) : unsigned (a ++ b) = unsigned a && unsigned b.
Proof. apply all_chars_app. Qed.

Lemma zfill_unsigned (w : nat) (z : Z) : unsigned (Py.zfill w z) = true.
Proof. apply digits_unsigned, zfill_digits. Qed.

(** The clock part of [isoformat] and what [fromisoformat] reads of it. *)
Lemma clock_round_trip (h mi se us : Z) :
  0 <= h <= 23 -> 0 <= mi <= 59 -> 0 <= se <= 59 -> 0 <= us <= 999999 ->
  let clock := (Py.zfill 2 h ++ ":" ++ Py.zfill 2 mi ++ ":" ++ Py.zfill 2 se
                ++ (if (us =? 0)%Z then "" else "." ++ Py.zfill 6 us))%string in
  Datetime.parse_hh_mm_ss_ff clock = Some (h, mi, se, us)
  /\ unsigned clock = true.
Proof.
  intros Hh Hmi Hse Hus. cbn zeta.
  destruct (us =? 0) eqn:E.
  - apply Z.eqb_eq in E. subst us. rewrite append_empty. split.
    + apply parse_hh_mm_ss; try apply zfill_length; apply int_opt_zfill; cbn; lia.
    + rewrite !unsigned_app, !zfill_unsigned. reflexivity.
  - split.
    + apply parse_hh_mm_ss_ffffff; try apply zfill_length; apply int_opt_zfill; cbn; lia.
    + rewrite !unsigned_app, !zfill_unsigned. reflexivity.
Qed.

(** The offset part of [isoformat] and what [fromisoformat] reads of it. *)
Lemma offset_round_trip (off : Z) :
  - Datetime.day_us < off < Datetime.day_us ->
  exists (sign : ascii) (tzstr : string) (zh zm zs zf : Z),
    Datetime.format_offset off = String sign tzstr
    /\ (Ascii.eqb sign "+" || Ascii.eqb sign "-") = true
    /\ Ascii.eqb "-" sign = (off <? 0)
    /\ negb ((String.length tzstr =? 5) || (String.length tzstr =? 8)
             || (String.length tzstr =? 15))%nat = false
    /\ Datetime.parse_hh_mm_ss_ff tzstr = Some (zh, zm, zs, zf)
    /\ (zh * 3600 + zm * 60 + zs) * 1000000 + zf = Z.abs off.
Proof.
  unfold Datetime.day_us. intro Hoff.
  unfold Datetime.format_offset. cbn zeta.
  set (a := Z.abs off).
  assert (Ha : 0 <= a < 86400000000) by (unfold a; lia).
  set (hh := a / 3600000000). set (r := a mod 3600000000).
  set (mm := r / 60000000). set (ss := r mod 60000000).
  assert (Hhh : 0 <= hh < 24) by (unfold hh; Z.div_mod_to_equations; lia).
  assert (Hr : 0 <= r < 3600000000) by (unfold r; Z.div_mod_to_equations; lia).
  assert (Hmm : 0 <= mm < 60) by (unfold mm; Z.div_mod_to_equations; lia).
  assert (Hss : 0 <= ss < 60000000) by (unfold ss; Z.div_mod_to_equations; lia).
  assert (Hsum : hh * 3600000000 + mm * 60000000 + ss = a).
  { unfold hh, mm, ss, r. Z.div_mod_to_equations. lia. }
  exists (if off <? 0 then "-"%char else "+"%char).
  destruct (ss =? 0) eqn:Ess.
  - apply Z.eqb_eq in Ess.
    exists (Py.zfill 2 hh ++ ":" ++ Py.zfill 2 mm)%string, hh, mm, 0, 0.
    split; [destruct (off <? 0); cbn [append]; rewrite append_empty; reflexivity|].
    split; [destruct (off <? 0); reflexivity|].
    split; [destruct (off <? 0); reflexivity|].
    split; [rewrite !length_append, !zfill_length; reflexivity|].
    split; [apply parse_hh_mm; try apply zfill_length; apply int_opt_zfill; cbn; lia|].
    lia.
  - apply Z.eqb_neq in Ess.
    assert (Hs1 : 0 <= ss / 1000000 < 60) by (Z.div_mod_to_equations; lia).
    assert (Hs2 : 0 <= ss mod 1000000 < 1000000) by (Z.div_mod_to_equations; lia).
    assert (Hs3 : ss / 1000000 * 1000000 + ss mod 1000000 = ss)
      by (Z.div_mod_to_equations; lia).
    destruct (ss mod 1000000 =? 0) eqn:Efr.
    + apply Z.eqb_eq in Efr.
      exists (Py.zfill 2 hh ++ ":" ++ Py.zfill 2 mm ++ ":" ++ Py.zfill 2 (ss / 1000000))%string,
             hh, mm, (ss / 1000000), 0.
      split; [destruct (off <? 0); cbn [append]; rewrite append_empty; reflexivity|].
      split; [destruct (off <? 0); reflexivity|].
      split; [destruct (off <? 0); reflexivity|].
      split; [rewrite !length_append, !zfill_length; reflexivity|].
      split; [apply parse_hh_mm_ss; try apply zfill_length; apply int_opt_zfill; cbn; lia|].
      lia.
    + exists (Py.zfill 2 hh ++ ":" ++ Py.zfill 2 mm ++ ":" ++ Py.zfill 2 (ss / 1000000)
              ++ "." ++ Py.zfill 6 (ss mod 1000000))%string,
             hh, mm, (ss / 1000000), (ss mod 1000000).
      split; [destruct (off <? 0); reflexivity|].
      split; [destruct (off <? 0); reflexivity|].
      split; [destruct (off <? 0); reflexivity|].
      split; [rewrite !length_append, !zfill_length; reflexivity|].
      split; [apply parse_hh_mm_ss_ffffff; try apply zfill_length; apply int_opt_zfill;
              cbn; lia|].
      lia.
Qed.

Lemma drop_past (a : string) (c : ascii) (b : string) :
  Py.drop (S (String.length a)) (a ++ String c b) = b.
Proof. induction a as [|x a IH]; cbn; [reflexivity|exact IH]. Qed.

(** [fromisoformat] reads back what [isoformat] writes: for every valid
    [datetime], naive or with an offset, with or without microseconds. *)
Lemma isoformat_round_trip (t : Datetime.datetime) (Hvalid : Datetime.valid t = true) :
  Datetime.fromisoformat (Datetime.isoformat t) = Some t.
Proof.
  destruct (valid_bounds t Hvalid) as [Hy [Hmo [Hd [Hh [Hmi [Hse [Hus Htz]]]]]]].
  destruct t as [y mo d h mi se us tz].
  cbn [Datetime.year Datetime.month Datetime.day Datetime.hour Datetime.minute
       Datetime.second Datetime.microsecond Datetime.tzinfo] in *.
  destruct (clock_round_trip h mi se us Hh Hmi Hse Hus) as [Hclock Hplain].
  cbn zeta in Hclock, Hplain.
  set (clock := (Py.zfill 2 h ++ ":" ++ Py.zfill 2 mi ++ ":" ++ Py.zfill 2 se
                 ++ (if (us =? 0)%Z then "" else "." ++ Py.zfill 6 us))%string) in *.
  assert (Hiso : Datetime.isoformat (Datetime.mkDatetime y mo d h mi se us tz)
                 = (Py.zfill 4 y ++ "-" ++ Py.zfill 2 mo ++ "-" ++ Py.zfill 2 d
                    ++ String "T" (clock ++ match tz with
                                            | None => ""
                                            | Some off => Datetime.format_offset off
                                            end))%string).
  { unfold Datetime.isoformat, clock.
    cbn [Datetime.year Datetime.month Datetime.day Datetime.hour Datetime.minute
         Datetime.second Datetime.microsecond Datetime.tzinfo].
    rewrite !append_assoc. reflexivity. }
  rewrite Hiso.
  rewrite (fromisoformat_date _ _ _ "T" _ y mo d);
    try apply zfill_length; try (apply int_opt_zfill; cbn; lia).
  unfold Datetime.make.
  destruct tz as [off|].
  - destruct (offset_round_trip off Htz)
      as [sign [tzstr [zh [zm [zs [zf [Hfmt [Hsign [Hneg [Hlen [Hzone Hsum]]]]]]]]]]].
    rewrite Hfmt, (find_sign_at clock sign tzstr Hplain Hsign).
    cbn zeta.
    rewrite drop_past, take_here, drop_here, Hlen, Hclock, Hzone.
    cbn [Py.startswith]. rewrite andb_true_r, Hneg, Hsum.
    replace (if off <? 0 then - Z.abs off else Z.abs off) with off
      by (destruct (off <? 0) eqn:E; [apply Z.ltb_lt in E|apply Z.ltb_ge in E]; lia).
    rewrite Hvalid. reflexivity.
  - rewrite append_empty, (find_sign_none clock Hplain), Hclock, Hvalid. reflexivity.
Qed.

Lemma zfill_iso (w : nat) (z : Z) : all_chars iso_char (Py.zfill w z) = true.
Proof.
  generalize (zfill_digits w z). apply all_chars_impl.
  intros c Hc. unfold iso_char. rewrite Hc. reflexivity.
Qed.

Lemma isoformat_chars (t : Datetime.datetime) :
  all_chars iso_char (Datetime.isoformat t) = true.
Proof.
  unfold Datetime.isoformat, Datetime.format_offset. cbn zeta.
  repeat match goal with
         | |- context [if ?b then _ else _] => destruct b
         | |- context [match ?o with Some _ => _ | None => _ end] => destruct o
         end;
    rewrite ?all_chars_app, ?zfill_iso; reflexivity.
Qed.

Lemma replace_char_none (old : ascii) (new text : string) :
  no_char old text = true -> Py.replace_char old new text = text.
Proof.
  induction text as [|c text IH]; [reflexivity|].
  cbn [no_char all_chars Py.replace_char]. intro H.
  apply andb_true_iff in H. destruct H as [Hc Hs].
  apply negb_true_iff in Hc. rewrite Hc, (IH Hs). reflexivity.
Qed.

Lemma contains_app_r (sub a b : string) :
  Py.contains sub b = true -> Py.contains sub (a ++ b) = true.
Proof.
  intro H. induction a as [|c a IH]; [exact H|].
  cbn [append Py.contains]. rewrite IH. apply orb_true_r.
Qed.

Lemma isoformat_has_T (t : Datetime.datetime) :
  Py.contains "T" (Datetime.isoformat t) = true.
Proof.
  unfold Datetime.isoformat.
  do 5 apply contains_app_r. reflexivity.
Qed.

Lemma bucket_key_isoformat (interval : string) (t : Datetime.datetime) :
  Datetime.valid t = true ->
  QueryEngine.bucket_key interval (VStr (Datetime.isoformat t))
  = Some (QueryEngine.bucket_of interval t).
Proof.
  intro Hvalid. unfold QueryEngine.bucket_key, QueryEngine.read_timestamp.
  rewrite isoformat_has_T, replace_char_none, (isoformat_round_trip t Hvalid).
  - pose proof (isoformat_has_T t) as HT.
    destruct (Datetime.isoformat t); [discriminate HT|reflexivity].
  - generalize (isoformat_chars t). apply all_chars_impl.
    intros c Hc. destruct (Ascii.eqb c "Z") eqn:E; [|reflexivity].
    apply Ascii.eqb_eq in E. subst c. discriminate Hc.
Qed.

Lemma strptime_valid (data fmt : string) (t : Datetime.datetime) :
  Datetime.strptime data fmt = Some t -> Datetime.valid t = true.
Proof.
  unfold Datetime.strptime.
  destruct (Datetime.pattern false fmt) as [rs|]; [|discriminate].
  destruct (Re.re_match (Re.seq rs) data) as [m|]; [|discriminate].
  destruct (negb (Re.m_end m =? String.length data)%nat); [discriminate|].
  cbv zeta.
  match goal with
  | |- match ?tz with Some _ => _ | None => _ end = _ -> _ =>
      destruct tz as [off|]; [|discriminate]
  end.
  unfold Datetime.make.
  match goal with
  | |- (if Datetime.valid ?x then _ else _) = _ -> _ =>
      destruct (Datetime.valid x) eqn:E; [|discriminate]
  end.
  intro H. inversion H. subst t. exact E.
Qed.

Lemma access_try_formats_bucketed (interval raw : string) (fmts : list string) :
  raw_or_bucketed interval raw (AccessParser.try_formats raw fmts).
Proof.
  induction fmts as [|fmt fmts IH]; cbn [AccessParser.try_formats].
  - left. reflexivity.
  - destruct (Datetime.strptime raw fmt) as [t|] eqn:E; [|exact IH].
    right. exists t. pose proof (strptime_valid _ _ _ E) as Hv.
    split; [exact Hv|]. split; [reflexivity|]. apply bucket_key_isoformat. exact Hv.
Qed.

Lemma syslog_try_formats_bucketed (interval text raw : string) (fmts : list string) :
  raw_or_bucketed interval raw (SyslogParser.try_formats text raw fmts).
Proof.
  induction fmts as [|fmt fmts IH]; cbn [SyslogParser.try_formats].
  - left. reflexivity.
  - destruct (Datetime.strptime text fmt) as [t|] eqn:E; [|exact IH].
    right. exists t. pose proof (strptime_valid _ _ _ E) as Hv.
    split; [exact Hv|]. split; [reflexivity|]. apply bucket_key_isoformat. exact Hv.
Qed.

(** X9. What the parsers make of a time is the text as it came or an
    ISO text that [time_bucket] reads back: a normalised timestamp is
    never skipped, it is counted in the bucket of the time it stands
    for.  This holds of the access normaliser and of the ISO and classic
    normalisers of the syslog and auth parsers. *)
Theorem normalised_timestamps_are_bucketed (current_year : Z) (interval raw : string) :
  raw_or_bucketed interval raw (AccessParser._parse_timestamp raw)
  /\ raw_or_bucketed interval raw (SyslogParser._parse_iso_timestamp raw)
  /\ raw_or_bucketed interval raw (SyslogParser._parse_classic_timestamp current_year raw)
  /\ raw_or_bucketed interval raw (AuthParser._parse_iso_timestamp raw)
  /\ raw_or_bucketed interval raw (AuthParser._parse_classic_timestamp current_year raw).
Proof.
  assert (Hclassic : raw_or_bucketed interval raw
                       (SyslogParser._parse_classic_timestamp current_year raw)).
  { unfold SyslogParser._parse_classic_timestamp.
    destruct (Datetime.strptime _ _) as [t|] eqn:E; [|left; reflexivity].
    right. exists t. pose proof (strptime_valid _ _ _ E) as Hv.
    split; [exact Hv|]. split; [reflexivity|]. apply bucket_key_isoformat. exact Hv. }
  split; [apply access_try_formats_bucketed|].
  split; [apply syslog_try_formats_bucketed|].
  split; [exact Hclassic|].
  split; [apply syslog_try_formats_bucketed|exact Hclassic].
Qed.

End TimeRoundTrip.

(** ** Which lines the parsers accept *)

Lemma run_star (r : Re.regex) (st : Re.mstate) (k : Re.mstate -> option Re.mstate) :
  Re.run (Re.Star r) st k = greedy (Re.run r) k (S (String.length (Re.rest st))) st.
Proof. reflexivity. Qed.

Lemma run_star_lazy (r : Re.regex) (st : Re.mstate) (k : Re.mstate -> option Re.mstate) :
  Re.run (Re.StarLazy r) st k = reluctant (Re.run r) k (S (String.length (Re.rest st))) st.
Proof. reflexivity. Qed.

(** A match goes on to the continuation from a place no further back. *)
Lemma run_reaches (r : Re.regex) :
  forall (st : Re.mstate) (k : Re.mstate -> option Re.mstate) (x : Re.mstate),
    Re.run r st k = Some x ->
    exists st', Re.pos st <= Re.pos st'
                /\ (nullable r = false -> Re.pos st < Re.pos st')
                /\ k st' = Some x.
Proof.
  induction r as [|c|c|p|r1 IH1 r2 IH2|r1 IH1 r2 IH2|r1 IH1|r1 IH1|n r1 IH1| |];
    intros st k x H.
  - exists st. cbn in *. repeat split; [lia|discriminate|exact H].
  - cbn [Re.run] in H. unfold Re.step_char in H.
    destruct (Re.rest st) as [|a s']; [discriminate|].
    destruct (Ascii.eqb c a); [|discriminate].
    eexists. split; [|split; [|exact H]]; cbn [Re.pos]; intros; lia.
  - cbn [Re.run] in H. unfold Re.step_char in H.
    destruct (Re.rest st) as [|a s']; [discriminate|].
    destruct (Ascii.eqb _ _); [|discriminate].
    eexists. split; [|split; [|exact H]]; cbn [Re.pos]; intros; lia.
  - cbn [Re.run] in H. unfold Re.step_char in H.
    destruct (Re.rest st) as [|a s']; [discriminate|].
    destruct (p a); [|discriminate].
    eexists. split; [|split; [|exact H]]; cbn [Re.pos]; intros; lia.
  - cbn [Re.run] in H.
    destruct (IH1 _ _ _ H) as [st1 [Hle1 [Hlt1 H1]]].
    destruct (IH2 _ _ _ H1) as [st2 [Hle2 [Hlt2 H2]]].
    exists st2. split; [lia|]. split; [|exact H2].
    cbn [nullable]. intro Hn. apply andb_false_iff in Hn.
    destruct Hn as [Hn|Hn]; [specialize (Hlt1 Hn)|specialize (Hlt2 Hn)]; lia.
  - cbn [Re.run] in H. unfold Re.or_else in H.
    destruct (Re.run r1 st k) as [x1|] eqn:E1.
    + destruct (IH1 _ _ _ E1) as [st1 [Hle1 [Hlt1 H1]]].
      exists st1. split; [exact Hle1|]. split; [|congruence].
      cbn [nullable]. intro Hn. apply orb_false_iff in Hn. apply Hlt1, Hn.
    + destruct (IH2 _ _ _ H) as [st2 [Hle2 [Hlt2 H2]]].
      exists st2. split; [exact Hle2|]. split; [|exact H2].
      cbn [nullable]. intro Hn. apply orb_false_iff in Hn. apply Hlt2, Hn.
  - rewrite run_star in H. revert H.
    generalize (S (String.length (Re.rest st))) as fuel. intro fuel. revert st.
    induction fuel as [|fuel IHf]; intros st H.
    + exists st. repeat split; [lia|discriminate|exact H].
    + cbn [greedy] in H. unfold Re.or_else in H.
      match type of H with
      | match ?a with _ => _ end = _ => destruct a as [x1|] eqn:E1
      end.
      * inversion H. subst x1.
        destruct (IH1 _ _ _ E1) as [st1 [Hle1 [_ H1]]].
        destruct (Re.pos st <? Re.pos st1); [|discriminate].
        destruct (IHf st1 H1) as [st' [Hle [_ Hk]]].
        exists st'. split; [lia|]. split; [discriminate|exact Hk].
      * exists st. repeat split; [lia|discriminate|exact H].
  - rewrite run_star_lazy in H. revert H.
    generalize (S (String.length (Re.rest st))) as fuel. intro fuel. revert st.
    induction fuel as [|fuel IHf]; intros st H.
    + exists st. repeat split; [lia|discriminate|exact H].
    + cbn [reluctant] in H. unfold Re.or_else in H.
      destruct (k st) as [x0|] eqn:E0.
      * exists st. repeat split; [lia|discriminate|congruence].
      * destruct (IH1 _ _ _ H) as [st1 [Hle1 [_ H1]]].
        destruct (Re.pos st <? Re.pos st1); [|discriminate].
        destruct (IHf st1 H1) as [st' [Hle [_ Hk]]].
        exists st'. split; [lia|]. split; [discriminate|exact Hk].
  - cbn [Re.run] in H.
    destruct (IH1 _ _ _ H) as [st1 [Hle1 [Hlt1 H1]]].
    eexists. split; [|split; [|exact H1]]; cbn [Re.pos nullable]; [lia|exact Hlt1].
  - cbn [Re.run] in H. destruct (Re.pos st =? 0)%nat; [|discriminate].
    exists st. repeat split; [lia|discriminate|exact H].
  - cbn [Re.run] in H. exists st. split; [lia|]. split; [discriminate|].
    destruct (Re.rest st) as [|c [|c' s']]; try discriminate; [exact H|].
    destruct (Ascii.eqb c Py.nl); [exact H|discriminate].
Qed.

(** A match that succeeds with one continuation succeeds with any
    continuation that succeeds wherever the first does. *)
Lemma run_yields (r : Re.regex) :
  forall (st : Re.mstate) (k k' : Re.mstate -> option Re.mstate),
    yields k k' -> forall x, Re.run r st k = Some x -> exists y, Re.run r st k' = Some y.
Proof.
  induction r as [|c|c|p|r1 IH1 r2 IH2|r1 IH1 r2 IH2|r1 IH1|r1 IH1|n r1 IH1| |];
    intros st k k' Hk x H.
  - exact (Hk _ _ H).
  - cbn [Re.run] in *. unfold Re.step_char in *.
    destruct (Re.rest st) as [|a s']; [discriminate|].
    destruct (Ascii.eqb c a); [exact (Hk _ _ H)|discriminate].
  - cbn [Re.run] in *. unfold Re.step_char in *.
    destruct (Re.rest st) as [|a s']; [discriminate|].
    destruct (Ascii.eqb _ _); [exact (Hk _ _ H)|discriminate].
  - cbn [Re.run] in *. unfold Re.step_char in *.
    destruct (Re.rest st) as [|a s']; [discriminate|].
    destruct (p a); [exact (Hk _ _ H)|discriminate].
  - cbn [Re.run] in *.
    apply (IH1 st (fun st1 => Re.run r2 st1 k) (fun st1 => Re.run r2 st1 k')) with (x := x);
      [|exact H].
    intros st1 x1 H1. exact (IH2 st1 k k' Hk x1 H1).
  - cbn [Re.run] in *. unfold Re.or_else in *.
    destruct (Re.run r1 st k) as [x1|] eqn:E1.
    + destruct (IH1 st k k' Hk x1 E1) as [y ->]. exists y. reflexivity.
    + destruct (Re.run r1 st k') as [y|]; [exists y; reflexivity|].
      exact (IH2 st k k' Hk x H).
  - rewrite run_star in *. revert x H.
    generalize (S (String.length (Re.rest st))) as fuel. intro fuel. revert st.
    induction fuel as [|fuel IHf]; intros st x H.
    + exact (Hk _ _ H).
    + cbn [greedy] in *. unfold Re.or_else in *.
      match type of H with
      | match ?a with _ => _ end = _ => destruct a as [x1|] eqn:E1
      end.
      * assert (HK : yields
                       (fun st1 => if Re.pos st <? Re.pos st1
                                   then greedy (Re.run r1) k fuel st1 else None)
                       (fun st1 => if Re.pos st <? Re.pos st1
                                   then greedy (Re.run r1) k' fuel st1 else None)).
        { intros st1 x2 H1.
          destruct (Re.pos st <? Re.pos st1); [exact (IHf st1 x2 H1)|discriminate]. }
        destruct (IH1 st _ _ HK x1 E1) as [y Hy]. rewrite Hy.
        exists y. reflexivity.
      * match goal with
        | |- exists y, match ?a with _ => _ end = _ => destruct a as [y|]
        end; [exists y; reflexivity|exact (Hk _ _ H)].
  - rewrite run_star_lazy in *. revert x H.
    generalize (S (String.length (Re.rest st))) as fuel. intro fuel. revert st.
    induction fuel as [|fuel IHf]; intros st x H.
    + exact (Hk _ _ H).
    + cbn [reluctant] in *. unfold Re.or_else in *.
      destruct (k st) as [x0|] eqn:E0.
      * destruct (Hk _ _ E0) as [y ->]. exists y. reflexivity.
      * destruct (k' st) as [y|]; [exists y; reflexivity|].
        apply (IH1 st (fun st1 => if Re.pos st <? Re.pos st1
                                  then reluctant (Re.run r1) k fuel st1 else None)
                      (fun st1 => if Re.pos st <? Re.pos st1
                                  then reluctant (Re.run r1) k' fuel st1 else None))
          with (x := x); [|exact H].
        intros st1 x1 H1.
        destruct (Re.pos st <? Re.pos st1); [exact (IHf st1 x1 H1)|discriminate].
  - cbn [Re.run] in *.
    apply (IH1 st (fun st1 => k (Re.MState (Re.pos st1) (Re.rest st1)
                                   ((n, (Re.pos st, Re.pos st1)) :: Re.caps st1)))
                  (fun st1 => k' (Re.MState (Re.pos st1) (Re.rest st1)
                                    ((n, (Re.pos st, Re.pos st1)) :: Re.caps st1))))
      with (x := x); [|exact H].
    intros st1 x1 H1. exact (Hk _ _ H1).
  - cbn [Re.run] in *. destruct (Re.pos st =? 0)%nat; [exact (Hk _ _ H)|discriminate].
  - cbn [Re.run] in *.
    destruct (Re.rest st) as [|c [|c' s']]; try discriminate; [exact (Hk _ _ H)|].
    destruct (Ascii.eqb c Py.nl); [exact (Hk _ _ H)|discriminate].
Qed.

Lemma always_yields (k : Re.mstate -> option Re.mstate) (f : Re.mstate -> Re.mstate) :
  yields k (fun st => Some (f st)).
Proof. intros st x _. eexists. reflexivity. Qed.

(** A pattern that goes on after its first group matches only where
    the group alone does. *)
Lemma group_alone (g : nat) (r more : Re.regex) (text : string) (m : Re.match_obj) :
  Re.re_match (Re.Seq Re.Bol (Re.Seq (Re.Group g r) more)) text = Some m ->
  exists m', Re.re_match (Re.Seq Re.Bol (Re.Group g r)) text = Some m'.
Proof.
  unfold Re.re_match.
  destruct (Re.run (Re.Seq Re.Bol (Re.Seq (Re.Group g r) more)) _ Some) as [x|] eqn:E;
    [|discriminate].
  intros _. cbn [Re.run Re.pos Nat.eqb] in *.
  destruct (run_yields r _ _ (fun st1 => Some (Re.MState (Re.pos st1) (Re.rest st1)
                                            ((g, (0, Re.pos st1)) :: Re.caps st1)))
              (always_yields _ _) x E) as [y ->].
  eexists. reflexivity.
Qed.

Lemma group_inside (g : nat) (r inner more : Re.regex) (text : string) (m : Re.match_obj) :
  Re.re_match (Re.Seq Re.Bol (Re.Seq (Re.Group g (Re.Seq r inner)) more)) text = Some m ->
  exists m', Re.re_match (Re.Seq Re.Bol (Re.Group g r)) text = Some m'.
Proof.
  unfold Re.re_match.
  destruct (Re.run (Re.Seq Re.Bol (Re.Seq (Re.Group g (Re.Seq r inner)) more)) _ Some)
    as [x|] eqn:E; [|discriminate].
  intros _. cbn [Re.run Re.pos Nat.eqb] in *.
  destruct (run_yields r _ _ (fun st1 => Some (Re.MState (Re.pos st1) (Re.rest st1)
                                            ((g, (0, Re.pos st1)) :: Re.caps st1)))
              (always_yields _ _) x E) as [y ->].
  eexists. reflexivity.
Qed.

(** The first group of a match is not empty when its pattern cannot
    match the empty text. *)
Lemma group_taken (g : nat) (r : Re.regex) (text : string) (m : Re.match_obj) :
  nullable r = false -> text <> "" ->
  Re.re_match (Re.Seq Re.Bol (Re.Group g r)) text = Some m ->
  Re.group_str m g <> "".
Proof.
  intros Hn Htext. unfold Re.re_match.
  destruct (Re.run (Re.Seq Re.Bol (Re.Group g r)) _ Some) as [x|] eqn:E; [|discriminate].
  intro H. inversion H. subst m. clear H.
  cbn [Re.run Re.pos Nat.eqb] in E.
  destruct (run_reaches r _ _ _ E) as [st1 [_ [Hlt Hx]]].
  specialize (Hlt Hn). cbn [Re.pos] in Hlt.
  inversion Hx. subst x. clear Hx.
  unfold Re.group_str, Re.group. cbn [Re.m_caps Re.caps Re.lookup_span Re.m_string].
  rewrite Nat.eqb_refl.
  destruct (Re.pos st1 - 0) as [|n] eqn:En; [lia|].
  destruct text as [|c text]; [congruence|]. cbn [String.substring]. discriminate.
Qed.

Lemma isoformat_nonempty (t : Datetime.datetime) : Datetime.isoformat t <> "".
Proof.
  pose proof (isoformat_has_T t) as H. intro E. rewrite E in H. discriminate H.
Qed.

Lemma try_formats_nonempty (text fallback : string) (fmts : list string) :
  fallback <> "" -> SyslogParser.try_formats text fallback fmts <> "".
Proof.
  intro Hf. induction fmts as [|fmt fmts IH]; cbn [SyslogParser.try_formats]; [exact Hf|].
  destruct (Datetime.strptime text fmt); [apply isoformat_nonempty|exact IH].
Qed.

Lemma classic_timestamp_nonempty (current_year : Z) (ts_str : string) :
  ts_str <> "" -> SyslogParser._parse_classic_timestamp current_year ts_str <> "".
Proof.
  intro Hf. unfold SyslogParser._parse_classic_timestamp.
  destruct (Datetime.strptime _ _); [apply isoformat_nonempty|exact Hf].
Qed.

(** The auth parser accepts a line exactly when one of the two stamps
    opens it. *)
Lemma auth_parse_stamps (current_year : Z) (line : string) :
  Py.strip line <> "" ->
  (AuthParser.parse current_year line = None
   <-> Re.re_match SyslogParser.ISO_PREFIX (Py.strip line) = None
       /\ Re.re_match SyslogParser.CLASSIC_PREFIX (Py.strip line) = None).
Proof.
  intro Hne. unfold AuthParser.parse. cbv zeta.
  destruct (String.eqb (Py.strip line) "") eqn:E; [apply String.eqb_eq in E; congruence|].
  unfold AuthParser.ISO_TIMESTAMP_PATTERN, AuthParser.TIMESTAMP_PATTERN.
  destruct (Re.re_match SyslogParser.ISO_PREFIX (Py.strip line)) as [m|] eqn:Eiso.
  - assert (Hts : AuthParser._parse_iso_timestamp (Re.group_str m 1) <> "").
    { apply try_formats_nonempty.
      apply (group_taken 1 SyslogParser.iso_stamp (Py.strip line) m eq_refl Hne Eiso). }
    apply String.eqb_neq in Hts. rewrite Hts.
    destruct (AuthParser.classify _) as [[user action] ip].
    split; [discriminate|]. intros [H _]. discriminate H.
  - destruct (Re.re_match SyslogParser.CLASSIC_PREFIX (Py.strip line)) as [m|] eqn:Ecl.
    + assert (Hts : AuthParser._parse_classic_timestamp current_year (Re.group_str m 1) <> "").
      { apply classic_timestamp_nonempty.
        apply (group_taken 1 SyslogParser.classic_stamp (Py.strip line) m eq_refl Hne Ecl). }
      apply String.eqb_neq in Hts. rewrite Hts.
      destruct (AuthParser.classify _) as [[user action] ip].
      split; [discriminate|]. intros [_ H]. discriminate H.
    + split; auto.
Qed.

Lemma syslog_parse_stamps (current_year : Z) (line : string) :
  Py.strip line <> "" ->
  (SyslogParser.parse current_year line = None
   <-> Re.re_match SyslogParser.ISO_PREFIX (Py.strip line) = None
       /\ Re.re_match SyslogParser.CLASSIC_PREFIX (Py.strip line) = None).
Proof.
  intro Hne. unfold SyslogParser.parse. cbv zeta.
  destruct (String.eqb (Py.strip line) "") eqn:E; [apply String.eqb_eq in E; congruence|].
  destruct (Re.re_match SyslogParser.ISO_PATTERN (Py.strip line)) as [m|] eqn:Efull.
  - destruct (group_inside _ _ _ _ _ _ Efull) as [m' Hm'].
    split; [discriminate|]. intros [H _].
    unfold SyslogParser.ISO_PREFIX in H. cbn [Re.seq] in H. congruence.
  - destruct (Re.re_match SyslogParser.CLASSIC_PATTERN (Py.strip line)) as [m|] eqn:Ecl.
    + destruct (group_alone _ _ _ _ _ Ecl) as [m' Hm'].
      split; [discriminate|]. intros [_ H].
      unfold SyslogParser.CLASSIC_PREFIX in H. cbn [Re.seq] in H. congruence.
    + destruct (Re.re_match SyslogParser.ISO_PREFIX (Py.strip line)) as [m|];
        [split; [discriminate|intros [H _]; discriminate H]|].
      destruct (Re.re_match SyslogParser.CLASSIC_PREFIX (Py.strip line)) as [m|];
        [split; [discriminate|intros [_ H]; discriminate H]|].
      split; auto.
Qed.

Lemma blank_rejected (current_year : Z) (line : string) :
  Py.strip line = "" ->
  SyslogParser.parse current_year line = None /\ AuthParser.parse current_year line = None
  /\ AccessParser.parse line = None.
Proof.
  intro H. unfold SyslogParser.parse, AuthParser.parse, AccessParser.parse.
  rewrite H. repeat split; reflexivity.
Qed.

Lemma same_lines (current_year : Z) (line : string) :
  SyslogParser.parse current_year line = None <-> AuthParser.parse current_year line = None.
Proof.
  destruct (string_dec (Py.strip line) "") as [E|E].
  - destruct (blank_rejected current_year line E) as [H1 [H2 _]]. tauto.
  - rewrite (syslog_parse_stamps current_year line E), (auth_parse_stamps current_year line E).
    tauto.
Qed.

Lemma never_syslog (current_year : Z) (line : string) :
  LogIngester.any_parser_accepts current_year line <> Some "syslog".
Proof.
  unfold LogIngester.any_parser_accepts.
  destruct (AccessParser.parse line); [discriminate|].
  destruct (AuthParser.parse current_year line) eqn:Ea; [discriminate|].
  apply same_lines in Ea. rewrite Ea. discriminate.
Qed.

Lemma detect_lines_default (current_year : Z) (lines : list string) :
  LogIngester.detect_lines current_year lines = "syslog"
  <-> Forall (fun l => LogIngester.any_parser_accepts current_year (Py.strip l) = None) lines.
Proof.
  induction lines as [|line lines IH]; cbn [LogIngester.detect_lines].
  - split; [constructor|reflexivity].
  - cbv zeta.
    destruct (String.eqb (Py.strip line) "") eqn:E.
    + apply String.eqb_eq in E. rewrite IH. split.
      * intro H. constructor; [|exact H]. rewrite E. reflexivity.
      * intro H. inversion H. assumption.
    + destruct (LogIngester.any_parser_accepts current_year (Py.strip line)) as [t|] eqn:Et.
      * split.
        -- intro H. subst t. exfalso.
           exact (never_syslog current_year (Py.strip line) Et).
        -- intro H. inversion H. congruence.
      * rewrite IH. split.
        -- intro H. constructor; assumption.
        -- intro H. inversion H. assumption.
Qed.

(** X10. The syslog parser and the auth parser accept the same lines:
    those that, stripped, open with an ISO or a classic time stamp.  As
    the content detector asks the auth parser before the syslog parser,
    it never answers syslog because a line was accepted, only when none
    of the first five lines is accepted by any parser; and with a log
    type that is none of the three names the loop of [ingest_file] never
    reaches its auth branch. *)
Theorem syslog_and_auth_accept_the_same_lines (current_year : Z) :
  (forall line,
     SyslogParser.parse current_year line = None
     <-> AuthParser.parse current_year line = None)
  /\ (forall lines,
        LogIngester._detect_log_type current_year lines = "syslog"
        <-> Forall (fun l => LogIngester.any_parser_accepts current_year (Py.strip l) = None)
                   (firstn 5 lines))
  /\ (forall log_type line,
        ~ In log_type known_types ->
        snd (LogIngester.parse_line current_year log_type line) <> "auth").
Proof.
  split; [apply same_lines|]. split; [intro lines; apply detect_lines_default|].
  intros log_type line Hnot. unfold LogIngester.parse_line.
  assert (H1 : String.eqb log_type "syslog" = false).
  { apply String.eqb_neq. intro E. apply Hnot. subst. cbn. tauto. }
  assert (H2 : String.eqb log_type "access" = false).
  { apply String.eqb_neq. intro E. apply Hnot. subst. cbn. tauto. }
  assert (H3 : String.eqb log_type "auth" = false).
  { apply String.eqb_neq. intro E. apply Hnot. subst. cbn. tauto. }
  rewrite H1, H2, H3.
  destruct (SyslogParser.parse current_year line) eqn:Es; [discriminate|].
  destruct (AccessParser.parse line); [discriminate|].
  apply same_lines in Es. rewrite Es. cbn [snd].
  apply String.eqb_neq. exact H3.
Qed.

(** ** Records of the text logs *)

Lemma syslog_unsized (current_year : Z) (line : string) (pd : dict) :
  SyslogParser.parse current_year line = Some pd ->
  dict_get_default pd "size" (VInt 0) = VInt 0.
Proof.
  unfold SyslogParser.parse. cbv zeta.
  destruct (String.eqb (Py.strip line) ""); [discriminate|].
  repeat match goal with
         | |- match ?x with Some _ => _ | None => _ end = _ -> _ => destruct x
         end;
    intro H; inversion H; reflexivity.
Qed.

Lemma auth_unsized (current_year : Z) (line : string) (pd : dict) :
  AuthParser.parse current_year line = Some pd ->
  dict_get_default pd "size" (VInt 0) = VInt 0.
Proof.
  unfold AuthParser.parse. cbv zeta.
  destruct (String.eqb (Py.strip line) ""); [discriminate|].
  match goal with
  | |- match ?x with Some _ => _ | None => _ end = _ -> _ => destruct x as [[ts rest]|]
  end; [|discriminate].
  destruct (String.eqb ts ""); [discriminate|].
  destruct (AuthParser.classify rest) as [[user action] ip].
  intro H. inversion H. reflexivity.
Qed.

Lemma text_parser_unsized (current_year : Z) (log_type line : string) (pd : dict) :
  In log_type text_types -> parser_of current_year log_type line = Some pd ->
  stored (log_type, pd, line) = [Indexer.row_of log_type pd line].
Proof.
  intros Ht Hp.
  assert (Hsize : dict_get_default pd "size" (VInt 0) = VInt 0).
  { destruct Ht as [<-|[<-|[]]]; cbn in Hp.
    - exact (syslog_unsized _ _ _ Hp).
    - exact (auth_unsized _ _ _ Hp). }
  unfold stored, Indexer.row_of. cbn [Indexer.size]. rewrite Hsize. reflexivity.
Qed.

Lemma text_types_known (log_type : string) : In log_type text_types -> In log_type known_types.
Proof. intros [<-|[<-|[]]]; cbn; tauto. Qed.

Lemma fold_step_count_exact (current_year : Z) (lines : list string) (s : LogIngester.state) :
  In (LogIngester.cur_type s) text_types ->
  LogIngester.count (fold_left (LogIngester.step current_year) lines s)
  = LogIngester.count s
    + List.length (lines_rows current_year (LogIngester.cur_type s) lines).
Proof.
  revert s. induction lines as [|line lines IH]; intros s Ht.
  - cbn. lia.
  - cbn [fold_left lines_rows]. cbv zeta.
    unfold LogIngester.step at 2. cbv zeta.
    destruct (String.eqb (Py.strip line) ""); [exact (IH s Ht)|].
    rewrite (parse_line_known current_year _ _ (text_types_known _ Ht)).
    destruct (parser_of current_year (LogIngester.cur_type s) (Py.strip line)) as [pd|] eqn:Ep.
    + rewrite (text_parser_unsized _ _ _ _ Ht Ep).
      destruct (LogIngester.batch_size <=? _); rewrite IH by exact Ht;
        cbn [LogIngester.count LogIngester.cur_type app List.length]; lia.
    + rewrite IH by exact Ht. cbn [LogIngester.count LogIngester.cur_type]. lia.
Qed.

Lemma lines_rows_unsized (current_year : Z) (log_type : string) (lines : list string) :
  In log_type text_types ->
  Forall (fun r => Indexer.size r = VInt 0) (lines_rows current_year log_type lines).
Proof.
  intro Ht. induction lines as [|line lines IH]; cbn [lines_rows]; [constructor|].
  cbv zeta. destruct (String.eqb (Py.strip line) ""); [exact IH|].
  rewrite (parse_line_known current_year _ _ (text_types_known _ Ht)).
  destruct (parser_of current_year log_type (Py.strip line)) as [pd|] eqn:Ep; [|exact IH].
  rewrite (text_parser_unsized _ _ _ _ Ht Ep). cbn [app]. constructor; [|exact IH].
  destruct Ht as [<-|[<-|[]]]; cbn in Ep.
  - exact (syslog_unsized _ _ _ Ep).
  - exact (auth_unsized _ _ _ Ep).
Qed.

(** X11. In a file read as syslog or as auth every event counted is
    stored: the store gains exactly as many rows as the message reports
    events, each with the size 0 that [add_log] fills in, so [add_log]
    never fails on such a file. *)
Theorem text_events_all_stored (current_year : Z) (st : Indexer.store) (filepath : string)
    (lines : list string) (log_type : option string)
    (Htype : In (LogIngester.resolve_log_type current_year filepath lines log_type)
                text_types) :
  let s := loop_end current_year
             (LogIngester.resolve_log_type current_year filepath lines log_type) st lines in
  let done := LogIngester.ingest_file current_year st filepath (Some lines) log_type in
  List.length (Indexer.rows (fst done)) = List.length (Indexer.rows st) + LogIngester.count s
  /\ exists added,
       Indexer.rows (fst done) = (Indexer.rows st ++ added)%list
       /\ Forall (fun r => Indexer.size r = VInt 0) added.
Proof.
  cbv zeta. unfold loop_end. rewrite ingest_file_rows. split.
  - rewrite length_app, fold_step_count_exact by exact Htype. reflexivity.
  - eexists. split; [reflexivity|]. apply lines_rows_unsized. exact Htype.
Qed.

Lemma text_events_all_stored_witness :
  List.length
    (Indexer.rows (fst (LogIngester.ingest_file 2025 Indexer.empty "/var/log/syslog"
                          (Some [syslog_line ++ newline]) None)))
  = 1.
Proof.
  exact (proj1 (text_events_all_stored 2025 Indexer.empty "/var/log/syslog"
                  [syslog_line ++ newline] None (or_introl eq_refl))).
Defined.

Lemma classify_action (rest : string) :
  In (snd (fst (AuthParser.classify rest))) auth_actions.
Proof.
  unfold AuthParser.classify, auth_actions.
  repeat match goal with
         | |- context [if ?b then _ else _] => destruct b
         end; cbn; tauto.
Qed.

(** X12. A record of the auth parser always has the four keys
    timestamp, user, action, ip, in this order; its timestamp is never
    empty, its user is never empty ([unknown] when the line names none),
    its action is one of login_success, login_failure, sudo, auth_event,
    and its ip is a text or None. *)
Theorem auth_record_fields (current_year : Z) (line : string) (pd : dict)
    (Hparsed : AuthParser.parse current_year line = Some pd) :
  exists (timestamp user action : string) (ip : option string),
    pd = [("timestamp", VStr timestamp); ("user", VStr user); ("action", VStr action);
          ("ip", of_opt ip)]
    /\ timestamp <> "" /\ user <> "" /\ In action auth_actions.
Proof.
  revert Hparsed. unfold AuthParser.parse. cbv zeta.
  destruct (String.eqb (Py.strip line) ""); [discriminate|].
  match goal with
  | |- match ?x with Some _ => _ | None => _ end = _ -> _ => destruct x as [[ts rest]|]
  end; [|discriminate].
  destruct (String.eqb ts "") eqn:Ets; [discriminate|].
  pose proof (classify_action rest) as Hact.
  destruct (AuthParser.classify rest) as [[user action] ip]. cbn [fst snd] in Hact.
  intro H. inversion H. clear H.
  eexists ts, _, action, _. split; [reflexivity|].
  split; [apply String.eqb_neq; exact Ets|]. split; [|exact Hact].
  destruct user as [u|]; cbn [AuthParser.nonempty]; [|discriminate].
  destruct (String.eqb u "") eqn:Eu; cbn [negb]; [discriminate|].
  apply String.eqb_neq. exact Eu.
Qed.

Lemma auth_record_fields_witness :
  exists (timestamp user action : string) (ip : option string),
    [("timestamp", VStr "2025-01-12T11:33:22"); ("user", VStr "unknown");
     ("action", VStr "auth_event"); ("ip", VNone)]
    = [("timestamp", VStr timestamp); ("user", VStr user); ("action", VStr action);
       ("ip", of_opt ip)]
    /\ timestamp <> "" /\ user <> "" /\ In action auth_actions.
Proof.
  apply (auth_record_fields 2025 syslog_line).
  vm_compute. reflexivity.
Defined.

(** ** The pipe *)

















(** ** The stats commands *)


















Lemma run_chr (c : ascii) (pos : nat) (rest : string) (caps : list (nat * (nat * nat)))
    (k : Re.mstate -> option Re.mstate) :
  Re.run (Re.Chr c) (Re.MState pos (String c rest) caps) k = k (Re.MState (S pos) rest caps).
Proof.
  cbn [Re.run]. unfold Re.step_char. cbn [Re.rest Re.pos Re.caps].
  rewrite Ascii.eqb_refl. reflexivity.
Qed.






(** ** The tokens of a query *)

Lemma tokenize_nonempty (text : string) :
  forall (tokens : list string) (current : string) (quote_char : option ascii),
    Forall (fun t => t <> "") tokens ->
    Forall (fun t => t <> "") (QueryParser.tokenize_aux text tokens current quote_char).
Proof.
  assert (Hsnoc : forall (tokens : list string) (t : string),
            Forall (fun t => t <> "") tokens -> t <> "" ->
            Forall (fun t => t <> "") (tokens ++ [t])).
  { intros tokens t Ht Hne. apply Forall_app. split; [exact Ht|].
    constructor; [exact Hne|constructor]. }
  assert (Hlast : forall (cur : string) (c : ascii), (cur ++ String c "")%string <> "").
  { intros cur c. destruct cur; discriminate. }
  induction text as [|c text IH]; intros tokens current quote_char Ht;
    cbn [QueryParser.tokenize_aux].
  - destruct (String.eqb current "") eqn:E; [exact Ht|].
    apply Hsnoc; [exact Ht|]. apply String.eqb_neq. exact E.
  - destruct quote_char as [q|].
    + destruct (Ascii.eqb c q); apply IH; [|exact Ht].
      apply Hsnoc; [exact Ht|apply Hlast].
    + destruct (Ascii.eqb c Py.dq || Ascii.eqb c Py.sq); [apply IH; exact Ht|].
      destruct (Ascii.eqb c " "); [|apply IH; exact Ht].
      destruct (String.eqb current "") eqn:E; apply IH; [exact Ht|].
      apply Hsnoc; [exact Ht|]. apply String.eqb_neq. exact E.
Qed.

Lemma tokenize_from (text : string) :
  forall (tokens : list string) (current : string) (quote_char : option ascii),
    QueryParser.tokenize_aux text tokens current quote_char
    = (tokens ++ QueryParser.tokenize_aux text [] current quote_char)%list.
Proof.
  induction text as [|c text IH]; intros tokens current quote_char;
    cbn [QueryParser.tokenize_aux].
  - destruct (String.eqb current ""); [rewrite app_nil_r|]; reflexivity.
  - destruct quote_char as [q|].
    + destruct (Ascii.eqb c q); [|apply IH].
      rewrite IH, (IH ([] ++ _)%list), app_assoc. reflexivity.
    + destruct (Ascii.eqb c Py.dq || Ascii.eqb c Py.sq); [apply IH|].
      destruct (Ascii.eqb c " "); [|apply IH].
      destruct (String.eqb current ""); [apply IH|].
      rewrite IH, (IH ([] ++ _)%list), app_assoc. reflexivity.
Qed.

Lemma concat_snoc (tokens : list string) (t : string) :
  String.concat "" (tokens ++ [t]) = (String.concat "" tokens ++ t)%string.
Proof.
  induction tokens as [|a tokens IH]; [reflexivity|].
  destruct tokens as [|b tokens].
  - reflexivity.
  - change (((a :: b :: tokens) ++ [t])%list) with (a :: ((b :: tokens) ++ [t]))%list.
    change (String.concat "" (a :: ((b :: tokens) ++ [t])%list))
      with (a ++ "" ++ String.concat "" ((b :: tokens) ++ [t]))%string.
    rewrite IH. cbn [String.concat append]. rewrite append_assoc. reflexivity.
Qed.

Lemma tokenize_plain_text (text : string) :
  quote_free text = true ->
  forall (tokens : list string) (current : string),
    Forall (fun t => no_char " " t = true) tokens -> no_char " " current = true ->
    Forall (fun t => no_char " " t = true)
           (QueryParser.tokenize_aux text tokens current None)
    /\ String.concat "" (QueryParser.tokenize_aux text tokens current None)
       = (String.concat "" tokens ++ current ++ remove_blanks text)%string.
Proof.
  induction text as [|c text IH]; intros Hq tokens current Ht Hc;
    cbn [QueryParser.tokenize_aux remove_blanks].
  - destruct (String.eqb current "") eqn:E.
    + apply String.eqb_eq in E. subst current. split; [exact Ht|].
      cbn. rewrite append_empty. reflexivity.
    + split.
      * apply Forall_app. split; [exact Ht|]. constructor; [exact Hc|constructor].
      * rewrite concat_snoc, append_empty. reflexivity.
  - cbn [quote_free all_chars] in Hq. apply andb_true_iff in Hq. destruct Hq as [Hc0 Hq].
    apply negb_true_iff in Hc0. rewrite Hc0.
    destruct (Ascii.eqb c " ") eqn:Eb.
    + destruct (String.eqb current "") eqn:E.
      * apply String.eqb_eq in E. subst current.
        destruct (IH Hq tokens "" Ht eq_refl) as [H1 H2]. split; [exact H1|exact H2].
      * destruct (IH Hq (tokens ++ [current])%list "") as [H1 H2].
        -- apply Forall_app. split; [exact Ht|]. constructor; [exact Hc|constructor].
        -- reflexivity.
        -- split; [exact H1|]. rewrite H2, concat_snoc, append_assoc. reflexivity.
    + destruct (IH Hq tokens (current ++ String c "")%string Ht) as [H1 H2].
      * unfold no_char. rewrite all_chars_app. unfold no_char in Hc. rewrite Hc.
        cbn [all_chars]. rewrite Eb. reflexivity.
      * split; [exact H1|]. rewrite H2, !append_assoc. reflexivity.
Qed.

Lemma tokenize_in_quotes (q : ascii) (phrase rest : string) :
  no_char q phrase = true ->
  forall (tokens : list string) (current : string),
    QueryParser.tokenize_aux (phrase ++ String q rest) tokens current (Some q)
    = QueryParser.tokenize_aux rest (tokens ++ [(current ++ phrase ++ String q "")%string])
        "" None.
Proof.
  induction phrase as [|c phrase IH]; intros Hp tokens current;
    cbn [append QueryParser.tokenize_aux].
  - rewrite Ascii.eqb_refl. reflexivity.
  - cbn [no_char all_chars] in Hp. apply andb_true_iff in Hp. destruct Hp as [Hc Hp].
    apply negb_true_iff in Hc. rewrite Hc, (IH Hp), append_assoc. reflexivity.
Qed.

(** X15. The tokens of a query.  No token is empty.  In a text without
    quotes the blanks alone separate: no token holds a blank and the
    tokens, put together, are the text without its blanks.  A phrase
    between double quotes at the head of a text is one token, quotes
    included, whatever blanks it holds, and the rest is tokenized as if
    it stood alone. *)
Theorem tokens_of_a_query (text : string) :
  Forall (fun t => t <> "") (QueryParser._tokenize text)
  /\ (quote_free text = true ->
      Forall (fun t => no_char " " t = true) (QueryParser._tokenize text)
      /\ String.concat "" (QueryParser._tokenize text) = remove_blanks text)
  /\ (forall phrase,
        no_char Py.dq phrase = true ->
        QueryParser._tokenize (quoted phrase ++ text)
        = quoted phrase :: QueryParser._tokenize text).
Proof.
  unfold QueryParser._tokenize. split; [|split].
  - apply tokenize_nonempty. constructor.
  - intro Hq. apply (tokenize_plain_text text Hq [] ""); [constructor|reflexivity].
  - intros phrase Hp. unfold quoted.
    cbn [append QueryParser.tokenize_aux].
    rewrite Ascii.eqb_refl. cbn [orb].
    rewrite append_assoc. cbn [append].
    rewrite (tokenize_in_quotes Py.dq phrase text Hp), tokenize_from. reflexivity.
Qed.

(** ** A stored time as the bound of a search *)

Lemma star_cls_takes_all (p : ascii -> bool) (k : Re.mstate -> option Re.mstate)
    (ds tail : string) (pos : nat) (caps : list (nat * (nat * nat))) (x : Re.mstate) :
  all_chars p ds = true -> stops p tail = true ->
  k (Re.MState (pos + String.length ds) tail caps) = Some x ->
  star_cls p k pos caps (ds ++ tail) = Some x.
Proof.
  intros Hds Htail. revert pos.
  induction ds as [|c ds IH]; intros pos Hk.
  - cbn [append String.length] in *. rewrite Nat.add_0_r in Hk.
    destruct tail as [|c tail]; [exact Hk|].
    cbn [star_cls]. cbn [stops] in Htail. apply negb_true_iff in Htail.
    rewrite Htail. exact Hk.
  - cbn [all_chars] in Hds. apply andb_true_iff in Hds. destruct Hds as [Hc Hs].
    cbn [append star_cls String.length]. rewrite Hc, (IH Hs (S pos)); [reflexivity|].
    replace (S pos + String.length ds) with (pos + String.length (String c ds))
      by (cbn [String.length]; lia).
    exact Hk.
Qed.

(** A group around [p+] that ends the pattern takes the whole run. *)
Lemma run_group_plus_cls_last (p : ascii -> bool) (g : nat) (pos : nat)
    (caps : list (nat * (nat * nat))) (ds tail : string) :
  ds <> "" -> all_chars p ds = true -> stops p tail = true ->
  Re.run (Re.Group g (Re.plus (Re.Cls p))) (Re.MState pos (ds ++ tail) caps) Some
  = Some (Re.MState (pos + String.length ds) tail
            ((g, (pos, pos + String.length ds)) :: caps)).
Proof.
  intros Hne Hds Htail.
  destruct ds as [|c ds]; [congruence|].
  cbn [all_chars] in Hds. apply andb_true_iff in Hds. destruct Hds as [Hc Hs].
  change (Re.run (Re.Group g (Re.plus (Re.Cls p)))
            (Re.MState pos (String c ds ++ tail) caps) Some)
    with (if p c
          then Re.run (Re.Star (Re.Cls p)) (Re.MState (S pos) (ds ++ tail) caps)
                 (fun st2 => Some (Re.MState (Re.pos st2) (Re.rest st2)
                                     ((g, (pos, Re.pos st2)) :: Re.caps st2)))
          else None).
  rewrite Hc, run_star_cls. cbn [Re.pos Re.caps Re.rest].
  apply star_cls_takes_all; [exact Hs|exact Htail|].
  cbn [Re.pos Re.rest Re.caps String.length].
  replace (S pos + String.length ds) with (pos + S (String.length ds)) by lia.
  reflexivity.
Qed.

Lemma iso_char_plain (c : ascii) :
  iso_char c = true ->
  Py.isspace c = false /\ Ascii.eqb c Py.nl = false.
Proof.
  unfold iso_char. intro H. apply orb_true_iff in H. destruct H as [H|H].
  - unfold Py.isdigit, Py.in_range in H. apply andb_true_iff in H. destruct H as [H1 H2].
    apply Nat.leb_le in H1, H2. split.
    + unfold Py.isspace, Py.in_range. apply orb_false_iff.
      split; apply andb_false_iff; right; apply Nat.leb_gt; lia.
    + destruct (Ascii.eqb c Py.nl) eqn:E; [|reflexivity].
      apply Ascii.eqb_eq in E. subst c. cbn in H1. lia.
  - cbn [Py.mem_char] in H.
    repeat match type of H with
           | (_ || _)%bool = true => apply orb_true_iff in H; destruct H as [H|H]
           end; try discriminate H; apply Ascii.eqb_eq in H; subst c; split; reflexivity.
Qed.

Lemma isoformat_head (t : Datetime.datetime) :
  exists (c : ascii) (text : string),
    Datetime.isoformat t = String c text /\ Py.isdigit c = true.
Proof.
  unfold Datetime.isoformat.
  pose proof (zfill_digits 4 (Datetime.year t)) as Hd.
  pose proof (zfill_length 4 (Datetime.year t)) as Hl.
  destruct (Py.zfill 4 (Datetime.year t)) as [|c y]; [discriminate Hl|].
  cbn [all_chars] in Hd. apply andb_true_iff in Hd. destruct Hd as [Hc _].
  eexists c, _. split; [reflexivity|exact Hc].
Qed.

Lemma strip_isoformat (t : Datetime.datetime) :
  Py.strip (Datetime.isoformat t) = Datetime.isoformat t.
Proof.
  pose proof (isoformat_chars t) as Hc.
  unfold Py.strip, Py.strip_by.
  assert (Hl : Py.lstrip_by Py.isspace (Datetime.isoformat t) = Datetime.isoformat t).
  { destruct (isoformat_head t) as [c [text [E Hd]]]. rewrite E in *.
    cbn [all_chars] in Hc. apply andb_true_iff in Hc. destruct Hc as [Hc _].
    apply lstrip_by_first. apply iso_char_plain. exact Hc. }
  rewrite Hl. apply rstrip_by_none.
  revert Hc. apply all_chars_impl. intros c Hc.
  destruct (iso_char_plain c Hc) as [-> _]. reflexivity.
Qed.

Lemma lower_digit (c : ascii) : Py.isdigit c = true -> Py.lower_char c = c.
Proof.
  intro H. unfold Py.lower_char.
  replace (Py.isupper c) with false; [reflexivity|].
  unfold Py.isdigit, Py.isupper, Py.in_range in *.
  apply andb_true_iff in H. destruct H as [H1 H2]. apply Nat.leb_le in H1, H2.
  symmetry. apply andb_false_iff. left. apply Nat.leb_gt. lia.
Qed.

(** The bound of an [earliest=] or [latest=] token whose value is the
    ISO text of a time. *)
Lemma absolute_bound (now : Datetime.datetime)
    (fromtimestamp : string -> outcome (option Datetime.datetime)) (name mode : string)
    (t : Datetime.datetime) :
  (name = "earliest=" /\ mode = "earliest") \/ (name = "latest=" /\ mode = "latest") ->
  Datetime.valid t = true ->
  QueryParser._parse_earliest_latest now fromtimestamp (name ++ Datetime.isoformat t) mode
  = Ret (Some (QueryParser.TsCmp (QueryParser.cmp_of mode) (Datetime.isoformat t))).
Proof.
  intros Hmode Hvalid.
  pose proof (isoformat_chars t) as Hchars.
  assert (Hdot : all_chars (fun c => negb (Ascii.eqb c Py.nl)) (Datetime.isoformat t) = true).
  { revert Hchars. apply all_chars_impl. intros c Hc.
    destruct (iso_char_plain c Hc) as [_ ->]. reflexivity. }
  destruct (isoformat_head t) as [c [text [E Hd]]].
  assert (Hne : Datetime.isoformat t <> "") by (rewrite E; discriminate).
  unfold QueryParser._parse_earliest_latest.
  assert (Hm : Re.re_match
                 (Re.seq [Re.liti (if String.eqb mode "earliest" then "earliest=" else "latest=");
                          Re.Group 1 (Re.plus Re.dot)])
                 (name ++ Datetime.isoformat t)
               = Some (Re.MatchObj (name ++ Datetime.isoformat t) 0
                         (String.length name + String.length (Datetime.isoformat t))
                         [(1, (String.length name,
                               String.length name + String.length (Datetime.isoformat t)))])).
  { unfold Re.re_match.
    destruct Hmode as [[-> ->]|[-> ->]].
    - change (Re.run _ (Re.MState 0 ("earliest=" ++ Datetime.isoformat t) []) Some)
        with (Re.run (Re.Group 1 (Re.plus (Re.Cls (fun c => negb (Ascii.eqb c Py.nl)))))
                (Re.MState 9 (Datetime.isoformat t) []) Some).
      rewrite <- (append_empty (Datetime.isoformat t)) at 1.
      rewrite run_group_plus_cls_last; [reflexivity|exact Hne|exact Hdot|reflexivity].
    - change (Re.run _ (Re.MState 0 ("latest=" ++ Datetime.isoformat t) []) Some)
        with (Re.run (Re.Group 1 (Re.plus (Re.Cls (fun c => negb (Ascii.eqb c Py.nl)))))
                (Re.MState 7 (Datetime.isoformat t) []) Some).
      rewrite <- (append_empty (Datetime.isoformat t)) at 1.
      rewrite run_group_plus_cls_last; [reflexivity|exact Hne|exact Hdot|reflexivity]. }
  rewrite Hm. clear Hm.
  assert (Hg : Re.group_str
                 (Re.MatchObj (name ++ Datetime.isoformat t) 0
                    (String.length name + String.length (Datetime.isoformat t))
                    [(1, (String.length name,
                          String.length name + String.length (Datetime.isoformat t)))]) 1
               = Datetime.isoformat t).
  { unfold Re.group_str, Re.group. cbn [Re.m_caps Re.lookup_span Nat.eqb Re.m_string].
    replace (String.length name + String.length (Datetime.isoformat t) - String.length name)
      with (String.length (Datetime.isoformat t)) by lia.
    rewrite substring_skip. rewrite <- (append_empty (Datetime.isoformat t)) at 2.
    apply substring_here. reflexivity. }
  rewrite Hg, strip_isoformat. clear Hg.
  assert (Hrel : Re.re_match (QueryParser.amount_unit "-") (Py.lower (Datetime.isoformat t))
                 = None).
  { rewrite E. cbn [Py.lower]. rewrite (lower_digit c Hd). unfold Re.re_match.
    change (Re.run (QueryParser.amount_unit "-") (Re.MState 0 (String c (Py.lower text)) []) Some)
      with (if Ascii.eqb "-" c
            then Re.run (Re.Seq (Re.Group 1 (Re.plus Re.d)) (Re.Group 2 (Re.one_of "mhdwM")))
                   (Re.MState 1 (Py.lower text) []) Some
            else None).
    destruct (Ascii.eqb "-" c) eqn:Ec; [|reflexivity].
    apply Ascii.eqb_eq in Ec. subst c. discriminate Hd. }
  rewrite Hrel. clear Hrel.
  assert (Hnow : String.eqb (Py.lower (Datetime.isoformat t)) "now" = false).
  { rewrite E. cbn [Py.lower String.eqb]. rewrite (lower_digit c Hd).
    destruct (Ascii.eqb c "n") eqn:Ec; [|reflexivity].
    apply Ascii.eqb_eq in Ec. subst c. discriminate Hd. }
  rewrite Hnow. clear Hnow.
  assert (Hepoch : Re.re_match
                     (Re.seq [Re.Chr "@";
                              Re.Group 1 (Re.Seq (Re.plus Re.d)
                                            (Re.opt (Re.Seq (Re.Chr ".") (Re.plus Re.d))))])
                     (Datetime.isoformat t)
                   = None).
  { rewrite E. unfold Re.re_match.
    change (Re.run _ (Re.MState 0 (String c text) []) Some)
      with (if Ascii.eqb "@" c
            then Re.run (Re.Group 1 (Re.Seq (Re.plus Re.d)
                                       (Re.opt (Re.Seq (Re.Chr ".") (Re.plus Re.d)))))
                   (Re.MState 1 text []) Some
            else None).
    destruct (Ascii.eqb "@" c) eqn:Ec; [|reflexivity].
    apply Ascii.eqb_eq in Ec. subst c. discriminate Hd. }
  rewrite Hepoch. clear Hepoch.
  unfold QueryParser.absolute.
  rewrite isoformat_has_T, replace_char_none, (isoformat_round_trip t Hvalid); [reflexivity|].
  revert Hchars. apply all_chars_impl.
  intros x Hx. destruct (Ascii.eqb x "Z") eqn:Ex; [|reflexivity].
  apply Ascii.eqb_eq in Ex. subst x. discriminate Hx.
Qed.

(** X16. A time as [isoformat] writes it, which is how the parsers
    store a normalised timestamp, is understood as a bound: for every
    valid [datetime], [earliest=] followed by its ISO text gives the
    clause [timestamp >=] that text, and [latest=] gives [timestamp <=]
    that text. *)
Theorem stored_time_as_bound (now : Datetime.datetime)
    (fromtimestamp : string -> outcome (option Datetime.datetime))
    (t : Datetime.datetime) (Hvalid : Datetime.valid t = true) :
  QueryParser.parse_token now fromtimestamp ("earliest=" ++ Datetime.isoformat t)
  = Ret [QueryParser.TsCmp ">=" (Datetime.isoformat t)]
  /\ QueryParser.parse_token now fromtimestamp ("latest=" ++ Datetime.isoformat t)
     = Ret [QueryParser.TsCmp "<=" (Datetime.isoformat t)].
Proof.
  split.
  - change (QueryParser.parse_token now fromtimestamp ("earliest=" ++ Datetime.isoformat t))
      with (QueryParser.opt_list
              (QueryParser._parse_earliest_latest now fromtimestamp
                 ("earliest=" ++ Datetime.isoformat t) "earliest")).
    rewrite (absolute_bound now fromtimestamp "earliest=" "earliest" t); auto.
  - change (QueryParser.parse_token now fromtimestamp ("latest=" ++ Datetime.isoformat t))
      with (QueryParser.opt_list
              (QueryParser._parse_earliest_latest now fromtimestamp
                 ("latest=" ++ Datetime.isoformat t) "latest")).
    rewrite (absolute_bound now fromtimestamp "latest=" "latest" t); auto.
Qed.

Lemma stored_time_as_bound_witness :
  QueryParser.parse_token (Datetime.mkDatetime 2025 3 1 12 0 0 0 None) (fun _ => Ret None)
    "earliest=2025-02-13T11:22:33+00:00"
  = Ret [QueryParser.TsCmp ">=" "2025-02-13T11:22:33+00:00"].
Proof.
  exact (proj1 (stored_time_as_bound (Datetime.mkDatetime 2025 3 1 12 0 0 0 None)
                  (fun _ => Ret None)
                  (Datetime.mkDatetime 2025 2 13 11 22 33 0 (Some 0%Z)) eq_refl)).
Defined.

(** ** Lines of the common web-access form *)

Lemma read_step (pre : string) (c : ascii) :
  S (String.length pre) = String.length (pre ++ String c "").
Proof. rewrite length_append. cbn [String.length]. lia. Qed.

Lemma seq_chr (c : ascii) (r : Re.regex) (pre text : string)
    (caps : list (nat * (nat * nat))) (k : Re.mstate -> option Re.mstate) :
  Re.run (Re.Seq (Re.Chr c) r) (read pre (String c text) caps) k
  = Re.run r (read (pre ++ String c "") text caps) k.
Proof.
  unfold read. rewrite <- read_step.
  change (Re.run (Re.Seq (Re.Chr c) r) (Re.MState (String.length pre) (String c text) caps) k)
    with (Re.run (Re.Chr c) (Re.MState (String.length pre) (String c text) caps)
            (fun st => Re.run r st k)).
  apply run_chr.
Qed.

(** The text of a group, from its span. *)
Lemma span_text (g : nat) (pre taken tail : string) (e : nat)
    (caps : list (nat * (nat * nat))) :
  Re.lookup_span g caps = Some (snd (span g pre taken)) ->
  Re.group_str (Re.MatchObj (pre ++ taken ++ tail) 0 e caps) g = taken.
Proof.
  intro H. unfold Re.group_str, Re.group. cbn [Re.m_caps Re.m_string].
  rewrite H. cbn [span snd]. rewrite length_append.
  replace (String.length pre + String.length taken - String.length pre)
    with (String.length taken) by lia.
  rewrite substring_skip. apply substring_here. reflexivity.
Qed.

Lemma some_bol (r : Re.regex) (text : string) (k : Re.mstate -> option Re.mstate)
    (x : Re.mstate) :
  Re.run r (read "" text []) k = Some x ->
  Re.run (Re.Seq Re.Bol r) (Re.MState 0 text []) k = Some x.
Proof. intro H. exact H. Qed.

Lemma some_chr (c : ascii) (r : Re.regex) (pre text : string)
    (caps : list (nat * (nat * nat))) (k : Re.mstate -> option Re.mstate) (x : Re.mstate) :
  Re.run r (read (pre ++ String c "") text caps) k = Some x ->
  Re.run (Re.Seq (Re.Chr c) r) (read pre (String c "" ++ text) caps) k = Some x.
Proof. intro H. cbn [append]. rewrite seq_chr. exact H. Qed.

Lemma some_plus (p : ascii -> bool) (r : Re.regex) (pre ds tail : string)
    (caps : list (nat * (nat * nat))) (k : Re.mstate -> option Re.mstate) (x : Re.mstate) :
  ds <> "" -> all_chars p ds = true -> stops p tail = true ->
  Re.run r (read (pre ++ ds) tail caps) k = Some x ->
  Re.run (Re.Seq (Re.plus (Re.Cls p)) r) (read pre (ds ++ tail) caps) k = Some x.
Proof.
  intros Hne Hds Htail Hk. unfold read in *.
  destruct ds as [|c ds]; [congruence|].
  cbn [all_chars] in Hds. apply andb_true_iff in Hds. destruct Hds as [Hc Hs].
  change (Re.run (Re.Seq (Re.plus (Re.Cls p)) r)
            (Re.MState (String.length pre) (String c ds ++ tail) caps) k)
    with (if p c
          then Re.run (Re.Star (Re.Cls p))
                 (Re.MState (S (String.length pre)) (ds ++ tail) caps)
                 (fun st => Re.run r st k)
          else None).
  rewrite Hc, run_star_cls. cbn [Re.pos Re.caps Re.rest].
  apply star_cls_takes_all; [exact Hs|exact Htail|].
  rewrite length_append in Hk. cbn [String.length] in Hk.
  replace (S (String.length pre) + String.length ds)
    with (String.length pre + S (String.length ds)) by lia.
  exact Hk.
Qed.

Lemma some_group_plus (p : ascii -> bool) (g : nat) (r : Re.regex) (pre ds tail : string)
    (caps : list (nat * (nat * nat))) (k : Re.mstate -> option Re.mstate) (x : Re.mstate) :
  ds <> "" -> all_chars p ds = true -> stops p tail = true ->
  Re.run r (read (pre ++ ds) tail (span g pre ds :: caps)) k = Some x ->
  Re.run (Re.Seq (Re.Group g (Re.plus (Re.Cls p))) r) (read pre (ds ++ tail) caps) k = Some x.
Proof.
  intros Hne Hds Htail Hk. unfold read, span in *.
  destruct ds as [|c ds]; [congruence|].
  cbn [all_chars] in Hds. apply andb_true_iff in Hds. destruct Hds as [Hc Hs].
  change (Re.run (Re.Seq (Re.Group g (Re.plus (Re.Cls p))) r)
            (Re.MState (String.length pre) (String c ds ++ tail) caps) k)
    with (if p c
          then Re.run (Re.Star (Re.Cls p))
                 (Re.MState (S (String.length pre)) (ds ++ tail) caps)
                 (fun st2 => Re.run r (Re.MState (Re.pos st2) (Re.rest st2)
                                         ((g, (String.length pre, Re.pos st2))
                                          :: Re.caps st2)) k)
          else None).
  rewrite Hc, run_star_cls. cbn [Re.pos Re.caps Re.rest].
  apply star_cls_takes_all; [exact Hs|exact Htail|].
  cbn [Re.pos Re.caps Re.rest].
  rewrite length_append in Hk. cbn [String.length] in Hk.
  replace (S (String.length pre) + String.length ds)
    with (String.length pre + S (String.length ds)) by lia.
  exact Hk.
Qed.

Lemma some_opt (a b r : Re.regex) (st : Re.mstate) (k : Re.mstate -> option Re.mstate)
    (x : Re.mstate) :
  Re.run (Re.Seq a (Re.Seq b r)) st k = Some x ->
  Re.run (Re.Seq (Re.opt (Re.Seq a b)) r) st k = Some x.
Proof.
  intro H.
  change (Re.run (Re.Seq (Re.opt (Re.Seq a b)) r) st k)
    with (Re.or_else (Re.run (Re.Seq a (Re.Seq b r)) st k) (fun _ => Re.run r st k)).
  rewrite H. reflexivity.
Qed.

Lemma some_group_digits (g : nat) (r : Re.regex) (pre : string) (a b c : ascii)
    (tail : string) (caps : list (nat * (nat * nat))) (k : Re.mstate -> option Re.mstate)
    (x : Re.mstate) :
  Py.isdigit a = true -> Py.isdigit b = true -> Py.isdigit c = true ->
  Re.run r (read (pre ++ String a (String b (String c ""))) tail
              (span g pre (String a (String b (String c ""))) :: caps)) k = Some x ->
  Re.run (Re.Seq (Re.Group g (Re.rep 3 (Re.Cls Py.isdigit))) r)
         (read pre (String a (String b (String c "")) ++ tail) caps) k = Some x.
Proof.
  intros Ha Hb Hc Hk. unfold read, span in *.
  change (Re.run (Re.Seq (Re.Group g (Re.rep 3 (Re.Cls Py.isdigit))) r)
            (Re.MState (String.length pre) (String a (String b (String c "")) ++ tail) caps) k)
    with (if Py.isdigit a then
            if Py.isdigit b then
              if Py.isdigit c then
                Re.run r (Re.MState (S (S (S (String.length pre)))) tail
                            ((g, (String.length pre, S (S (S (String.length pre))))) :: caps)) k
              else None
            else None
          else None).
  rewrite Ha, Hb, Hc.
  rewrite length_append in Hk. cbn [String.length] in Hk.
  replace (S (S (S (String.length pre)))) with (String.length pre + 3) by lia.
  exact Hk.
Qed.

Lemma some_group_alt_plus (p : ascii -> bool) (g : nat) (other r : Re.regex)
    (pre ds tail : string) (caps : list (nat * (nat * nat)))
    (k : Re.mstate -> option Re.mstate) (x : Re.mstate) :
  ds <> "" -> all_chars p ds = true -> stops p tail = true ->
  Re.run r (read (pre ++ ds) tail (span g pre ds :: caps)) k = Some x ->
  Re.run (Re.Seq (Re.Group g (Re.Alt (Re.plus (Re.Cls p)) other)) r)
         (read pre (ds ++ tail) caps) k = Some x.
Proof.
  intros Hne Hds Htail Hk.
  change (Re.run (Re.Seq (Re.Group g (Re.Alt (Re.plus (Re.Cls p)) other)) r)
            (read pre (ds ++ tail) caps) k)
    with (Re.or_else
            (Re.run (Re.Seq (Re.Group g (Re.plus (Re.Cls p))) r) (read pre (ds ++ tail) caps) k)
            (fun _ => Re.run (Re.Seq (Re.Group g other) r) (read pre (ds ++ tail) caps) k)).
  rewrite (some_group_plus p g r pre ds tail caps k x Hne Hds Htail Hk). reflexivity.
Qed.

Lemma some_eol (pre : string) (caps : list (nat * (nat * nat))) :
  Re.run Re.Eol (read pre "" caps) Some = Some (read pre "" caps).
Proof. reflexivity. Qed.

Lemma stops_head (p q : ascii -> bool) (t tail : string) :
  (forall c, q c = true -> p c = false) ->
  t <> "" -> all_chars q t = true -> stops p (t ++ tail) = true.
Proof.
  intros Hqp Hne Ht. destruct t as [|c t]; [congruence|].
  cbn [all_chars] in Ht. apply andb_true_iff in Ht. destruct Ht as [Hc _].
  cbn [append stops]. rewrite (Hqp c Hc). reflexivity.
Qed.

Lemma solid_parts (t : string) :
  solid t = true -> t <> "" /\ all_chars (fun c => negb (Py.isspace c)) t = true.
Proof.
  unfold solid. intro H. apply andb_true_iff in H. destruct H as [H1 H2].
  apply negb_true_iff in H1. apply String.eqb_neq in H1. auto.
Qed.

Lemma nonempty_parts (t : string) : negb (String.eqb t "") = true -> t <> "".
Proof. intro H. apply negb_true_iff in H. apply String.eqb_neq in H. exact H. Qed.

Lemma length_3 (t : string) :
  String.length t = 3 -> exists a b c, t = String a (String b (String c "")).
Proof.
  destruct t as [|a [|b [|c [|d t]]]]; cbn; intro H; try discriminate H.
  exists a, b, c. reflexivity.
Qed.

Lemma rstrip_by_tail (p : ascii -> bool) (a b : string) :
  b <> "" -> all_chars (fun c => negb (p c)) b = true ->
  Py.rstrip_by p (a ++ b) = (a ++ b)%string.
Proof.
  intros Hne Hb. rewrite rstrip_by_app, (rstrip_by_none p b Hb).
  destruct b; [congruence|reflexivity].
Qed.

Lemma digits_nonspace (t : string) :
  all_chars Py.isdigit t = true -> all_chars (fun c => negb (Py.isspace c)) t = true.
Proof.
  apply all_chars_impl. intros c H.
  unfold Py.isdigit, Py.in_range in H. apply andb_true_iff in H. destruct H as [H1 H2].
  apply Nat.leb_le in H1, H2. apply negb_true_iff.
  unfold Py.isspace, Py.in_range. apply orb_false_iff.
  split; apply andb_false_iff; right; apply Nat.leb_gt; lia.
Qed.

Lemma some_seq3 (a b c r : Re.regex) (st : Re.mstate) (k : Re.mstate -> option Re.mstate)
    (x : Re.mstate) :
  Re.run (Re.Seq a (Re.Seq b (Re.Seq c r))) st k = Some x ->
  Re.run (Re.Seq (Re.seq [a; b; c]) r) st k = Some x.
Proof. intro H. exact H. Qed.

Lemma some_seq6 (a b c d e f r : Re.regex) (st : Re.mstate)
    (k : Re.mstate -> option Re.mstate) (x : Re.mstate) :
  Re.run (Re.Seq a (Re.Seq b (Re.Seq c (Re.Seq d (Re.Seq e (Re.Seq f r)))))) st k = Some x ->
  Re.run (Re.Seq (Re.seq [a; b; c; d; e; f]) r) st k = Some x.
Proof. intro H. exact H. Qed.

Lemma some_group_alt_plus_last (p : ascii -> bool) (g : nat) (other : Re.regex)
    (pre ds : string) (caps : list (nat * (nat * nat))) :
  ds <> "" -> all_chars p ds = true ->
  Re.run (Re.Seq (Re.Group g (Re.Alt (Re.plus (Re.Cls p)) other)) Re.Eol)
         (read pre ds caps) Some
  = Some (read (pre ++ ds) "" (span g pre ds :: caps)).
Proof.
  intros Hne Hds. rewrite <- (append_empty ds) at 1.
  apply some_group_alt_plus; [exact Hne|exact Hds|reflexivity|reflexivity].
Qed.

Lemma stops_front (p : ascii -> bool) (t tail : string) :
  t <> "" -> stops p t = true -> stops p (t ++ tail) = true.
Proof. intros Hne H. destruct t; [congruence|exact H]. Qed.

Lemma span_of (g : nat) (pre taken tail whole : string) (e : nat)
    (caps : list (nat * (nat * nat))) :
  Re.lookup_span g caps = Some (snd (span g pre taken)) ->
  whole = (pre ++ taken ++ tail)%string ->
  Re.group_str (Re.MatchObj whole 0 e caps) g = taken.
Proof. intros H ->. apply span_text. exact H. Qed.

Lemma access_pattern_match (ip ident user ts method endpoint proto status size : string) :
  common_fields ip ident user ts method endpoint proto status size = true ->
  let line := common_line ip ident user ts method endpoint proto status size in
  exists m,
    Re.re_match AccessParser.PATTERN line = Some m
    /\ Re.group_str m 1 = ip /\ Re.group_str m 4 = ts /\ Re.group_str m 5 = method
    /\ Re.group_str m 6 = endpoint /\ Re.group_str m 7 = status
    /\ Re.group_str m 8 = size.
Proof.
  unfold common_fields. intro H.
  repeat match type of H with
         | (_ && _)%bool = true =>
             let H' := fresh "F" in apply andb_true_iff in H; destruct H as [H H']
         end.
  destruct (solid_parts ip H) as [Hip1 Hip2].
  destruct (solid_parts ident F13) as [Hid1 Hid2].
  destruct (solid_parts user F12) as [Hus1 Hus2].
  apply nonempty_parts in F11, F9, F7, F5, F0.
  apply Nat.eqb_eq in F2. destruct (length_3 status F2) as [a [b [c ->]]].
  cbn [all_chars] in F1.
  apply andb_true_iff in F1. destruct F1 as [Ha F1].
  apply andb_true_iff in F1. destruct F1 as [Hb F1].
  apply andb_true_iff in F1. destruct F1 as [Hc _].
  cbv zeta. unfold common_line.
  set (line := (ip ++ " " ++ ident ++ " " ++ user ++ " " ++ "[" ++ ts ++ "]" ++ " "
                ++ String Py.dq "" ++ method ++ " " ++ endpoint ++ " " ++ proto
                ++ String Py.dq "" ++ " " ++ String a (String b (String c "")) ++ " "
                ++ size)%string).
  assert (Hrun : exists pre caps,
             Re.run AccessParser.PATTERN (Re.MState 0 line []) Some = Some (read pre "" caps)
             /\ Re.group_str (Re.MatchObj line 0 (String.length pre) caps) 1 = ip
             /\ Re.group_str (Re.MatchObj line 0 (String.length pre) caps) 4 = ts
             /\ Re.group_str (Re.MatchObj line 0 (String.length pre) caps) 5 = method
             /\ Re.group_str (Re.MatchObj line 0 (String.length pre) caps) 6 = endpoint
             /\ Re.group_str (Re.MatchObj line 0 (String.length pre) caps) 7
                = String a (String b (String c ""))
             /\ Re.group_str (Re.MatchObj line 0 (String.length pre) caps) 8 = size).
  { eexists. eexists. split.
    - unfold AccessParser.PATTERN, AccessParser.bracketed, AccessParser.request, line.
      apply some_bol.
      eapply (some_group_plus _ 1 _ "" ip); [exact Hip1|exact Hip2|reflexivity|].
      eapply (some_plus _ _ _ " "); [discriminate|reflexivity| |].
      { apply (stops_head _ _ ident _ (fun c H => proj1 (negb_true_iff _) H) Hid1 Hid2). }
      eapply (some_group_plus _ 2 _ _ ident); [exact Hid1|exact Hid2|reflexivity|].
      eapply (some_plus _ _ _ " "); [discriminate|reflexivity| |].
      { apply (stops_head _ _ user _ (fun c H => proj1 (negb_true_iff _) H) Hus1 Hus2). }
      eapply (some_group_plus _ 3 _ _ user); [exact Hus1|exact Hus2|reflexivity|].
      eapply (some_plus _ _ _ " "); [discriminate|reflexivity|reflexivity|].
      apply some_seq3. eapply (some_chr "[").
      eapply (some_group_plus _ 4 _ _ ts); [exact F11|exact F10|reflexivity|].
      eapply (some_chr "]").
      eapply (some_plus _ _ _ " "); [discriminate|reflexivity|reflexivity|].
      apply some_seq6. eapply (some_chr Py.dq).
      eapply (some_group_plus _ 5 _ _ method); [exact F9|exact F8|reflexivity|].
      eapply (some_plus _ _ _ " "); [discriminate|reflexivity| |].
      { apply (stops_head _ _ endpoint _
                 (fun c H => proj1 (negb_true_iff _) (proj1 (proj1 (andb_true_iff _ _) H)))
                 F7 F6). }
      eapply (some_group_plus _ 6 _ _ endpoint); [exact F7|exact F6|reflexivity|].
      apply some_opt.
      eapply (some_plus _ _ _ " "); [discriminate|reflexivity| |].
      { apply stops_front; [exact F5|exact F4]. }
      eapply (some_plus _ _ _ proto); [exact F5|exact F3|reflexivity|].
      eapply (some_chr Py.dq).
      eapply (some_plus _ _ _ " "); [discriminate|reflexivity| |].
      { cbn [append stops]. apply negb_true_iff.
        pose proof (digits_nonspace (String a "")) as Hd. cbn [all_chars] in Hd.
        rewrite Ha in Hd. specialize (Hd eq_refl). rewrite andb_true_r in Hd.
        apply negb_true_iff in Hd. exact Hd. }
      eapply (some_group_digits 7); [exact Ha|exact Hb|exact Hc|].
      eapply (some_plus _ _ _ " "); [discriminate|reflexivity| |].
      { destruct size as [|x size]; [congruence|].
        pose proof (digits_nonspace _ F) as Hd. cbn [all_chars] in Hd.
        apply andb_true_iff in Hd. exact (proj1 Hd). }
      apply some_group_alt_plus_last; [exact F0|exact F].
    - split; [|split; [|split; [|split; [|split]]]];
        try (eapply span_of; [reflexivity|]; unfold line; rewrite ?append_assoc;
             cbn [append]; reflexivity).
      eapply (span_of 8 _ size ""); [reflexivity|].
      unfold line. rewrite ?append_assoc, append_empty. cbn [append]. reflexivity. }
  destruct Hrun as [pre [caps [Hrun Hgroups]]].
  unfold Re.re_match. rewrite Hrun. eexists. split; [reflexivity|].
  exact Hgroups.
Qed.

Lemma strip_solid_ends (head mid last : string) :
  solid head = true -> last <> "" ->
  all_chars (fun c => negb (Py.isspace c)) last = true ->
  Py.strip (head ++ mid ++ last) = (head ++ mid ++ last)%string.
Proof.
  intros Hh Hne Hl. destruct (solid_parts head Hh) as [Hh1 Hh2].
  unfold Py.strip, Py.strip_by.
  assert (E : Py.lstrip_by Py.isspace (head ++ mid ++ last) = (head ++ mid ++ last)%string).
  { destruct head as [|c head]; [congruence|].
    cbn [all_chars] in Hh2. apply andb_true_iff in Hh2. destruct Hh2 as [Hc _].
    apply negb_true_iff in Hc. cbn [append]. apply lstrip_by_first. exact Hc. }
  rewrite E, <- append_assoc. apply rstrip_by_tail; assumption.
Qed.

(** X17. Every line of the common web-access form is parsed into its
    fields: whatever the address, the two fields after it, the time
    between the brackets, the method, the path, the protocol, the three
    digits of the status and the digits of the size are, [parse] returns
    the address as [ip], the method, the path as [endpoint], the status
    as text, the size as a number, and the time as [_parse_timestamp]
    makes it.  A size of more than 4300 digits is beyond what [int]
    reads: its [ValueError] is caught and the size is 0. *)
Theorem access_common_format (ip ident user ts method endpoint proto status size : string)
    (Hfields : common_fields ip ident user ts method endpoint proto status size = true) :
  AccessParser.parse (common_line ip ident user ts method endpoint proto status size)
  = Some (AccessParser.access_dict (AccessParser._parse_timestamp ts) ip method endpoint
            status
            (if (Py.max_str_digits <? String.length size)%nat then 0%Z
             else Py.int_of_digits size)).
Proof.
  destruct (access_pattern_match ip ident user ts method endpoint proto status size Hfields)
    as [m [Hm [G1 [G4 [G5 [G6 [G7 G8]]]]]]].
  cbv zeta in Hm.
  assert (Hsolid : solid ip = true /\ size <> ""
                   /\ all_chars (fun c => negb (Py.isspace c)) size = true
                   /\ all_chars Py.isdigit size = true).
  { unfold common_fields in Hfields.
    repeat match type of Hfields with
           | (_ && _)%bool = true =>
               let H' := fresh "F" in
               apply andb_true_iff in Hfields; destruct Hfields as [Hfields H']
           end.
    split; [exact Hfields|]. split; [apply nonempty_parts; assumption|].
    split; [apply digits_nonspace|]; assumption. }
  destruct Hsolid as [Hip [Hsz1 [Hsz2 Hsz3]]].
  assert (Hstrip : Py.strip (common_line ip ident user ts method endpoint proto status size)
                   = common_line ip ident user ts method endpoint proto status size).
  { unfold common_line.
    replace (ip ++ " " ++ ident ++ " " ++ user ++ " " ++ "[" ++ ts ++ "]" ++ " "
             ++ String Py.dq "" ++ method ++ " " ++ endpoint ++ " " ++ proto
             ++ String Py.dq "" ++ " " ++ status ++ " " ++ size)%string
      with (ip ++ (" " ++ ident ++ " " ++ user ++ " " ++ "[" ++ ts ++ "]" ++ " "
                   ++ String Py.dq "" ++ method ++ " " ++ endpoint ++ " " ++ proto
                   ++ String Py.dq "" ++ " " ++ status ++ " ") ++ size)%string
      by (rewrite !append_assoc; reflexivity).
    apply strip_solid_ends; assumption. }
  unfold AccessParser.parse. cbv zeta. rewrite Hstrip, Hm.
  assert (Hne : String.eqb (common_line ip ident user ts method endpoint proto status size) ""
                = false).
  { apply String.eqb_neq. unfold common_line. destruct (solid_parts ip Hip) as [Hn _].
    destruct ip; [congruence|discriminate]. }
  rewrite Hne, G1, G4, G5, G6, G7, G8.
  unfold AccessParser.size_int.
  replace (String.eqb size "-") with false; [reflexivity|].
  symmetry. apply String.eqb_neq. intro E. rewrite E in Hsz3. discriminate Hsz3.
Qed.

Lemma access_common_format_witness :
  AccessParser.parse access_line
  = Some (AccessParser.access_dict (AccessParser._parse_timestamp "13/Feb/2025:11:22:33 +0000")
            "192.168.1.1" "GET" "/api/users" "200" 1234).
Proof.
  exact (access_common_format "192.168.1.1" "-" "-" "13/Feb/2025:11:22:33 +0000" "GET"
           "/api/users" "HTTP/1.1" "200" "1234" eq_refl).
Defined.

(** ** Lines of the classic syslog form *)

Lemma some_assoc (a b r : Re.regex) (st : Re.mstate) (k : Re.mstate -> option Re.mstate)
    (x : Re.mstate) :
  Re.run (Re.Seq a (Re.Seq b r)) st k = Some x ->
  Re.run (Re.Seq (Re.Seq a b) r) st k = Some x.
Proof. intro H. exact H. Qed.

Lemma some_eps (r : Re.regex) (st : Re.mstate) (k : Re.mstate -> option Re.mstate)
    (x : Re.mstate) :
  Re.run r st k = Some x -> Re.run (Re.Seq Re.Eps r) st k = Some x.
Proof. intro H. exact H. Qed.

Lemma some_cls (p : ascii -> bool) (c : ascii) (r : Re.regex) (pre text : string)
    (caps : list (nat * (nat * nat))) (k : Re.mstate -> option Re.mstate) (x : Re.mstate) :
  p c = true ->
  Re.run r (read (pre ++ String c "") text caps) k = Some x ->
  Re.run (Re.Seq (Re.Cls p) r) (read pre (String c text) caps) k = Some x.
Proof.
  intros Hc H. unfold read in *. rewrite <- read_step in H.
  change (Re.run (Re.Seq (Re.Cls p) r) (Re.MState (String.length pre) (String c text) caps) k)
    with (if p c then Re.run r (Re.MState (S (String.length pre)) text caps) k else None).
  rewrite Hc. exact H.
Qed.

Lemma some_cls_last (p : ascii -> bool) (c : ascii) (pre text : string)
    (caps : list (nat * (nat * nat))) (k : Re.mstate -> option Re.mstate) (x : Re.mstate) :
  p c = true ->
  k (read (pre ++ String c "") text caps) = Some x ->
  Re.run (Re.Cls p) (read pre (String c text) caps) k = Some x.
Proof.
  intros Hc H. unfold read in *. rewrite <- read_step in H.
  change (Re.run (Re.Cls p) (Re.MState (String.length pre) (String c text) caps) k)
    with (if p c then k (Re.MState (S (String.length pre)) text caps) else None).
  rewrite Hc. exact H.
Qed.

(** A group around any pattern: its end is noted by the continuation. *)
Lemma some_group_open (g : nat) (inner r : Re.regex) (pre text : string)
    (caps : list (nat * (nat * nat))) (k : Re.mstate -> option Re.mstate) (x : Re.mstate) :
  Re.run inner (read pre text caps)
    (fun st1 => Re.run r (Re.MState (Re.pos st1) (Re.rest st1)
                            ((g, (String.length pre, Re.pos st1)) :: Re.caps st1)) k)
  = Some x ->
  Re.run (Re.Seq (Re.Group g inner) r) (read pre text caps) k = Some x.
Proof. intro H. exact H. Qed.

Lemma some_opt_skip (a r : Re.regex) (st : Re.mstate) (k : Re.mstate -> option Re.mstate)
    (x : Re.mstate) :
  Re.run (Re.Seq a r) st k = None -> Re.run r st k = Some x ->
  Re.run (Re.Seq (Re.opt a) r) st k = Some x.
Proof.
  intros Hnone H.
  change (Re.run (Re.Seq (Re.opt a) r) st k)
    with (Re.or_else (Re.run (Re.Seq a r) st k) (fun _ => Re.run r st k)).
  rewrite Hnone. exact H.
Qed.

Lemma some_star (p : ascii -> bool) (r : Re.regex) (pre ds tail : string)
    (caps : list (nat * (nat * nat))) (k : Re.mstate -> option Re.mstate) (x : Re.mstate) :
  all_chars p ds = true -> stops p tail = true ->
  Re.run r (read (pre ++ ds) tail caps) k = Some x ->
  Re.run (Re.Seq (Re.Star (Re.Cls p)) r) (read pre (ds ++ tail) caps) k = Some x.
Proof.
  intros Hds Htail Hk. unfold read in *.
  change (Re.run (Re.Seq (Re.Star (Re.Cls p)) r)
            (Re.MState (String.length pre) (ds ++ tail) caps) k)
    with (Re.run (Re.Star (Re.Cls p)) (Re.MState (String.length pre) (ds ++ tail) caps)
            (fun st => Re.run r st k)).
  rewrite run_star_cls. cbn [Re.pos Re.caps Re.rest].
  apply star_cls_takes_all; [exact Hds|exact Htail|].
  rewrite length_append in Hk. exact Hk.
Qed.

Lemma some_group_star_last (p : ascii -> bool) (g : nat) (pre ds : string)
    (caps : list (nat * (nat * nat))) :
  all_chars p ds = true ->
  Re.run (Re.Seq (Re.Group g (Re.Star (Re.Cls p))) Re.Eol) (read pre ds caps) Some
  = Some (read (pre ++ ds) "" (span g pre ds :: caps)).
Proof.
  intro Hds. unfold read, span.
  change (Re.run (Re.Seq (Re.Group g (Re.Star (Re.Cls p))) Re.Eol)
            (Re.MState (String.length pre) ds caps) Some)
    with (Re.run (Re.Star (Re.Cls p)) (Re.MState (String.length pre) ds caps)
            (fun st1 => Re.run Re.Eol
                          (Re.MState (Re.pos st1) (Re.rest st1)
                             ((g, (String.length pre, Re.pos st1)) :: Re.caps st1)) Some)).
  rewrite run_star_cls. cbn [Re.pos Re.caps Re.rest].
  rewrite <- (append_empty ds) at 1.
  apply star_cls_takes_all; [exact Hds|reflexivity|].
  cbn [Re.pos Re.caps Re.rest]. rewrite length_append. reflexivity.
Qed.

(** The greedy star gives back one character when the continuation
    fails at the end of the run and succeeds one character earlier. *)
Lemma star_cls_back_one (p : ascii -> bool) (k : Re.mstate -> option Re.mstate)
    (ds : string) (c : ascii) (tail : string) (pos : nat)
    (caps : list (nat * (nat * nat))) (x : Re.mstate) :
  all_chars p ds = true -> p c = true -> stops p tail = true ->
  k (Re.MState (pos + String.length ds + 1) tail caps) = None ->
  k (Re.MState (pos + String.length ds) (String c tail) caps) = Some x ->
  star_cls p k pos caps (ds ++ String c tail) = Some x.
Proof.
  intros Hds Hc Htail Hnone Hsome. revert pos Hnone Hsome.
  induction ds as [|d ds IH]; intros pos Hnone Hsome.
  - cbn [append String.length] in *. rewrite Nat.add_0_r in *.
    cbn [star_cls]. rewrite Hc.
    assert (E : star_cls p k (S pos) caps tail = None).
    { rewrite <- Nat.add_1_r. destruct tail as [|t tail]; [exact Hnone|].
      cbn [star_cls]. cbn [stops] in Htail. apply negb_true_iff in Htail.
      rewrite Htail. exact Hnone. }
    rewrite E. exact Hsome.
  - cbn [all_chars] in Hds. apply andb_true_iff in Hds. destruct Hds as [Hd Hs].
    cbn [append star_cls String.length]. rewrite Hd.
    rewrite (IH Hs (S pos)); [reflexivity| |].
    + replace (S pos + String.length ds + 1) with (pos + S (String.length ds) + 1) by lia.
      exact Hnone.
    + replace (S pos + String.length ds) with (pos + S (String.length ds)) by lia.
      exact Hsome.
Qed.

Lemma state_eq (p1 p2 : nat) (text : string) (g a b1 b2 : nat)
    (caps : list (nat * (nat * nat))) :
  p1 = p2 -> b1 = b2 ->
  Re.MState p1 text ((g, (a, b1)) :: caps) = Re.MState p2 text ((g, (a, b2)) :: caps).
Proof. intros -> ->. reflexivity. Qed.

Lemma some_group_plus_back (p : ascii -> bool) (g : nat) (r : Re.regex)
    (pre ds : string) (c : ascii) (tail : string) (caps : list (nat * (nat * nat)))
    (k : Re.mstate -> option Re.mstate) (x : Re.mstate) :
  ds <> "" -> all_chars p ds = true -> p c = true -> stops p tail = true ->
  Re.run r (read ((pre ++ ds) ++ String c "") tail (span g pre (ds ++ String c "") :: caps)) k
  = None ->
  Re.run r (read (pre ++ ds) (String c tail) (span g pre ds :: caps)) k = Some x ->
  Re.run (Re.Seq (Re.Group g (Re.plus (Re.Cls p))) r)
         (read pre (ds ++ String c tail) caps) k = Some x.
Proof.
  intros Hne Hds Hc Htail Hnone Hsome. unfold read, span in *.
  destruct ds as [|d ds]; [congruence|].
  cbn [all_chars] in Hds. apply andb_true_iff in Hds. destruct Hds as [Hd Hs].
  change (Re.run (Re.Seq (Re.Group g (Re.plus (Re.Cls p))) r)
            (Re.MState (String.length pre) (String d ds ++ String c tail) caps) k)
    with (if p d
          then Re.run (Re.Star (Re.Cls p))
                 (Re.MState (S (String.length pre)) (ds ++ String c tail) caps)
                 (fun st2 => Re.run r (Re.MState (Re.pos st2) (Re.rest st2)
                                         ((g, (String.length pre, Re.pos st2))
                                          :: Re.caps st2)) k)
          else None).
  rewrite Hd, run_star_cls. cbn [Re.pos Re.caps Re.rest].
  apply star_cls_back_one; [exact Hs|exact Hc|exact Htail| |]; cbn [Re.pos Re.caps Re.rest].
  - rewrite !length_append in Hnone. cbn [String.length] in Hnone.
    match goal with
    | |- Re.run r ?s1 k = None =>
        match type of Hnone with
        | Re.run r ?s2 k = None => replace s1 with s2; [exact Hnone|apply state_eq; lia]
        end
    end.
  - rewrite length_append in Hsome. cbn [String.length] in Hsome.
    match goal with
    | |- Re.run r ?s1 k = Some x =>
        match type of Hsome with
        | Re.run r ?s2 k = Some x => replace s1 with s2; [exact Hsome|apply state_eq; lia]
        end
    end.
Qed.

Lemma month_text_parts (t : string) :
  month_text t = true ->
  exists a b c, t = String a (String b (String c ""))
                /\ Py.isupper a = true /\ Py.islower b = true /\ Py.islower c = true.
Proof.
  destruct t as [|a [|b [|c [|d t]]]]; cbn [month_text]; intro H; try discriminate H.
  apply andb_true_iff in H. destruct H as [H Hc].
  apply andb_true_iff in H. destruct H as [Ha Hb].
  exists a, b, c. auto.
Qed.

Lemma two_digits_parts (t : string) :
  two_digits t = true ->
  exists a b, t = String a (String b "") /\ Py.isdigit a = true /\ Py.isdigit b = true.
Proof.
  destruct t as [|a [|b [|c t]]]; cbn [two_digits]; intro H; try discriminate H.
  apply andb_true_iff in H. destruct H as [Ha Hb].
  exists a, b. auto.
Qed.

Lemma digit_not_space (c : ascii) : Py.isdigit c = true -> Py.isspace c = false.
Proof.
  intro H. pose proof (digits_nonspace (String c "")) as Hd. cbn [all_chars] in Hd.
  rewrite H in Hd. specialize (Hd eq_refl). rewrite andb_true_r in Hd.
  apply negb_true_iff in Hd. exact Hd.
Qed.

Lemma upper_not_space (c : ascii) : Py.isupper c = true -> Py.isspace c = false.
Proof.
  unfold Py.isupper, Py.isspace, Py.in_range. intro H.
  apply andb_true_iff in H. destruct H as [H1 H2]. apply Nat.leb_le in H1, H2.
  apply orb_false_iff. split; apply andb_false_iff; right; apply Nat.leb_gt; lia.
Qed.

Lemma upper_not_digit (c : ascii) : Py.isupper c = true -> Py.isdigit c = false.
Proof.
  unfold Py.isupper, Py.isdigit, Py.in_range. intro H.
  apply andb_true_iff in H. destruct H as [H1 H2]. apply Nat.leb_le in H1, H2.
  apply andb_false_iff. right. apply Nat.leb_gt. lia.
Qed.

Lemma iso_prefix_needs_digit (c : ascii) (text : string) :
  Py.isdigit c = false -> Re.re_match SyslogParser.ISO_PREFIX (String c text) = None.
Proof.
  intro Hc. unfold Re.re_match.
  lazy beta iota zeta delta [Re.run Re.seq Re.rep SyslogParser.ISO_PREFIX
                             SyslogParser.iso_stamp Re.step_char Re.rest Re.pos Re.caps
                             Nat.eqb Re.d Re.one_of].
  rewrite Hc. reflexivity.
Qed.

Lemma iso_pattern_needs_digit (c : ascii) (text : string) :
  Py.isdigit c = false -> Re.re_match SyslogParser.ISO_PATTERN (String c text) = None.
Proof.
  intro Hc. destruct (Re.re_match SyslogParser.ISO_PATTERN (String c text)) as [m|] eqn:E;
    [|reflexivity].
  destruct (group_inside _ _ _ _ _ _ E) as [m' Hm'].
  pose proof (iso_prefix_needs_digit c text Hc) as Hnone.
  unfold SyslogParser.ISO_PREFIX in Hnone. cbn [Re.seq] in Hnone. congruence.
Qed.

Lemma span_between (g : nat) (pre pre' taken tail whole : string) (e : nat)
    (caps : list (nat * (nat * nat))) :
  Re.lookup_span g caps = Some (String.length pre, String.length pre') ->
  pre' = (pre ++ taken)%string -> whole = (pre ++ taken ++ tail)%string ->
  Re.group_str (Re.MatchObj whole 0 e caps) g = taken.
Proof. intros H -> ->. apply span_text. exact H. Qed.

Lemma classic_pattern_match (mon day hh mm ss host service message : string) :
  classic_fields mon day hh mm ss host service message = true ->
  let stamp := classic_time mon day hh mm ss in
  let line := classic_line stamp host service message in
  exists m,
    Re.re_match SyslogParser.CLASSIC_PATTERN line = Some m
    /\ Re.group_str m 1 = stamp /\ Re.group_str m 2 = host /\ Re.group_str m 3 = service
    /\ Re.group m 4 = None /\ Re.group_str m 5 = message.
Proof.
  unfold classic_fields, plain_message. intro H.
  apply andb_true_iff in H. destruct H as [H Hmsg].
  apply andb_true_iff in H. destruct H as [H Hsv].
  apply andb_true_iff in H. destruct H as [H Hho].
  apply andb_true_iff in H. destruct H as [H Hss].
  apply andb_true_iff in H. destruct H as [H Hmm].
  apply andb_true_iff in H. destruct H as [H Hhh].
  apply andb_true_iff in H. destruct H as [Hmon Hday].
  apply andb_true_iff in Hmsg. destruct Hmsg as [Hmsg Hdot].
  apply andb_true_iff in Hmsg. destruct Hmsg as [Hmsg Hrs].
  apply andb_true_iff in Hmsg. destruct Hmsg as [Hne Hst].
  destruct (month_text_parts mon Hmon) as [M [o [n [-> [HM [Ho Hn]]]]]].
  destruct (two_digits_parts day Hday) as [d1 [d2 [-> [Hd1 Hd2]]]].
  destruct (two_digits_parts hh Hhh) as [h1 [h2 [-> [Hh1 Hh2]]]].
  destruct (two_digits_parts mm Hmm) as [m1 [m2 [-> [Hm1 Hm2]]]].
  destruct (two_digits_parts ss Hss) as [s1 [s2 [-> [Hs1 Hs2]]]].
  destruct (solid_parts host Hho) as [Hho1 Hho2].
  destruct (solid_parts service Hsv) as [Hsv1 Hsv2].
  cbv zeta. unfold classic_line, classic_time.
  set (stamp := (String M (String o (String n "")) ++ " " ++ String d1 (String d2 "") ++ " "
                 ++ String h1 (String h2 "") ++ ":" ++ String m1 (String m2 "") ++ ":"
                 ++ String s1 (String s2 ""))%string).
  set (line := (stamp ++ " " ++ host ++ " " ++ service ++ ":" ++ " " ++ message)%string).
  assert (Hrun : exists pre caps,
             Re.run SyslogParser.CLASSIC_PATTERN (Re.MState 0 line []) Some
             = Some (read pre "" caps)
             /\ Re.group_str (Re.MatchObj line 0 (String.length pre) caps) 1 = stamp
             /\ Re.group_str (Re.MatchObj line 0 (String.length pre) caps) 2 = host
             /\ Re.group_str (Re.MatchObj line 0 (String.length pre) caps) 3 = service
             /\ Re.group (Re.MatchObj line 0 (String.length pre) caps) 4 = None
             /\ Re.group_str (Re.MatchObj line 0 (String.length pre) caps) 5 = message).
  { eexists. eexists. split.
    - unfold SyslogParser.CLASSIC_PATTERN, SyslogParser.classic_stamp, SyslogParser.tail,
        line, stamp.
      apply some_bol. eapply some_group_open.
      eapply (some_cls _ M); [exact HM|].
      apply some_assoc. eapply (some_cls _ o); [exact Ho|]. eapply (some_cls _ n); [exact Hn|].
      eapply (some_plus _ _ _ " "); [discriminate|reflexivity| |].
      { cbn [append stops]. rewrite (digit_not_space d1 Hd1). reflexivity. }
      apply some_assoc. eapply (some_cls _ d1); [exact Hd1|].
      apply some_opt. eapply (some_cls _ d2); [exact Hd2|]. apply some_eps.
      eapply (some_plus _ _ _ " "); [discriminate|reflexivity| |].
      { cbn [append stops]. rewrite (digit_not_space h1 Hh1). reflexivity. }
      apply some_assoc. eapply (some_cls _ h1); [exact Hh1|].
      eapply (some_cls _ h2); [exact Hh2|]. eapply (some_chr ":").
      apply some_assoc. eapply (some_cls _ m1); [exact Hm1|].
      eapply (some_cls _ m2); [exact Hm2|]. eapply (some_chr ":").
      eapply (some_cls _ s1); [exact Hs1|]. eapply (some_cls_last _ s2); [exact Hs2|].
      cbv beta. cbn [read Re.pos Re.rest Re.caps].
      eapply (some_plus _ _ _ " "); [discriminate|reflexivity| |].
      { apply (stops_head _ _ host _ (fun c H => proj1 (negb_true_iff _) H) Hho1 Hho2). }
      eapply (some_group_plus _ 2 _ _ host); [exact Hho1|exact Hho2|reflexivity|].
      eapply (some_plus _ _ _ " "); [discriminate|reflexivity| |].
      { apply (stops_head _ _ service _ (fun c H => proj1 (negb_true_iff _) H) Hsv1 Hsv2). }
      eapply (some_group_plus_back _ 3 _ _ service ":" (" " ++ message));
        [exact Hsv1|exact Hsv2|reflexivity|reflexivity|reflexivity|].
      eapply some_opt_skip; [reflexivity|].
      eapply (some_chr ":").
      eapply (some_star _ _ _ " "); [reflexivity|exact Hst|].
      apply some_group_star_last. exact Hdot.
    - split; [|split; [|split; [|split]]].
      + eapply (span_between 1 "" _ stamp); [reflexivity| |].
        * unfold stamp. rewrite ?append_assoc. cbn [append]. reflexivity.
        * unfold line. rewrite ?append_assoc. cbn [append]. reflexivity.
      + eapply span_of; [reflexivity|]. unfold line, stamp.
        rewrite ?append_assoc. cbn [append]. reflexivity.
      + eapply span_of; [reflexivity|]. unfold line, stamp.
        rewrite ?append_assoc. cbn [append]. reflexivity.
      + reflexivity.
      + eapply (span_of 5 _ message ""); [reflexivity|]. unfold line, stamp.
        rewrite ?append_assoc, append_empty. cbn [append]. reflexivity. }
  destruct Hrun as [pre [caps [Hrun Hgroups]]].
  unfold Re.re_match. rewrite Hrun. eexists. split; [reflexivity|].
  exact Hgroups.
Qed.

Lemma strip_classic_line (M : ascii) (front message : string) :
  Py.isupper M = true -> plain_message message = true ->
  Py.strip (String M (front ++ message)) = String M (front ++ message).
Proof.
  intros HM H. unfold plain_message in H.
  apply andb_true_iff in H. destruct H as [H _].
  apply andb_true_iff in H. destruct H as [H Hrs].
  apply andb_true_iff in H. destruct H as [Hne _].
  apply nonempty_parts in Hne. apply String.eqb_eq in Hrs.
  unfold Py.strip, Py.strip_by.
  rewrite (lstrip_by_first _ M _ (upper_not_space M HM)).
  change (String M (front ++ message)) with (String M front ++ message)%string.
  rewrite rstrip_by_app, Hrs. destruct message; [congruence|reflexivity].
Qed.

(** X18. Every line of the classic syslog form is parsed into its
    fields: whatever the month name, the two digits of the day, hour,
    minute and second, the host, the service and the message are,
    [parse] returns the host, the service and the message as they stand
    in the line, and the time as [_parse_classic_timestamp] makes it of
    the stamp.  A process number between brackets stays part of the
    service: the text [cron[77]] is returned whole. *)
Theorem syslog_classic_format (current_year : Z)
    (mon day hh mm ss host service message : string)
    (Hfields : classic_fields mon day hh mm ss host service message = true) :
  SyslogParser.parse current_year
    (classic_line (classic_time mon day hh mm ss) host service message)
  = Some (SyslogParser.syslog_dict
            (SyslogParser._parse_classic_timestamp current_year
               (classic_time mon day hh mm ss))
            host service message).
Proof.
  destruct (classic_pattern_match mon day hh mm ss host service message Hfields)
    as [m [Hm [G1 [G2 [G3 [G4 G5]]]]]].
  cbv zeta in Hm.
  assert (Hparts : exists M front, Py.isupper M = true
                     /\ plain_message message = true
                     /\ classic_line (classic_time mon day hh mm ss) host service message
                        = String M (front ++ message)).
  { unfold classic_fields in Hfields.
    apply andb_true_iff in Hfields. destruct Hfields as [H Hmsg].
    do 6 (apply andb_true_iff in H; destruct H as [H _]).
    destruct (month_text_parts mon H) as [M [o [n [-> [HM _]]]]].
    exists M.
    exists (String o (String n "") ++ " " ++ day ++ " " ++ hh ++ ":" ++ mm ++ ":" ++ ss
            ++ " " ++ host ++ " " ++ service ++ ":" ++ " ")%string.
    split; [exact HM|]. split; [exact Hmsg|].
    unfold classic_line, classic_time. rewrite ?append_assoc. cbn [append].
    reflexivity. }
  destruct Hparts as [M [front [HM [Hmsg Hline]]]].
  rewrite Hline in Hm |- *. unfold SyslogParser.parse.
  rewrite (strip_classic_line M front message HM Hmsg).
  cbn [String.eqb].
  rewrite (iso_pattern_needs_digit M _ (upper_not_digit M HM)), Hm.
  unfold SyslogParser.service_full. rewrite G4, G1, G2, G3, G5. reflexivity.
Qed.

Lemma syslog_classic_format_witness :
  SyslogParser.parse 2025
    (classic_line (classic_time "Jan" "12" "11" "33" "22") "web1" "cron[77]" "job done")
  = Some (SyslogParser.syslog_dict
            (SyslogParser._parse_classic_timestamp 2025
               (classic_time "Jan" "12" "11" "33" "22"))
            "web1" "cron[77]" "job done").
Proof.
  apply (syslog_classic_format 2025 "Jan" "12" "11" "33" "22" "web1" "cron[77]" "job done").
  vm_compute. reflexivity.
Defined.

(** ** Bounds counted back from now *)







(** ** The timestamp of an ISO line in the legacy engine *)

Lemma blank_parts (t : string) :
  blank t = true -> t <> "" /\ all_chars Py.isspace t = true.
Proof.
  unfold blank. intro H. apply andb_true_iff in H. destruct H as [H1 H2].
  split; [apply nonempty_parts; exact H1|exact H2].
Qed.

Lemma some_group_star_end (p : ascii -> bool) (g : nat) (pre ds : string)
    (caps : list (nat * (nat * nat))) :
  all_chars p ds = true ->
  Re.run (Re.Group g (Re.Star (Re.Cls p))) (read pre ds caps) Some
  = Some (read (pre ++ ds) "" (span g pre ds :: caps)).
Proof.
  intro Hds. unfold read, span.
  change (Re.run (Re.Group g (Re.Star (Re.Cls p))) (Re.MState (String.length pre) ds caps) Some)
    with (Re.run (Re.Star (Re.Cls p)) (Re.MState (String.length pre) ds caps)
            (fun st1 => Some (Re.MState (Re.pos st1) (Re.rest st1)
                                ((g, (String.length pre, Re.pos st1)) :: Re.caps st1)))).
  rewrite run_star_cls. cbn [Re.pos Re.caps Re.rest].
  rewrite <- (append_empty ds) at 1.
  apply star_cls_takes_all; [exact Hds|reflexivity|].
  cbn [Re.pos Re.caps Re.rest]. rewrite length_append. reflexivity.
Qed.

Lemma worded_line_match (first gap1 second gap2 rest : string) :
  worded_fields first gap1 second gap2 rest = true ->
  exists m,
    Re.re_match (Re.seq [Re.Bol; Re.Group 1 (Re.plus Re.S'); Re.plus Re.s;
                         Re.Group 2 (Re.plus Re.S'); Re.plus Re.s; Re.Group 3 (Re.Star Re.dot)])
      (worded_line first gap1 second gap2 rest) = Some m
    /\ Re.group_str m 1 = first.
Proof.
  intro H. unfold worded_fields in H.
  apply andb_true_iff in H. destruct H as [H Hdot].
  apply andb_true_iff in H. destruct H as [H Hst].
  apply andb_true_iff in H. destruct H as [H Hg2].
  apply andb_true_iff in H. destruct H as [H Hw2].
  apply andb_true_iff in H. destruct H as [Hw1 Hg1].
  destruct (solid_parts first Hw1) as [Hf1 Hf2].
  destruct (solid_parts second Hw2) as [Hs1 Hs2].
  destruct (blank_parts gap1 Hg1) as [Ha1 Ha2].
  destruct (blank_parts gap2 Hg2) as [Hb1 Hb2].
  set (line := worded_line first gap1 second gap2 rest).
  assert (Hrun : exists pre caps,
             Re.run (Re.seq [Re.Bol; Re.Group 1 (Re.plus Re.S'); Re.plus Re.s;
                             Re.Group 2 (Re.plus Re.S'); Re.plus Re.s;
                             Re.Group 3 (Re.Star Re.dot)])
               (Re.MState 0 line []) Some
             = Some (read pre "" caps)
             /\ Re.group_str (Re.MatchObj line 0 (String.length pre) caps) 1 = first).
  { eexists. eexists. split.
    - unfold line, worded_line. cbn [Re.seq].
      apply some_bol.
      eapply (some_group_plus _ 1 _ _ first); [exact Hf1|exact Hf2| |].
      { apply (stops_head _ Py.isspace gap1 _ (fun c H => proj2 (negb_false_iff _) H) Ha1 Ha2). }
      eapply (some_plus _ _ _ gap1); [exact Ha1|exact Ha2| |].
      { apply (stops_head _ _ second _ (fun c H => proj1 (negb_true_iff _) H) Hs1 Hs2). }
      eapply (some_group_plus _ 2 _ _ second); [exact Hs1|exact Hs2| |].
      { apply (stops_head _ Py.isspace gap2 _ (fun c H => proj2 (negb_false_iff _) H) Hb1 Hb2). }
      eapply (some_plus _ _ _ gap2); [exact Hb1|exact Hb2|exact Hst|].
      apply some_group_star_end. exact Hdot.
    - eapply (span_of 1 "" first (gap1 ++ second ++ gap2 ++ rest)); reflexivity. }
  destruct Hrun as [pre [caps [Hrun Hgroup]]].
  unfold Re.re_match. fold line. rewrite Hrun. eexists. split; [reflexivity|].
  exact Hgroup.
Qed.

Lemma is_iso_digit (line : string) :
  Engine.is_iso line = true ->
  exists c text, line = String c text /\ Py.isdigit c = true.
Proof.
  destruct line as [|c text]; [discriminate|].
  intro H. exists c, text. split; [reflexivity|].
  destruct (Py.isdigit c) eqn:Hc; [reflexivity|].
  revert H. unfold Engine.is_iso, Engine.matches, Re.re_match.
  lazy beta iota zeta delta [Re.run Re.seq Re.rep Re.step_char Re.rest Re.pos Re.caps
                             Nat.eqb Re.d Re.one_of].
  rewrite Hc. discriminate.
Qed.

(** X20. The legacy engine stores, for a line it reads as ISO syslog,
    the first word of the line as the timestamp: whatever the two first
    words, the white space between them and the rest are,
    [parse_universal] returns the first word unchanged, with the address
    and the user the extractors find and the event [syslog_iso].  A line
    whose date and time are separated by a blank thus gets the date
    alone as its timestamp. *)
Theorem iso_line_timestamp_is_first_word (ET_fromstring : string -> option Engine.Element)
    (current_year : Z) (first gap1 second gap2 rest : string)
    (Hfields : worded_fields first gap1 second gap2 rest = true)
    (Hiso : Engine.is_iso (worded_line first gap1 second gap2 rest) = true)
    (Hnginx : Engine.is_nginx (worded_line first gap1 second gap2 rest) = false) :
  Engine.parse_universal ET_fromstring current_year (worded_line first gap1 second gap2 rest)
  = Ret (Some (Json.JStr first,
               Engine.jopt (Engine.extract_ip (worded_line first gap1 second gap2 rest)),
               Engine.jopt (Engine.extract_user (worded_line first gap1 second gap2 rest)),
               Json.JNull, Json.JStr "syslog_iso")).
Proof.
  destruct (worded_line_match first gap1 second gap2 rest Hfields) as [m [Hm Hg]].
  destruct (is_iso_digit _ Hiso) as [c [text [E Hc]]].
  unfold Engine.parse_universal. rewrite Hnginx, Hiso.
  assert (Hjson : Engine.is_json (worded_line first gap1 second gap2 rest) = false).
  { rewrite E. unfold Engine.is_json. cbn [Py.startswith].
    destruct (Ascii.eqb "{" c) eqn:Ec; [|reflexivity].
    apply Ascii.eqb_eq in Ec. subst c. discriminate Hc. }
  assert (Hxml : Engine.is_windows_xml (worded_line first gap1 second gap2 rest) = false).
  { rewrite E. unfold Engine.is_windows_xml. cbn [Py.startswith].
    destruct (Ascii.eqb "<" c) eqn:Ec; [|reflexivity].
    apply Ascii.eqb_eq in Ec. subst c. discriminate Hc. }
  rewrite Hjson, Hxml. unfold Engine.parse_iso_syslog. rewrite Hm, Hg. reflexivity.
Qed.

Lemma iso_line_timestamp_is_first_word_witness :
  Engine.parse_universal (fun _ => None) 2025
    (worded_line "2025-02-13" " " "11:22:33" " " "web1 sshd: session opened for user kim")
  = Ret (Some (Json.JStr "2025-02-13", Json.JNull, Json.JStr "kim", Json.JNull,
               Json.JStr "syslog_iso")).
Proof.
  rewrite (iso_line_timestamp_is_first_word (fun _ => None) 2025
             "2025-02-13" " " "11:22:33" " " "web1 sshd: session opened for user kim"
             eq_refl eq_refl eq_refl).
  vm_compute. reflexivity.
Defined.

(** ** Files of plain text in the legacy engine *)

Lemma bindable_jopt (o : option string) : Engine.bindable (Engine.jopt o) = true.
Proof. destruct o; reflexivity. Qed.

(** What [parse_universal] makes of a line that is neither JSON nor XML
    can always be bound to the INSERT statement. *)
Lemma plain_text_event (ET_fromstring : string -> option Engine.Element) (current_year : Z)
    (line : string) :
  Engine.is_json line = false -> Engine.is_windows_xml line = false ->
  Engine.parse_universal ET_fromstring current_year line = Ret None
  \/ exists ts ip user status ev,
       Engine.parse_universal ET_fromstring current_year line
       = Ret (Some (ts, ip, user, status, ev))
       /\ Engine.bindable ts && Engine.bindable ip && Engine.bindable user
          && Engine.bindable status && Engine.bindable ev = true.
Proof.
  intros Hj Hx. unfold Engine.parse_universal. rewrite Hj, Hx.
  destruct (Engine.is_nginx line).
  { unfold Engine.parse_nginx. destruct (Re.re_match Engine.NGINX_PATTERN line); [|left; reflexivity].
    right. do 5 eexists. split; [reflexivity|]. reflexivity. }
  destruct (Engine.is_iso line).
  { unfold Engine.parse_iso_syslog. destruct (Re.re_match _ line); [|left; reflexivity].
    right. do 5 eexists. split; [reflexivity|].
    cbn [Engine.bindable andb]. rewrite !bindable_jopt. reflexivity. }
  destruct (Engine.is_classic_syslog line).
  { unfold Engine.parse_classic_syslog. right.
    destruct (Py.contains "Failed password" line);
      [|destruct (Py.contains "Accepted password" line);
        [|destruct (Py.contains "sudo:" line)]];
      do 5 eexists; (split; [reflexivity|]);
      cbn [Engine.bindable andb]; rewrite ?bindable_jopt; reflexivity. }
  right. unfold Engine.parse_generic. do 5 eexists. split; [reflexivity|].
  cbn [Engine.bindable andb]. rewrite bindable_jopt. reflexivity.
Qed.

(** X21. Reading a file none of whose lines looks like JSON or XML never
    fails in the legacy engine: [ingest_file] keeps the rows already
    stored and adds, in the order of the file, one row for each
    non-blank line [parse_universal] makes a tuple of; each new row
    carries the source name and the stripped line as its raw text. *)
Theorem plain_file_is_ingested (ET_fromstring : string -> option Engine.Element)
    (current_year : Z) (source : string) (lines : list string) (acc : list Engine.LogRow)
    (Hplain : forallb plain_text lines = true) :
  exists rows,
    Engine.ingest_lines ET_fromstring current_year source lines acc = Ret (acc ++ rows)%list
    /\ map Engine.r_raw rows
       = filter (gives_event ET_fromstring current_year) (map Py.strip lines)
    /\ Forall (fun r => Engine.r_source r = source) rows.
Proof.
  revert acc. induction lines as [|line lines IH]; intro acc.
  - exists []. cbn. rewrite app_nil_r. auto.
  - cbn [forallb] in Hplain. apply andb_true_iff in Hplain. destruct Hplain as [Hline Hrest].
    specialize (IH Hrest).
    unfold plain_text in Hline. apply andb_true_iff in Hline. destruct Hline as [Hj Hx].
    apply negb_true_iff in Hj, Hx.
    cbn [Engine.ingest_lines map filter]. unfold gives_event at 1.
    destruct (String.eqb (Py.strip line) "") eqn:Eb.
    + cbn [negb andb]. exact (IH acc).
    + cbn [negb andb].
      destruct (plain_text_event ET_fromstring current_year (Py.strip line) Hj Hx)
        as [Hnone|[ts [ip [user [status [ev [Hsome Hbind]]]]]]].
      * rewrite Hnone. exact (IH acc).
      * rewrite Hsome, Hbind.
        destruct (IH (acc ++ [Engine.mkLogRow ts source ip user status ev (Py.strip line)])%list)
          as [rows [Hrun [Hraw Hsrc]]].
        exists (Engine.mkLogRow ts source ip user status ev (Py.strip line) :: rows).
        split; [|split].
        -- rewrite Hrun, <- app_assoc. reflexivity.
        -- cbn [map Engine.r_raw]. rewrite Hraw. reflexivity.
        -- constructor; [reflexivity|exact Hsrc].
Qed.

Lemma plain_file_is_ingested_witness :
  exists rows,
    Engine.ingest_lines (fun _ => None) 2025 "app.log"
      ["Jan 12 11:33:22 web1 sshd[7]: Failed password for kim from 10.0.0.5"; "  ";
       "disk almost full"] []
    = Ret ([] ++ rows)%list
    /\ map Engine.r_raw rows
       = filter (gives_event (fun _ => None) 2025)
           (map Py.strip
              ["Jan 12 11:33:22 web1 sshd[7]: Failed password for kim from 10.0.0.5"; "  ";
               "disk almost full"])
    /\ Forall (fun r => Engine.r_source r = "app.log") rows.
Proof.
  apply (plain_file_is_ingested (fun _ => None) 2025 "app.log"
           ["Jan 12 11:33:22 web1 sshd[7]: Failed password for kim from 10.0.0.5"; "  ";
            "disk almost full"] []).
  vm_compute. reflexivity.
Defined.

(** ** The second pattern of the access parser *)

Lemma star_yields (r : Re.regex) (st : Re.mstate) (k : Re.mstate -> option Re.mstate)
    (x : Re.mstate) :
  k st = Some x -> exists y, Re.run (Re.Star r) st k = Some y.
Proof.
  intro H. rewrite run_star. cbn [greedy]. unfold Re.or_else.
  match goal with
  | |- exists y, match ?a with _ => _ end = _ => destruct a as [y|]
  end; [exists y; reflexivity|exists x; exact H].
Qed.

(** A pattern matches wherever a pattern it covers does. *)
Lemma run_covers (r r' : Re.regex) :
  covers r r' ->
  forall (p : nat) (t : string) (c c' : list (nat * (nat * nat)))
         (k k' : Re.mstate -> option Re.mstate) (x : Re.mstate),
    follows k k' ->
    Re.run r (Re.MState p t c) k = Some x ->
    exists y, Re.run r' (Re.MState p t c') k' = Some y.
Proof.
  induction 1 as [|a|a|q|r1 r1' r2 r2' _ IH1 _ IH2|r1 r1' r2 r2' _ IH1 _ IH2
                 |r1 r1' _ IH1|r1 r1' _ IH1|g g' r1 r1' _ IH1| | |a g q Hq];
    intros p t c c' k k' x Hk H.
  - exact (Hk _ _ _ c' _ H).
  - cbn [Re.run] in *. unfold Re.step_char in *. cbn [Re.rest Re.pos Re.caps] in *.
    destruct t as [|b s']; [discriminate|].
    destruct (Ascii.eqb a b); [exact (Hk _ _ _ c' _ H)|discriminate].
  - cbn [Re.run] in *. unfold Re.step_char in *. cbn [Re.rest Re.pos Re.caps] in *.
    destruct t as [|b s']; [discriminate|].
    destruct (Ascii.eqb _ _); [exact (Hk _ _ _ c' _ H)|discriminate].
  - cbn [Re.run] in *. unfold Re.step_char in *. cbn [Re.rest Re.pos Re.caps] in *.
    destruct t as [|b s']; [discriminate|].
    destruct (q b); [exact (Hk _ _ _ c' _ H)|discriminate].
  - cbn [Re.run] in *.
    apply (IH1 p t c c' (fun st1 => Re.run r2 st1 k) (fun st1 => Re.run r2' st1 k') x);
      [|exact H].
    intros p1 t1 c1 c1' x1 H1. exact (IH2 p1 t1 c1 c1' k k' x1 Hk H1).
  - cbn [Re.run] in *. unfold Re.or_else in *.
    destruct (Re.run r1 (Re.MState p t c) k) as [x1|] eqn:E1.
    + destruct (IH1 p t c c' k k' x1 Hk E1) as [y ->]. exists y. reflexivity.
    + destruct (Re.run r1' (Re.MState p t c') k') as [y|]; [exists y; reflexivity|].
      exact (IH2 p t c c' k k' x Hk H).
  - rewrite run_star in *. cbn [Re.rest] in *. revert x H.
    generalize (S (String.length t)) as fuel. intro fuel. revert p t c c'.
    induction fuel as [|fuel IHf]; intros p t c c' x H.
    + exact (Hk _ _ _ c' _ H).
    + cbn [greedy] in *. unfold Re.or_else in *.
      match type of H with
      | match ?a with _ => _ end = _ => destruct a as [x1|] eqn:E1
      end.
      * assert (HK : follows
                       (fun st1 => if Re.pos (Re.MState p t c) <? Re.pos st1
                                   then greedy (Re.run r1) k fuel st1 else None)
                       (fun st1 => if Re.pos (Re.MState p t c') <? Re.pos st1
                                   then greedy (Re.run r1') k' fuel st1 else None)).
        { intros p1 t1 c1 c1' x2 H1. cbn [Re.pos] in *.
          destruct (p <? p1); [exact (IHf p1 t1 c1 c1' x2 H1)|discriminate]. }
        destruct (IH1 p t c c' _ _ x1 HK E1) as [y Hy]. rewrite Hy.
        exists y. reflexivity.
      * match goal with
        | |- exists y, match ?a with _ => _ end = _ => destruct a as [y|]
        end; [exists y; reflexivity|exact (Hk _ _ _ c' _ H)].
  - rewrite run_star_lazy in *. cbn [Re.rest] in *. revert x H.
    generalize (S (String.length t)) as fuel. intro fuel. revert p t c c'.
    induction fuel as [|fuel IHf]; intros p t c c' x H.
    + exact (Hk _ _ _ c' _ H).
    + cbn [reluctant] in *. unfold Re.or_else in *.
      destruct (k (Re.MState p t c)) as [x0|] eqn:E0.
      * destruct (Hk _ _ _ c' _ E0) as [y ->]. exists y. reflexivity.
      * destruct (k' (Re.MState p t c')) as [y|]; [exists y; reflexivity|].
        apply (IH1 p t c c'
                 (fun st1 => if Re.pos (Re.MState p t c) <? Re.pos st1
                             then reluctant (Re.run r1) k fuel st1 else None)
                 (fun st1 => if Re.pos (Re.MState p t c') <? Re.pos st1
                             then reluctant (Re.run r1') k' fuel st1 else None) x);
          [|exact H].
        intros p1 t1 c1 c1' x1 H1. cbn [Re.pos] in *.
        destruct (p <? p1); [exact (IHf p1 t1 c1 c1' x1 H1)|discriminate].
  - cbn [Re.run] in *.
    apply (IH1 p t c c'
             (fun st1 => k (Re.MState (Re.pos st1) (Re.rest st1)
                              ((g, (Re.pos (Re.MState p t c), Re.pos st1)) :: Re.caps st1)))
             (fun st1 => k' (Re.MState (Re.pos st1) (Re.rest st1)
                               ((g', (Re.pos (Re.MState p t c'), Re.pos st1)) :: Re.caps st1)))
             x); [|exact H].
    intros p1 t1 c1 c1' x1 H1. cbn [Re.pos Re.rest Re.caps] in *.
    exact (Hk _ _ _ _ _ H1).
  - cbn [Re.run Re.pos] in *. destruct (p =? 0)%nat; [exact (Hk _ _ _ c' _ H)|discriminate].
  - cbn [Re.run Re.rest] in *.
    destruct t as [|b [|b' s']]; try discriminate; [exact (Hk _ _ _ c' _ H)|].
    destruct (Ascii.eqb b Py.nl); [exact (Hk _ _ _ c' _ H)|discriminate].
  - cbn [Re.run] in H. unfold Re.step_char in H. cbn [Re.rest Re.pos Re.caps] in H.
    destruct t as [|b s']; [discriminate|].
    destruct (Ascii.eqb a b) eqn:Eab; [|discriminate].
    apply Ascii.eqb_eq in Eab. subst b.
    change (Re.run (Re.Group g (Re.Seq (Re.Cls q) (Re.Star (Re.Cls q))))
              (Re.MState p (String a s') c') k')
      with (if q a
            then Re.run (Re.Star (Re.Cls q)) (Re.MState (S p) s' c')
                   (fun st2 => k' (Re.MState (Re.pos st2) (Re.rest st2)
                                     ((g, (p, Re.pos st2)) :: Re.caps st2)))
            else None).
    rewrite Hq.
    destruct (Hk _ _ _ ((g, (p, S p)) :: c') _ H) as [y Hy].
    apply (star_yields _ _ _ y). exact Hy.
Qed.

Lemma simple_covered : covers AccessParser.SIMPLE_PATTERN AccessParser.PATTERN.
Proof.
  unfold AccessParser.SIMPLE_PATTERN, AccessParser.PATTERN, AccessParser.bracketed,
    AccessParser.request, Re.plus, Re.opt, Re.S', Re.s, Re.d, Re.w, Re.none_of.
  cbn [Re.seq Re.rep].
  repeat first [apply covers_widen; reflexivity | constructor].
Qed.

Lemma simple_shadowed (line : string) (m : Re.match_obj) :
  Re.re_match AccessParser.SIMPLE_PATTERN line = Some m ->
  exists m', Re.re_match AccessParser.PATTERN line = Some m'.
Proof.
  unfold Re.re_match.
  destruct (Re.run AccessParser.SIMPLE_PATTERN (Re.MState 0 line []) Some) as [x|] eqn:E;
    [|discriminate].
  intros _.
  destruct (run_covers _ _ simple_covered 0 line [] [] Some Some x) as [y ->].
  - intros p t c c' x0 _. eexists. reflexivity.
  - exact E.
  - eexists. reflexivity.
Qed.

(** X22. The second attempt of [AccessParser.parse] never decides: every
    line [SIMPLE_PATTERN] matches is matched by [PATTERN], which is
    tried first, so that [parse] returns for every line what it would
    return without that attempt. *)
Theorem simple_pattern_never_decides (line : string) :
  (forall m, Re.re_match AccessParser.SIMPLE_PATTERN line = Some m ->
             exists m', Re.re_match AccessParser.PATTERN line = Some m')
  /\ AccessParser.parse line = parse_skipping_simple line.
Proof.
  split; [intros m H; exact (simple_shadowed line m H)|].
  unfold AccessParser.parse, parse_skipping_simple. cbv zeta.
  destruct (String.eqb (Py.strip line) ""); [reflexivity|].
  destruct (Re.re_match AccessParser.PATTERN (Py.strip line)) as [m|] eqn:E; [reflexivity|].
  destruct (Re.re_match AccessParser.SIMPLE_PATTERN (Py.strip line)) as [m|] eqn:Es;
    [|reflexivity].
  destruct (simple_shadowed _ _ Es) as [m' Hm']. congruence.
Qed.

(** ** The keyword of a free-text search in the SQL text *)

(** C8. The keyword of a free-text search reaches the SQL text as it was
    typed: a token between double quotes gives the clause of its
    content, lowered, and a bare keyword (no = in it, not the lone star)
    the clause of its own text, lowered; the clause is the OR over raw,
    message, service, user, action, endpoint and host of
    [col IS NOT NULL AND LOWER(col) LIKE '%keyword%'] with the keyword
    pasted between the quotes of the literal, nothing in it doubled or
    escaped.  So the query [')OR(1)OR('] does not ask for a text: it is
    one token, a bare keyword; in its clause each literal ends after
    the first [%] and the condition goes on as [or(1)or('%')]; the
    check of [Indexer.query] lets the clause through, and that text is
    what the database is given to run. *)
Theorem free_text_keyword_is_pasted (now : Datetime.datetime)
    (fromtimestamp : string -> outcome (option Datetime.datetime))
    (execute : string -> nat -> outcome (list dict)) :
  (forall token,
      Py.startswith token (String Py.dq "") = true ->
      Py.endswith token (String Py.dq "") = true ->
      QueryParser.parse_token now fromtimestamp token
      = Ret [QueryParser.FreeText (Py.lower (Py.strip_chars (String Py.dq "") token))])
  /\ (forall token,
        Py.contains "=" token = false ->
        token <> "*"%string ->
        Py.startswith token (String Py.dq "") && Py.endswith token (String Py.dq "") = false ->
        QueryParser.parse_token now fromtimestamp token
        = Ret [QueryParser.FreeText (Py.lower token)])
  /\ (forall kw,
        QueryParser.where_of [QueryParser.FreeText kw]
        = ("((raw IS NOT NULL AND LOWER(raw) LIKE '%" ++ kw ++ "%') OR "
           ++ "(message IS NOT NULL AND LOWER(message) LIKE '%" ++ kw ++ "%') OR "
           ++ "(service IS NOT NULL AND LOWER(service) LIKE '%" ++ kw ++ "%') OR "
           ++ "(user IS NOT NULL AND LOWER(user) LIKE '%" ++ kw ++ "%') OR "
           ++ "(action IS NOT NULL AND LOWER(action) LIKE '%" ++ kw ++ "%') OR "
           ++ "(endpoint IS NOT NULL AND LOWER(endpoint) LIKE '%" ++ kw ++ "%') OR "
           ++ "(host IS NOT NULL AND LOWER(host) LIKE '%" ++ kw ++ "%'))")%string)
  /\ QueryParser._tokenize injected_query = [injected_query]
  /\ QueryParser.parse now fromtimestamp injected_query = Ret (injected_where, None)
  /\ Indexer.where_ok injected_where = true
  /\ QueryEngine.search now fromtimestamp execute injected_query
     = match execute ("SELECT * FROM logs WHERE " ++ injected_where
                      ++ " ORDER BY id DESC LIMIT ?") 1000 with
       | Ret found => found
       | Raise e => [error_row e]
       end.
Proof.
  assert (Hparse : QueryParser.parse now fromtimestamp injected_query
                   = Ret (injected_where, None)) by reflexivity.
  assert (Hok : Indexer.where_ok injected_where = true) by (vm_compute; reflexivity).
  split; [|split; [|split; [|split; [|split; [|split]]]]].
  - apply quoted_token_clause.
  - apply bare_token_clause.
  - intro kw. unfold QueryParser.where_of, QueryParser.to_sql, QueryParser.free_text_columns,
      QueryParser.column_like.
    cbn [map Py.join]. rewrite !append_assoc. reflexivity.
  - reflexivity.
  - exact Hparse.
  - exact Hok.
  - unfold QueryEngine.search. rewrite Hparse. unfold Indexer.query. rewrite Hok.
    reflexivity.
Qed.

(** ** What SQLite makes of a free-text clause *)

Lemma scan_scan_on (text : string) (st : Sql.lstate) (acc : list Sql.token) :
  Sql.scan text st acc
  = match scan_on text st acc with
    | Some (st', acc') => Sql.finish st' acc'
    | None => None
    end.
Proof.
  revert st acc. induction text as [|c text IH]; intros st acc; cbn [Sql.scan scan_on].
  - reflexivity.
  - destruct (Sql.step st c acc) as [[st' acc']|]; [apply IH|reflexivity].
Qed.

Lemma scan_on_app (a b : string) (st : Sql.lstate) (acc : list Sql.token) :
  scan_on (a ++ b) st acc
  = match scan_on a st acc with
    | Some (st', acc') => scan_on b st' acc'
    | None => None
    end.
Proof.
  revert st acc. induction a as [|c a IH]; intros st acc; cbn [append scan_on].
  - reflexivity.
  - destruct (Sql.step st c acc) as [[st' acc']|]; [apply IH|reflexivity].
Qed.

Lemma start_acc (c : ascii) (acc : list Sql.token) :
  Sql.start c acc
  = match Sql.start c [] with
    | Some (st', out) => Some (st', (acc ++ out)%list)
    | None => None
    end.
Proof.
  unfold Sql.start.
  repeat match goal with
         | |- context [if ?b then _ else _] => destruct b
         end; cbn [app]; rewrite ?app_nil_r; reflexivity.
Qed.

Lemma step_acc (st : Sql.lstate) (c : ascii) (acc : list Sql.token) :
  Sql.step st c acc
  = match Sql.step st c [] with
    | Some (st', out) => Some (st', (acc ++ out)%list)
    | None => None
    end.
Proof.
  unfold Sql.step. destruct (Ascii.eqb c Sql.nul); [reflexivity|].
  destruct st;
    repeat match goal with
           | |- context [if ?b then _ else _] => destruct b
           end;
    cbn [app]; rewrite ?app_nil_r; try reflexivity;
    try (rewrite (start_acc c acc); destruct (Sql.start c []) as [[st' out]|]; reflexivity);
    match goal with
    | |- Sql.start c (acc ++ [?t]) = _ =>
        rewrite (start_acc c (acc ++ [t])), (start_acc c [t]);
        destruct (Sql.start c []) as [[st' out]|];
        [rewrite <- app_assoc; reflexivity|reflexivity]
    end.
Qed.

Lemma scan_on_acc (text : string) (st : Sql.lstate) (acc : list Sql.token) :
  scan_on text st acc
  = match scan_on text st [] with
    | Some (st', out) => Some (st', (acc ++ out)%list)
    | None => None
    end.
Proof.
  revert st acc. induction text as [|c text IH]; intros st acc; cbn [scan_on].
  - rewrite app_nil_r. reflexivity.
  - rewrite step_acc. destruct (Sql.step st c []) as [[st' out]|]; [|reflexivity].
    cbn [app]. rewrite IH, (IH st' out).
    destruct (scan_on text st' []) as [[st2 out2]|]; [|reflexivity].
    rewrite app_assoc. reflexivity.
Qed.

(** Inside a string literal a safe text is taken as it is. *)
Lemma scan_on_literal (body cur : string) (acc : list Sql.token) :
  literal_safe body = true ->
  scan_on body (Sql.LStr cur) acc = Some (Sql.LStr (cur ++ body), acc).
Proof.
  revert cur. induction body as [|c body IH]; intros cur H.
  - cbn. rewrite append_empty. reflexivity.
  - unfold literal_safe in H. cbn [all_chars] in H.
    apply andb_true_iff in H. destruct H as [Hc Hs].
    apply andb_true_iff in Hc. destruct Hc as [Hq Hn].
    apply negb_true_iff in Hq, Hn.
    cbn [scan_on]. unfold Sql.step. rewrite Hn, Hq.
    rewrite (IH _ Hs), append_assoc. reflexivity.
Qed.

Lemma scan_on_close (cur : string) (acc : list Sql.token) :
  scan_on "%')" (Sql.LStr cur) acc
  = Some (Sql.LStart, (acc ++ [Sql.TStr (cur ++ "%"); Sql.TRp])%list).
Proof. rewrite scan_on_acc. reflexivity. Qed.

Lemma scan_on_end (acc : list Sql.token) :
  Sql.scan ")" Sql.LStart acc = Some (acc ++ [Sql.TRp])%list.
Proof. reflexivity. Qed.

(** The scanner over one condition of the free-text clause. *)
Lemma scan_on_column (kw col : string) (st : Sql.lstate) (acc : list Sql.token) :
  In col QueryParser.free_text_columns -> st = Sql.LStart \/ st = Sql.LSpace ->
  literal_safe kw = true ->
  scan_on (QueryParser.column_like kw col) st acc
  = Some (Sql.LStart, (acc ++ column_tokens kw col)%list).
Proof.
  intros Hcol Hst Hkw.
  assert (Hhead : scan_on ("(" ++ col ++ " IS NOT NULL AND LOWER(" ++ col ++ ") LIKE '%") st []
                  = Some (Sql.LStr "%",
                          [Sql.TLp; Sql.TWord col; Sql.TWord "IS"; Sql.TWord "NOT";
                           Sql.TWord "NULL"; Sql.TWord "AND"; Sql.TWord "LOWER"; Sql.TLp;
                           Sql.TWord col; Sql.TRp; Sql.TWord "LIKE"])).
  { unfold QueryParser.free_text_columns in Hcol. cbn [In] in Hcol.
    destruct Hst as [->| ->];
      repeat (destruct Hcol as [<-|Hcol]; [vm_compute; reflexivity|]);
      destruct Hcol. }
  unfold QueryParser.column_like.
  replace ("(" ++ col ++ " IS NOT NULL AND LOWER(" ++ col ++ ") LIKE '%" ++ kw ++ "%')")%string
    with (("(" ++ col ++ " IS NOT NULL AND LOWER(" ++ col ++ ") LIKE '%")
          ++ kw ++ "%')")%string
    by (rewrite ?append_assoc; cbn [append]; rewrite ?append_assoc; reflexivity).
  rewrite scan_on_app, scan_on_acc, Hhead.
  rewrite scan_on_app, (scan_on_literal kw "%" _ Hkw).
  rewrite scan_on_close. unfold column_tokens.
  rewrite append_assoc, <- app_assoc. reflexivity.
Qed.

Lemma scan_on_or (acc : list Sql.token) :
  scan_on " OR " Sql.LStart acc = Some (Sql.LSpace, (acc ++ [Sql.TWord "OR"])%list).
Proof. rewrite scan_on_acc. reflexivity. Qed.

(** The tokens of the free-text clause of a safe keyword. *)
Lemma free_text_tokens (kw : string) :
  literal_safe kw = true ->
  Sql.tokens (QueryParser.to_sql (QueryParser.FreeText kw))
  = Some ([Sql.TLp]
          ++ column_tokens kw "raw" ++ [Sql.TWord "OR"]
          ++ column_tokens kw "message" ++ [Sql.TWord "OR"]
          ++ column_tokens kw "service" ++ [Sql.TWord "OR"]
          ++ column_tokens kw "user" ++ [Sql.TWord "OR"]
          ++ column_tokens kw "action" ++ [Sql.TWord "OR"]
          ++ column_tokens kw "endpoint" ++ [Sql.TWord "OR"]
          ++ column_tokens kw "host" ++ [Sql.TRp])%list.
Proof.
  intro Hkw. unfold Sql.tokens. rewrite scan_scan_on.
  unfold QueryParser.to_sql, QueryParser.free_text_columns.
  cbn [map]. rewrite !join_cons. cbn [Py.join].
  change ("(" ++ ?t)%string with (String "(" t).
  cbn [scan_on]. change (Sql.step Sql.LStart "(" []) with (Some (Sql.LStart, [Sql.TLp])).
  cbv iota.
  assert (Hin : forall col, In col QueryParser.free_text_columns ->
                  forall st acc, st = Sql.LStart \/ st = Sql.LSpace ->
                    scan_on (QueryParser.column_like kw col) st acc
                    = Some (Sql.LStart, (acc ++ column_tokens kw col)%list)).
  { intros col Hc st acc Hst. apply scan_on_column; assumption. }
  rewrite !append_assoc.
  repeat (rewrite scan_on_app, Hin by (cbn; tauto);
          rewrite scan_on_app, scan_on_or).
  rewrite scan_on_app, Hin by (cbn; tauto).
  cbn [scan_on Sql.finish]. rewrite <- !app_assoc. reflexivity.
Qed.

Lemma free_text_compile (kw : string) :
  literal_safe kw = true ->
  Sql.compile (QueryParser.to_sql (QueryParser.FreeText kw)) = Some (free_text_expr kw).
Proof.
  intro Hkw. unfold Sql.compile. rewrite (free_text_tokens kw Hkw).
  vm_compute. reflexivity.
Qed.

(** Putting a letter in lower case tells it from no character that is
    not a letter. *)
Lemma lower_char_other (c x : ascii) :
  Py.isupper x = false -> Py.islower x = false ->
  Ascii.eqb (Py.lower_char c) x = Ascii.eqb c x.
Proof.
  intros Hu Hl. unfold Py.lower_char.
  destruct (Py.isupper c) eqn:Eup; [|reflexivity].
  transitivity false; [|symmetry]; apply Ascii.eqb_neq; intro H.
  - subst x. unfold Py.isupper, Py.islower, Py.in_range, Py.code in *.
    apply andb_true_iff in Eup. destruct Eup as [Hlo Hhi]. apply Nat.leb_le in Hlo, Hhi.
    rewrite nat_ascii_embedding in Hl by lia.
    apply andb_false_iff in Hl. destruct Hl as [Hl|Hl]; apply Nat.leb_gt in Hl; lia.
  - subst x. congruence.
Qed.

Lemma literal_safe_lower (kw : string) :
  literal_safe (Py.lower kw) = literal_safe kw.
Proof.
  unfold literal_safe. induction kw as [|c kw IH]; [reflexivity|].
  cbn [Py.lower all_chars]. rewrite IH.
  rewrite (lower_char_other c Py.sq eq_refl eq_refl),
    (lower_char_other c Sql.nul eq_refl eq_refl).
  reflexivity.
Qed.

Lemma lower_length (t : string) : String.length (Py.lower t) = String.length t.
Proof. induction t as [|c t IH]; cbn; [reflexivity|rewrite IH; reflexivity]. Qed.

Lemma has_nul_lower (t : string) : Sql.has_nul (Py.lower t) = Sql.has_nul t.
Proof.
  unfold Sql.has_nul. induction t as [|c t IH]; [reflexivity|].
  cbn [Py.lower Py.mem_char]. rewrite IH.
  rewrite (Ascii.eqb_sym Sql.nul), (Ascii.eqb_sym Sql.nul c),
    (lower_char_other c Sql.nul eq_refl eq_refl).
  reflexivity.
Qed.

Lemma literal_safe_no_nul (kw : string) :
  literal_safe kw = true -> Sql.has_nul ("%" ++ kw ++ "%") = false.
Proof.
  intro H. unfold Sql.has_nul. cbn [append Py.mem_char].
  change (Ascii.eqb Sql.nul "%") with false. cbn [orb].
  induction kw as [|c kw IH]; [reflexivity|].
  unfold literal_safe in H. cbn [all_chars] in H.
  apply andb_true_iff in H. destruct H as [Hc Hs].
  apply andb_true_iff in Hc. destruct Hc as [_ Hn]. apply negb_true_iff in Hn.
  cbn [append Py.mem_char]. rewrite Ascii.eqb_sym, Hn. exact (IH Hs).
Qed.

Lemma text_column_value (r : Indexer.Row) (col : string) :
  In col QueryParser.free_text_columns ->
  Sql.column_value r col
  = match Sql.field r col with
    | VNone => Some Sql.SNull
    | VStr t => Some (Sql.SText t)
    | VInt z => Some (Sql.SText (str_of_Z z))
    end.
Proof.
  unfold QueryParser.free_text_columns. cbn [In].
  intros [<-|[<-|[<-|[<-|[<-|[<-|[<-|[]]]]]]]]; reflexivity.
Qed.

Lemma truth_of_truth (b : bool) : Sql.truth (Sql.of_truth (Some b)) = Some (Some b).
Proof. destruct b; reflexivity. Qed.

(** The value of one condition of the free-text clause. *)
Lemma eval_column (pattern : string) (r : Indexer.Row) (col : string) :
  In col QueryParser.free_text_columns ->
  Sql.has_nul pattern = false ->
  (Z.of_nat (String.length pattern) <= Sql.max_like_pattern)%Z ->
  clean_row r = true ->
  Sql.eval (column_expr pattern col) r
  = Some (Sql.of_truth (Some (column_hit pattern r col))).
Proof.
  intros Hcol Hnul Hlen Hrow.
  assert (Hclean : match Sql.column_value r col with
                   | Some (Sql.SText t) => negb (Sql.has_nul t)
                   | _ => true
                   end = true).
  { unfold clean_row in Hrow. rewrite forallb_forall in Hrow. exact (Hrow col Hcol). }
  assert (Hval : exists v, Sql.column_value r col = Some v
                           /\ match v with Sql.SInt _ => False | _ => True end).
  { rewrite (text_column_value r col Hcol).
    destruct (Sql.field r col); eexists; (split; [reflexivity|exact I]). }
  destruct Hval as [v [Ev Hv]].
  unfold column_expr, column_hit. cbn [Sql.eval]. rewrite Ev in *.
  destruct v as [|z|t]; [reflexivity|destruct Hv|].
  cbn [Sql.text_of Sql.like_value Sql.of_truth Sql.truth].
  unfold Sql.like_value. cbn [Sql.text_of].
  apply negb_true_iff in Hclean.
  rewrite has_nul_lower, Hclean, Hnul. cbn [orb].
  replace (Sql.max_like_pattern <? Z.of_nat (String.length pattern))%Z with false.
  - cbn [xorb]. destruct (Sql.like _ _); reflexivity.
  - symmetry. apply Z.ltb_ge. exact Hlen.
Qed.

Lemma pattern_length (kw : string) :
  Z.of_nat (String.length ("%" ++ kw ++ "%")) = (Z.of_nat (String.length kw) + 2)%Z.
Proof. cbn [append String.length]. rewrite length_append. cbn [String.length]. lia. Qed.

(** The value of the free-text clause: whether one of the seven
    conditions holds. *)
Lemma eval_free_text_expr (kw : string) (r : Indexer.Row) :
  literal_safe kw = true ->
  (Z.of_nat (String.length kw) + 2 <= Sql.max_like_pattern)%Z ->
  clean_row r = true ->
  Sql.eval (free_text_expr kw) r
  = Some (Sql.of_truth (Some (existsb (column_hit ("%" ++ kw ++ "%") r)
                                QueryParser.free_text_columns))).
Proof.
  intros Hkw Hlen Hrow.
  unfold free_text_expr, QueryParser.free_text_columns. cbn [map fold_left existsb].
  cbn [Sql.eval].
  set (pattern := ("%" ++ kw ++ "%")%string).
  assert (Hcol : forall col, In col QueryParser.free_text_columns ->
                   Sql.eval (column_expr pattern col) r
                   = Some (Sql.of_truth (Some (column_hit pattern r col)))).
  { intros col Hc. apply eval_column; try assumption.
    - apply literal_safe_no_nul. exact Hkw.
    - unfold pattern. rewrite pattern_length. exact Hlen. }
  rewrite (Hcol "raw"), (Hcol "message"), (Hcol "service"), (Hcol "user"),
    (Hcol "action"), (Hcol "endpoint"), (Hcol "host")
    by (unfold QueryParser.free_text_columns; cbn; tauto).
  destruct (column_hit pattern r "raw"); destruct (column_hit pattern r "message");
    destruct (column_hit pattern r "service"); destruct (column_hit pattern r "user");
    destruct (column_hit pattern r "action"); destruct (column_hit pattern r "endpoint");
    destruct (column_hit pattern r "host"); reflexivity.
Qed.

Lemma free_text_selected (kw : string) (r : Indexer.Row) :
  literal_safe kw = true ->
  (Z.of_nat (String.length kw) + 2 <= Sql.max_like_pattern)%Z ->
  clean_row r = true ->
  Sql.selects (QueryParser.where_of [QueryParser.FreeText kw]) r
  = Some (existsb (column_hit ("%" ++ kw ++ "%") r) QueryParser.free_text_columns).
Proof.
  intros Hkw Hlen Hrow. unfold Sql.selects.
  change (QueryParser.where_of [QueryParser.FreeText kw])
    with (QueryParser.to_sql (QueryParser.FreeText kw)).
  rewrite (free_text_compile kw Hkw), (eval_free_text_expr kw r Hkw Hlen Hrow),
    truth_of_truth.
  destruct (existsb _ _); reflexivity.
Qed.

(** For a keyword with no wildcard, LIKE [%kw%] asks whether the text
    holds the keyword. *)
Lemma column_hit_holds (kw : string) (r : Indexer.Row) (col : string) :
  wild_free kw ->
  column_hit ("%" ++ Py.lower kw ++ "%") r col = column_holds kw r col.
Proof.
  intro Hw. unfold column_hit, column_holds.
  destruct (Sql.column_value r col) as [[|z|t]|]; try reflexivity.
  apply like_contains_exact. exact Hw.
Qed.

(** X23. What SQLite makes of the clause of a keyword: for every
    keyword with no quote and no NUL in it, short enough for a LIKE
    pattern, the text [_parse_search] writes for the lowered keyword is
    read as the seven-column OR of
    [col IS NOT NULL AND LOWER(col) LIKE '%keyword%'], and on a record
    with no NUL in the seven columns it selects the record exactly when
    one of the columns is not NULL and is LIKE the pattern; a record
    whose raw text holds the keyword, case apart, is selected whatever
    its other fields hold; and for a keyword with no wildcard a record
    is selected exactly when one of the seven columns holds the
    keyword, case apart. *)
Theorem free_text_selects (kw : string) (r : Indexer.Row)
    (Hsafe : literal_safe kw = true)
    (Hlen : (Z.of_nat (String.length kw) + 2 <= Sql.max_like_pattern)%Z)
    (Hrow : clean_row r = true) :
  Sql.compile (QueryParser.where_of [QueryParser.FreeText (Py.lower kw)])
  = Some (free_text_expr (Py.lower kw))
  /\ Sql.selects (QueryParser.where_of [QueryParser.FreeText (Py.lower kw)]) r
     = Some (existsb (column_hit ("%" ++ Py.lower kw ++ "%") r) QueryParser.free_text_columns)
  /\ (Py.contains (Py.lower kw) (Py.lower (Indexer.raw r)) = true ->
      Sql.selects (QueryParser.where_of [QueryParser.FreeText (Py.lower kw)]) r = Some true)
  /\ (wild_free kw ->
      Sql.selects (QueryParser.where_of [QueryParser.FreeText (Py.lower kw)]) r
      = Some (existsb (column_holds kw r) QueryParser.free_text_columns)).
Proof.
  assert (Hsafe' : literal_safe (Py.lower kw) = true)
    by (rewrite literal_safe_lower; exact Hsafe).
  assert (Hlen' : (Z.of_nat (String.length (Py.lower kw)) + 2 <= Sql.max_like_pattern)%Z)
    by (rewrite lower_length; exact Hlen).
  pose proof (free_text_selected (Py.lower kw) r Hsafe' Hlen' Hrow) as Hsel.
  split; [|split; [|split]].
  - apply free_text_compile. exact Hsafe'.
  - exact Hsel.
  - intro Hraw. rewrite Hsel. f_equal. apply existsb_exists.
    exists "raw". split; [left; reflexivity|].
    unfold column_hit. change (Sql.column_value r "raw") with (Some (Sql.SText (Indexer.raw r))).
    apply like_contains. exact Hraw.
  - intro Hw. rewrite Hsel. f_equal.
    unfold QueryParser.free_text_columns. cbn [existsb].
    rewrite !(column_hit_holds kw r _ Hw). reflexivity.
Qed.

Lemma free_text_selects_witness :
  Sql.selects (QueryParser.where_of [QueryParser.FreeText (Py.lower "Failed password")])
    failed_login_row
  = Some true.
Proof.
  apply (free_text_selects "Failed password" failed_login_row);
    vm_compute; solve [reflexivity | intro H; discriminate H | split; reflexivity].
Defined.

(** X24. What SQLite makes of the clause of a keyword that holds a
    quote: the clause of the query [')OR(1)OR('] is read as the seven
    conditions [col IS NOT NULL AND LOWER(col) LIKE '%'] with
    [OR 1 OR '%'] after each, and it selects every record with no NUL
    in the seven columns, whatever the record holds. *)
Theorem quote_in_keyword_selects_all (r : Indexer.Row) (Hrow : clean_row r = true) :
  Sql.compile injected_where = Some injected_expr
  /\ Sql.selects injected_where r = Some true.
Proof.
  assert (Hc : Sql.compile injected_where = Some injected_expr)
    by (vm_compute; reflexivity).
  split; [exact Hc|].
  unfold Sql.selects. rewrite Hc.
  unfold injected_expr, QueryParser.free_text_columns. cbv zeta. cbn [map fold_left].
  cbn [Sql.eval].
  assert (Hcol : forall col, In col QueryParser.free_text_columns ->
                   Sql.eval (column_expr "%" col) r
                   = Some (Sql.of_truth (Some (column_hit "%" r col)))).
  { intros col Hin. apply eval_column; try assumption; [reflexivity|].
    vm_compute. discriminate. }
  rewrite (Hcol "raw"), (Hcol "message"), (Hcol "service"), (Hcol "user"),
    (Hcol "action"), (Hcol "endpoint"), (Hcol "host")
    by (unfold QueryParser.free_text_columns; cbn; tauto).
  destruct (column_hit "%" r "raw"); destruct (column_hit "%" r "message");
    destruct (column_hit "%" r "service"); destruct (column_hit "%" r "user");
    destruct (column_hit "%" r "action"); destruct (column_hit "%" r "endpoint");
    destruct (column_hit "%" r "host"); reflexivity.
Qed.

Lemma quote_in_keyword_selects_all_witness :
  Sql.selects injected_where quiet_row = Some true
  /\ existsb (column_holds injected_query quiet_row) QueryParser.free_text_columns = false.
Proof.
  split.
  - apply (quote_in_keyword_selects_all quiet_row). vm_compute. reflexivity.
  - vm_compute. reflexivity.
Defined.
